(** * pyturbo_sf: two-dimensional structure functions

    A shallow embedding of [src/pyturbo_sf/two_dimensional.py]:
    the pairwise kernels, the structure-function dispatcher, the Monte
    Carlo sampler and the two adaptive binning engines ([bin_sf_2d] and
    [get_isotropic_sf_2d]), followed by the properties checked on them.

    Conventions of the embedding.
    - A [float64] is a real number or NaN: [fl := option R], [None] being
      NaN.  Rounding and infinities are not represented.
    - Python [int] values are [Z] (or [nat] where the code uses them as
      sizes and indices); numpy integer arrays never come near their
      32-bit limit in the modelled paths and are lists of [Z].
    - A numpy array is a list; a two-dimensional field is a list of rows.
      The per-bin arrays of the grid engine are kept flat, indexed by the
      very [bin_id = y_idx * n_bins_x + x_idx] the code computes.
    - A raised exception is the [Raise] outcome; the unbounded [while True]
      of the engines is run with fuel and reports [Fuel] when it is used up.
    - Library calls whose code is not part of the repository ([xarray]'s
      [isel], numpy's random generator, [scipy.stats.norm.ppf], the
      collaborators of [core] and [utils]) are section variables. *)

From Stdlib Require Import Reals Lra Lia ZArith Ascii String.
From stdpp Require Import base option list strings gmap sorting.

(* ------------------------------------------------------------------ *)
(** * Numbers: float64 as a real or NaN *)

Module Num.

Abbreviation fl := (option R).
Definition NaN : fl := None.

#[global] Instance R_eq_dec : EqDecision R := Req_dec_T.
#[global] Instance Rle_decision (x y : R) : Decision (x <= y)%R := Rle_dec x y.
#[global] Instance Rlt_decision (x y : R) : Decision (x < y)%R := Rlt_dec x y.

Definition isnan (a : fl) : bool :=
    match a with None => true | Some _ => false end.

Definition lift2 (f : R → R → R) (a b : fl) : fl :=
    match a, b with
    | Some x, Some y => Some (f x y)
    | _, _ => None
    end.

Definition fadd : fl → fl → fl := lift2 Rplus.
Definition fsub : fl → fl → fl := lift2 Rminus.
Definition fmul : fl → fl → fl := lift2 Rmult.

  (** IEEE division by zero gives an infinity or NaN; the model has no
      infinities and reports NaN. *)
Definition fdiv (a b : fl) : fl :=
    match a, b with
    | Some x, Some y => if decide (y = 0%R) then None else Some (x / y)%R
    | _, _ => None
    end.

Definition fsqrt (a : fl) : fl :=
    match a with
    | Some x => if decide (0 <= x)%R then Some (sqrt x) else None
    | None => None
    end.

  (** [np.maximum] propagates NaN. *)
Definition fmaximum : fl → fl → fl := lift2 Rmax.

Definition fabs (a : fl) : fl := Rabs <$> a.

  (** [a ** n] for a non-negative integral order; [0 ** 0 = 1] as in numpy. *)
Definition fpow (a : fl) (n : nat) : fl := (λ x, x ^ n)%R <$> a.

  (** Comparisons are false as soon as one side is NaN. *)
Definition fle (a b : fl) : bool :=
    match a, b with
    | Some x, Some y => bool_decide (x <= y)%R
    | _, _ => false
    end.

Definition Rsum (l : list R) : R := foldr Rplus 0%R l.

  (** [int(x)], [astype(int)]: truncation towards zero. *)
Definition trunc (x : R) : Z :=
    if decide (0 <= x)%R then Int_part x else (- Int_part (- x))%Z.

End Num.
Export Num.

(* ------------------------------------------------------------------ *)
(** * Exceptions and results *)

Inductive exn : Type :=
| ValueError (msg : string)
| KeyError (key : string)
| AttributeError (name : string)
| IndexError
| TypeError
| ZeroDivisionError.

Inductive res (A : Type) : Type :=
| Ok (a : A)
| Raise (e : exn)
| Fuel.
Arguments Ok {A} a.
Arguments Raise {A} e.
Arguments Fuel {A}.

#[global] Instance res_ret : MRet res := λ A, Ok.
#[global] Instance res_bind : MBind res := λ A B f m,
  match m with
  | Ok a => f a
  | Raise e => Raise e
  | Fuel => Fuel
  end.

(* ------------------------------------------------------------------ *)
(** * Arrays *)

Abbreviation arr := (list (list fl)).

Definition shape (a : arr) : nat * nat := (length a, length (default [] (head a))).

Definition amap2 (f : fl → fl → fl) (a b : arr) : arr := zip_with (zip_with f) a b.
Definition amap (f : fl → fl) (a : arr) : arr := map (map f) a.

Definition aadd : arr → arr → arr := amap2 fadd.
Definition asub : arr → arr → arr := amap2 fsub.
Definition amul : arr → arr → arr := amap2 fmul.
Definition adiv : arr → arr → arr := amap2 fdiv.
Definition apow (a : arr) (n : nat) : arr := amap (λ v, fpow v n) a.

(** Element [(i, j)] of an array, when it exists. *)
Definition at2 (a : arr) (i j : nat) : option fl := a !! i ≫= (.!! j).

(** [bn.nanmean]: the mean of the entries that are not NaN, NaN when
    there is none. *)
Definition finite_values (l : list fl) : list R := omap (λ v : option R, v) l.

Definition nanmean (a : arr) : fl :=
  let vs := finite_values (concat a) in
  match vs with
  | [] => NaN
  | _ => Some (Rsum vs / INR (length vs))%R
  end.

(** Modelled from the spec: [fast_shift_2d] of [pyturbo_sf.utils] is not
    among the sources.  The spec gives its contract as
    "cyclic_shift(array, row_offset, col_offset) → array (periodic shift on
    both axes)": rows are rotated by [iy] and every row by [ix], with
    wrap-around.  The spec does not fix the direction of the rotation. *)
Definition fast_shift_2d (a : arr) (iy ix : nat) : arr :=
  rotate iy (map (rotate ix) a).

(* ------------------------------------------------------------------ *)
(** * Datasets *)

Record Dataset : Type := {
  data_vars : gmap string arr;
  coords : gmap string arr;
  sizes : gmap string nat
}.

(** The two plane dimensions returned by [validate_dataset_2d], first the
    row axis, then the column axis: [dims = [d0, d1]]. *)
Abbreviation Dims := (string * string)%type.

Inductive Order : Type :=
| OrderInt (n : nat)
| OrderTuple (n k : nat).

(** [subset[name].values] *)
Definition getvar (subset : Dataset) (name : string) : res arr :=
  match data_vars subset !! name with
  | Some a => Ok a
  | None => Raise (KeyError name)
  end.

(** [subset.x.values] *)
Definition getcoord (subset : Dataset) (name : string) : res arr :=
  match coords subset !! name with
  | Some a => Ok a
  | None => Raise (AttributeError name)
  end.

(** The [if dims == ['y', 'x'] ... elif ... else raise] block every kernel
    starts with: the pair [(x_coord, y_coord)]. *)
Definition plane_coords (subset : Dataset) (dims : Dims) : res (arr * arr) :=
  if decide (dims = ("y", "x")) then
    x ← getcoord subset "x"; y ← getcoord subset "y"; Ok (x, y)
  else if decide (dims = ("z", "x")) then
    x ← getcoord subset "x"; y ← getcoord subset "z"; Ok (x, y)
  else if decide (dims = ("z", "y")) then
    x ← getcoord subset "y"; y ← getcoord subset "z"; Ok (x, y)
  else Raise (ValueError "Unsupported dimension combination").

(** A single order [n]; a tuple handed to a single-order kernel would be
    broadcast by numpy against the field, which the model leaves out. *)
Definition int_order (order : Order) : res nat :=
  match order with
  | OrderInt n => Ok n
  | OrderTuple _ _ => Raise TypeError
  end.

(** [if not isinstance(order, tuple) or len(order) != 2: raise ...; n, k = order] *)
Definition tuple_order (order : Order) : res (nat * nat) :=
  match order with
  | OrderTuple n k => Ok (n, k)
  | OrderInt _ => Raise (ValueError "Order must be a tuple (n, k)")
  end.

(** [var1, var2 = l] *)
Definition unpack2 {A} (l : list A) : res (A * A) :=
  match l with
  | [a; b] => Ok (a, b)
  | _ => Raise (ValueError "not enough values to unpack")
  end.

(* ------------------------------------------------------------------ *)
(** * Kernel library *)

Module Kernels.

  (** The offsets visited by [for iy in range(ny): for ix in range(nx)], in
      the order in which [idx] counts them. *)
Definition offsets (ny nx : nat) : list (nat * nat) :=
    iy ← seq 0 ny; ix ← seq 0 nx; [(iy, ix)].

  (** [fast_shift_2d(a, iy, ix) - a] *)
Definition diff (a : arr) (iy ix : nat) : arr := asub (fast_shift_2d a iy ix) a.

  (** [np.maximum(np.sqrt(dx**2 + dy**2), 1e-10)] *)
Definition floor_norm : R := 1e-10%R.

Definition separation_norm (dx dy : arr) : arr :=
    amap (λ v, fmaximum v (Some floor_norm))
         (amap fsqrt (aadd (apow dx 2) (apow dy 2))).

  (** [dcomp1 * (dx/norm) + dcomp2 * (dy/norm)] *)
Definition delta_parallel (dcomp1 dcomp2 dx dy norm : arr) : arr :=
    aadd (amul dcomp1 (adiv dx norm)) (amul dcomp2 (adiv dy norm)).

  (** [dcomp1 * (dy/norm) - dcomp2 * (dx/norm)] *)
Definition delta_perp (dcomp1 dcomp2 dx dy norm : arr) : arr :=
    asub (amul dcomp1 (adiv dy norm)) (amul dcomp2 (adiv dx norm)).

  (** The loop shared by the nine kernels: for every offset the separation
      arrays [dx], [dy] are formed, their means stored in [dx_vals] and
      [dy_vals], and the kernel's own statistic stored in [results]. *)
Definition offset_loop (ny nx : nat) (x_coord y_coord : arr)
      (stat : nat → nat → arr → arr → fl) : list fl * list fl * list fl :=
    let os := offsets ny nx in
    ((λ '(iy, ix), stat iy ix (diff x_coord iy ix) (diff y_coord iy ix)) <$> os,
     (λ '(iy, ix), nanmean (diff x_coord iy ix)) <$> os,
     (λ '(iy, ix), nanmean (diff y_coord iy ix)) <$> os).

Definition ascii_lower (c : ascii) : ascii :=
    let n := nat_of_ascii c in
    if (65 <=? n)%nat && (n <=? 90)%nat then ascii_of_nat (n + 32) else c.

Fixpoint lower (s : string) : string :=
    match s with
    | EmptyString => EmptyString
    | String c s' => String (ascii_lower c) (lower s')
    end.

  (** [needle in s] *)
Fixpoint contains (needle s : string) : bool :=
    String.prefix needle s ||
    match s with
    | EmptyString => false
    | String _ s' => contains needle s'
    end.

Section WithReorder.

    (** [check_and_reorder_variables_2d] of [pyturbo_sf.utils]; the
        third argument is the keyword [fun], absent in the longitudinal
        kernel's call. *)
Variable check_and_reorder_variables_2d :
      list string → Dims → option string → res (list string).

Definition calc_longitudinal_2d (subset : Dataset) (variables_names : list string)
        (order : Order) (dims : Dims) (ny nx : nat) : res (list fl * list fl * list fl) :=
      if negb (length variables_names =? 2)%nat then
        Raise (ValueError "Longitudinal structure function requires exactly 2 velocity components")
      else
        vars ← check_and_reorder_variables_2d variables_names dims None;
        '(var1, var2) ← unpack2 vars;
        comp1_var ← getvar subset var1;
        comp2_var ← getvar subset var2;
        '(x_coord, y_coord) ← plane_coords subset dims;
        n ← int_order order;
        Ok (offset_loop ny nx x_coord y_coord (λ iy ix dx dy,
              let norm := separation_norm dx dy in
              let dcomp1 := diff comp1_var iy ix in
              let dcomp2 := diff comp2_var iy ix in
              let sf_val := apow (delta_parallel dcomp1 dcomp2 dx dy norm) n in
              nanmean sf_val)).

Definition calc_transverse_2d (subset : Dataset) (variables_names : list string)
        (order : Order) (dims : Dims) (ny nx : nat) : res (list fl * list fl * list fl) :=
      if negb (length variables_names =? 2)%nat then
        Raise (ValueError "Transverse structure function requires exactly 2 velocity components")
      else
        vars ← check_and_reorder_variables_2d variables_names dims (Some "transverse");
        '(var1, var2) ← unpack2 vars;
        comp1_var ← getvar subset var1;
        comp2_var ← getvar subset var2;
        '(x_coord, y_coord) ← plane_coords subset dims;
        n ← int_order order;
        Ok (offset_loop ny nx x_coord y_coord (λ iy ix dx dy,
              let norm := separation_norm dx dy in
              let dcomp1 := diff comp1_var iy ix in
              let dcomp2 := diff comp2_var iy ix in
              let sf_val := apow (delta_perp dcomp1 dcomp2 dx dy norm) n in
              nanmean sf_val)).

Definition calc_default_vel_2d (subset : Dataset) (variables_names : list string)
        (order : Order) (dims : Dims) (ny nx : nat) : res (list fl * list fl * list fl) :=
      if negb (length variables_names =? 2)%nat then
        Raise (ValueError "Default velocity structure function requires exactly 2 velocity components")
      else
        vars ← check_and_reorder_variables_2d variables_names dims (Some "default_vel");
        '(var1, var2) ← unpack2 vars;
        comp1_var ← getvar subset var1;
        comp2_var ← getvar subset var2;
        '(x_coord, y_coord) ← plane_coords subset dims;
        n ← int_order order;
        Ok (offset_loop ny nx x_coord y_coord (λ iy ix dx dy,
              let dcomp1 := diff comp1_var iy ix in
              let dcomp2 := diff comp2_var iy ix in
              let sf_val := aadd (apow dcomp1 n) (apow dcomp2 n) in
              nanmean sf_val)).

Definition calc_scalar_2d (subset : Dataset) (variables_names : list string)
        (order : Order) (dims : Dims) (ny nx : nat) : res (list fl * list fl * list fl) :=
      match variables_names with
      | [scalar_name] =>
          scalar_var ← getvar subset scalar_name;
          '(x_coord, y_coord) ← plane_coords subset dims;
          n ← int_order order;
          Ok (offset_loop ny nx x_coord y_coord (λ iy ix dx dy,
                let dscalar := diff scalar_var iy ix in
                let sf_val := apow dscalar n in
                nanmean sf_val))
      | _ => Raise (ValueError "Scalar structure function requires exactly 1 scalar variable")
      end.

Definition calc_scalar_scalar_2d (subset : Dataset) (variables_names : list string)
        (order : Order) (dims : Dims) (ny nx : nat) : res (list fl * list fl * list fl) :=
      if negb (length variables_names =? 2)%nat then
        Raise (ValueError "Scalar-scalar structure function requires exactly 2 scalar components")
      else
        '(n, k) ← tuple_order order;
        '(var1, var2) ← unpack2 variables_names;
        scalar_var1 ← getvar subset var1;
        scalar_var2 ← getvar subset var2;
        '(x_coord, y_coord) ← plane_coords subset dims;
        Ok (offset_loop ny nx x_coord y_coord (λ iy ix dx dy,
              let dscalar1 := diff scalar_var1 iy ix in
              let dscalar2 := diff scalar_var2 iy ix in
              let sf_val := amul (apow dscalar1 n) (apow dscalar2 k) in
              nanmean sf_val)).

Definition calc_longitudinal_transverse_2d (subset : Dataset) (variables_names : list string)
        (order : Order) (dims : Dims) (ny nx : nat) : res (list fl * list fl * list fl) :=
      if negb (length variables_names =? 2)%nat then
        Raise (ValueError "Longitudinal-transverse structure function requires exactly 2 velocity components")
      else
        '(n, k) ← tuple_order order;
        vars ← check_and_reorder_variables_2d variables_names dims (Some "longitudinal_transverse");
        '(var1, var2) ← unpack2 vars;
        comp1_var ← getvar subset var1;
        comp2_var ← getvar subset var2;
        '(x_coord, y_coord) ← plane_coords subset dims;
        Ok (offset_loop ny nx x_coord y_coord (λ iy ix dx dy,
              let norm := separation_norm dx dy in
              let dcomp1 := diff comp1_var iy ix in
              let dcomp2 := diff comp2_var iy ix in
              let sf_val := amul (apow (delta_parallel dcomp1 dcomp2 dx dy norm) n)
                                 (apow (delta_perp dcomp1 dcomp2 dx dy norm) k) in
              nanmean sf_val)).

    (** [vel_vars, scalar_var = tmp[:2], tmp[-1]; var1, var2 = vel_vars] *)
Definition split_vel_scalar (tmp : list string) : res (string * string * string) :=
      '(var1, var2) ← unpack2 (take 2 tmp);
      match last tmp with
      | Some scalar_var => Ok (var1, var2, scalar_var)
      | None => Raise IndexError
      end.

Definition calc_longitudinal_scalar_2d (subset : Dataset) (variables_names : list string)
        (order : Order) (dims : Dims) (ny nx : nat) : res (list fl * list fl * list fl) :=
      if negb (length variables_names =? 3)%nat then
        Raise (ValueError "Longitudinal-scalar structure function requires 3 variables")
      else
        '(n, k) ← tuple_order order;
        tmp ← check_and_reorder_variables_2d variables_names dims (Some "longitudinal_scalar");
        '(var1, var2, scalar_var) ← split_vel_scalar tmp;
        comp1_var ← getvar subset var1;
        comp2_var ← getvar subset var2;
        scalar_var_values ← getvar subset scalar_var;
        '(x_coord, y_coord) ← plane_coords subset dims;
        Ok (offset_loop ny nx x_coord y_coord (λ iy ix dx dy,
              let norm := separation_norm dx dy in
              let dcomp1 := diff comp1_var iy ix in
              let dcomp2 := diff comp2_var iy ix in
              let dscalar := diff scalar_var_values iy ix in
              let sf_val := amul (apow (delta_parallel dcomp1 dcomp2 dx dy norm) n)
                                 (apow dscalar k) in
              nanmean sf_val)).

Definition calc_transverse_scalar_2d (subset : Dataset) (variables_names : list string)
        (order : Order) (dims : Dims) (ny nx : nat) : res (list fl * list fl * list fl) :=
      if negb (length variables_names =? 3)%nat then
        Raise (ValueError "Transverse-scalar structure function requires 3 variables")
      else
        '(n, k) ← tuple_order order;
        tmp ← check_and_reorder_variables_2d variables_names dims (Some "transverse_scalar");
        '(var1, var2, scalar_var) ← split_vel_scalar tmp;
        comp1_var ← getvar subset var1;
        comp2_var ← getvar subset var2;
        scalar_var_values ← getvar subset scalar_var;
        '(x_coord, y_coord) ← plane_coords subset dims;
        Ok (offset_loop ny nx x_coord y_coord (λ iy ix dx dy,
              let norm := separation_norm dx dy in
              let dcomp1 := diff comp1_var iy ix in
              let dcomp2 := diff comp2_var iy ix in
              let dscalar := diff scalar_var_values iy ix in
              let sf_val := amul (apow (delta_perp dcomp1 dcomp2 dx dy norm) n)
                                 (apow dscalar k) in
              nanmean sf_val)).

    (** [var.startswith('adv_') or 'adv' in var.lower()] *)
Definition is_adv (var : string) : bool :=
      String.prefix "adv_" var || contains "adv" (lower var).

Definition expected_components (dims : Dims) : res (list string) :=
      if decide (dims = ("y", "x")) then Ok ["u"; "v"]
      else if decide (dims = ("z", "x")) then Ok ["u"; "w"]
      else if decide (dims = ("z", "y")) then Ok ["v"; "w"]
      else Raise (ValueError "Unsupported dimension combination").

Definition map_to_components (vars_list expected : list string) : res (list string) :=
      if negb (length vars_list =? length expected)%nat then
        Raise (ValueError "Expected components")
      else
        let result :=
          (λ exp, find (λ var, contains exp (lower var)) vars_list) <$> expected in
        if forallb (λ r : option string, bool_decide (is_Some r)) result
        then Ok (omap (λ r : option string, r) result)
        else Ok vars_list.

Definition calc_advective_2d (subset : Dataset) (variables_names : list string)
        (order : Order) (dims : Dims) (ny nx : nat) : res (list fl * list fl * list fl) :=
      if negb (length variables_names =? 4)%nat then
        Raise (ValueError "Advective structure function requires exactly 4 velocity components")
      else
        let adv_vars0 := filter (λ var, is_adv var = true) variables_names in
        let vel_vars0 := filter (λ var, is_adv var = false) variables_names in
        let '(vel_vars, adv_vars) :=
          if negb (length vel_vars0 =? 2)%nat || negb (length adv_vars0 =? 2)%nat
          then (take 2 variables_names, drop 2 variables_names)
          else (vel_vars0, adv_vars0) in
        expected ← expected_components dims;
        vel ← map_to_components vel_vars expected;
        '(var1, var2) ← unpack2 vel;
        adv ← map_to_components adv_vars expected;
        '(advvar1, advvar2) ← unpack2 adv;
        comp1_var ← getvar subset var1;
        comp2_var ← getvar subset var2;
        advcomp1_var ← getvar subset advvar1;
        advcomp2_var ← getvar subset advvar2;
        '(x_coord, y_coord) ← plane_coords subset dims;
        n ← int_order order;
        Ok (offset_loop ny nx x_coord y_coord (λ iy ix dx dy,
              let dcomp1 := diff comp1_var iy ix in
              let dcomp2 := diff comp2_var iy ix in
              let dadvcomp1 := diff advcomp1_var iy ix in
              let dadvcomp2 := diff advcomp2_var iy ix in
              let advective_term := aadd (amul dcomp1 dadvcomp1) (amul dcomp2 dadvcomp2) in
              let sf_val := apow advective_term n in
              nanmean sf_val)).

End WithReorder.

End Kernels.

(* ------------------------------------------------------------------ *)
(** * Structure-function dispatcher *)

(** A bootstrap index matrix of shape [[axis length, num_draws]], kept as
    the list of its columns: [m.shape[1]] is [length m] and [m[:, j]] is
    [m !! j]. *)
Abbreviation index_matrix := (list (list nat)).

(** [boot_indexes]: spacing ↦ (axis name ↦ index matrix). *)
Abbreviation IndexTable := (gmap Z (gmap string index_matrix)).

(** The [spacing] argument: [None], an [int] or a [dict] per axis. *)
Inductive Spacing : Type :=
| SpNone
| SpInt (sp : Z)
| SpDict (d : gmap string Z).

(** [for dim in bootstrappable_dims: if dim in spacing: sp_value =
    spacing[dim]; break] with [else: sp_value = 1]. *)
Definition spacing_of_dict (spacing : gmap string Z) (bootstrappable_dims : list string) : Z :=
  default 1%Z (head (omap (λ dim, spacing !! dim) bootstrappable_dims)).

Section Dispatcher.

Variable check_and_reorder_variables_2d :
    list string → Dims → option string → res (list string).

  (** [ds.isel(subset_dict)] of xarray. *)
Variable isel : Dataset → gmap string (list nat) → Dataset.

  (** [if indexes and dim in indexes and indexes[dim].shape[1] > nb_index:
         subset_dict[dim] = indexes[dim][:, nb_index]] *)
Definition select_column (indexes : gmap string index_matrix) (dim : string)
      (nb_index : nat) (subset_dict : gmap string (list nat)) : gmap string (list nat) :=
    match indexes !! dim with
    | Some m =>
        match m !! nb_index with
        | Some column => <[dim := column]> subset_dict
        | None => subset_dict
        end
    | None => subset_dict
    end.

  (** The first half of [calculate_structure_function_2d]: the dataset the
      kernel is evaluated on. *)
Definition bootstrap_subset (ds : Dataset) (dims : Dims) (nbx nby : nat)
      (spacing : Spacing) (num_bootstrappable : nat)
      (bootstrappable_dims : option (list string))
      (boot_indexes : option IndexTable) : Dataset :=
    match bootstrappable_dims with
    | Some (bootstrap_dim :: _ as bdims) =>
        if decide (0 < num_bootstrappable)%nat then
          let indexes : gmap string index_matrix :=
            match boot_indexes, spacing with
            | Some table, SpInt sp_value => default ∅ (table !! sp_value)
            | Some table, SpDict d => default ∅ (table !! spacing_of_dict d bdims)
            | _, _ => ∅
            end in
          let subset_dict : gmap string (list nat) :=
            if decide (num_bootstrappable = 1)%nat then
              let nb_index := if decide (bootstrap_dim = dims.2) then nbx else nby in
              select_column indexes bootstrap_dim nb_index ∅
            else
              select_column indexes dims.2 nbx (select_column indexes dims.1 nby ∅) in
          if decide (subset_dict = ∅) then ds else isel ds subset_dict
        else ds
    | _ => ds
    end.

  (** The [if fun == ... elif ...] chain that selects the kernel. *)
Definition kernel_table (fn : string)
      : option (Dataset → list string → Order → Dims → nat → nat →
                res (list fl * list fl * list fl)) :=
    if decide (fn = "longitudinal") then
      Some (Kernels.calc_longitudinal_2d check_and_reorder_variables_2d)
    else if decide (fn = "transverse") then
      Some (Kernels.calc_transverse_2d check_and_reorder_variables_2d)
    else if decide (fn = "default_vel") then
      Some (Kernels.calc_default_vel_2d check_and_reorder_variables_2d)
    else if decide (fn = "scalar") then
      Some Kernels.calc_scalar_2d
    else if decide (fn = "scalar_scalar") then
      Some Kernels.calc_scalar_scalar_2d
    else if decide (fn = "longitudinal_transverse") then
      Some (Kernels.calc_longitudinal_transverse_2d check_and_reorder_variables_2d)
    else if decide (fn = "longitudinal_scalar") then
      Some (Kernels.calc_longitudinal_scalar_2d check_and_reorder_variables_2d)
    else if decide (fn = "transverse_scalar") then
      Some (Kernels.calc_transverse_scalar_2d check_and_reorder_variables_2d)
    else if decide (fn = "advective") then
      Some Kernels.calc_advective_2d
    else None.

Definition calculate_structure_function_2d (ds : Dataset) (dims : Dims)
      (variables_names : list string) (order : Order) (fn : string)
      (nbx nby : nat) (spacing : Spacing) (num_bootstrappable : nat)
      (bootstrappable_dims : option (list string))
      (boot_indexes : option IndexTable) : res (list fl * list fl * list fl) :=
    let subset := bootstrap_subset ds dims nbx nby spacing num_bootstrappable
                                   bootstrappable_dims boot_indexes in
    match find (λ var_name, bool_decide (data_vars subset !! var_name = None)) variables_names with
    | Some var_name => Raise (ValueError "Variable not found in dataset")
    | None =>
        first ← match head variables_names with
                | Some v => getvar subset v
                | None => Raise IndexError
                end;
        let '(ny, nx) := shape first in
        match kernel_table fn with
        | Some calc => calc subset variables_names order dims ny nx
        | None => Raise (ValueError "Unsupported function type")
        end
    end.

End Dispatcher.

(* ------------------------------------------------------------------ *)
(** * The process state: numpy's global generator and standard output *)

(** The lines [monte_carlo_simulation_2d] prints. *)
Inductive diag : Type :=
| NoBootstrappableDims
    (* "No bootstrappable dimensions. Calculating structure function once with full dataset." *)
| NoValidIndices (bootstrap_dim : string) (sp_value : Z)
    (* "Warning: No valid indices for dimension ... with spacing ..." *)
| NotEnoughIndices.
    (* "Warning: Not enough valid indices for bootstrapping with current spacing." *)

Record world (RNG : Type) : Type := World {
  rng : RNG;
  stdout : list diag
}.
Arguments World {RNG} rng stdout.
Arguments rng {RNG} w.
Arguments stdout {RNG} w.

(** Computations that may raise, read and write the process state. *)
Definition M (RNG : Type) (A : Type) : Type := world RNG → res (A * world RNG).

#[global] Instance M_ret {RNG} : MRet (M RNG) := λ A a w, Ok (a, w).
#[global] Instance M_bind {RNG} : MBind (M RNG) := λ A B f m w,
  match m w with
  | Ok (a, w') => f a w'
  | Raise e => Raise e
  | Fuel => Fuel
  end.

Definition lift {RNG A} (r : res A) : M RNG A := λ w,
  match r with
  | Ok a => Ok (a, w)
  | Raise e => Raise e
  | Fuel => Fuel
  end.

Definition print {RNG} (d : diag) : M RNG unit := λ w,
  Ok ((), World (rng w) (stdout w ++ [d])).

(** A list of triples as three lists: [[r[0] for r in results]] and so on. *)
Definition unzip3 {A B C} (l : list (A * B * C)) : list A * list B * list C :=
  (l.*1.*1, l.*1.*2, l.*2).

(* ------------------------------------------------------------------ *)
(** * Monte Carlo sampler *)

Section Sampler.

Context {RNG : Type}.

Variable check_and_reorder_variables_2d :
    list string → Dims → option string → res (list string).
Variable isel : Dataset → gmap string (list nat) → Dataset.

  (** [np.random.seed(s)] replaces the state of the global generator. *)
Variable np_random_seed : Z → RNG.
  (** [np.random.choice(n, size=k)]: [k] draws and the next state. *)
Variable np_random_choice : RNG → nat → nat → list nat * RNG.

  (** [get_boot_indexes_2d] of [pyturbo_sf.core], the on-demand variant of
      the index table. *)
Variable get_boot_indexes_2d :
    Dims → gmap string nat → gmap string Z → list Z → IndexTable →
    list string → nat → Z → gmap string index_matrix.

Definition seed (s : Z) : M RNG unit := λ w,
    Ok ((), World (np_random_seed s) (stdout w)).

Definition choice (n size : nat) : M RNG (list nat) := λ w,
    let '(draws, g) := np_random_choice (rng w) n size in
    Ok (draws, World g (stdout w)).

  (** [random_indices[j]] *)
Definition getitem {A} (l : list A) (j : nat) : M RNG A :=
    lift (match l !! j with Some a => Ok a | None => Raise IndexError end).

#[local] Abbreviation calc := (calculate_structure_function_2d check_and_reorder_variables_2d isel).

  (** The three [return [results], [dx_vals], [dy_vals]] fall-backs. *)
Definition full_dataset_once (ds : Dataset) (dims : Dims) (variables_names : list string)
      (order : Order) (fn : string) (num_bootstrappable : nat)
      : M RNG (list (list fl) * list (list fl) * list (list fl)) :=
    '(results, dx_vals, dy_vals) ←
      lift (calc ds dims variables_names order fn 0%nat 0%nat SpNone num_bootstrappable None None);
    mret ([results], [dx_vals], [dy_vals]).

  (** [indexes[dim].shape[1] > 0] with [dim in indexes]. *)
Definition valid_indices (indexes : gmap string index_matrix) (dim : string) : bool :=
    match indexes !! dim with
    | Some m => bool_decide (0 < length m)%nat
    | None => false
    end.

Definition ncols (indexes : gmap string index_matrix) (dim : string) : nat :=
    length (default [] (indexes !! dim)).

Definition monte_carlo_simulation_2d (ds : Dataset) (dims : Dims)
      (variables_names : list string) (order : Order) (nbootstrap : nat)
      (bootsize : gmap string Z) (num_bootstrappable : nat) (all_spacings : list Z)
      (boot_indexes : IndexTable) (bootstrappable_dims : list string)
      (fn : string) (spacing : Spacing)
      : M RNG (list (list fl) * list (list fl) * list (list fl)) :=
    if decide (num_bootstrappable = 0)%nat then
      print NoBootstrappableDims;;
      full_dataset_once ds dims variables_names order fn num_bootstrappable
    else
      let sp_value : Z :=
        match spacing with
        | SpNone => 1%Z
        | SpDict d => spacing_of_dict d bootstrappable_dims
        | SpInt sp => sp
        end in
      seed 10000000;;
      let indexes : gmap string index_matrix :=
        match boot_indexes !! sp_value with
        | Some indexes => indexes
        | None => get_boot_indexes_2d dims (sizes ds) bootsize all_spacings boot_indexes
                                      bootstrappable_dims num_bootstrappable sp_value
        end in
      if decide (num_bootstrappable = 1)%nat then
        bootstrap_dim ← getitem bootstrappable_dims 0;
        if negb (valid_indices indexes bootstrap_dim) then
          print (NoValidIndices bootstrap_dim sp_value);;
          full_dataset_once ds dims variables_names order fn num_bootstrappable
        else
          random_indices ← choice (ncols indexes bootstrap_dim) nbootstrap;
          let simulate_bootstrap (j : nat) : M RNG (list fl * list fl * list fl) :=
            nb ← getitem random_indices j;
            if decide (bootstrap_dim = dims.2) then
              lift (calc ds dims variables_names order fn nb 0%nat (SpInt sp_value)
                         num_bootstrappable (Some bootstrappable_dims) (Some boot_indexes))
            else
              lift (calc ds dims variables_names order fn 0%nat nb (SpInt sp_value)
                         num_bootstrappable (Some bootstrappable_dims) (Some boot_indexes)) in
          results ← mapM simulate_bootstrap (seq 0 nbootstrap);
          mret (unzip3 results)
      else
        let valid_y_indices := valid_indices indexes dims.1 in
        let valid_x_indices := valid_indices indexes dims.2 in
        if negb valid_y_indices || negb valid_x_indices then
          print NotEnoughIndices;;
          full_dataset_once ds dims variables_names order fn num_bootstrappable
        else
          nby ← choice (ncols indexes dims.1) nbootstrap;
          nbx ← choice (ncols indexes dims.2) nbootstrap;
          let simulate_bootstrap (j : nat) : M RNG (list fl * list fl * list fl) :=
            x ← getitem nbx j;
            y ← getitem nby j;
            lift (calc ds dims variables_names order fn x y (SpInt sp_value)
                       num_bootstrappable (Some bootstrappable_dims) (Some boot_indexes)) in
          results ← mapM simulate_bootstrap (seq 0 nbootstrap);
          mret (unzip3 results).

End Sampler.

(* ------------------------------------------------------------------ *)
(** * Adaptive binning: what the two engines share *)

(** The direction that [np.digitize] finds in its edges: increasing when
    no edge is below the one before it, which covers a list of equal
    edges and the empty list; decreasing when no edge is above the one
    before it; none otherwise. *)
Inductive direction : Type := Increasing | Decreasing | NotMonotonic.

Fixpoint pairwise (rel : R → R → bool) (l : list R) : bool :=
  match l with
  | a :: (b :: _) as rest => rel a b && pairwise rel rest
  | _ => true
  end.

Definition monotonicity (bins : list R) : direction :=
  if pairwise (λ a b, bool_decide (a <= b)%R) bins then Increasing
  else if pairwise (λ a b, bool_decide (b <= a)%R) bins then Decreasing
  else NotMonotonic.

(** [np.digitize(x, bins)] raises [ValueError] for edges without a
    direction, whatever [x] is, also when [x] is an empty array. *)
Definition check_monotonic (bins : list R) : res unit :=
  match monotonicity bins with
  | NotMonotonic => Raise (ValueError "bins must be monotonically increasing or decreasing")
  | _ => Ok ()
  end.

(** The value of [np.digitize(x, bins)] for one [x], on edges that have a
    direction.  For increasing edges it is the number of edges that are
    [<= x], so that [bins[i-1] <= x < bins[i]] gives [i]; for decreasing
    edges numpy searches the reversed edges and returns [len(bins)] minus
    that number, so that [bins[i-1] > x >= bins[i]] gives [i]. *)
Definition digitize (x : R) (bins : list R) : Z :=
  match monotonicity bins with
  | Decreasing =>
      (Z.of_nat (length bins) - Z.of_nat (length (filter (λ e, e <= x)%R (reverse bins))))%Z
  | _ => Z.of_nat (length (filter (λ e, e <= x)%R bins))
  end.

(** [for x in l: acc = f(acc, x)] with an [f] that can raise. *)
Fixpoint fold_res {A B} (f : A → B → res A) (acc : A) (l : list B) : res A :=
  match l with
  | [] => Ok acc
  | x :: rest => acc' ← f acc x; fold_res f acc' rest
  end.

(** [np.clip(v, lo, hi)] *)
Definition clip (v lo hi : Z) : Z := Z.min (Z.max v lo) hi.

(** [np.clip(np.digitize(v, bins) - 1, 0, n_bins - 1)] *)
Definition bin_index (v : R) (bins : list R) : Z :=
  clip (digitize v bins - 1) 0 (Z.of_nat (length bins) - 1 - 1).

(** [np.unique]: the distinct values, ascending. *)
Definition unique (l : list Z) : list Z := merge_sort Z.le (remove_dups l).

(** The samples of one batch that pass
    [valid = ~np.isnan(sf) & ~np.isnan(dx) & ~np.isnan(dy)]. *)
Definition valid_points (sf dx dy : list fl) : list (R * R * R) :=
  omap (λ p : fl * fl * fl,
          match p with
          | (Some s, Some x, Some y) => Some (s, x, y)
          | _ => None
          end)
       (zip (zip sf dx) dy).

(** [sorted(items, key=..., reverse=True)] and [list.sort(key=...,
    reverse=True)]: descending and stable. *)
Fixpoint insert_desc {A} (key : A → R) (x : A) (l : list A) : list A :=
  match l with
  | [] => [x]
  | y :: l' => if decide (key y < key x)%R then x :: l else y :: insert_desc key x l'
  end.

Definition sort_desc {A} (key : A → R) (l : list A) : list A :=
  foldl (λ acc x, insert_desc key x acc) [] l.

Fixpoint foldM {RNG A S} (f : A → S → M RNG S) (l : list A) (s : S) : M RNG S :=
  match l with
  | [] => mret s
  | a :: l' => s' ← f a s; foldM f l' s'
  end.

(** The arrays the nested functions of an engine close over and mutate.
    [sfr] and [sfr_counts] belong to the isotropic engine and stay empty
    in the grid engine. *)
Record BinState : Type := mkBinState {
  sf_totals : list R;
  sf_sq_totals : list R;
  weight_totals : list Z;
  point_counts : list Z;
  bin_status : list bool;
  bin_bootstraps : list Z;
  bin_spacing_effectiveness : gmap Z (list R);
  bin_spacing_bootstraps : gmap Z (list Z);
  bin_spacing_counts : gmap Z (list Z);
  sfr : list (list fl);
  sfr_counts : list (list Z);
  sf_means : list fl;
  sf_stds : list fl
}.

Definition set_sf_totals (v : list R) (st : BinState) : BinState :=
  {| sf_totals := v;
     sf_sq_totals := sf_sq_totals st;
     weight_totals := weight_totals st;
     point_counts := point_counts st;
     bin_status := bin_status st;
     bin_bootstraps := bin_bootstraps st;
     bin_spacing_effectiveness := bin_spacing_effectiveness st;
     bin_spacing_bootstraps := bin_spacing_bootstraps st;
     bin_spacing_counts := bin_spacing_counts st;
     sfr := sfr st;
     sfr_counts := sfr_counts st;
     sf_means := sf_means st;
     sf_stds := sf_stds st |}.

Definition set_sf_sq_totals (v : list R) (st : BinState) : BinState :=
  {| sf_totals := sf_totals st;
     sf_sq_totals := v;
     weight_totals := weight_totals st;
     point_counts := point_counts st;
     bin_status := bin_status st;
     bin_bootstraps := bin_bootstraps st;
     bin_spacing_effectiveness := bin_spacing_effectiveness st;
     bin_spacing_bootstraps := bin_spacing_bootstraps st;
     bin_spacing_counts := bin_spacing_counts st;
     sfr := sfr st;
     sfr_counts := sfr_counts st;
     sf_means := sf_means st;
     sf_stds := sf_stds st |}.

Definition set_weight_totals (v : list Z) (st : BinState) : BinState :=
  {| sf_totals := sf_totals st;
     sf_sq_totals := sf_sq_totals st;
     weight_totals := v;
     point_counts := point_counts st;
     bin_status := bin_status st;
     bin_bootstraps := bin_bootstraps st;
     bin_spacing_effectiveness := bin_spacing_effectiveness st;
     bin_spacing_bootstraps := bin_spacing_bootstraps st;
     bin_spacing_counts := bin_spacing_counts st;
     sfr := sfr st;
     sfr_counts := sfr_counts st;
     sf_means := sf_means st;
     sf_stds := sf_stds st |}.

Definition set_point_counts (v : list Z) (st : BinState) : BinState :=
  {| sf_totals := sf_totals st;
     sf_sq_totals := sf_sq_totals st;
     weight_totals := weight_totals st;
     point_counts := v;
     bin_status := bin_status st;
     bin_bootstraps := bin_bootstraps st;
     bin_spacing_effectiveness := bin_spacing_effectiveness st;
     bin_spacing_bootstraps := bin_spacing_bootstraps st;
     bin_spacing_counts := bin_spacing_counts st;
     sfr := sfr st;
     sfr_counts := sfr_counts st;
     sf_means := sf_means st;
     sf_stds := sf_stds st |}.

Definition set_bin_status (v : list bool) (st : BinState) : BinState :=
  {| sf_totals := sf_totals st;
     sf_sq_totals := sf_sq_totals st;
     weight_totals := weight_totals st;
     point_counts := point_counts st;
     bin_status := v;
     bin_bootstraps := bin_bootstraps st;
     bin_spacing_effectiveness := bin_spacing_effectiveness st;
     bin_spacing_bootstraps := bin_spacing_bootstraps st;
     bin_spacing_counts := bin_spacing_counts st;
     sfr := sfr st;
     sfr_counts := sfr_counts st;
     sf_means := sf_means st;
     sf_stds := sf_stds st |}.

Definition set_bin_bootstraps (v : list Z) (st : BinState) : BinState :=
  {| sf_totals := sf_totals st;
     sf_sq_totals := sf_sq_totals st;
     weight_totals := weight_totals st;
     point_counts := point_counts st;
     bin_status := bin_status st;
     bin_bootstraps := v;
     bin_spacing_effectiveness := bin_spacing_effectiveness st;
     bin_spacing_bootstraps := bin_spacing_bootstraps st;
     bin_spacing_counts := bin_spacing_counts st;
     sfr := sfr st;
     sfr_counts := sfr_counts st;
     sf_means := sf_means st;
     sf_stds := sf_stds st |}.

Definition set_bin_spacing_effectiveness (v : gmap Z (list R)) (st : BinState) : BinState :=
  {| sf_totals := sf_totals st;
     sf_sq_totals := sf_sq_totals st;
     weight_totals := weight_totals st;
     point_counts := point_counts st;
     bin_status := bin_status st;
     bin_bootstraps := bin_bootstraps st;
     bin_spacing_effectiveness := v;
     bin_spacing_bootstraps := bin_spacing_bootstraps st;
     bin_spacing_counts := bin_spacing_counts st;
     sfr := sfr st;
     sfr_counts := sfr_counts st;
     sf_means := sf_means st;
     sf_stds := sf_stds st |}.

Definition set_bin_spacing_bootstraps (v : gmap Z (list Z)) (st : BinState) : BinState :=
  {| sf_totals := sf_totals st;
     sf_sq_totals := sf_sq_totals st;
     weight_totals := weight_totals st;
     point_counts := point_counts st;
     bin_status := bin_status st;
     bin_bootstraps := bin_bootstraps st;
     bin_spacing_effectiveness := bin_spacing_effectiveness st;
     bin_spacing_bootstraps := v;
     bin_spacing_counts := bin_spacing_counts st;
     sfr := sfr st;
     sfr_counts := sfr_counts st;
     sf_means := sf_means st;
     sf_stds := sf_stds st |}.

Definition set_bin_spacing_counts (v : gmap Z (list Z)) (st : BinState) : BinState :=
  {| sf_totals := sf_totals st;
     sf_sq_totals := sf_sq_totals st;
     weight_totals := weight_totals st;
     point_counts := point_counts st;
     bin_status := bin_status st;
     bin_bootstraps := bin_bootstraps st;
     bin_spacing_effectiveness := bin_spacing_effectiveness st;
     bin_spacing_bootstraps := bin_spacing_bootstraps st;
     bin_spacing_counts := v;
     sfr := sfr st;
     sfr_counts := sfr_counts st;
     sf_means := sf_means st;
     sf_stds := sf_stds st |}.

Definition set_sfr (v : list (list fl)) (st : BinState) : BinState :=
  {| sf_totals := sf_totals st;
     sf_sq_totals := sf_sq_totals st;
     weight_totals := weight_totals st;
     point_counts := point_counts st;
     bin_status := bin_status st;
     bin_bootstraps := bin_bootstraps st;
     bin_spacing_effectiveness := bin_spacing_effectiveness st;
     bin_spacing_bootstraps := bin_spacing_bootstraps st;
     bin_spacing_counts := bin_spacing_counts st;
     sfr := v;
     sfr_counts := sfr_counts st;
     sf_means := sf_means st;
     sf_stds := sf_stds st |}.

Definition set_sfr_counts (v : list (list Z)) (st : BinState) : BinState :=
  {| sf_totals := sf_totals st;
     sf_sq_totals := sf_sq_totals st;
     weight_totals := weight_totals st;
     point_counts := point_counts st;
     bin_status := bin_status st;
     bin_bootstraps := bin_bootstraps st;
     bin_spacing_effectiveness := bin_spacing_effectiveness st;
     bin_spacing_bootstraps := bin_spacing_bootstraps st;
     bin_spacing_counts := bin_spacing_counts st;
     sfr := sfr st;
     sfr_counts := v;
     sf_means := sf_means st;
     sf_stds := sf_stds st |}.

Definition set_sf_means (v : list fl) (st : BinState) : BinState :=
  {| sf_totals := sf_totals st;
     sf_sq_totals := sf_sq_totals st;
     weight_totals := weight_totals st;
     point_counts := point_counts st;
     bin_status := bin_status st;
     bin_bootstraps := bin_bootstraps st;
     bin_spacing_effectiveness := bin_spacing_effectiveness st;
     bin_spacing_bootstraps := bin_spacing_bootstraps st;
     bin_spacing_counts := bin_spacing_counts st;
     sfr := sfr st;
     sfr_counts := sfr_counts st;
     sf_means := v;
     sf_stds := sf_stds st |}.

Definition set_sf_stds (v : list fl) (st : BinState) : BinState :=
  {| sf_totals := sf_totals st;
     sf_sq_totals := sf_sq_totals st;
     weight_totals := weight_totals st;
     point_counts := point_counts st;
     bin_status := bin_status st;
     bin_bootstraps := bin_bootstraps st;
     bin_spacing_effectiveness := bin_spacing_effectiveness st;
     bin_spacing_bootstraps := bin_spacing_bootstraps st;
     bin_spacing_counts := bin_spacing_counts st;
     sfr := sfr st;
     sfr_counts := sfr_counts st;
     sf_means := sf_means st;
     sf_stds := v |}.

(** [x[k] += v] on an integer and on a float array. *)
Definition add_at (k : nat) (v : Z) (l : list Z) : list Z := alter (λ x, x + v)%Z k l.
Definition radd_at (k : nat) (v : R) (l : list R) : list R := alter (λ x, x + v)%R k l.

(** The weighted accumulation of one batch into bin [k]:
    [weight_sum = np.sum(bin_weights)] and, when it is positive, one
    increment of [sf_totals], [sf_sq_totals] and [weight_totals]. *)
Definition accumulate (k : nat) (bin_sf bin_weights : list R) (st : BinState) : BinState :=
  let weight_sum := Rsum bin_weights in
  if decide (0 < weight_sum)%R then
    let norm_weights := (λ w, w / weight_sum)%R <$> bin_weights in
    let st := set_sf_totals
                (radd_at k (Rsum (zip_with Rmult bin_sf norm_weights)) (sf_totals st)) st in
    let st := set_sf_sq_totals
                (radd_at k (Rsum (zip_with Rmult ((λ s, s ^ 2)%R <$> bin_sf) norm_weights))
                         (sf_sq_totals st)) st in
    set_weight_totals (add_at k 1 (weight_totals st)) st
  else st.

(** [if add_to_counts: point_counts[k] += bin_count; bin_points_added[k] +=
    bin_count; bin_spacing_counts[sp_value][k] += bin_count] *)
Definition count_points (add_to_counts : bool) (sp_value : Z) (k : nat) (bin_count : Z)
    (acc : BinState * list Z) : BinState * list Z :=
  if add_to_counts then
    let '(st, bin_points_added) := acc in
    let st := set_point_counts (add_at k bin_count (point_counts st)) st in
    let st := set_bin_spacing_counts
                (alter (add_at k bin_count) sp_value (bin_spacing_counts st)) st in
    (st, add_at k bin_count bin_points_added)
  else acc.

(** The end of [process_spacing_data]:
    [mask = bin_points_added > 0;
     bin_spacing_effectiveness[sp_value][mask] = bin_points_added[mask] / bootstraps;
     bin_spacing_bootstraps[sp_value][mask] += bootstraps] *)
Definition update_effectiveness (add_to_counts : bool) (sp_value bootstraps : Z)
    (bin_points_added : list Z) (st : BinState) : BinState :=
  if add_to_counts && bool_decide (0 < bootstraps)%Z then
    let st := set_bin_spacing_effectiveness
                (alter (λ eff, zip_with (λ e a, if decide (0 < a)%Z
                                                then (IZR a / IZR bootstraps)%R else e)
                                        eff bin_points_added)
                       sp_value (bin_spacing_effectiveness st)) st in
    set_bin_spacing_bootstraps
      (alter (λ bs, zip_with (λ b a, if decide (0 < a)%Z then (b + bootstraps)%Z else b)
                             bs bin_points_added)
             sp_value (bin_spacing_bootstraps st)) st
  else st.

(** [calculate_bin_statistics]: the mean of the batch means where
    [weight_totals > 0], the standard deviation where [weight_totals > 1],
    NaN elsewhere. *)
Definition bin_mean (total : R) (weight : Z) : fl :=
  if decide (0 < weight)%Z then Some (total / IZR weight)%R else NaN.

Definition bin_std (total sq_total : R) (weight : Z) : fl :=
  if decide (1 < weight)%Z then
    let mean := (total / IZR weight)%R in
    let variance := (sq_total / IZR weight - mean ^ 2)%R in
    Some (sqrt (Rmax 0 variance))
  else NaN.

Definition calculate_bin_statistics (st : BinState) : list fl * list fl :=
  (zip_with bin_mean (sf_totals st) (weight_totals st),
   zip_with (λ '(t, q) w, bin_std t q w)
            (zip (sf_totals st) (sf_sq_totals st)) (weight_totals st)).

(** [sf_means, sf_stds = calculate_bin_statistics()] *)
Definition recalculate (st : BinState) : BinState :=
  let '(means, stds) := calculate_bin_statistics st in
  set_sf_stds stds (set_sf_means means st).

(** The density of the bins from the counts of the initial phase, divided
    by its maximum. *)
Definition calculate_bin_density (point_counts : list Z) (bin_areas : list R) : list R :=
  let total_points := foldr Z.add 0%Z point_counts in
  let bin_density :=
    if decide (0 < total_points)%Z then
      zip_with (λ c area, if decide (0 < area)%R
                          then (IZR c / (area * IZR total_points))%R else 0%R)
               point_counts bin_areas
    else (λ _, 0%R) <$> point_counts in
  let max_density :=
    if existsb (λ d, bool_decide (0 < d)%R) bin_density
    then foldr Rmax 0%R bin_density else 1%R in
  if decide (0 < max_density)%R
  then (λ d, d / max_density)%R <$> bin_density
  else bin_density.

(** [np.maximum(step_nbootstrap, (step_nbootstrap * (1 + 2 * bin_density)).astype(int))] *)
Definition calculate_bootstrap_steps (step_nbootstrap : Z) (bin_density : list R) : list Z :=
  (λ d, Z.max step_nbootstrap (trunc (IZR step_nbootstrap * (1 + 2 * d)))) <$> bin_density.

(** The three markings after the initial statistics. *)
Definition mark_initial (convergence_eps : R) (st : BinState) : BinState :=
  let low_density_mask :=
    zip_with (λ c s, bool_decide (c <= 10)%Z && negb s) (point_counts st) (bin_status st) in
  let st := set_bin_status (zip_with orb (bin_status st) low_density_mask) st in
  let nan_std_mask := zip_with (λ d s, isnan d && negb s) (sf_stds st) (bin_status st) in
  let st := set_bin_status (zip_with orb (bin_status st) nan_std_mask) st in
  let early_converged :=
    zip_with (λ '(d, s) c, fle d (Some convergence_eps) && negb s && bool_decide (10 < c)%Z)
             (zip (sf_stds st) (bin_status st)) (point_counts st) in
  set_bin_status (zip_with orb (bin_status st) early_converged) st.

(** [~bin_status & (point_counts > 10) & (bin_bootstraps < max_nbootstrap)]
    at bin [j]. *)
Definition is_unconverged (max_nbootstrap : Z) (st : BinState) (j : nat) : bool :=
  match bin_status st !! j, point_counts st !! j, bin_bootstraps st !! j with
  | Some s, Some c, Some b => negb s && bool_decide (10 < c)%Z && bool_decide (b < max_nbootstrap)%Z
  | _, _, _ => false
  end.

(** [np.where(unconverged)]: the flat indices in ascending order. *)
Definition unconverged (max_nbootstrap : Z) (st : BinState) : list nat :=
  filter (λ j, is_unconverged max_nbootstrap st j = true) (seq 0 (length (bin_status st))).

Section Refinement.

Context {RNG : Type}.

  (** The engine's own [process_spacing_data(sp_value, bootstraps,
      add_to_counts)]. *)
Variable process_spacing_data : Z → Z → bool → BinState → M RNG BinState.

Variable spacing_values : list Z.
Variables max_nbootstrap : Z.
Variable convergence_eps : R.
Variable bin_density : list R.
Variable bootstrap_steps : list Z.

  (** The [for sp_value, effectiveness in sorted_spacings] loop of one
      visit; the result is [total_additional]. *)
Fixpoint distribute (sorted_spacings : list (Z * R)) (step : Z) (total_effectiveness : R)
      (total_additional remaining_step : Z) (st : BinState) : M RNG (Z * BinState) :=
    match sorted_spacings with
    | [] => mret (total_additional, st)
    | (sp_value, effectiveness) :: rest =>
        if decide (effectiveness <= 0)%R then
          distribute rest step total_effectiveness total_additional remaining_step st
        else
          let sp_additional :=
            if decide (0 < total_effectiveness)%R
            then trunc (IZR step * (effectiveness / total_effectiveness))
            else 0%Z in
          let sp_additional := Z.min sp_additional remaining_step in
          st ← process_spacing_data sp_value sp_additional false st;
          let total_additional := (total_additional + sp_additional)%Z in
          let remaining_step := (remaining_step - sp_additional)%Z in
          if decide (remaining_step <= 0)%Z then mret (total_additional, st)
          else distribute rest step total_effectiveness total_additional remaining_step st
    end.

  (** [{sp: bin_spacing_effectiveness[sp][j] for sp in spacing_values}],
      sorted by effectiveness, highest first. *)
Definition sorted_spacings_of (st : BinState) (j : nat) : list (Z * R) :=
    sort_desc snd
      ((λ sp, (sp, default 0%R (bin_spacing_effectiveness st !! sp ≫= (.!! j))))
         <$> spacing_values).

  (** The body of [for bin_idx, (j, density) in enumerate(bin_list)]. *)
Definition visit (j : nat) (st : BinState) : M RNG BinState :=
    if default false (bin_status st !! j) then mret st
    else
      let step := default 0%Z (bootstrap_steps !! j) in
      let sorted_spacings := sorted_spacings_of st j in
      let total_effectiveness :=
        Rsum (filter (λ eff, 0 < eff)%R (sorted_spacings.*2)) in
      '(total_additional, st) ←
        distribute sorted_spacings step total_effectiveness 0%Z step st;
      let st := set_bin_bootstraps (add_at j total_additional (bin_bootstraps st)) st in
      let st := recalculate st in
      if fle (default NaN (sf_stds st !! j)) (Some convergence_eps) then
        mret (set_bin_status (<[j := true]> (bin_status st)) st)
      else if bool_decide (max_nbootstrap <= default 0%Z (bin_bootstraps st !! j))%Z then
        mret (set_bin_status (<[j := true]> (bin_status st)) st)
      else mret st.

  (** The bins of one round, densest first. *)
Definition bin_list (st : BinState) : list nat :=
    sort_desc (λ j, default 0%R (bin_density !! j)) (unconverged max_nbootstrap st).

  (** One iteration of the [while True] loop that does not [break]. *)
Definition round (st : BinState) : M RNG BinState :=
    foldM visit (bin_list st) st.

  (** The [while True] loop. *)
Fixpoint refinement_loop (fuel : nat) (st : BinState) : M RNG BinState :=
    if decide (unconverged max_nbootstrap st = []) then mret st
    else
      match fuel with
      | O => λ _, Fuel
      | S fuel => st ← round st; refinement_loop fuel st
      end.

End Refinement.

(** What a sampler call returns: [(sf_results, dx_vals, dy_vals)]. *)
Abbreviation Batches := (list (list fl) * list (list fl) * list (list fl))%type.

(** [bins[1:] - bins[:-1]] *)
Definition widths (bins : list R) : list R := zip_with Rminus (drop 1 bins) bins.

(** [max(5, initial_nbootstrap // len(spacing_values))] *)
Definition init_samples_per_spacing (initial_nbootstrap : Z) (spacing_values : list Z) : res Z :=
  if decide (spacing_values = []) then Raise ZeroDivisionError
  else Ok (Z.max 5 (initial_nbootstrap `div` Z.of_nat (length spacing_values))).

(** The weighted mean [np.sum(bin_sf * norm_weights)] of the samples of a
    bin, NaN when the weights do not sum to a positive number. *)
Definition weighted_mean (bin_sf bin_weights : list R) : fl :=
  let weight_sum := Rsum bin_weights in
  if decide (0 < weight_sum)%R then
    Some (Rsum (zip_with Rmult bin_sf ((λ w, w / weight_sum)%R <$> bin_weights)))
  else NaN.

(** [np.sum(norm_weights * (bin_sf - mean)**2)] *)
Definition weighted_variance (bin_sf bin_weights : list R) : fl :=
  let weight_sum := Rsum bin_weights in
  if decide (0 < weight_sum)%R then
    let norm_weights := (λ w, w / weight_sum)%R <$> bin_weights in
    let mean := Rsum (zip_with Rmult bin_sf norm_weights) in
    Some (Rsum (zip_with Rmult norm_weights ((λ s, (s - mean) ^ 2)%R <$> bin_sf)))
  else NaN.

(** The datasets returned by the two engines, reduced to the per-bin
    variables.  Bin centres, bin edges, attributes and the isotropy and
    homogeneity diagnostics are left out. *)
Inductive BinnedDataset : Type :=
| BinnedOnce (sf sf_std : list fl) (point_counts : list Z)
| Binned (sf sf_std : list fl) (nbootstraps : list Z) (density : list R)
         (point_counts : list Z) (converged : list bool).

Record IsoDataset : Type := mkIso {
  iso_sf_polar : list (list fl);
  iso_sf : list fl;
  iso_std : list fl;
  iso_ci_upper : list fl;
  iso_ci_lower : list fl;
  iso_n_bootstrap : option (list Z);
  iso_bin_density : option (list R);
  iso_point_counts : list Z;
  iso_converged : option (list bool)
}.

(* ------------------------------------------------------------------ *)
(** * Grid binning engine *)

Module Grid.
Section Engine.

Context {RNG : Type}.

  (** [monte_carlo_simulation_2d] with everything but [spacing] and
      [nbootstrap] fixed, as [process_spacing_data] calls it. *)
Variable sampler : Z → nat → M RNG Batches.

Variables bins_x bins_y : list R.

Definition n_bins_x : Z := Z.of_nat (length bins_x) - 1.
Definition n_bins_y : Z := Z.of_nat (length bins_y) - 1.
Definition n_bins : nat := Z.to_nat (n_bins_y * n_bins_x).

  (** [bin_ids = y_indices * n_bins_x + x_indices] *)
Definition bin_id_of (p : R * R * R) : Z :=
    let '(_, dx, dy) := p in
    let x_index := bin_index dx bins_x in
    let y_index := bin_index dy bins_y in
    (y_index * n_bins_x + x_index)%Z.

  (** The body of [for i, bin_id in enumerate(unique_bins)]. *)
Definition process_bin (add_to_counts : bool) (sp_value : Z) (pts : list (R * R * R))
      (bin_id : Z) (acc : BinState * list Z) : BinState * list Z :=
    let y_idx := (bin_id `div` n_bins_x)%Z in
    let x_idx := (bin_id `mod` n_bins_x)%Z in
    if bool_decide (y_idx < 0 ∨ n_bins_y <= y_idx ∨ x_idx < 0 ∨ n_bins_x <= x_idx)%Z
    then acc
    else
      let k := Z.to_nat (y_idx * n_bins_x + x_idx) in
      let members := filter (λ p, bin_id_of p = bin_id) pts in
      let bin_count := Z.of_nat (length members) in
      let bin_sf := members.*1.*1 in
      let bin_weights := (λ p : R * R * R, Rabs (p.1.2 * p.2)) <$> members in
      let '(st, bin_points_added) := count_points add_to_counts sp_value k bin_count acc in
      (accumulate k bin_sf bin_weights st, bin_points_added).

  (** The body of [for b in range(len(sf_results))]: a batch without a
      valid sample is skipped; otherwise the two calls of [np.digitize]
      come first and raise for edges without a direction. *)
Definition process_batch (add_to_counts : bool) (sp_value : Z)
      (acc : BinState * list Z) (batch : list fl * list fl * list fl)
      : res (BinState * list Z) :=
    let '(sf, dx, dy) := batch in
    match valid_points sf dx dy with
    | [] => Ok acc
    | pts =>
        check_monotonic bins_x;;
        check_monotonic bins_y;;
        Ok (foldl (λ acc bin_id, process_bin add_to_counts sp_value pts bin_id acc)
                  acc (unique (bin_id_of <$> pts)))
    end.

Definition process_spacing_data (sp_value bootstraps : Z) (add_to_counts : bool)
      (st : BinState) : M RNG BinState :=
    if decide (bootstraps <= 0)%Z then mret st
    else
      '(sf_results, dx_vals, dy_vals) ← sampler sp_value (Z.to_nat bootstraps);
      '(st, bin_points_added) ←
        lift (fold_res (process_batch add_to_counts sp_value) (st, replicate n_bins 0%Z)
                       (zip (zip sf_results dx_vals) dy_vals));
      mret (update_effectiveness add_to_counts sp_value bootstraps bin_points_added st).

Variable spacing_values : list Z.
Variables initial_nbootstrap max_nbootstrap step_nbootstrap : Z.
Variable convergence_eps : R.

  (** The arrays as they are initialised before the first sample. *)
Definition initial_state : BinState :=
    {| sf_totals := replicate n_bins 0%R;
       sf_sq_totals := replicate n_bins 0%R;
       weight_totals := replicate n_bins 0%Z;
       point_counts := replicate n_bins 0%Z;
       bin_status := replicate n_bins false;
       bin_bootstraps := replicate n_bins initial_nbootstrap;
       bin_spacing_effectiveness :=
         list_to_map ((λ sp, (sp, replicate n_bins 0%R)) <$> spacing_values);
       bin_spacing_bootstraps :=
         list_to_map ((λ sp, (sp, replicate n_bins 0%Z)) <$> spacing_values);
       bin_spacing_counts :=
         list_to_map ((λ sp, (sp, replicate n_bins 0%Z)) <$> spacing_values);
       sfr := [];
       sfr_counts := [];
       sf_means := replicate n_bins NaN;
       sf_stds := replicate n_bins NaN |}.

  (** [np.outer(y_widths, x_widths)], row by row. *)
Definition bin_areas : list R :=
    y_width ← widths bins_y; x_width ← widths bins_x; [(y_width * x_width)%R].

  (** The initial bootstrap phase, up to the statistics and markings that
      precede the convergence loop. *)
Definition initial_phase : M RNG BinState :=
    init ← lift (init_samples_per_spacing initial_nbootstrap spacing_values);
    st ← foldM (λ sp_value st, process_spacing_data sp_value init true st)
               spacing_values initial_state;
    mret (mark_initial convergence_eps (recalculate st)).

Definition bin_density_of (st : BinState) : list R :=
    calculate_bin_density (point_counts st) bin_areas.

  (** The bootstrapping branch of [bin_sf_2d], from the initial phase to
      the output dataset. *)
Definition adaptive (fuel : nat) : M RNG BinnedDataset :=
    st ← initial_phase;
    let bin_density := bin_density_of st in
    let bootstrap_steps := calculate_bootstrap_steps step_nbootstrap bin_density in
    st ← refinement_loop process_spacing_data spacing_values max_nbootstrap
                         convergence_eps bin_density bootstrap_steps fuel st;
    mret (Binned (sf_means st) (sf_stds st) (bin_bootstraps st) bin_density
                 (point_counts st) (bin_status st)).

  (** The [num_bootstrappable == 0] branch: one evaluation, binned once.
      Here [sf_std] is the weighted variance, without a square root.
      [np.digitize] is called also when no sample is valid. *)
Definition bin_once (results dx_vals dy_vals : list fl) : res BinnedDataset :=
    let pts := valid_points results dx_vals dy_vals in
    check_monotonic bins_x;;
    check_monotonic bins_y;;
    let members (k : nat) := filter (λ p, bin_id_of p = Z.of_nat k) pts in
    let bin_sf k := (members k).*1.*1 in
    let bin_weights k := (λ p : R * R * R, Rabs (p.1.2 * p.2)) <$> members k in
    Ok (BinnedOnce ((λ k, weighted_mean (bin_sf k) (bin_weights k)) <$> seq 0 n_bins)
                   ((λ k, weighted_variance (bin_sf k) (bin_weights k)) <$> seq 0 n_bins)
                   ((λ k, Z.of_nat (length (members k))) <$> seq 0 n_bins)).

End Engine.
End Grid.

(* ------------------------------------------------------------------ *)
(** * Isotropic binning engine *)

Module Iso.
Section Engine.

Context {RNG : Type}.

Variable sampler : Z → nat → M RNG Batches.

  (** [np.arctan2(dy, dx)] *)
Variable arctan2 : R → R → R.

  (** [stats.norm.ppf((1 + 0.95) / 2)] *)
Variable z_score : R.

Variable r_bins : list R.
Variable n_bins_theta : nat.

Definition n_bins_r : nat := length r_bins - 1.

  (** [np.linspace(-np.pi, np.pi, n_bins_theta + 1)] *)
Definition theta_bins : list R :=
    (λ i, - PI + INR i * (2 * PI / INR n_bins_theta))%R <$> seq 0 (n_bins_theta + 1).

  (** A valid sample in polar form: [(sf, r, theta)]. *)
Definition polar (p : R * R * R) : R * R * R :=
    let '(s, dx, dy) := p in (s, sqrt (dx ^ 2 + dy ^ 2), arctan2 dy dx).

Definition r_index_of (q : R * R * R) : Z := bin_index q.1.2 r_bins.
Definition theta_index_of (q : R * R * R) : Z := bin_index q.2 theta_bins.

Definition sfr_at (st : BinState) (t r : nat) : fl :=
    default NaN (sfr st !! t ≫= (.!! r)).

Definition sfr_count_at (st : BinState) (t r : nat) : Z :=
    default 0%Z (sfr_counts st !! t ≫= (.!! r)).

  (** The update of [sfr[theta_bin_id, r_bin_id]] by one batch mean. *)
Definition update_polar (t r : nat) (theta_weighted_sf : R) (st : BinState) : BinState :=
    let new : fl :=
      match sfr_at st t r with
      | None => Some theta_weighted_sf
      | Some old =>
          Some ((old * IZR (sfr_count_at st t r) + theta_weighted_sf)
                / (IZR (sfr_count_at st t r) + 1))%R
      end in
    let st := set_sfr (alter (λ row, <[r := new]> row) t (sfr st)) st in
    set_sfr_counts (alter (add_at r 1) t (sfr_counts st)) st.

  (** The body of [for theta_bin_id in theta_bin_ids]. *)
Definition process_theta_bin (r : nat) (members : list (R * R * R)) (theta_bin_id : Z)
      (st : BinState) : BinState :=
    let theta_members := filter (λ q, theta_index_of q = theta_bin_id) members in
    match weighted_mean (theta_members.*1.*1) (theta_members.*1.*2) with
    | Some theta_weighted_sf => update_polar (Z.to_nat theta_bin_id) r theta_weighted_sf st
    | None => st
    end.

  (** The body of [for r_bin_id in r_bin_ids]. *)
Definition process_bin (add_to_counts : bool) (sp_value : Z) (pts : list (R * R * R))
      (r_bin_id : Z) (acc : BinState * list Z) : BinState * list Z :=
    let k := Z.to_nat r_bin_id in
    let members := filter (λ q, r_index_of q = r_bin_id) pts in
    let bin_count := Z.of_nat (length members) in
    let bin_sf := members.*1.*1 in
    let bin_weights := members.*1.*2 in
    let '(st, bin_points_added) := count_points add_to_counts sp_value k bin_count acc in
    let st := accumulate k bin_sf bin_weights st in
    (foldl (λ st theta_bin_id, process_theta_bin k members theta_bin_id st)
           st (unique (theta_index_of <$> members)),
     bin_points_added).

  (** The body of [for b in range(len(sf_results))]; the two calls of
      [np.digitize] raise for edges without a direction. *)
Definition process_batch (add_to_counts : bool) (sp_value : Z)
      (acc : BinState * list Z) (batch : list fl * list fl * list fl)
      : res (BinState * list Z) :=
    let '(sf, dx, dy) := batch in
    match polar <$> valid_points sf dx dy with
    | [] => Ok acc
    | pts =>
        check_monotonic r_bins;;
        check_monotonic theta_bins;;
        Ok (foldl (λ acc r_bin_id, process_bin add_to_counts sp_value pts r_bin_id acc)
                  acc (unique (r_index_of <$> pts)))
    end.

Definition process_spacing_data (sp_value bootstraps : Z) (add_to_counts : bool)
      (st : BinState) : M RNG BinState :=
    if decide (bootstraps <= 0)%Z then mret st
    else
      '(sf_results, dx_vals, dy_vals) ← sampler sp_value (Z.to_nat bootstraps);
      '(st, bin_points_added) ←
        lift (fold_res (process_batch add_to_counts sp_value) (st, replicate n_bins_r 0%Z)
                       (zip (zip sf_results dx_vals) dy_vals));
      mret (update_effectiveness add_to_counts sp_value bootstraps bin_points_added st).

Variable spacing_values : list Z.
Variables initial_nbootstrap max_nbootstrap step_nbootstrap : Z.
Variable convergence_eps : R.

Definition initial_state : BinState :=
    {| sf_totals := replicate n_bins_r 0%R;
       sf_sq_totals := replicate n_bins_r 0%R;
       weight_totals := replicate n_bins_r 0%Z;
       point_counts := replicate n_bins_r 0%Z;
       bin_status := replicate n_bins_r false;
       bin_bootstraps := replicate n_bins_r initial_nbootstrap;
       bin_spacing_effectiveness :=
         list_to_map ((λ sp, (sp, replicate n_bins_r 0%R)) <$> spacing_values);
       bin_spacing_bootstraps :=
         list_to_map ((λ sp, (sp, replicate n_bins_r 0%Z)) <$> spacing_values);
       bin_spacing_counts :=
         list_to_map ((λ sp, (sp, replicate n_bins_r 0%Z)) <$> spacing_values);
       sfr := replicate n_bins_theta (replicate n_bins_r NaN);
       sfr_counts := replicate n_bins_theta (replicate n_bins_r 0%Z);
       sf_means := replicate n_bins_r NaN;
       sf_stds := replicate n_bins_r NaN |}.

  (** [np.pi * (r_bins[1:]**2 - r_bins[:-1]**2)] *)
Definition bin_areas : list R :=
    zip_with (λ hi lo, PI * (hi ^ 2 - lo ^ 2))%R (drop 1 r_bins) r_bins.

Definition initial_phase : M RNG BinState :=
    init ← lift (init_samples_per_spacing initial_nbootstrap spacing_values);
    st ← foldM (λ sp_value st, process_spacing_data sp_value init true st)
               spacing_values initial_state;
    mret (mark_initial convergence_eps (recalculate st)).

Definition bin_density_of (st : BinState) : list R :=
    calculate_bin_density (point_counts st) bin_areas.

  (** The confidence bounds of the bootstrapping branch, for one bin:
      [sf_means ± z_score * sf_stds / np.sqrt(weight_totals)] where
      [weight_totals > 0], NaN elsewhere. *)
Definition half_width (std : fl) (n : Z) : fl :=
    fdiv (fmul (Some z_score) std) (Some (sqrt (IZR n))).

Definition confidence (mean std : fl) (weight : Z) : fl * fl :=
    if decide (0 < weight)%Z
    then (fadd mean (half_width std weight), fsub mean (half_width std weight))
    else (NaN, NaN).

Definition confidence_intervals (st : BinState) : list (fl * fl) :=
    zip_with (λ '(m, s) w, confidence m s w)
             (zip (sf_means st) (sf_stds st)) (weight_totals st).

  (** The bootstrapping branch of [get_isotropic_sf_2d]. *)
Definition adaptive (fuel : nat) : M RNG IsoDataset :=
    st ← initial_phase;
    let bin_density := bin_density_of st in
    let bootstrap_steps := calculate_bootstrap_steps step_nbootstrap bin_density in
    st ← refinement_loop process_spacing_data spacing_values max_nbootstrap
                         convergence_eps bin_density bootstrap_steps fuel st;
    let ci := confidence_intervals st in
    let ci_upper := ci.*1 in
    let ci_lower := ci.*2 in
    mret {| iso_sf_polar := sfr st;
            iso_sf := sf_means st;
            iso_std := sf_stds st;
            iso_ci_upper := ci_upper;
            iso_ci_lower := ci_lower;
            iso_n_bootstrap := Some (bin_bootstraps st);
            iso_bin_density := Some bin_density;
            iso_point_counts := point_counts st;
            iso_converged := Some (bin_status st) |}.

  (** ** The [num_bootstrappable == 0] branch *)

  (** Mean, standard deviation and point count of one radial bin. *)
Definition once_bin (members : list (R * R * R)) : fl * fl * Z :=
    let bin_sf := members.*1.*1 in
    let bin_weights := members.*1.*2 in
    (weighted_mean bin_sf bin_weights,
     fsqrt (weighted_variance bin_sf bin_weights),
     Z.of_nat (length members)).

  (** The local variables [ci_upper] and [ci_lower] of one bin. *)
Definition once_confidence (b : fl * fl * Z) : fl * fl :=
    let '(mean, std, count) := b in
    if isnan mean then (NaN, NaN)
    else if decide (1 < count)%Z then
      (fadd mean (half_width std count), fsub mean (half_width std count))
    else if decide (count = 1)%Z then (mean, mean)
    else (NaN, NaN).

Definition once_polar (members : list (R * R * R)) (theta_idx : nat) : fl :=
    let theta_members := filter (λ q, theta_index_of q = Z.of_nat theta_idx) members in
    weighted_mean (theta_members.*1.*1) (theta_members.*1.*2).

Definition isotropic_once (results dx_vals dy_vals : list fl) : res IsoDataset :=
    match polar <$> valid_points results dx_vals dy_vals with
    | [] => Raise (ValueError "No valid results found to bin")
    | pts =>
        check_monotonic r_bins;;
        check_monotonic theta_bins;;
        let members (r_idx : nat) := filter (λ q, r_index_of q = Z.of_nat r_idx) pts in
        let per_bin := (λ r_idx, once_bin (members r_idx)) <$> seq 0 n_bins_r in
        let ci := once_confidence <$> per_bin in
        let ci_upper := ci.*1 in
        let ci_lower := ci.*2 in
        Ok {| iso_sf_polar :=
                (λ theta_idx, (λ r_idx, once_polar (members r_idx) theta_idx)
                                <$> seq 0 n_bins_r) <$> seq 0 n_bins_theta;
              iso_sf := per_bin.*1.*1;
              iso_std := per_bin.*1.*2;
              (* 'ci_upper': (('r'), ci_lower), 'ci_lower': (('r'), ci_upper) *)
              iso_ci_upper := ci_lower;
              iso_ci_lower := ci_upper;
              iso_n_bootstrap := None;
              iso_bin_density := None;
              iso_point_counts := per_bin.*2;
              iso_converged := None |}
    end.

End Engine.
End Iso.

(* ------------------------------------------------------------------ *)
(** * Entry points *)

Section EntryPoints.

Context {RNG : Type}.

Variable check_and_reorder_variables_2d :
    list string → Dims → option string → res (list string).
Variable isel : Dataset → gmap string (list nat) → Dataset.
Variable np_random_seed : Z → RNG.
Variable np_random_choice : RNG → nat → nat → list nat * RNG.
Variable get_boot_indexes_2d :
    Dims → gmap string nat → gmap string Z → list Z → IndexTable →
    list string → nat → Z → gmap string index_matrix.
Variable arctan2 : R → R → R.
Variable z_score : R.

  (** The collaborators of [pyturbo_sf.core] called at the top of both
      entry points. *)
Variable validate_dataset_2d : Dataset → res (Dims * gmap string nat * Dataset).
Variable setup_bootsize_2d :
    Dims → gmap string nat → option (gmap string Z) → res (gmap string Z * list string * nat).
Variable SpacingsInfo : Type.
Variable calculate_adaptive_spacings_2d :
    Dims → gmap string nat → gmap string Z → list string → nat → res (SpacingsInfo * list Z).
Variable compute_boot_indexes_2d :
    Dims → gmap string nat → gmap string Z → list Z → list string → res IndexTable.

#[local] Abbreviation calc :=
    (calculate_structure_function_2d check_and_reorder_variables_2d isel).
#[local] Abbreviation monte_carlo :=
    (monte_carlo_simulation_2d check_and_reorder_variables_2d isel
                               np_random_seed np_random_choice get_boot_indexes_2d).

  (** [if len(bin_edges) < 2: raise ValueError] *)
Definition check_edges (edges : list R) : res unit :=
    if decide (length edges < 2)%nat
    then Raise (ValueError "Bin edges must have at least 2 values")
    else Ok ().

  (** [bin_sf_2d]; [fuel] bounds the rounds of the convergence loop.  The
      classification of the bin edges as logarithmic or linear only feeds
      the bin centres and attributes and is left out. *)
Definition bin_sf_2d (fuel : nat) (ds : Dataset) (variables_names : list string)
      (order : Order) (bins : gmap string (list R)) (bootsize : option (gmap string Z))
      (fn : string) (initial_nbootstrap max_nbootstrap step_nbootstrap : Z)
      (convergence_eps : R) : M RNG BinnedDataset :=
    '(dims, data_shape, valid_ds) ← lift (validate_dataset_2d ds);
    '(bootsize_dict, bootstrappable_dims, num_bootstrappable) ←
      lift (setup_bootsize_2d dims data_shape bootsize);
    '(spacings_info, all_spacings) ←
      lift (calculate_adaptive_spacings_2d dims data_shape bootsize_dict
                                           bootstrappable_dims num_bootstrappable);
    boot_indexes ←
      lift (compute_boot_indexes_2d dims data_shape bootsize_dict all_spacings
                                    bootstrappable_dims);
    match bins !! dims.1, bins !! dims.2 with
    | Some bins_y, Some bins_x =>
        lift (mapM check_edges (map_to_list bins).*2);;
        if decide (num_bootstrappable = 0)%nat then
          '(results, dx_vals, dy_vals) ←
            lift (calc valid_ds dims variables_names order fn 0%nat 0%nat SpNone
                       num_bootstrappable None None);
          lift (Grid.bin_once bins_x bins_y results dx_vals dy_vals)
        else
          Grid.adaptive
            (λ sp_value bootstraps,
               monte_carlo valid_ds dims variables_names order bootstraps bootsize_dict
                           num_bootstrappable all_spacings boot_indexes bootstrappable_dims
                           fn (SpInt sp_value))
            bins_x bins_y all_spacings initial_nbootstrap max_nbootstrap step_nbootstrap
            convergence_eps fuel
    | _, _ => lift (Raise (ValueError "'bins' must be a dictionary with all dimensions as keys"))
    end.

  (** [get_isotropic_sf_2d] *)
Definition get_isotropic_sf_2d (fuel : nat) (ds : Dataset) (variables_names : list string)
      (order : Order) (bins : option (gmap string (list R))) (bootsize : option (gmap string Z))
      (initial_nbootstrap max_nbootstrap step_nbootstrap : Z) (fn : string)
      (n_bins_theta : nat) (convergence_eps : R) : M RNG IsoDataset :=
    '(dims, data_shape, valid_ds) ← lift (validate_dataset_2d ds);
    '(bootsize_dict, bootstrappable_dims, num_bootstrappable) ←
      lift (setup_bootsize_2d dims data_shape bootsize);
    '(spacings_info, all_spacings) ←
      lift (calculate_adaptive_spacings_2d dims data_shape bootsize_dict
                                           bootstrappable_dims num_bootstrappable);
    boot_indexes ←
      lift (compute_boot_indexes_2d dims data_shape bootsize_dict all_spacings
                                    bootstrappable_dims);
    match bins ≫= (.!! "r") with
    | Some r_bins =>
        lift (check_edges r_bins);;
        if decide (num_bootstrappable = 0)%nat then
          '(results, dx_vals, dy_vals) ←
            lift (calc valid_ds dims variables_names order fn 0%nat 0%nat SpNone
                       num_bootstrappable None None);
          lift (Iso.isotropic_once arctan2 z_score r_bins n_bins_theta
                                   results dx_vals dy_vals)
        else
          Iso.adaptive
            (λ sp_value bootstraps,
               monte_carlo valid_ds dims variables_names order bootstraps bootsize_dict
                           num_bootstrappable all_spacings boot_indexes bootstrappable_dims
                           fn (SpInt sp_value))
            arctan2 z_score r_bins n_bins_theta all_spacings
            initial_nbootstrap max_nbootstrap step_nbootstrap convergence_eps fuel
    | None => lift (Raise (ValueError "'bins' must be a dictionary with 'r' as key"))
    end.

End EntryPoints.

(* ------------------------------------------------------------------ *)
(** * Vocabulary of the properties *)

(** ** Kernels *)

(** A non-empty array without missing values. *)
Definition no_missing (a : arr) : Prop :=
  a ≠ [] ∧ Forall (λ row : list fl, row ≠ [] ∧ Forall is_Some row) a.

(** A non-empty array all of whose entries are the number [c]. *)
Definition all_const (c : R) (a : arr) : Prop :=
  a ≠ [] ∧ Forall (λ row, row ≠ [] ∧ Forall (λ v, v = Some c) row) a.

(** A dataset none of whose fields and coordinates has a missing value. *)
Definition clean (subset : Dataset) : Prop :=
  (∀ name a, data_vars subset !! name = Some a → no_missing a) ∧
  (∀ name a, coords subset !! name = Some a → no_missing a).

(** The kernels whose statistic is a power of field differences only. *)
Definition difference_based : list string :=
  ["longitudinal"; "transverse"; "scalar"; "default_vel"].

(** ** Sampler *)

Section SamplerVocabulary.

Variable get_boot_indexes_2d :
  Dims → gmap string nat → gmap string Z → list Z → IndexTable →
  list string → nat → Z → gmap string index_matrix.

Variables (ds : Dataset) (dims : Dims) (bootsize : gmap string Z).
Variables (all_spacings : list Z) (boot_indexes : IndexTable).
Variables (bootstrappable_dims : list string) (spacing : Spacing).

(** The [sp_value] the sampler derives from its [spacing] argument. *)
Definition sp_value_of : Z :=
  match spacing with
  | SpNone => 1%Z
  | SpDict d => spacing_of_dict d bootstrappable_dims
  | SpInt sp => sp
  end.

(** The index table entry the sampler draws from. *)
Definition indexes_of (num_bootstrappable : nat) : gmap string index_matrix :=
  match boot_indexes !! sp_value_of with
  | Some indexes => indexes
  | None => get_boot_indexes_2d dims (sizes ds) bootsize all_spacings boot_indexes
                                bootstrappable_dims num_bootstrappable sp_value_of
  end.

(** The three conditions under which the sampler falls back to one
    evaluation of the full dataset, with the line it prints. *)
Definition degenerate (num_bootstrappable : nat) : option diag :=
  match num_bootstrappable with
  | O => Some NoBootstrappableDims
  | S O =>
      match head bootstrappable_dims with
      | Some bootstrap_dim =>
          if valid_indices (indexes_of num_bootstrappable) bootstrap_dim then None
          else Some (NoValidIndices bootstrap_dim sp_value_of)
      | None => None
      end
  | _ =>
      if valid_indices (indexes_of num_bootstrappable) dims.1
         && valid_indices (indexes_of num_bootstrappable) dims.2
      then None
      else Some NotEnoughIndices
  end.

(** Nothing stands in the way of bootstrapping. *)
Definition bootstrappable (num_bootstrappable : nat) : Prop :=
  match num_bootstrappable with
  | O => False
  | S O => ∃ bootstrap_dim, head bootstrappable_dims = Some bootstrap_dim
             ∧ valid_indices (indexes_of num_bootstrappable) bootstrap_dim = true
  | _ => valid_indices (indexes_of num_bootstrappable) dims.1 = true
         ∧ valid_indices (indexes_of num_bootstrappable) dims.2 = true
  end.

End SamplerVocabulary.

(** ** Runs and the process state *)

(** The result of a run without the final process state. *)
Definition value {RNG A} (r : res (A * world RNG)) : res A :=
  match r with
  | Ok (a, _) => Ok a
  | Raise e => Raise e
  | Fuel => Fuel
  end.

(** A computation whose result does not depend on the process state it
    is started in. *)
Definition oblivious {RNG A} (m : M RNG A) : Prop :=
  ∀ w1 w2, value (m w1) = value (m w2).

(** A computation whose result and final generator state are determined
    by the generator state it is started in. *)
Definition seeded {RNG A} (m : M RNG A) : Prop :=
  ∀ w1 w2, rng w1 = rng w2 →
    match m w1, m w2 with
    | Ok (a1, w1'), Ok (a2, w2') => a1 = a2 ∧ rng w1' = rng w2'
    | Raise e1, Raise e2 => e1 = e2
    | Fuel, Fuel => True
    | _, _ => False
    end.

(** ** Bin edges *)

(** Edges that [np.digitize] accepts. *)
Definition monotone (bins : list R) : Prop := monotonicity bins ≠ NotMonotonic.

(** What a batch does to the state of the grid engine when it does not
    raise. *)
Definition grid_batch (bins_x bins_y : list R) (add_to_counts : bool) (sp_value : Z)
    (acc : BinState * list Z) (batch : list fl * list fl * list fl) : BinState * list Z :=
  let '(sf, dx, dy) := batch in
  match valid_points sf dx dy with
  | [] => acc
  | pts => foldl (λ acc bin_id, Grid.process_bin bins_x bins_y add_to_counts sp_value pts
                                                  bin_id acc)
                 acc (unique (Grid.bin_id_of bins_x bins_y <$> pts))
  end.

(** What a batch does to the state of the isotropic engine when it does
    not raise. *)
Definition iso_batch (arctan2 : R → R → R) (r_bins : list R) (n_bins_theta : nat)
    (add_to_counts : bool) (sp_value : Z)
    (acc : BinState * list Z) (batch : list fl * list fl * list fl) : BinState * list Z :=
  let '(sf, dx, dy) := batch in
  match Iso.polar arctan2 <$> valid_points sf dx dy with
  | [] => acc
  | pts => foldl (λ acc r_bin_id, Iso.process_bin r_bins n_bins_theta add_to_counts sp_value
                                                   pts r_bin_id acc)
                 acc (unique (Iso.r_index_of r_bins <$> pts))
  end.

(** ** Engine states *)

(** What a call of [process_spacing_data] leaves alone: the budget and the
    flags, the length of every per-bin array and, when it does not add to
    the counts, the counts and the effectiveness scores. *)
Definition sampled (add_to_counts : bool) (st st' : BinState) : Prop :=
  bin_bootstraps st' = bin_bootstraps st ∧ bin_status st' = bin_status st ∧
  length (sf_totals st') = length (sf_totals st) ∧
  length (sf_sq_totals st') = length (sf_sq_totals st) ∧
  length (weight_totals st') = length (weight_totals st) ∧
  length (point_counts st') = length (point_counts st) ∧
  (add_to_counts = false →
     point_counts st' = point_counts st ∧
     bin_spacing_effectiveness st' = bin_spacing_effectiveness st).

(** Every per-bin array of the state has [n] entries. *)
Definition shaped (n : nat) (st : BinState) : Prop :=
  length (sf_totals st) = n ∧ length (sf_sq_totals st) = n ∧
  length (weight_totals st) = n ∧ length (point_counts st) = n ∧
  length (bin_status st) = n ∧ length (bin_bootstraps st) = n.

(** The stored statistics are those of the accumulators. *)
Definition stats_current (st : BinState) : Prop :=
  sf_means st = (calculate_bin_statistics st).1 ∧ sf_stds st = (calculate_bin_statistics st).2.

(** Budgets never decrease from [st] to [st']. *)
Definition budget_grows (st st' : BinState) : Prop :=
  ∀ k b, bin_bootstraps st !! k = Some b →
    ∃ b', bin_bootstraps st' !! k = Some b' ∧ (b <= b')%Z.

(** A flagged bin keeps its flag, its budget and its point count. *)
Definition flags_kept (st st' : BinState) : Prop :=
  point_counts st' = point_counts st ∧
  ∀ k, bin_status st !! k = Some true →
    bin_bootstraps st' !! k = bin_bootstraps st !! k ∧ bin_status st' !! k = Some true.

(** The state an engine enters its convergence loop with: every budget is
    the initial budget, the arrays have one entry per bin, the statistics
    are current and the bins with at most ten points are flagged. *)
Definition ready (n : nat) (initial_nbootstrap : Z) (st : BinState) : Prop :=
  bin_bootstraps st = replicate n initial_nbootstrap ∧
  shaped n st ∧ stats_current st ∧
  ∀ k c, point_counts st !! k = Some c → (c <= 10)%Z → bin_status st !! k = Some true.

Section BudgetVocabulary.

Variables (max_nbootstrap : Z) (bootstrap_steps : list Z).

(** The effect of one visit on the budget and flags of the bins. *)
Definition visited (j : nat) (st st' : BinState) : Prop :=
  point_counts st' = point_counts st ∧
  length (bin_bootstraps st') = length (bin_bootstraps st) ∧
  (∀ k, k ≠ j → bin_bootstraps st' !! k = bin_bootstraps st !! k
                ∧ bin_status st' !! k = bin_status st !! k) ∧
  (bin_status st !! j = Some true →
     bin_bootstraps st' !! j = bin_bootstraps st !! j ∧ bin_status st' !! j = Some true) ∧
  ((0 <= default 0 (bootstrap_steps !! j))%Z →
   ∀ b, bin_bootstraps st !! j = Some b →
     ∃ b', bin_bootstraps st' !! j = Some b'
           ∧ (b <= b' <= b + default 0 (bootstrap_steps !! j))%Z).

(** The effect of a sequence of visits: counts are kept, a flagged bin
    keeps its budget and its flag, a bin that is not visited keeps both,
    and a budget grows by at most the bin's step. *)
Definition refined (visits : list nat) (st st' : BinState) : Prop :=
  point_counts st' = point_counts st ∧
  length (bin_bootstraps st') = length (bin_bootstraps st) ∧
  (∀ k, k ∉ visits → bin_bootstraps st' !! k = bin_bootstraps st !! k
                     ∧ bin_status st' !! k = bin_status st !! k) ∧
  (∀ k, bin_status st !! k = Some true →
     bin_bootstraps st' !! k = bin_bootstraps st !! k ∧ bin_status st' !! k = Some true) ∧
  (Forall (λ s, 0 <= s)%Z bootstrap_steps →
   ∀ k b, bin_bootstraps st !! k = Some b →
     ∃ b', bin_bootstraps st' !! k = Some b'
           ∧ (b <= b' <= b + default 0 (bootstrap_steps !! k))%Z).

(** The budget of every bin lies between the initial budget and the
    largest value a visit can leave: a bin is visited only while its
    budget is below [max_nbootstrap], and a visit adds at most the
    bin's step. *)
Definition within_budget (initial_nbootstrap : Z) (st : BinState) : Prop :=
  ∀ k b, bin_bootstraps st !! k = Some b →
    (initial_nbootstrap <= b
     <= Z.max initial_nbootstrap (max_nbootstrap - 1 + default 0 (bootstrap_steps !! k)))%Z.

Variable initial_nbootstrap : Z.

(** What holds of a bin that ends the initial phase with at most ten
    points, in the state [st0] after that phase and in the final state
    [st] of the loop. *)
Definition low_count_bin (st0 st : BinState) (k : nat) (c : Z) : Prop :=
  bin_status st0 !! k = Some true ∧
  is_unconverged max_nbootstrap st0 k = false ∧
  bin_status st !! k = Some true ∧
  bin_bootstraps st !! k = Some initial_nbootstrap ∧
  point_counts st !! k = Some c ∧
  ∀ total weight, sf_totals st !! k = Some total → weight_totals st !! k = Some weight →
    sf_means st !! k = Some (bin_mean total weight).

End BudgetVocabulary.

(* ------------------------------------------------------------------ *)
(** * Concrete inputs used by the witnesses and counterexamples *)

(** A one-point dataset in the [(y, x)] plane with a scalar field [s]. *)
Definition unit_dataset : Dataset :=
  {| data_vars := {[ "s" := [[Some 1%R]] ]};
     coords := <[ "x" := [[Some 0%R]] ]> {[ "y" := [[Some 0%R]] ]};
     sizes := ∅ |}.

(** Trivial stand-ins for the library calls. *)
Definition no_reorder (vars : list string) (dims : Dims) (fn : option string)
  : res (list string) := Ok vars.
Definition no_isel (ds : Dataset) (sel : gmap string (list nat)) : Dataset := ds.
Definition unit_seed (s : Z) : unit := ().
Definition zero_choice (g : unit) (n k : nat) : list nat * unit := (replicate k 0%nat, ()).
Definition no_boot_indexes (dims : Dims) (shape : gmap string nat) (bootsize : gmap string Z)
    (all_spacings : list Z) (table : IndexTable) (bdims : list string) (num : nat) (sp : Z)
  : gmap string index_matrix := ∅.

(** One bin per axis, from 0 to 10. *)
Definition one_bin : list R := [0%R; 10%R].

(** Two bins per axis, from 0 to 5 and from 5 to 10. *)
Definition two_bins : list R := [0%R; 5%R; 10%R].

(** A batch of [m] samples of value [s], all at separation [(1, 1)]. *)
Definition uniform_batch (m : nat) (s : R) : list fl * list fl * list fl :=
  (replicate m (Some s), replicate m (Some 1%R), replicate m (Some 1%R)).

(** Batch values 0, 1, 0, 1, ... *)
Definition alternating (j : nat) : R := if Nat.even j then 0%R else 1%R.

(** A sampler whose [j]-th batch is uniform of value [alternating j],
    whatever the spacing; like the modelled sampler it returns the same
    batches at every call. *)
Definition alternating_sampler (m : nat) (sp_value : Z) (nbootstrap : nat) : M unit Batches :=
  mret (unzip3 ((λ j, uniform_batch m (alternating j)) <$> seq 0 nbootstrap)).

(** What one batch adds to the accumulators of bin [k] when its weighted
    mean is [s]. *)
Definition absorb_batch (k : nat) (s : R) (st : BinState) : BinState :=
  set_weight_totals
    (add_at k 1 (weight_totals st))
    (set_sf_sq_totals
       (radd_at k (s ^ 2) (sf_sq_totals st))
       (set_sf_totals (radd_at k s (sf_totals st)) st)).

(** A one-bin state seen through its accumulators, count, budget and flag. *)
Definition single (st : BinState) (t q : R) (wt c b : Z) (s : bool) : Prop :=
  sf_totals st = [t] ∧ sf_sq_totals st = [q] ∧ weight_totals st = [wt] ∧
  point_counts st = [c] ∧ bin_bootstraps st = [b] ∧ bin_status st = [s].

(** A one-bin state in which four spacings are equally effective, with 20
    batches, 60 points and a budget of 20. *)
Definition starved (st : BinState) : Prop :=
  single st 8 8 20 60 20 false ∧
  ∀ sp, sp ∈ [1; 2; 3; 4]%Z → bin_spacing_effectiveness st !! sp = Some [3%R].

(** A one-bin state whose bin has received one batch, of mean 3. *)
Definition single_batch_state : BinState :=
  recalculate
    {| sf_totals := [3%R];
       sf_sq_totals := [9%R];
       weight_totals := [1%Z];
       point_counts := [12%Z];
       bin_status := [false];
       bin_bootstraps := [5%Z];
       bin_spacing_effectiveness := ∅;
       bin_spacing_bootstraps := ∅;
       bin_spacing_counts := ∅;
       sfr := [[NaN]];
       sfr_counts := [[0%Z]];
       sf_means := [NaN];
       sf_stds := [NaN] |}.

(* ------------------------------------------------------------------ *)
(** * Bin centres *)

(** Both entry points classify a list of bin edges as logarithmic or
    linear and derive the bin centres from the classification; the
    centres are the coordinates of the output dataset. *)
Module Centers.

  (** [a < b] and [a > b] on floats: false as soon as one side is NaN. *)
Definition flt (a b : fl) : bool :=
    match a, b with
    | Some x, Some y => bool_decide (x < y)%R
    | _, _ => false
    end.

Definition fgt (a b : fl) : bool := flt b a.

  (** [ratios = bin_edges[1:] / bin_edges[:-1]]; a division by zero gives
      an infinity or NaN in numpy, after which every comparison below is
      false, as it is with the NaN of the model. *)
Definition ratios (bin_edges : list R) : list fl :=
    zip_with (λ hi lo, fdiv (Some hi) (Some lo)) (drop 1 bin_edges) bin_edges.

  (** [np.mean] *)
Definition mean (l : list fl) : fl :=
    fdiv (foldr fadd (Some 0%R) l) (Some (INR (length l))).

  (** [np.std]: the square root of the mean squared deviation. *)
Definition std (l : list fl) : fl :=
    fsqrt (mean ((λ x, fpow (fsub x (mean l)) 2) <$> l)).

  (** [bin_sf_2d]:
      [if ratio_std / ratio_mean < 0.01: log_bins[dim] = abs(ratio_mean - 1.0) > 0.01
       else: log_bins[dim] = False] *)
Definition grid_log_bins (bin_edges : list R) : bool :=
    let ratio_std := std (ratios bin_edges) in
    let ratio_mean := mean (ratios bin_edges) in
    if flt (fdiv ratio_std ratio_mean) (Some 0.01%R)
    then fgt (fabs (fsub ratio_mean (Some 1%R))) (Some 0.01%R)
    else false.

  (** [get_isotropic_sf_2d]:
      [if ratio_std / ratio_mean < 0.01:
         if np.abs(ratio_mean - 1.0) < 0.01: log_bins = False
         else: log_bins = True
       else: log_bins = False] *)
Definition iso_log_bins (r_bins : list R) : bool :=
    let ratio_std := std (ratios r_bins) in
    let ratio_mean := mean (ratios r_bins) in
    if flt (fdiv ratio_std ratio_mean) (Some 0.01%R)
    then negb (flt (fabs (fsub ratio_mean (Some 1%R))) (Some 0.01%R))
    else false.

  (** [np.sqrt(bins[:-1] * bins[1:])] for logarithmic bins,
      [0.5 * (bins[:-1] + bins[1:])] otherwise. *)
Definition centers (log_bins : bool) (bins : list R) : list fl :=
    zip_with (λ lo hi, if log_bins then fsqrt (Some (lo * hi)%R)
                       else Some (0.5 * (lo + hi))%R)
             bins (drop 1 bins).

End Centers.

(* ------------------------------------------------------------------ *)
(** * Isotropy and homogeneity diagnostics *)

(** [get_isotropic_sf_2d] ends, in both of its branches, with two
    diagnostics computed from the angular-radial table [sfr]: the error
    of isotropy [eiso], over sliding windows of angular bins, and the
    error of homogeneity [ehom], over sliding windows of radial bins. *)
Module Metrics.

  (** The two warnings the diagnostics print. *)
Inductive warning : Type :=
  | ThetaWindowTooLarge
      (* "Warning: Window size for theta is too large. Skipping isotropy error calculation." *)
  | RWindowTooLarge.
      (* "Warning: Window size for r is too large. Using all r bins instead." *)

  (** [max(n_bins // 3, 1)], the window size when none is given. *)
Definition default_window (n_bins : nat) : Z := Z.max (Z.of_nat n_bins / 3) 1.

  (** [sliding_window_view(np.arange(n), (window,))]: row [i] holds
      [i, ..., i + window - 1], for [i] from 0 to [n - window]; numpy
      raises [ValueError] for a negative window and for a window that is
      longer than the array. *)
Definition sliding_window_view (n : nat) (window : Z) : res (list (list nat)) :=
    if decide (window < 0)%Z then
      Raise (ValueError "`window_shape` cannot contain negative values")
    else if decide (Z.of_nat n < window)%Z then
      Raise (ValueError "window shape cannot be larger than input array shape")
    else Ok ((λ i, seq i (Z.to_nat window)) <$> seq 0 (n - Z.to_nat window + 1)).

  (** [a[idx]] with a list of indexes. *)
Definition take_items {A} (a : list A) (idx : list nat) : res (list A) :=
    mapM (λ i, match a !! i with Some x => Ok x | None => Raise IndexError end) idx.

  (** [a[:, idx]] *)
Definition take_columns (a : arr) (idx : list nat) : res arr :=
    mapM (λ row, take_items row idx) a.

  (** [bn.nanmean(a, axis=0)] of an array with [ncols] columns: the mean
      of each column without its NaN, NaN for a column that has nothing
      else. *)
Definition nanmean_axis0 (ncols : nat) (a : arr) : list fl :=
    (λ j, nanmean [(λ row, default NaN (row !! j)) <$> a]) <$> seq 0 ncols.

  (** [for idx in indices: acc = f(acc, idx)] *)
Fixpoint accumulate {A B} (f : A → B → res A) (acc : A) (indices : list B) : res A :=
    match indices with
    | [] => Ok acc
    | idx :: rest => acc' ← f acc idx; accumulate f acc' rest
    end.

  (** [x / max(1, n)] *)
Definition per_sample (n : nat) (x : fl) : fl := fdiv x (Some (INR (Nat.max 1 n))).

  (** The error of isotropy and the warning printed with it. *)
Definition error_isotropy (sfr : arr) (sf_means : list fl) (n_bins_theta n_bins_r : nat)
      (window_size_theta : Z) : res (list fl * list warning) :=
    let eiso := replicate n_bins_r (Some 0%R) in
    if decide (window_size_theta < Z.of_nat n_bins_theta)%Z then
      indices_theta ←
        sliding_window_view n_bins_theta (Z.of_nat n_bins_theta - window_size_theta + 1);
      let n_samples_theta := length indices_theta in
      eiso ← accumulate
               (λ eiso idx,
                  rows ← take_items sfr idx;
                  let mean_sf := nanmean_axis0 n_bins_r rows in
                  Ok (zip_with fadd eiso (fabs <$> zip_with fsub mean_sf sf_means)))
               eiso indices_theta;
      Ok (per_sample n_samples_theta <$> (eiso : list fl), @nil warning)
    else Ok (eiso, [ThetaWindowTooLarge]).

  (** The error of homogeneity: [(r_subset, ehom)] and the warning
      printed with it. *)
Definition error_homogeneity (sfr : arr) (r_centers : list fl) (n_bins_r : nat)
      (window_size_r : Z) : res (list fl * list fl * list warning) :=
    if decide (window_size_r < Z.of_nat n_bins_r)%Z then
      indices_r ← sliding_window_view n_bins_r (Z.of_nat n_bins_r - window_size_r + 1);
      let n_samples_r := length indices_r in
      first ← match indices_r !! 0%nat with Some idx => Ok idx | None => Raise IndexError end;
      r_subset ← take_items r_centers first;
      let zeros := replicate (length r_subset) (Some 0%R) in
      meanh ← accumulate
                (λ meanh idx,
                   cols ← take_columns sfr idx;
                   Ok (zip_with fadd meanh (nanmean_axis0 (length idx) cols)))
                zeros indices_r;
      let meanh := per_sample n_samples_r <$> (meanh : list fl) in
      ehom ← accumulate
               (λ ehom idx,
                  cols ← take_columns sfr idx;
                  Ok (zip_with fadd ehom
                        (fabs <$> zip_with fsub (nanmean_axis0 (length idx) cols) meanh)))
               zeros indices_r;
      Ok (r_subset, per_sample n_samples_r <$> (ehom : list fl), @nil warning)
    else
      let meanh := nanmean_axis0 n_bins_r sfr in
      Ok (r_centers, replicate (length meanh) (Some 0%R), [RWindowTooLarge]).

End Metrics.

(* ------------------------------------------------------------------ *)
(** * Vocabulary of the further properties *)

(** The number of variable names each kernel asks for. *)
Definition kernel_arity (fn : string) : nat :=
  if decide (fn = "scalar") then 1
  else if decide (fn = "longitudinal_scalar" ∨ fn = "transverse_scalar") then 3
  else if decide (fn = "advective") then 4
  else 2.

(** The kernels that take an order [(n, k)]. *)
Definition mixed_order : list string :=
  ["scalar_scalar"; "longitudinal_transverse"; "longitudinal_scalar"; "transverse_scalar"].

(** The kernels whose statistic is a single power, or a sum of two equal
    powers, of real quantities. *)
Definition single_power : list string :=
  ["longitudinal"; "transverse"; "default_vel"; "scalar"; "advective"].

(** A float that is NaN or a non-negative number. *)
Definition nan_or_nonneg (v : fl) : Prop :=
  match v with
  | Some x => (0 <= x)%R
  | None => True
  end.

(** The function types the dispatcher knows. *)
Definition supported : list string :=
  ["longitudinal"; "transverse"; "default_vel"; "scalar"; "scalar_scalar";
   "longitudinal_transverse"; "longitudinal_scalar"; "transverse_scalar"; "advective"].

(** Stand-ins for the collaborators of [pyturbo_sf.core] on a dataset
    that needs no reordering and has nothing to bootstrap. *)
Definition plain_validate (ds : Dataset) : res (Dims * gmap string nat * Dataset) :=
  Ok (("y", "x"), ∅, ds).

Definition plain_bootsize (dims : Dims) (data_shape : gmap string nat)
    (bootsize : option (gmap string Z)) : res (gmap string Z * list string * nat) :=
  Ok (∅, [], 0%nat).

Definition plain_spacings (dims : Dims) (data_shape : gmap string nat)
    (bootsize : gmap string Z) (bootstrappable_dims : list string)
    (num_bootstrappable : nat) : res (unit * list Z) :=
  Ok ((), [1%Z]).

Definition plain_indexes (dims : Dims) (data_shape : gmap string nat)
    (bootsize : gmap string Z) (all_spacings : list Z) (bootstrappable_dims : list string)
    : res IndexTable :=
  Ok ∅.

(** The angular-radial table and its counters have [nt] rows of [nr]
    entries. *)
Definition polar_shaped (nt nr : nat) (st : BinState) : Prop :=
  length (sfr st) = nt ∧ Forall (λ row, length row = nr) (sfr st) ∧
  length (sfr_counts st) = nt ∧ Forall (λ row, length row = nr) (sfr_counts st).

(** The values written to cell [(t, r)] by a sequence of updates
    [(theta_bin_id, r_bin_id, theta_weighted_sf)], in order. *)
Definition written_to (t r : nat) (updates : list (nat * nat * R)) : list R :=
  snd <$> filter (λ u, u.1 = (t, r)) updates.

(** [update_polar] applied to a sequence of updates. *)
Definition update_polar_all (updates : list (nat * nat * R)) (st : BinState) : BinState :=
  foldl (λ st u, Iso.update_polar u.1.1 u.1.2 u.2 st) st updates.

(** Edges in geometric progression: [a, a q, ..., a q^n]. *)
Definition geometric (a q : R) (n : nat) : list R := (λ i, a * q ^ i)%R <$> seq 0 (S n).

(** [abs(x - x)] on floats: zero, or NaN for NaN. *)
Definition self_deviation (x : fl) : fl := if isnan x then NaN else Some 0%R.

(** The means over the angles of the [len] radial columns from column
    [i] on: [bn.nanmean(sfr[:, idx], axis=0)] for the window
    [idx = i, ..., i + len - 1]. *)
Definition radial_window (sfr : arr) (len i : nat) : list fl :=
  Metrics.nanmean_axis0 len ((λ row, take len (drop i row)) <$> sfr).

(* ------------------------------------------------------------------ *)
(** * Bin edges, and the batches that are binned *)

Lemma check_monotonic_Ok (bins : list R) : monotone bins → check_monotonic bins = Ok ().
Proof. unfold monotone, check_monotonic. by destruct (monotonicity bins). Qed.

Lemma check_monotonic_inv (bins : list R) (u : unit) :
  check_monotonic bins = Ok u → monotone bins.
Proof. unfold monotone, check_monotonic. by destruct (monotonicity bins). Qed.

Lemma check_monotonic_raise (bins : list R) :
  ¬ monotone bins →
  check_monotonic bins
  = Raise (ValueError "bins must be monotonically increasing or decreasing").
Proof.
  unfold monotone, check_monotonic. destruct (monotonicity bins); [| |done]; intros H; by destruct H.
Qed.

Lemma pairwise_fmap_seq (rel : R → R → bool) (f : nat → R) (n s : nat) :
  (∀ i, rel (f i) (f (S i)) = true) → pairwise rel (f <$> seq s n) = true.
Proof.
  intros Hf. revert s. induction n as [|n IH]; intros s; [done|].
  specialize (IH (S s)). destruct n as [|n]; [done|].
  cbn [seq fmap list_fmap pairwise] in *. by rewrite Hf, IH.
Qed.

Lemma increasing_monotone (bins : list R) :
  monotonicity bins = Increasing → monotone bins.
Proof. unfold monotone. by intros ->. Qed.

Lemma decreasing_monotone (bins : list R) :
  monotonicity bins = Decreasing → monotone bins.
Proof. unfold monotone. by intros ->. Qed.

Lemma one_bin_increasing : monotonicity one_bin = Increasing.
Proof.
  unfold monotonicity, one_bin. cbn [pairwise].
  by rewrite bool_decide_eq_true_2 by lra.
Qed.

Lemma one_bin_monotone : monotone one_bin.
Proof. apply increasing_monotone, one_bin_increasing. Qed.

Lemma theta_bins_increasing (n_bins_theta : nat) :
  monotonicity (Iso.theta_bins n_bins_theta) = Increasing.
Proof.
  unfold monotonicity, Iso.theta_bins. rewrite pairwise_fmap_seq; [done|].
  intros i. apply bool_decide_eq_true_2. rewrite S_INR.
  assert (0 <= 2 * PI / INR n_bins_theta)%R as Hc.
  { pose proof PI_RGT_0. destruct n_bins_theta as [|n].
    - cbn [INR]. unfold Rdiv. rewrite Rinv_0. lra.
    - apply Rmult_le_pos; [lra|]. left. apply Rinv_0_lt_compat, lt_0_INR. lia. }
  nra.
Qed.

Lemma theta_bins_monotone (n_bins_theta : nat) : monotone (Iso.theta_bins n_bins_theta).
Proof. apply increasing_monotone, theta_bins_increasing. Qed.

Lemma fold_res_run {A B} (f : A → B → res A) (g : A → B → A) (l : list B) (acc : A) :
  (∀ acc x, f acc x = Ok (g acc x)) → fold_res f acc l = Ok (foldl g acc l).
Proof.
  intros H. revert acc. induction l as [|x l IH]; intros acc; [done|].
  cbn [fold_res foldl]. rewrite H. cbn [mbind res_bind]. apply IH.
Qed.

Lemma fold_res_Ok {A B} (f : A → B → res A) (g : A → B → A) (l : list B) (acc r : A) :
  (∀ acc x r, f acc x = Ok r → r = g acc x) →
  fold_res f acc l = Ok r → r = foldl g acc l.
Proof.
  intros H. revert acc. induction l as [|x l IH]; intros acc.
  - cbn. by intros [= ->].
  - cbn [fold_res foldl]. destruct (f acc x) as [a| |] eqn:E; cbn [mbind res_bind]; try done.
    apply H in E as ->. apply IH.
Qed.

Lemma grid_process_batch_Ok (bins_x bins_y : list R) add sp acc batch r :
  Grid.process_batch bins_x bins_y add sp acc batch = Ok r →
  r = grid_batch bins_x bins_y add sp acc batch.
Proof.
  unfold Grid.process_batch, grid_batch. destruct batch as [[sf dx] dy].
  destruct (valid_points sf dx dy) as [|p pts]; [by intros [= <-]|].
  destruct (check_monotonic bins_x); cbn [mbind res_bind]; try done.
  destruct (check_monotonic bins_y); cbn [mbind res_bind]; try done.
  by intros [= <-].
Qed.

Lemma grid_process_batch_run (bins_x bins_y : list R) add sp acc batch :
  monotone bins_x → monotone bins_y →
  Grid.process_batch bins_x bins_y add sp acc batch
  = Ok (grid_batch bins_x bins_y add sp acc batch).
Proof.
  intros Hx Hy. unfold Grid.process_batch, grid_batch. destruct batch as [[sf dx] dy].
  destruct (valid_points sf dx dy) as [|p pts]; [done|].
  by rewrite (check_monotonic_Ok _ Hx), (check_monotonic_Ok _ Hy).
Qed.

Lemma iso_process_batch_Ok arctan2 (r_bins : list R) n_bins_theta add sp acc batch r :
  Iso.process_batch arctan2 r_bins n_bins_theta add sp acc batch = Ok r →
  r = iso_batch arctan2 r_bins n_bins_theta add sp acc batch.
Proof.
  unfold Iso.process_batch, iso_batch. destruct batch as [[sf dx] dy].
  destruct (Iso.polar arctan2 <$> valid_points sf dx dy) as [|p pts]; [by intros [= <-]|].
  destruct (check_monotonic r_bins); cbn [mbind res_bind]; try done.
  destruct (check_monotonic _); cbn [mbind res_bind]; try done.
  by intros [= <-].
Qed.

Lemma iso_process_batch_run arctan2 (r_bins : list R) n_bins_theta add sp acc batch :
  monotone r_bins →
  Iso.process_batch arctan2 r_bins n_bins_theta add sp acc batch
  = Ok (iso_batch arctan2 r_bins n_bins_theta add sp acc batch).
Proof.
  intros Hr. unfold Iso.process_batch, iso_batch. destruct batch as [[sf dx] dy].
  destruct (Iso.polar arctan2 <$> valid_points sf dx dy) as [|p pts]; [done|].
  by rewrite (check_monotonic_Ok _ Hr), (check_monotonic_Ok _ (theta_bins_monotone _)).
Qed.

Section Batches.

Context {RNG : Type}.
Variable sampler : Z → nat → M RNG Batches.

(** A call of [process_spacing_data] that returns has binned its batches
    as [grid_batch] does. *)
Lemma grid_process_inv (bins_x bins_y : list R) sp n add st w st' w' :
  Grid.process_spacing_data sampler bins_x bins_y sp n add st w = Ok (st', w') →
  ((n <= 0)%Z ∧ st' = st ∧ w' = w)
  ∨ (¬ (n <= 0)%Z ∧ ∃ sf dx dy,
       sampler sp (Z.to_nat n) w = Ok ((sf, dx, dy), w')
       ∧ let acc := foldl (grid_batch bins_x bins_y add sp)
                          (st, replicate (Grid.n_bins bins_x bins_y) 0%Z)
                          (zip (zip sf dx) dy) in
         st' = update_effectiveness add sp n acc.2 acc.1).
Proof.
  unfold Grid.process_spacing_data. case_decide as Hn.
  - intros [= -> ->]. by left.
  - intros H. right. split; [done|]. unfold mbind, M_bind in H.
    destruct (sampler sp (Z.to_nat n) w) as [[[[sf dx] dy] w1]| |] eqn:Es; try done.
    unfold lift in H.
    destruct (fold_res _ _ _) as [[st1 added]| |] eqn:Ef; try done.
    apply (fold_res_Ok _ (grid_batch bins_x bins_y add sp)) in Ef;
      [|intros ???; apply grid_process_batch_Ok].
    injection H as <- <-. exists sf, dx, dy. split; [done|]. cbv zeta. by rewrite <- Ef.
Qed.

(** With edges that [np.digitize] accepts, [process_spacing_data] bins
    every batch. *)
Lemma grid_process_run (bins_x bins_y : list R) sp n add st w :
  monotone bins_x → monotone bins_y →
  Grid.process_spacing_data sampler bins_x bins_y sp n add st w
  = (if decide (n <= 0)%Z then mret st
     else
       '(sf, dx, dy) ← sampler sp (Z.to_nat n);
       let acc := foldl (grid_batch bins_x bins_y add sp)
                        (st, replicate (Grid.n_bins bins_x bins_y) 0%Z)
                        (zip (zip sf dx) dy) in
       mret (update_effectiveness add sp n acc.2 acc.1)) w.
Proof.
  intros Hx Hy. unfold Grid.process_spacing_data. case_decide; [done|].
  unfold mbind, M_bind. destruct (sampler sp (Z.to_nat n) w) as [[[[sf dx] dy] w1]| |]; try done.
  unfold lift.
  rewrite (fold_res_run _ (grid_batch bins_x bins_y add sp))
    by (intros; by apply grid_process_batch_run).
  by destruct (foldl _ _ _).
Qed.

Lemma iso_process_inv arctan2 (r_bins : list R) n_bins_theta sp n add st w st' w' :
  Iso.process_spacing_data sampler arctan2 r_bins n_bins_theta sp n add st w = Ok (st', w') →
  ((n <= 0)%Z ∧ st' = st ∧ w' = w)
  ∨ (¬ (n <= 0)%Z ∧ ∃ sf dx dy,
       sampler sp (Z.to_nat n) w = Ok ((sf, dx, dy), w')
       ∧ let acc := foldl (iso_batch arctan2 r_bins n_bins_theta add sp)
                          (st, replicate (Iso.n_bins_r r_bins) 0%Z)
                          (zip (zip sf dx) dy) in
         st' = update_effectiveness add sp n acc.2 acc.1).
Proof.
  unfold Iso.process_spacing_data. case_decide as Hn.
  - intros [= -> ->]. by left.
  - intros H. right. split; [done|]. unfold mbind, M_bind in H.
    destruct (sampler sp (Z.to_nat n) w) as [[[[sf dx] dy] w1]| |] eqn:Es; try done.
    unfold lift in H.
    destruct (fold_res _ _ _) as [[st1 added]| |] eqn:Ef; try done.
    apply (fold_res_Ok _ (iso_batch arctan2 r_bins n_bins_theta add sp)) in Ef;
      [|intros ???; apply iso_process_batch_Ok].
    injection H as <- <-. exists sf, dx, dy. split; [done|]. cbv zeta. by rewrite <- Ef.
Qed.

Lemma iso_process_run arctan2 (r_bins : list R) n_bins_theta sp n add st w :
  monotone r_bins →
  Iso.process_spacing_data sampler arctan2 r_bins n_bins_theta sp n add st w
  = (if decide (n <= 0)%Z then mret st
     else
       '(sf, dx, dy) ← sampler sp (Z.to_nat n);
       let acc := foldl (iso_batch arctan2 r_bins n_bins_theta add sp)
                        (st, replicate (Iso.n_bins_r r_bins) 0%Z)
                        (zip (zip sf dx) dy) in
       mret (update_effectiveness add sp n acc.2 acc.1)) w.
Proof.
  intros Hr. unfold Iso.process_spacing_data. case_decide; [done|].
  unfold mbind, M_bind. destruct (sampler sp (Z.to_nat n) w) as [[[[sf dx] dy] w1]| |]; try done.
  unfold lift.
  rewrite (fold_res_run _ (iso_batch arctan2 r_bins n_bins_theta add sp))
    by (intros; by apply iso_process_batch_run).
  by destruct (foldl _ _ _).
Qed.

End Batches.

(* ------------------------------------------------------------------ *)
(** * Properties of the kernels *)

Lemma at2_amap2 (f : fl → fl → fl) (a b : arr) (i j : nat) :
  at2 (amap2 f a b) i j = x ← at2 a i j; y ← at2 b i j; Some (f x y).
Proof.
  unfold at2, amap2. rewrite lookup_zip_with.
  destruct (a !! i) as [ra|]; simpl; [|done].
  destruct (b !! i) as [rb|]; simpl.
  - rewrite lookup_zip_with. done.
  - by destruct (ra !! j).
Qed.

Lemma at2_amap (f : fl → fl) (a : arr) (i j : nat) :
  at2 (amap f a) i j = f <$> at2 a i j.
Proof.
  unfold at2, amap. rewrite list_lookup_fmap.
  destruct (a !! i) as [ra|]; simpl; [|done].
  by rewrite list_lookup_fmap.
Qed.

Lemma floor_norm_pos : (0 < Kernels.floor_norm)%R.
Proof. unfold Kernels.floor_norm. lra. Qed.

Lemma rotate_0 {A} (l : list A) : rotate 0 l = l.
Proof. unfold rotate. rewrite Nat.Div0.mod_0_l. simpl. by rewrite app_nil_r. Qed.

Lemma fast_shift_2d_0 (a : arr) : fast_shift_2d a 0 0 = a.
Proof.
  unfold fast_shift_2d. rewrite rotate_0.
  induction a as [|row a IH]; simpl; [done|]. by rewrite rotate_0, IH.
Qed.

Lemma zip_with_row_const (f : fl → fl → fl) c1 c2 c3 (r1 r2 : list fl) :
  f (Some c1) (Some c2) = Some c3 →
  r1 ≠ [] ∧ Forall (λ v, v = Some c1) r1 →
  r2 ≠ [] ∧ Forall (λ v, v = Some c2) r2 →
  zip_with f r1 r2 ≠ [] ∧ Forall (λ v, v = Some c3) (zip_with f r1 r2).
Proof.
  intros Hf [Hn1 H1] [Hn2 H2]. split.
  - destruct r1, r2; done.
  - clear Hn1 Hn2. revert r2 H2. induction H1 as [|x r1 -> _ IH]; intros r2 H2; [done|].
    destruct H2 as [|y r2 -> H2]; simpl; [done|]. constructor; [done|]. by apply IH.
Qed.

Lemma amap2_const (f : fl → fl → fl) c1 c2 c3 (a b : arr) :
  f (Some c1) (Some c2) = Some c3 →
  all_const c1 a → all_const c2 b → all_const c3 (amap2 f a b).
Proof.
  intros Hf [Hn1 H1] [Hn2 H2]. split.
  - destruct a, b; done.
  - clear Hn1 Hn2. unfold amap2. revert b H2.
    induction H1 as [|x a Hx _ IH]; intros b H2; [done|].
    destruct H2 as [|y b Hy H2]; simpl; [done|]. constructor; [|by apply IH].
    by eapply zip_with_row_const.
Qed.

Lemma amap_const (f : fl → fl) c1 c2 (a : arr) :
  f (Some c1) = Some c2 → all_const c1 a → all_const c2 (amap f a).
Proof.
  intros Hf [Hn H]. split.
  - by destruct a.
  - unfold amap. clear Hn. induction H as [|row a [Hr Hrow] _ IH]; simpl; [done|].
    constructor; [|done]. split; [by destruct row|].
    clear Hr. induction Hrow as [|v row -> _ IHr]; simpl; constructor; done.
Qed.

Lemma diff_0_no_missing (a : arr) : no_missing a → all_const 0 (Kernels.diff a 0 0).
Proof.
  intros [Hn H]. unfold Kernels.diff. rewrite fast_shift_2d_0. split.
  - by destruct a.
  - clear Hn. unfold asub, amap2. induction H as [|row a [Hr Hrow] _ IH]; simpl; [done|].
    constructor; [|done]. split; [by destruct row|].
    clear Hr. induction Hrow as [|v row [x ->] _ IHr]; simpl; constructor; [|done].
    simpl. f_equal. ring.
Qed.

Lemma Rsum_zeros (l : list R) : Forall (λ v, v = 0%R) l → Rsum l = 0%R.
Proof. unfold Rsum. induction 1 as [|x l -> _ IH]; simpl; [done|]. rewrite IH. ring. Qed.

Lemma nanmean_all_zero (a : arr) : all_const 0 a → nanmean a = Some 0%R.
Proof.
  intros [Hn H]. unfold nanmean.
  assert (Hall : Forall (λ v : fl, v = Some 0%R) (concat a)).
  { apply Forall_concat. eapply Forall_impl; [exact H|]. by intros row [_ Hrow]. }
  assert (Hne : concat a ≠ []).
  { destruct a as [|row a]; [done|]. inversion H as [|? ? [Hr _] _]; subst.
    destruct row; done. }
  assert (Hfin : Forall (λ v, v = 0%R) (finite_values (concat a)) ∧ finite_values (concat a) ≠ []).
  { revert Hne. induction Hall as [|v l -> _ IH]; intros Hne; [done|].
    unfold finite_values in *. simpl. split; [|done]. constructor; [done|].
    destruct l; [done|]. by apply IH. }
  destruct Hfin as [Hz Hne']. destruct (finite_values (concat a)) eqn:E; [done|].
  f_equal. rewrite (Rsum_zeros _ Hz). unfold Rdiv. ring.
Qed.

Lemma res_bind_Ok {A B} (m : res A) (f : A → res B) (r : B) :
  m ≫= f = Ok r → ∃ a, m = Ok a ∧ f a = Ok r.
Proof. destruct m; simpl; intros; [eauto|done|done]. Qed.

Lemma offsets_head (ny nx : nat) :
  (0 < ny)%nat → (0 < nx)%nat → ∃ rest, Kernels.offsets ny nx = (0, 0)%nat :: rest.
Proof.
  intros Hy Hx. destruct ny as [|ny]; [lia|]. destruct nx as [|nx]; [lia|].
  unfold Kernels.offsets. simpl. eauto.
Qed.

Lemma offset_loop_head (ny nx : nat) (x_coord y_coord : arr) stat results dxs dys :
  (0 < ny)%nat → (0 < nx)%nat →
  Kernels.offset_loop ny nx x_coord y_coord stat = (results, dxs, dys) →
  results !! 0%nat = Some (stat 0 0 (Kernels.diff x_coord 0 0) (Kernels.diff y_coord 0 0))%nat ∧
  dxs !! 0%nat = Some (nanmean (Kernels.diff x_coord 0 0)) ∧
  dys !! 0%nat = Some (nanmean (Kernels.diff y_coord 0 0)).
Proof.
  intros Hy Hx. unfold Kernels.offset_loop.
  destruct (offsets_head ny nx Hy Hx) as [rest ->]. intros [= <- <- <-]. done.
Qed.

Lemma getvar_clean subset name a : clean subset → getvar subset name = Ok a → no_missing a.
Proof.
  intros [H _]. unfold getvar. destruct (data_vars subset !! name) eqn:E; [|done].
  intros [= <-]. eauto.
Qed.

Lemma plane_coords_clean subset dims x y :
  clean subset → plane_coords subset dims = Ok (x, y) → no_missing x ∧ no_missing y.
Proof.
  intros [_ H]. unfold plane_coords, getcoord.
  repeat case_decide; try done;
    repeat (match goal with |- context [coords subset !! ?k] =>
              destruct (coords subset !! k) eqn:? end; simpl; try done);
    intros [= <- <-]; eauto.
Qed.

Lemma separation_norm_zero (dx dy : arr) :
  all_const 0 dx → all_const 0 dy →
  all_const Kernels.floor_norm (Kernels.separation_norm dx dy).
Proof.
  intros Hx Hy. unfold Kernels.separation_norm.
  eapply (amap_const _ 0); [|eapply (amap_const _ 0); [|eapply (amap2_const _ 0 0 0)]].
  - simpl. f_equal. rewrite Rmax_right; [done|]. pose proof floor_norm_pos. lra.
  - simpl. case_decide; [|lra]. by rewrite sqrt_0.
  - simpl. f_equal. ring.
  - eapply (amap_const _ 0); [|done]. simpl. f_equal. ring.
  - eapply (amap_const _ 0); [|done]. simpl. f_equal. ring.
Qed.

Lemma adiv_zero_norm (d norm : arr) :
  all_const 0 d → all_const Kernels.floor_norm norm → all_const 0 (adiv d norm).
Proof.
  intros. eapply amap2_const; [|done|done]. simpl.
  pose proof floor_norm_pos. case_decide; [lra|]. f_equal. unfold Rdiv. ring.
Qed.

Lemma aop_zero (f : R → R → R) (a b : arr) :
  f 0%R 0%R = 0%R → all_const 0 a → all_const 0 b → all_const 0 (amap2 (lift2 f) a b).
Proof. intros Hf ??. eapply amap2_const; [|done|done]. simpl. by rewrite Hf. Qed.

Lemma apow_zero (a : arr) (n : nat) : (0 < n)%nat → all_const 0 a → all_const 0 (apow a n).
Proof.
  intros Hn ?. eapply amap_const; [|done]. simpl. f_equal.
  destruct n; [lia|]. simpl. ring.
Qed.

Lemma delta_parallel_zero (c1 c2 dx dy : arr) :
  all_const 0 c1 → all_const 0 c2 → all_const 0 dx → all_const 0 dy →
  all_const 0 (Kernels.delta_parallel c1 c2 dx dy (Kernels.separation_norm dx dy)).
Proof.
  intros. pose proof (separation_norm_zero dx dy). unfold Kernels.delta_parallel.
  apply (aop_zero Rplus); [ring| |]; apply (aop_zero Rmult); try ring; try done;
    apply adiv_zero_norm; auto.
Qed.

Lemma delta_perp_zero (c1 c2 dx dy : arr) :
  all_const 0 c1 → all_const 0 c2 → all_const 0 dx → all_const 0 dy →
  all_const 0 (Kernels.delta_perp c1 c2 dx dy (Kernels.separation_norm dx dy)).
Proof.
  intros. pose proof (separation_norm_zero dx dy). unfold Kernels.delta_perp.
  apply (aop_zero Rminus); [ring| |]; apply (aop_zero Rmult); try ring; try done;
    apply adiv_zero_norm; auto.
Qed.

Lemma separation_norm_floor (dx dy : arr) (i j : nat) (v : R) :
  at2 (Kernels.separation_norm dx dy) i j = Some (Some v) →
  (0 < Kernels.floor_norm <= v)%R.
Proof.
  unfold Kernels.separation_norm. rewrite at2_amap.
  destruct (at2 _ i j) as [[w|]|]; simpl; try done.
  intros [= <-]. split; [apply floor_norm_pos|apply Rmax_r].
Qed.

Ltac inv_res H :=
  repeat first
    [ apply res_bind_Ok in H as (? & ? & H)
    | match type of H with
      | (if ?c then _ else _) = Ok _ => destruct c eqn:?; [discriminate H|]
      | (let '(_, _) := ?p in _) = Ok _ => destruct p
      | Raise _ = Ok _ => discriminate H
      end ]; simpl in H.


Lemma int_order_inv order n m : int_order order = Ok m → order = OrderInt n → m = n.
Proof. intros H ->. simpl in H. by injection H. Qed.

Ltac use_clean Hc :=
  repeat match goal with
    | H : getvar _ _ = Ok _ |- _ => apply (getvar_clean _ _ _ Hc) in H; apply diff_0_no_missing in H
    | H : plane_coords _ _ = Ok _ |- _ =>
        apply (plane_coords_clean _ _ _ _ Hc) in H as [?%diff_0_no_missing ?%diff_0_no_missing]
    end.

Ltac finish_sep Hy Hx H :=
  match type of H with
  | Ok ?a = Ok ?b => let H' := fresh in assert (a = b) as H' by congruence; clear H; rename H' into H
  end;
  apply (offset_loop_head _ _ _ _ _ _ _ _ Hy Hx) in H as (Hr & Hdx & Hdy);
  rewrite Hdx, Hdy, !nanmean_all_zero by done.

Lemma not_difference_based (fn : string) (P : Prop) :
  fn ≠ "longitudinal" → fn ≠ "transverse" → fn ≠ "scalar" → fn ≠ "default_vel" →
  fn ∈ ["longitudinal"; "transverse"; "scalar"; "default_vel"] → P.
Proof.
  intros ???? Hin. repeat (apply elem_of_cons in Hin as [Hin|Hin]; [done|]).
  by apply elem_of_nil in Hin.
Qed.

Section ZeroSeparation.

Variable reorder : list string → Dims → option string → res (list string).


End ZeroSeparation.


Lemma unit_dataset_clean : clean unit_dataset.
Proof.
  split; intros name a; unfold unit_dataset; simpl.
  - intros [_ <-]%lookup_singleton_Some. split; [done|]. repeat constructor; done.
  - intros [[_ <-]|[_ [_ <-]%lookup_singleton_Some]]%lookup_insert_Some;
      (split; [done|]; repeat constructor; done).
Qed.

Lemma unit_dataset_scalar (n : nat) :
  Kernels.calc_scalar_2d unit_dataset ["s"] (OrderInt n) ("y", "x") 1 1
  = Ok ([nanmean (apow (Kernels.diff [[Some 1%R]] 0 0) n)],
        [nanmean (Kernels.diff [[Some 0%R]] 0 0)],
        [nanmean (Kernels.diff [[Some 0%R]] 0 0)]).
Proof.
  unfold Kernels.calc_scalar_2d, getvar, plane_coords, getcoord, unit_dataset. simpl.
  rewrite lookup_singleton_eq. simpl.
  rewrite lookup_insert_eq. simpl. rewrite lookup_insert_ne by done.
  rewrite lookup_singleton_eq. simpl. reflexivity.
Qed.


Lemma at2_separation_norm (dx dy : arr) (i j : nat) (ex ey : R) :
  at2 dx i j = Some (Some ex) → at2 dy i j = Some (Some ey) →
  at2 (Kernels.separation_norm dx dy) i j
  = Some (Some (Rmax (sqrt (ex ^ 2 + ey ^ 2)) Kernels.floor_norm)).
Proof.
  intros Hx Hy. unfold Kernels.separation_norm, aadd, apow.
  rewrite !at2_amap, at2_amap2, !at2_amap, Hx, Hy. simpl.
  destruct (decide _) as [|n]; [done|].
  exfalso. apply n. nra.
Qed.



(* ------------------------------------------------------------------ *)
(** * Properties of the sampler *)

Lemma M_bind_Ok {RNG A B} (m : M RNG A) (f : A → M RNG B) w r :
  (m ≫= f) w = Ok r → ∃ a w', m w = Ok (a, w') ∧ f a w' = Ok r.
Proof.
  unfold mbind, M_bind. destruct (m w) as [[a w']| |]; [eauto|done|done].
Qed.

Lemma M_bind_run {RNG A B} (m : M RNG A) (f : A → M RNG B) w a w' :
  m w = Ok (a, w') → (m ≫= f) w = f a w'.
Proof. unfold mbind, M_bind. by intros ->. Qed.

Lemma mapM_length {RNG A B} (f : A → M RNG B) (l : list A) w bs w' :
  mapM f l w = Ok (bs, w') → length bs = length l.
Proof.
  revert w bs w'. induction l as [|a l IH]; intros w bs w'; simpl.
  - by intros [= <- _].
  - intros (b & w1 & _ & H)%M_bind_Ok. apply M_bind_Ok in H as (k & w2 & Hk & H).
    injection H as <- _. simpl. f_equal. eauto.
Qed.

Lemma mapM_pure {RNG A B} (f : A → M RNG B) (l : list A) w :
  (∀ a, a ∈ l → ∃ b, f a w = Ok (b, w)) →
  ∃ bs, mapM f l w = Ok (bs, w) ∧ length bs = length l.
Proof.
  induction l as [|a l IH]; intros Hf; simpl.
  - by exists [].
  - destruct (Hf a) as [b Hb]; [left|].
    destruct IH as (bs & Hbs & Hlen); [intros; apply Hf; by right|].
    exists (b :: bs). rewrite (M_bind_run _ _ _ _ _ Hb), (M_bind_run _ _ _ _ _ Hbs).
    simpl. by rewrite Hlen.
Qed.

Lemma mapM_world {RNG A B} (f : A → M RNG B) (l : list A) w bs w' :
  (∀ a w b w', f a w = Ok (b, w') → w' = w) →
  mapM f l w = Ok (bs, w') → w' = w.
Proof.
  intros Hf. revert w bs w'. induction l as [|a l IH]; intros w bs w'; simpl.
  - by intros [= _ <-].
  - intros (b & w1 & Hb & H)%M_bind_Ok. apply M_bind_Ok in H as (k & w2 & Hk & H).
    injection H as _ <-. apply Hf in Hb as ->. eauto.
Qed.

Lemma collect_batches {RNG} (sim : nat → M RNG (list fl * list fl * list fl)) (n : nat)
    (w : world RNG) :
  (∀ j w b w', sim j w = Ok (b, w') → w' = w) →
  (∀ sf dxs dys w',
     (results ← mapM sim (seq 0 n); mret (unzip3 results)) w = Ok ((sf, dxs, dys), w') →
     length sf = n ∧ length dxs = n ∧ length dys = n ∧ w' = w) ∧
  ((∀ j, (j < n)%nat → ∃ b, sim j w = Ok (b, w)) →
   ∃ sf dxs dys w',
     (results ← mapM sim (seq 0 n); mret (unzip3 results)) w = Ok ((sf, dxs, dys), w')).
Proof.
  intros Hw. split.
  - intros sf dxs dys w' (results & w1 & Hm & H)%M_bind_Ok.
    injection H as <- <- <- <-.
    pose proof (mapM_length _ _ _ _ _ Hm) as Hl. rewrite length_seq in Hl.
    rewrite !length_fmap. repeat split; try done. by eapply mapM_world.
  - intros Hs. destruct (mapM_pure sim (seq 0 n) w) as (bs & Hbs & _).
    { intros j Hj%elem_of_seq. apply Hs. lia. }
    rewrite (M_bind_run _ _ _ _ _ Hbs). unfold unzip3. simpl. eauto 10.
Qed.

Lemma unzip3_length {A B C} (l : list (A * B * C)) :
  length (unzip3 l).1.1 = length l ∧ length (unzip3 l).1.2 = length l
  ∧ length (unzip3 l).2 = length l.
Proof. unfold unzip3. simpl. by rewrite !length_fmap. Qed.

Section SamplerFacts.

Context {RNG : Type}.
Variable check_and_reorder_variables_2d :
  list string → Dims → option string → res (list string).
Variable isel : Dataset → gmap string (list nat) → Dataset.
Variable np_random_seed : Z → RNG.
Variable np_random_choice : RNG → nat → nat → list nat * RNG.
Variable get_boot_indexes_2d :
  Dims → gmap string nat → gmap string Z → list Z → IndexTable →
  list string → nat → Z → gmap string index_matrix.

(** numpy's contract: [np.random.choice(n, size=k)] has [k] entries. *)
Hypothesis np_random_choice_length :
  ∀ g n k, length (np_random_choice g n k).1 = k.

#[local] Abbreviation calc :=
  (calculate_structure_function_2d check_and_reorder_variables_2d isel).
#[local] Abbreviation monte_carlo :=
  (monte_carlo_simulation_2d check_and_reorder_variables_2d isel
                             np_random_seed np_random_choice get_boot_indexes_2d).

Variables (ds : Dataset) (dims : Dims) (variables_names : list string) (order : Order).
Variables (nbootstrap : nat) (bootsize : gmap string Z).
Variables (all_spacings : list Z) (boot_indexes : IndexTable).
Variables (bootstrappable_dims : list string) (fn : string) (spacing : Spacing).

#[local] Abbreviation sp_value := (sp_value_of bootstrappable_dims spacing).
#[local] Abbreviation indexes :=
  (indexes_of get_boot_indexes_2d ds dims bootsize all_spacings boot_indexes
              bootstrappable_dims spacing).
#[local] Abbreviation degenerate' :=
  (degenerate get_boot_indexes_2d ds dims bootsize all_spacings boot_indexes
              bootstrappable_dims spacing).
#[local] Abbreviation bootstrappable' :=
  (bootstrappable get_boot_indexes_2d ds dims bootsize all_spacings boot_indexes
                  bootstrappable_dims spacing).

Lemma choice_run n size w :
  ∃ draws g, choice np_random_choice n size w = Ok (draws, World g (stdout w))
             ∧ length draws = size.
Proof.
  unfold choice. pose proof (np_random_choice_length (rng w) n size) as Hl.
  destruct (np_random_choice (rng w) n size) as [draws g]. simpl in Hl. eauto.
Qed.

Lemma getitem_run {A} (l : list A) j (w : world RNG) :
  (j < length l)%nat → ∃ a, getitem l j w = Ok (a, w).
Proof.
  intros Hj. unfold getitem, lift. destruct (lookup_lt_is_Some_2 l j Hj) as [a ->]. eauto.
Qed.

Lemma lift_Ok {A} (r : res A) (w : world RNG) a w' :
  lift r w = Ok (a, w') → r = Ok a ∧ w' = w.
Proof. unfold lift. destruct r; [|done|done]. by intros [= -> ->]. Qed.

Lemma full_dataset_once_run (num_bootstrappable : nat) (w : world RNG) results dx_vals dy_vals :
  calc ds dims variables_names order fn 0%nat 0%nat SpNone num_bootstrappable None None
    = Ok (results, dx_vals, dy_vals) →
  full_dataset_once check_and_reorder_variables_2d isel ds dims variables_names order fn
                    num_bootstrappable w
  = Ok (([results], [dx_vals], [dy_vals]), w).
Proof. intros H. unfold full_dataset_once, mbind, M_bind, lift. by rewrite H. Qed.

(** C4: in each degenerate case ([num_bootstrappable = 0], or no usable
    index column for the spacing) [monte_carlo_simulation_2d] prints one
    diagnostic line and returns one batch, that of the full dataset,
    without raising; otherwise a run that returns has [nbootstrap]
    batches in each of its three lists and prints nothing, and it does
    return when the dispatcher succeeds on every drawn window. *)
Theorem monte_carlo_batches (num_bootstrappable : nat) (w : world RNG) :
  let run := monte_carlo ds dims variables_names order nbootstrap bootsize num_bootstrappable
                         all_spacings boot_indexes bootstrappable_dims fn spacing w in
  (∀ d results dx_vals dy_vals,
     degenerate' num_bootstrappable = Some d →
     calc ds dims variables_names order fn 0%nat 0%nat SpNone num_bootstrappable None None
       = Ok (results, dx_vals, dy_vals) →
     ∃ g, run = Ok (([results], [dx_vals], [dy_vals]), World g (stdout w ++ [d]))) ∧
  (bootstrappable' num_bootstrappable →
     (∀ sf dxs dys w', run = Ok ((sf, dxs, dys), w') →
        length sf = nbootstrap ∧ length dxs = nbootstrap ∧ length dys = nbootstrap
        ∧ stdout w' = stdout w) ∧
     ((∀ nbx nby, ∃ b,
         calc ds dims variables_names order fn nbx nby (SpInt sp_value) num_bootstrappable
              (Some bootstrappable_dims) (Some boot_indexes) = Ok b) →
      ∃ sf dxs dys w', run = Ok ((sf, dxs, dys), w'))).
Proof.
  intros run. split.
  - intros d results dx_vals dy_vals Hd Hc. subst run.
    unfold degenerate in Hd. unfold monte_carlo_simulation_2d.
    destruct num_bootstrappable as [|[|n]].
    + injection Hd as <-. simpl.
      unfold mbind, M_bind, print at 1.
      rewrite (full_dataset_once_run _ _ _ _ _ Hc). eauto.
    + simpl. fold sp_value. fold (indexes 1) in *.
      destruct (head bootstrappable_dims) as [bd|] eqn:Eh; [|done].
      destruct (valid_indices (indexes 1) bd) eqn:Ev; [done|]. injection Hd as <-.
      unfold mbind, M_bind, seed at 1.
      unfold getitem, lift at 1. rewrite <- head_lookup, Eh. simpl. rewrite Ev. simpl.
      rewrite (full_dataset_once_run _ _ _ _ _ Hc). simpl. eauto.
    + simpl. fold sp_value. fold (indexes (S (S n))) in *.
      destruct (valid_indices (indexes (S (S n))) dims.1
                && valid_indices (indexes (S (S n))) dims.2) eqn:Ev;
        [done|]. injection Hd as <-.
      unfold mbind, M_bind, seed at 1.
      apply andb_false_iff in Ev.
      assert (negb (valid_indices (indexes (S (S n))) dims.1)
              || negb (valid_indices (indexes (S (S n))) dims.2)
              = true) as -> by (destruct Ev as [-> | ->]; [done|by rewrite orb_true_r]).
      unfold print at 1.
      rewrite (full_dataset_once_run _ _ _ _ _ Hc). simpl. eauto.
  - intros Hb.
    assert (∃ (sim : nat → M RNG (list fl * list fl * list fl)) (w1 : world RNG),
      (∀ j w2 b w', sim j w2 = Ok (b, w') → w' = w2) ∧ stdout w1 = stdout w ∧
      run = (results ← mapM sim (seq 0 nbootstrap); mret (unzip3 results)) w1 ∧
      ((∀ nbx nby, ∃ b,
         calc ds dims variables_names order fn nbx nby (SpInt sp_value) num_bootstrappable
              (Some bootstrappable_dims) (Some boot_indexes) = Ok b) →
       ∀ j, (j < nbootstrap)%nat → ∃ b, sim j w1 = Ok (b, w1))) as (sim & w1 & Hsim & Hout & Hrun & Hprog).
    { subst run. unfold bootstrappable in Hb. unfold monte_carlo_simulation_2d.
      destruct num_bootstrappable as [|[|n]]; [done| |].
      - simpl. fold sp_value. fold (indexes 1) in *.
        destruct Hb as (bd & Eh & Ev).
        unfold mbind at 1, M_bind at 1, seed at 1.
        unfold mbind at 1, M_bind at 1, getitem at 1, lift at 1.
        rewrite <- head_lookup, Eh. simpl. rewrite Ev. simpl.
        set (w0 := World (np_random_seed 10000000) (stdout w)).
        destruct (choice_run (ncols (indexes 1) bd) nbootstrap w0)
          as (draws & g & Hch & Hlen).
        rewrite (M_bind_run _ _ _ _ _ Hch).
        match goal with |- context [mapM ?f _] => exists f end.
        exists (World g (stdout w0)). split; [|split; [done|split; [done|]]].
        + intros j w2 b w' (nb & w3 & Hg & H)%M_bind_Ok.
          apply lift_Ok in Hg as [_ ->]. case_decide; by apply lift_Ok in H as [_ ->].
        + intros Hc j Hj.
          destruct (getitem_run draws j (World g (stdout w0))) as [nb Hnb]; [lia|].
          rewrite (M_bind_run _ _ _ _ _ Hnb).
          case_decide.
          * destruct (Hc nb 0%nat) as [b ->]. simpl. eauto.
          * destruct (Hc 0%nat nb) as [b ->]. simpl. eauto.
      - simpl. fold sp_value. fold (indexes (S (S n))) in *.
        destruct Hb as [Evy Evx].
        unfold mbind at 1, M_bind at 1, seed at 1.
        rewrite Evy, Evx. simpl.
        set (w0 := World (np_random_seed 10000000) (stdout w)).
        destruct (choice_run (ncols (indexes (S (S n))) dims.1) nbootstrap w0)
          as (nby & g & Hch & Hlen).
        rewrite (M_bind_run _ _ _ _ _ Hch).
        destruct (choice_run (ncols (indexes (S (S n))) dims.2) nbootstrap
                             (World g (stdout w0)))
          as (nbx & g' & Hch' & Hlen').
        rewrite (M_bind_run _ _ _ _ _ Hch'). simpl.
        match goal with |- context [mapM ?f _] => exists f end.
        exists (World g' (stdout w)). split; [|split; [done|split; [done|]]].
        + intros j w2 b w' (x & w3 & Hg & H)%M_bind_Ok.
          apply lift_Ok in Hg as [_ ->].
          apply M_bind_Ok in H as (y & w4 & Hg & H).
          apply lift_Ok in Hg as [_ ->]. by apply lift_Ok in H as [_ ->].
        + intros Hc j Hj.
          destruct (getitem_run nbx j (World g' (stdout w))) as [x Hx]; [lia|].
          destruct (getitem_run nby j (World g' (stdout w))) as [y Hy]; [lia|].
          rewrite (M_bind_run _ _ _ _ _ Hx), (M_bind_run _ _ _ _ _ Hy).
          destruct (Hc x y) as [b ->]. simpl. eauto. }
    rewrite Hrun. destruct (collect_batches sim nbootstrap w1 Hsim) as [Hlens Hgo].
    split.
    + intros sf dxs dys w' H. destruct (Hlens _ _ _ _ H) as (?&?&?&->). done.
    + intros Hc. apply Hgo. by apply Hprog.
Qed.

End SamplerFacts.

(* ------------------------------------------------------------------ *)
(** * Determinism *)

Section Determinism.
Context {RNG : Type}.

Lemma oblivious_ret {A} (a : A) : oblivious (mret a : M RNG A).
Proof. done. Qed.

Lemma oblivious_lift {A} (r : res A) : oblivious (lift r : M RNG A).
Proof. intros w1 w2. unfold lift. by destruct r. Qed.

Lemma oblivious_print (d : diag) : oblivious (print d : M RNG unit).
Proof. done. Qed.

Lemma oblivious_bind {A B} (m : M RNG A) (f : A → M RNG B) :
  oblivious m → (∀ a, oblivious (f a)) → oblivious (m ≫= f).
Proof.
  intros Hm Hf w1 w2. specialize (Hm w1 w2). unfold mbind, M_bind.
  destruct (m w1) as [[a1 w1']| |], (m w2) as [[a2 w2']| |]; simpl in *;
    try done; try congruence.
  injection Hm as ->. apply Hf.
Qed.

Lemma oblivious_foldM {A S} (f : A → S → M RNG S) (l : list A) (s : S) :
  (∀ a s, oblivious (f a s)) → oblivious (foldM f l s).
Proof.
  intros Hf. revert s. induction l as [|a l IH]; intros s; simpl.
  - apply oblivious_ret.
  - apply oblivious_bind; [apply Hf|]. intros s'. apply IH.
Qed.

Lemma seeded_ret {A} (a : A) : seeded (mret a : M RNG A).
Proof. intros w1 w2 H. simpl. done. Qed.

Lemma seeded_lift {A} (r : res A) : seeded (lift r : M RNG A).
Proof. intros w1 w2 H. unfold lift. by destruct r. Qed.

Lemma seeded_print (d : diag) : seeded (print d : M RNG unit).
Proof. intros w1 w2 H. simpl. done. Qed.

Lemma seeded_bind {A B} (m : M RNG A) (f : A → M RNG B) :
  seeded m → (∀ a, seeded (f a)) → seeded (m ≫= f).
Proof.
  intros Hm Hf w1 w2 H. specialize (Hm w1 w2 H). unfold mbind, M_bind.
  destruct (m w1) as [[a1 w1']| |], (m w2) as [[a2 w2']| |]; simpl in *;
    try done.
  destruct Hm as [-> Hr]. by apply Hf.
Qed.

Lemma seeded_mapM {A B} (f : A → M RNG B) (l : list A) :
  (∀ a, seeded (f a)) → seeded (mapM f l).
Proof.
  intros Hf. induction l as [|a l IH]; simpl.
  - apply seeded_ret.
  - apply seeded_bind; [apply Hf|]. intros b.
    apply seeded_bind; [apply IH|]. intros k. apply seeded_ret.
Qed.

Lemma seeded_choice (np_random_choice : RNG → nat → nat → list nat * RNG) n k :
  seeded (choice np_random_choice n k).
Proof.
  intros w1 w2 H. unfold choice. rewrite H.
  by destruct (np_random_choice (rng w2) n k).
Qed.

Lemma seeded_getitem {A} (l : list A) j : seeded (getitem l j : M RNG A).
Proof. apply seeded_lift. Qed.

Lemma seed_then_oblivious {A} (np_random_seed : Z → RNG) (s : Z) (k : M RNG A) :
  seeded k → oblivious (seed np_random_seed s ;; k).
Proof.
  intros Hk w1 w2. unfold mbind, M_bind, seed.
  specialize (Hk (World (np_random_seed s) (stdout w1))
                 (World (np_random_seed s) (stdout w2)) eq_refl).
  destruct (k _) as [[a1 w1']| |], (k _) as [[a2 w2']| |]; simpl in *; try done.
  - by destruct Hk as [-> _].
  - by subst.
Qed.

Variable check_and_reorder_variables_2d :
  list string → Dims → option string → res (list string).
Variable isel : Dataset → gmap string (list nat) → Dataset.
Variable np_random_seed : Z → RNG.
Variable np_random_choice : RNG → nat → nat → list nat * RNG.
Variable get_boot_indexes_2d :
  Dims → gmap string nat → gmap string Z → list Z → IndexTable →
  list string → nat → Z → gmap string index_matrix.

Lemma full_dataset_once_oblivious ds dims variables_names order fn num :
  oblivious (full_dataset_once (RNG := RNG) check_and_reorder_variables_2d isel ds dims
               variables_names order fn num).
Proof.
  unfold full_dataset_once. apply oblivious_bind; [apply oblivious_lift|].
  intros [[??]?]. apply oblivious_ret.
Qed.

Lemma full_dataset_once_seeded ds dims variables_names order fn num :
  seeded (full_dataset_once (RNG := RNG) check_and_reorder_variables_2d isel ds dims
            variables_names order fn num).
Proof.
  unfold full_dataset_once. apply seeded_bind; [apply seeded_lift|].
  intros [[??]?]. apply seeded_ret.
Qed.

Lemma monte_carlo_oblivious ds dims variables_names order nbootstrap bootsize num
    all_spacings boot_indexes bootstrappable_dims fn spacing :
  oblivious (monte_carlo_simulation_2d check_and_reorder_variables_2d isel
               np_random_seed np_random_choice get_boot_indexes_2d
               ds dims variables_names order nbootstrap bootsize num
               all_spacings boot_indexes bootstrappable_dims fn spacing).
Proof.
  unfold monte_carlo_simulation_2d. case_decide.
  - apply oblivious_bind; [apply oblivious_print|]. intros _.
    apply full_dataset_once_oblivious.
  - apply seed_then_oblivious. case_decide.
    + apply seeded_bind; [apply seeded_getitem|]. intros bd.
      destruct (negb _).
      * apply seeded_bind; [apply seeded_print|]. intros _. apply full_dataset_once_seeded.
      * apply seeded_bind; [apply seeded_choice|]. intros draws.
        apply seeded_bind; [|intros; apply seeded_ret].
        apply seeded_mapM. intros j.
        apply seeded_bind; [apply seeded_getitem|]. intros nb.
        case_decide; apply seeded_lift.
    + destruct (_ || _).
      * apply seeded_bind; [apply seeded_print|]. intros _. apply full_dataset_once_seeded.
      * apply seeded_bind; [apply seeded_choice|]. intros nby.
        apply seeded_bind; [apply seeded_choice|]. intros nbx.
        apply seeded_bind; [|intros; apply seeded_ret].
        apply seeded_mapM. intros j.
        apply seeded_bind; [apply seeded_getitem|]. intros x.
        apply seeded_bind; [apply seeded_getitem|]. intros y.
        apply seeded_lift.
Qed.

Section Loop.

Variable process_spacing_data : Z → Z → bool → BinState → M RNG BinState.
Hypothesis process_spacing_data_oblivious :
  ∀ sp n add st, oblivious (process_spacing_data sp n add st).

Variables (spacing_values : list Z) (max_nbootstrap : Z) (convergence_eps : R).
Variables (bin_density : list R) (bootstrap_steps : list Z).

Lemma distribute_oblivious sorted step total_eff total_additional remaining st :
  oblivious (distribute process_spacing_data sorted step total_eff
                        total_additional remaining st).
Proof.
  revert total_additional remaining st.
  induction sorted as [|[sp eff] rest IH]; intros total_additional remaining st; simpl.
  - apply oblivious_ret.
  - case_decide; [apply IH|].
    apply oblivious_bind; [apply process_spacing_data_oblivious|]. intros st'.
    case_decide; [apply oblivious_ret|apply IH].
Qed.

Lemma visit_oblivious j st :
  oblivious (visit process_spacing_data spacing_values max_nbootstrap convergence_eps
                   bootstrap_steps j st).
Proof.
  unfold visit. destruct (default false _); [apply oblivious_ret|].
  apply oblivious_bind; [apply distribute_oblivious|]. intros [total st'].
  destruct (fle _ _); [apply oblivious_ret|].
  destruct (bool_decide _); apply oblivious_ret.
Qed.

Lemma refinement_loop_oblivious fuel st :
  oblivious (refinement_loop process_spacing_data spacing_values max_nbootstrap
                             convergence_eps bin_density bootstrap_steps fuel st).
Proof.
  revert st. induction fuel as [|fuel IH]; intros st; simpl.
  - case_decide; [apply oblivious_ret|done].
  - case_decide; [apply oblivious_ret|].
    apply oblivious_bind; [|intros; apply IH].
    unfold round. apply oblivious_foldM. intros. apply visit_oblivious.
Qed.

End Loop.

Section Engines.

Variable sampler : Z → nat → M RNG Batches.
Hypothesis sampler_oblivious : ∀ sp n, oblivious (sampler sp n).

Lemma grid_process_oblivious bins_x bins_y sp n add st :
  oblivious (Grid.process_spacing_data sampler bins_x bins_y sp n add st).
Proof.
  unfold Grid.process_spacing_data. case_decide; [apply oblivious_ret|].
  apply oblivious_bind; [apply sampler_oblivious|]. intros [[??]?].
  apply oblivious_bind; [apply oblivious_lift|]. intros [??]. apply oblivious_ret.
Qed.

Lemma iso_process_oblivious arctan2 r_bins n_bins_theta sp n add st :
  oblivious (Iso.process_spacing_data sampler arctan2 r_bins n_bins_theta sp n add st).
Proof.
  unfold Iso.process_spacing_data. case_decide; [apply oblivious_ret|].
  apply oblivious_bind; [apply sampler_oblivious|]. intros [[??]?].
  apply oblivious_bind; [apply oblivious_lift|]. intros [??]. apply oblivious_ret.
Qed.

Lemma grid_adaptive_oblivious bins_x bins_y spacing_values initial max_n step eps fuel :
  oblivious (Grid.adaptive sampler bins_x bins_y spacing_values initial max_n step eps fuel).
Proof.
  unfold Grid.adaptive, Grid.initial_phase.
  apply oblivious_bind.
  - apply oblivious_bind; [apply oblivious_lift|]. intros init.
    apply oblivious_bind; [|intros; apply oblivious_ret].
    apply oblivious_foldM. intros. apply grid_process_oblivious.
  - intros st. apply oblivious_bind; [|intros; apply oblivious_ret].
    apply refinement_loop_oblivious. intros. apply grid_process_oblivious.
Qed.

Lemma iso_adaptive_oblivious arctan2 z_score r_bins n_bins_theta spacing_values
    initial max_n step eps fuel :
  oblivious (Iso.adaptive sampler arctan2 z_score r_bins n_bins_theta spacing_values
                          initial max_n step eps fuel).
Proof.
  unfold Iso.adaptive, Iso.initial_phase.
  apply oblivious_bind.
  - apply oblivious_bind; [apply oblivious_lift|]. intros init.
    apply oblivious_bind; [|intros; apply oblivious_ret].
    apply oblivious_foldM. intros. apply iso_process_oblivious.
  - intros st. apply oblivious_bind; [|intros; apply oblivious_ret].
    apply refinement_loop_oblivious. intros. apply iso_process_oblivious.
Qed.

End Engines.

Variable arctan2 : R → R → R.
Variable z_score : R.
Variable validate_dataset_2d : Dataset → res (Dims * gmap string nat * Dataset).
Variable setup_bootsize_2d :
  Dims → gmap string nat → option (gmap string Z) → res (gmap string Z * list string * nat).
Variable SpacingsInfo : Type.
Variable calculate_adaptive_spacings_2d :
  Dims → gmap string nat → gmap string Z → list string → nat → res (SpacingsInfo * list Z).
Variable compute_boot_indexes_2d :
  Dims → gmap string nat → gmap string Z → list Z → list string → res IndexTable.

(** C5: the result of [bin_sf_2d] and of [get_isotropic_sf_2d] (the
    dataset with its per-bin means, standard deviations, point counts,
    bootstrap counts and convergence flags, or the exception) does not
    depend on the process state the call starts in, the global random
    generator included: every draw is made right after
    [np.random.seed(10000000)]. *)
Theorem determinism (fuel : nat) (ds : Dataset) (variables_names : list string)
    (order : Order) (bins : gmap string (list R)) (iso_bins : option (gmap string (list R)))
    (bootsize : option (gmap string Z)) (fn : string)
    (initial_nbootstrap max_nbootstrap step_nbootstrap : Z) (n_bins_theta : nat)
    (convergence_eps : R) (w1 w2 : world RNG) :
  value (bin_sf_2d check_and_reorder_variables_2d isel np_random_seed np_random_choice
           get_boot_indexes_2d validate_dataset_2d setup_bootsize_2d SpacingsInfo
           calculate_adaptive_spacings_2d compute_boot_indexes_2d
           fuel ds variables_names order bins bootsize fn
           initial_nbootstrap max_nbootstrap step_nbootstrap convergence_eps w1)
  = value (bin_sf_2d check_and_reorder_variables_2d isel np_random_seed np_random_choice
           get_boot_indexes_2d validate_dataset_2d setup_bootsize_2d SpacingsInfo
           calculate_adaptive_spacings_2d compute_boot_indexes_2d
           fuel ds variables_names order bins bootsize fn
           initial_nbootstrap max_nbootstrap step_nbootstrap convergence_eps w2)
  ∧
  value (get_isotropic_sf_2d check_and_reorder_variables_2d isel np_random_seed
           np_random_choice get_boot_indexes_2d arctan2 z_score validate_dataset_2d
           setup_bootsize_2d SpacingsInfo calculate_adaptive_spacings_2d
           compute_boot_indexes_2d
           fuel ds variables_names order iso_bins bootsize
           initial_nbootstrap max_nbootstrap step_nbootstrap fn n_bins_theta
           convergence_eps w1)
  = value (get_isotropic_sf_2d check_and_reorder_variables_2d isel np_random_seed
           np_random_choice get_boot_indexes_2d arctan2 z_score validate_dataset_2d
           setup_bootsize_2d SpacingsInfo calculate_adaptive_spacings_2d
           compute_boot_indexes_2d
           fuel ds variables_names order iso_bins bootsize
           initial_nbootstrap max_nbootstrap step_nbootstrap fn n_bins_theta
           convergence_eps w2).
Proof.
  split.
  - revert w1 w2. change (oblivious (bin_sf_2d check_and_reorder_variables_2d isel
      np_random_seed np_random_choice get_boot_indexes_2d validate_dataset_2d
      setup_bootsize_2d SpacingsInfo calculate_adaptive_spacings_2d compute_boot_indexes_2d
      fuel ds variables_names order bins bootsize fn
      initial_nbootstrap max_nbootstrap step_nbootstrap convergence_eps)).
    unfold bin_sf_2d.
    apply oblivious_bind; [apply oblivious_lift|]. intros [[dims shape] valid_ds].
    apply oblivious_bind; [apply oblivious_lift|]. intros [[bootsize_dict bdims] num].
    apply oblivious_bind; [apply oblivious_lift|]. intros [info all_spacings].
    apply oblivious_bind; [apply oblivious_lift|]. intros boot_indexes.
    destruct (bins !! dims.1), (bins !! dims.2); try apply oblivious_lift.
    apply oblivious_bind; [apply oblivious_lift|]. intros _.
    case_decide.
    + apply oblivious_bind; [apply oblivious_lift|]. intros [[??]?]. apply oblivious_lift.
    + apply grid_adaptive_oblivious. intros. apply monte_carlo_oblivious.
  - revert w1 w2. change (oblivious (get_isotropic_sf_2d check_and_reorder_variables_2d isel
      np_random_seed np_random_choice get_boot_indexes_2d arctan2 z_score validate_dataset_2d
      setup_bootsize_2d SpacingsInfo calculate_adaptive_spacings_2d compute_boot_indexes_2d
      fuel ds variables_names order iso_bins bootsize
      initial_nbootstrap max_nbootstrap step_nbootstrap fn n_bins_theta convergence_eps)).
    unfold get_isotropic_sf_2d.
    apply oblivious_bind; [apply oblivious_lift|]. intros [[dims shape] valid_ds].
    apply oblivious_bind; [apply oblivious_lift|]. intros [[bootsize_dict bdims] num].
    apply oblivious_bind; [apply oblivious_lift|]. intros [info all_spacings].
    apply oblivious_bind; [apply oblivious_lift|]. intros boot_indexes.
    destruct (iso_bins ≫= _); try apply oblivious_lift.
    apply oblivious_bind; [apply oblivious_lift|]. intros _.
    case_decide.
    + apply oblivious_bind; [apply oblivious_lift|]. intros [[??]?]. apply oblivious_lift.
    + apply iso_adaptive_oblivious. intros. apply monte_carlo_oblivious.
Qed.

End Determinism.

(* ------------------------------------------------------------------ *)
(** * Properties of the refinement loop *)

Lemma mret_Ok {RNG A} (a b : A) (w w' : world RNG) :
  (mret a : M RNG A) w = Ok (b, w') → b = a ∧ w' = w.
Proof. by intros [= -> ->]. Qed.

Lemma trunc_nonneg (x : R) : (0 <= x)%R → (0 <= trunc x)%Z.
Proof.
  intros Hx. unfold trunc. case_decide; [|done].
  unfold Int_part. destruct (archimed x) as [Hup _].
  assert (0 < IZR (up x))%R as H0 by lra. apply lt_IZR in H0. lia.
Qed.

Lemma foldl_invariant {A B} (P : A → Prop) (f : A → B → A) (l : list B) (a : A) :
  P a → (∀ a b, P a → P (f a b)) → P (foldl f a l).
Proof. intros Ha Hf. revert a Ha. induction l; simpl; eauto. Qed.

Lemma add_at_lookup (k j : nat) (v : Z) (l : list Z) :
  add_at k v l !! j = if decide (k = j) then (λ x, x + v)%Z <$> l !! k else l !! j.
Proof. unfold add_at. apply list_lookup_alter. Qed.

Lemma insert_desc_perm {A} (key : A → R) (x : A) (l : list A) :
  insert_desc key x l ≡ₚ x :: l.
Proof.
  induction l as [|y l IH]; simpl; [done|]. case_decide; [done|].
  rewrite IH. apply Permutation_swap.
Qed.

Lemma sort_desc_perm {A} (key : A → R) (l : list A) : sort_desc key l ≡ₚ l.
Proof.
  unfold sort_desc.
  assert (∀ acc, foldl (λ acc x, insert_desc key x acc) acc l ≡ₚ l ++ acc) as H.
  { induction l as [|x l IH]; intros acc; simpl; [done|].
    rewrite IH, insert_desc_perm. by rewrite Permutation_middle. }
  rewrite H. by rewrite app_nil_r.
Qed.

(** ** What sampling leaves alone *)

Lemma sampled_refl add st : sampled add st st.
Proof. do 6 (split; [done|]). done. Qed.

Lemma sampled_trans add st1 st2 st3 :
  sampled add st1 st2 → sampled add st2 st3 → sampled add st1 st3.
Proof.
  intros (?&?&?&?&?&?&Hf1) (?&?&?&?&?&?&Hf2).
  do 6 (split; [congruence|]).
  intros Ha. destruct (Hf1 Ha), (Hf2 Ha). split; congruence.
Qed.

Lemma accumulate_sampled add k sf ws st : sampled add st (accumulate k sf ws st).
Proof.
  unfold accumulate. case_decide; [|apply sampled_refl].
  unfold sampled, radd_at, add_at. simpl. by rewrite !length_alter.
Qed.

Lemma count_points_sampled add sp k c st added :
  sampled add st (count_points add sp k c (st, added)).1.
Proof.
  destruct add; simpl; [|apply sampled_refl].
  unfold sampled, add_at. simpl. by rewrite !length_alter.
Qed.

Lemma update_effectiveness_sampled add sp n added st :
  sampled add st (update_effectiveness add sp n added st).
Proof.
  unfold update_effectiveness. destruct add; simpl; [|apply sampled_refl].
  destruct (bool_decide _); [|apply sampled_refl]. unfold sampled. simpl. done.
Qed.

Section GridSampling.

Context {RNG : Type}.
Variable sampler : Z → nat → M RNG Batches.
Variables bins_x bins_y : list R.

Lemma grid_process_bin_sampled add sp pts bin_id st0 (acc : BinState * list Z) :
  sampled add st0 acc.1 →
  sampled add st0 (Grid.process_bin bins_x bins_y add sp pts bin_id acc).1.
Proof.
  intros H. unfold Grid.process_bin. destruct (bool_decide _); [done|].
  destruct acc as [st added].
  pose proof (count_points_sampled add sp
                (Z.to_nat (bin_id `div` Grid.n_bins_x bins_x * Grid.n_bins_x bins_x
                           + bin_id `mod` Grid.n_bins_x bins_x))
                (Z.of_nat (length (filter (λ p, Grid.bin_id_of bins_x bins_y p = bin_id) pts)))
                st added) as Hc.
  destruct (count_points _ _ _ _ _) as [st1 added1]. simpl in *.
  eapply sampled_trans; [exact H|]. eapply sampled_trans; [exact Hc|].
  apply accumulate_sampled.
Qed.

Lemma grid_process_batch_sampled add sp st0 (acc : BinState * list Z) batch :
  sampled add st0 acc.1 →
  sampled add st0 (grid_batch bins_x bins_y add sp acc batch).1.
Proof.
  intros H. unfold grid_batch. destruct batch as [[sf dx] dy].
  destruct (valid_points sf dx dy) as [|p pts]; [done|].
  apply (foldl_invariant (λ acc, sampled add st0 acc.1)); [done|].
  intros. by apply grid_process_bin_sampled.
Qed.

Lemma grid_process_sampled sp n add st w st' w' :
  Grid.process_spacing_data sampler bins_x bins_y sp n add st w = Ok (st', w') →
  sampled add st st'.
Proof.
  intros [(_ & -> & _)|(_ & sf & dx & dy & _ & ->)]%grid_process_inv;
    [apply sampled_refl|].
  pose proof (foldl_invariant (λ acc, sampled add st acc.1)
                (grid_batch bins_x bins_y add sp)
                (zip (zip sf dx) dy) (st, replicate (Grid.n_bins bins_x bins_y) 0%Z)
                (sampled_refl add st)) as Hf.
  destruct (foldl _ _ _) as [st1 added]. cbn [fst snd] in *.
  eapply sampled_trans.
  - apply Hf. intros. by apply grid_process_batch_sampled.
  - apply update_effectiveness_sampled.
Qed.

End GridSampling.

Section IsoSampling.

Context {RNG : Type}.
Variable sampler : Z → nat → M RNG Batches.
Variable arctan2 : R → R → R.
Variable r_bins : list R.
Variable n_bins_theta : nat.

Lemma update_polar_sampled add t r v st : sampled add st (Iso.update_polar t r v st).
Proof. unfold sampled. simpl. done. Qed.

Lemma iso_process_bin_sampled add sp pts bin_id st0 (acc : BinState * list Z) :
  sampled add st0 acc.1 →
  sampled add st0 (Iso.process_bin r_bins n_bins_theta add sp pts bin_id acc).1.
Proof.
  intros H. unfold Iso.process_bin. destruct acc as [st added].
  pose proof (count_points_sampled add sp (Z.to_nat bin_id)
                (Z.of_nat (length (filter (λ q, Iso.r_index_of r_bins q = bin_id) pts)))
                st added) as Hc.
  destruct (count_points _ _ _ _ _) as [st1 added1]. simpl in *.
  apply (foldl_invariant (λ st, sampled add st0 st)).
  - eapply sampled_trans; [exact H|]. eapply sampled_trans; [exact Hc|].
    apply accumulate_sampled.
  - intros st2 t Hst2. unfold Iso.process_theta_bin.
    destruct (weighted_mean _ _); [|done].
    eapply sampled_trans; [exact Hst2|apply update_polar_sampled].
Qed.

Lemma iso_process_batch_sampled add sp st0 (acc : BinState * list Z) batch :
  sampled add st0 acc.1 →
  sampled add st0 (iso_batch arctan2 r_bins n_bins_theta add sp acc batch).1.
Proof.
  intros H. unfold iso_batch. destruct batch as [[sf dx] dy].
  destruct (Iso.polar arctan2 <$> valid_points sf dx dy) as [|p pts]; [done|].
  apply (foldl_invariant (λ acc, sampled add st0 acc.1)); [done|].
  intros. by apply iso_process_bin_sampled.
Qed.

Lemma iso_process_sampled sp n add st w st' w' :
  Iso.process_spacing_data sampler arctan2 r_bins n_bins_theta sp n add st w
    = Ok (st', w') →
  sampled add st st'.
Proof.
  intros [(_ & -> & _)|(_ & sf & dx & dy & _ & ->)]%iso_process_inv;
    [apply sampled_refl|].
  pose proof (foldl_invariant (λ acc, sampled add st acc.1)
                (iso_batch arctan2 r_bins n_bins_theta add sp)
                (zip (zip sf dx) dy) (st, replicate (Iso.n_bins_r r_bins) 0%Z)
                (sampled_refl add st)) as Hf.
  destruct (foldl _ _ _) as [st1 added]. cbn [fst snd] in *.
  eapply sampled_trans.
  - apply Hf. intros. by apply iso_process_batch_sampled.
  - apply update_effectiveness_sampled.
Qed.

End IsoSampling.

Section Loop.

Context {RNG : Type}.
Variable process_spacing_data : Z → Z → bool → BinState → M RNG BinState.
Hypothesis process_spacing_data_sampled :
  ∀ sp n st w st' w',
    process_spacing_data sp n false st w = Ok (st', w') → sampled false st st'.

Variables (spacing_values : list Z) (max_nbootstrap : Z) (convergence_eps : R).
Variables (bin_density : list R) (bootstrap_steps : list Z).

#[local] Abbreviation distribute' := (distribute process_spacing_data).
#[local] Abbreviation visit' :=
  (visit process_spacing_data spacing_values max_nbootstrap convergence_eps bootstrap_steps).
#[local] Abbreviation round' :=
  (round process_spacing_data spacing_values max_nbootstrap convergence_eps bin_density
         bootstrap_steps).
#[local] Abbreviation loop' :=
  (refinement_loop process_spacing_data spacing_values max_nbootstrap convergence_eps
                   bin_density bootstrap_steps).
#[local] Abbreviation visited' := (visited bootstrap_steps).
#[local] Abbreviation refined' := (refined bootstrap_steps).
#[local] Abbreviation within' := (within_budget max_nbootstrap bootstrap_steps).

Lemma distribute_sampled sorted step total_eff total remaining st w total' st' w' :
  distribute' sorted step total_eff total remaining st w = Ok ((total', st'), w') →
  sampled false st st'.
Proof.
  revert total remaining st w.
  induction sorted as [|[sp eff] rest IH]; intros total remaining st w; simpl.
  - intros [[= _ <-] _]%mret_Ok. apply sampled_refl.
  - case_decide as Heff; [by apply IH|].
    intros (st1 & w1 & Hp & H)%M_bind_Ok.
    apply process_spacing_data_sampled in Hp.
    case_decide as Hr.
    + apply mret_Ok in H as [[= _ <-] _]. done.
    + apply IH in H. by eapply sampled_trans.
Qed.

Lemma distribute_total sorted step total_eff total remaining st w total' st' w' :
  (0 <= step)%Z → (0 <= remaining)%Z →
  distribute' sorted step total_eff total remaining st w = Ok ((total', st'), w') →
  (total <= total' <= total + remaining)%Z.
Proof.
  intros Hstep. revert total remaining st w.
  induction sorted as [|[sp eff] rest IH]; intros total remaining st w Hrem; simpl.
  - intros [[= <- _] _]%mret_Ok. lia.
  - case_decide as Heff; [by apply IH|].
    set (raw := if decide (0 < total_eff)%R
                then trunc (IZR step * (eff / total_eff)) else 0%Z).
    assert (0 <= raw)%Z as Hraw.
    { subst raw. case_decide as Ht; [|done]. apply trunc_nonneg.
      apply Rmult_le_pos; [by apply IZR_le|].
      apply Rlt_le, Rdiv_lt_0_compat; lra. }
    intros (st1 & w1 & _ & H)%M_bind_Ok.
    case_decide as Hr.
    + apply mret_Ok in H as [[= Ht _] _]. lia.
    + apply IH in H; lia.
Qed.

Lemma visit_spec j st w st' w' : visit' j st w = Ok (st', w') → visited' j st st'.
Proof.
  unfold visit.
  destruct (decide (bin_status st !! j = Some true)) as [Es|Es].
  { rewrite Es. simpl. intros [-> _]%mret_Ok.
    do 4 (split; [done|]). intros Hstep b Hb. exists b. split; [done|]. lia. }
  assert (default false (bin_status st !! j) = false) as ->
    by (by destruct (bin_status st !! j) as [[|]|]).
  intros ([total st1] & w1 & Hd & H)%M_bind_Ok.
  pose proof (distribute_sampled _ _ _ _ _ _ _ _ _ _ Hd) as (Hbb & Hbs & _ & _ & _ & _ & Hf).
  destruct (Hf eq_refl) as [Hpc _].
  set (st2 := recalculate (set_bin_bootstraps (add_at j total (bin_bootstraps st1)) st1)) in *.
  assert (bin_bootstraps st2 = add_at j total (bin_bootstraps st)) as Eb
    by (subst st2; unfold recalculate; destruct (calculate_bin_statistics _); simpl;
        by rewrite Hbb).
  assert (point_counts st2 = point_counts st) as Ep
    by (subst st2; unfold recalculate; destruct (calculate_bin_statistics _); simpl;
        by rewrite Hpc).
  assert (bin_status st2 = bin_status st) as Est
    by (subst st2; unfold recalculate; destruct (calculate_bin_statistics _); simpl;
        by rewrite Hbs).
  assert (bin_bootstraps st' = add_at j total (bin_bootstraps st) ∧
          point_counts st' = point_counts st ∧
          (bin_status st' = bin_status st ∨ bin_status st' = <[j:=true]> (bin_status st)))
    as (Eb' & Ep' & Est').
  { destruct (fle _ _); [|destruct (bool_decide _)]; apply mret_Ok in H as [-> _].
    - split; [exact Eb|]. split; [exact Ep|]. right.
      change (<[j:=true]> (bin_status st2) = <[j:=true]> (bin_status st)). by rewrite Est.
    - split; [exact Eb|]. split; [exact Ep|]. right.
      change (<[j:=true]> (bin_status st2) = <[j:=true]> (bin_status st)). by rewrite Est.
    - split; [exact Eb|]. split; [exact Ep|]. left. exact Est. }
  split; [done|]. split; [by rewrite Eb'; apply length_alter|]. split; [|split].
  - intros k Hk. rewrite Eb', add_at_lookup.
    destruct (decide (j = k)) as [->|Hjk]; [done|]. split; [done|].
    destruct Est' as [-> | ->]; [done|]. rewrite list_lookup_insert_ne; [done|congruence].
  - done.
  - intros Hstep b Hb.
    apply distribute_total in Hd; [|done|done].
    rewrite Eb', add_at_lookup, decide_True by done. rewrite Hb. simpl.
    eexists. split; [done|]. lia.
Qed.

Lemma foldM_visit_spec l st w st' w' :
  NoDup l → foldM visit' l st w = Ok (st', w') → refined' l st st'.
Proof.
  intros Hnd. revert st w. induction Hnd as [|j l Hj Hnd IH]; intros st w; simpl.
  - intros [-> _]%mret_Ok. do 4 (split; [done|]). intros Hsteps k b Hb. exists b.
    split; [done|].
    destruct (bootstrap_steps !! k) as [z|] eqn:E; simpl; [|lia].
    pose proof (Forall_lookup_1 _ _ k z Hsteps E). simpl in *. lia.
  - intros (st1 & w1 & Hv & Hrest)%M_bind_Ok.
    apply visit_spec in Hv as (Hpc1 & Hlen1 & Hne1 & Htrue1 & Hb1).
    apply IH in Hrest as (Hpc2 & Hlen2 & Hne2 & Htrue2 & Hb2).
    split; [congruence|]. split; [congruence|]. split; [|split].
    + intros k [Hkj Hkl]%not_elem_of_cons.
      destruct (Hne1 k Hkj) as [E1 E2]. destruct (Hne2 k Hkl) as [E3 E4].
      split; congruence.
    + intros k Hk. destruct (decide (k = j)) as [->|Hkj].
      * destruct (Htrue1 Hk) as [E1 Hs]. destruct (Htrue2 j Hs) as [E2 Hs2].
        split; congruence.
      * destruct (Hne1 k Hkj) as [E1 Hs]. rewrite <- Hs in Hk.
        destruct (Htrue2 k Hk) as [E2 Hs2]. split; congruence.
    + intros Hsteps k b Hb. destruct (decide (k = j)) as [->|Hkj].
      * assert (0 <= default 0 (bootstrap_steps !! j))%Z as Hstep.
        { destruct (bootstrap_steps !! j) as [z|] eqn:E; simpl; [|lia].
          apply (Forall_lookup_1 _ _ j z Hsteps E). }
        destruct (Hb1 Hstep b Hb) as (b' & Hb' & Hle). exists b'.
        destruct (Hne2 j Hj) as [E _]. split; [congruence|done].
      * destruct (Hne1 k Hkj) as [E _]. rewrite <- E in Hb. by apply Hb2.
Qed.

Lemma bin_list_NoDup st : NoDup (bin_list max_nbootstrap bin_density st).
Proof.
  unfold bin_list. rewrite sort_desc_perm. unfold unconverged.
  apply NoDup_filter, NoDup_seq.
Qed.

Lemma elem_of_bin_list st j :
  j ∈ bin_list max_nbootstrap bin_density st ↔ is_unconverged max_nbootstrap st j = true.
Proof.
  unfold bin_list. rewrite sort_desc_perm. unfold unconverged.
  rewrite list_elem_of_filter, elem_of_seq. split; [by intros [? _]|].
  intros H. split; [done|]. unfold is_unconverged in H.
  destruct (bin_status st !! j) eqn:E; [|done]. apply lookup_lt_Some in E. lia.
Qed.

Lemma round_spec st w st' w' :
  round' st w = Ok (st', w') →
  refined' (bin_list max_nbootstrap bin_density st) st st'.
Proof. apply foldM_visit_spec, bin_list_NoDup. Qed.

Lemma round_flags st w st' w' : round' st w = Ok (st', w') → flags_kept st st'.
Proof. intros (Hpc & _ & _ & Htrue & _)%round_spec. by split. Qed.

Lemma round_budget initial st w st' w' :
  Forall (λ s, 0 <= s)%Z bootstrap_steps →
  round' st w = Ok (st', w') →
  budget_grows st st' ∧ (within' initial st → within' initial st').
Proof.
  intros Hsteps (Hpc & Hlen & Hne & Htrue & Hb)%round_spec.
  specialize (Hb Hsteps). split.
  - intros k b Eb. destruct (Hb k b Eb) as (b' & ? & ?). exists b'. split; [done|lia].
  - intros Hw k b' Hb'.
    destruct (bin_bootstraps st !! k) as [b|] eqn:Eb.
    + destruct (Hb k b Eb) as (b2 & Hb2 & Hle). assert (b2 = b') as -> by congruence.
      destruct (Hw k b Eb) as [Hlo Hhi].
      destruct (decide (k ∈ bin_list max_nbootstrap bin_density st)) as [Hin|Hnin].
      * apply elem_of_bin_list in Hin. unfold is_unconverged in Hin. rewrite Eb in Hin.
        destruct (bin_status st !! k); [|done]. destruct (point_counts st !! k); [|done].
        apply andb_true_iff in Hin as [_ Hlt%bool_decide_eq_true]. lia.
      * destruct (Hne k Hnin) as [E _]. rewrite Eb in E. assert (b' = b) by congruence. lia.
    + apply lookup_lt_Some in Hb'. apply lookup_ge_None in Eb. lia.
Qed.

Lemma flags_kept_refl st : flags_kept st st.
Proof. by split. Qed.

Lemma flags_kept_trans st1 st2 st3 :
  flags_kept st1 st2 → flags_kept st2 st3 → flags_kept st1 st3.
Proof.
  intros [Hp1 H1] [Hp2 H2]. split; [congruence|]. intros k Hk.
  destruct (H1 k Hk) as [E1 Hs]. destruct (H2 k Hs) as [E2 Hs2]. split; congruence.
Qed.

Lemma budget_grows_refl st : budget_grows st st.
Proof. intros k b Hb. exists b. split; [done|lia]. Qed.

Lemma budget_grows_trans st1 st2 st3 :
  budget_grows st1 st2 → budget_grows st2 st3 → budget_grows st1 st3.
Proof.
  intros H1 H2 k b Hb. destruct (H1 k b Hb) as (b1 & Hb1 & ?).
  destruct (H2 k b1 Hb1) as (b2 & Hb2 & ?). exists b2. split; [done|lia].
Qed.

Lemma loop_flags fuel st w st' w' :
  loop' fuel st w = Ok (st', w') →
  flags_kept st st' ∧ unconverged max_nbootstrap st' = [].
Proof.
  revert st w. induction fuel as [|fuel IH]; intros st w; simpl.
  - case_decide as Hu; [|done]. intros [E _]%mret_Ok. rewrite E.
    split; [apply flags_kept_refl|done].
  - case_decide as Hu.
    + intros [E _]%mret_Ok. rewrite E. split; [apply flags_kept_refl|done].
    + intros (st1 & w1 & Hr & Hl)%M_bind_Ok. apply round_flags in Hr.
      apply IH in Hl as [Hf Hu']. split; [by eapply flags_kept_trans|done].
Qed.

Lemma loop_budget initial fuel st w st' w' :
  Forall (λ s, 0 <= s)%Z bootstrap_steps →
  loop' fuel st w = Ok (st', w') →
  budget_grows st st' ∧ (within' initial st → within' initial st').
Proof.
  intros Hsteps. revert st w. induction fuel as [|fuel IH]; intros st w; simpl.
  - case_decide as Hu; [|done]. intros [E _]%mret_Ok. rewrite E.
    split; [apply budget_grows_refl|done].
  - case_decide as Hu.
    + intros [E _]%mret_Ok. rewrite E. split; [apply budget_grows_refl|done].
    + intros (st1 & w1 & Hr & Hl)%M_bind_Ok.
      apply (round_budget initial) in Hr as [Hg1 Hw1]; [|done].
      apply IH in Hl as [Hg2 Hw2]. split; [by eapply budget_grows_trans|auto].
Qed.

Lemma visit_stats j st w st' w' :
  visit' j st w = Ok (st', w') → stats_current st → stats_current st'.
Proof.
  unfold visit. destruct (default false _).
  - intros [-> _]%mret_Ok Hs. exact Hs.
  - intros ([total st1] & w1 & _ & H)%M_bind_Ok _.
    destruct (fle _ _); [|destruct (bool_decide _)]; apply mret_Ok in H as [-> _];
      split; reflexivity.
Qed.

Lemma foldM_visit_stats l st w st' w' :
  foldM visit' l st w = Ok (st', w') → stats_current st → stats_current st'.
Proof.
  revert st w. induction l as [|j l IH]; intros st w; simpl.
  - intros [E _]%mret_Ok Hs. by rewrite E.
  - intros (st1 & w1 & Hv & Hrest)%M_bind_Ok Hs. eapply IH; [exact Hrest|].
    by eapply visit_stats.
Qed.

Lemma loop_stats fuel st w st' w' :
  loop' fuel st w = Ok (st', w') → stats_current st → stats_current st'.
Proof.
  revert st w. induction fuel as [|fuel IH]; intros st w; simpl.
  - case_decide as Hu; [|done]. intros [E _]%mret_Ok Hs. by rewrite E.
  - case_decide as Hu; [intros [E _]%mret_Ok Hs; by rewrite E|].
    intros (st1 & w1 & Hr & Hl)%M_bind_Ok Hs. eapply IH; [exact Hl|].
    by eapply foldM_visit_stats.
Qed.

End Loop.

(** ** The state after the initial phase *)

Lemma recalculate_fields st :
  sf_totals (recalculate st) = sf_totals st ∧
  sf_sq_totals (recalculate st) = sf_sq_totals st ∧
  weight_totals (recalculate st) = weight_totals st ∧
  point_counts (recalculate st) = point_counts st ∧
  bin_status (recalculate st) = bin_status st ∧
  bin_bootstraps (recalculate st) = bin_bootstraps st ∧
  stats_current (recalculate st).
Proof. unfold recalculate, stats_current. simpl. done. Qed.

Lemma calculate_bin_statistics_length n st :
  shaped n st →
  length (calculate_bin_statistics st).1 = n ∧ length (calculate_bin_statistics st).2 = n.
Proof.
  intros (H1 & H2 & H3 & _). unfold calculate_bin_statistics. simpl.
  rewrite !length_zip_with, ?length_zip. lia.
Qed.

Lemma mark_initial_fields eps st :
  sf_totals (mark_initial eps st) = sf_totals st ∧
  sf_sq_totals (mark_initial eps st) = sf_sq_totals st ∧
  weight_totals (mark_initial eps st) = weight_totals st ∧
  point_counts (mark_initial eps st) = point_counts st ∧
  bin_bootstraps (mark_initial eps st) = bin_bootstraps st ∧
  sf_means (mark_initial eps st) = sf_means st ∧
  sf_stds (mark_initial eps st) = sf_stds st.
Proof. unfold mark_initial. simpl. done. Qed.

Lemma mark_initial_lookup eps st k c s d :
  point_counts st !! k = Some c → bin_status st !! k = Some s → sf_stds st !! k = Some d →
  bin_status (mark_initial eps st) !! k
  = Some (let s1 := s || (bool_decide (c <= 10)%Z && negb s) in
          let s2 := s1 || (isnan d && negb s1) in
          s2 || (fle d (Some eps) && negb s2 && bool_decide (10 < c)%Z)).
Proof.
  intros Hc Hs Hd. unfold mark_initial.
  cbn [bin_status set_bin_status point_counts sf_stds].
  repeat (rewrite lookup_zip_with; rewrite ?Hc, ?Hs, ?Hd; cbn [mbind option_bind]).
  reflexivity.
Qed.

Lemma mark_initial_status eps n st :
  shaped n st → length (sf_stds st) = n →
  length (bin_status (mark_initial eps st)) = n ∧
  ∀ k c, point_counts st !! k = Some c → (c <= 10)%Z →
         bin_status (mark_initial eps st) !! k = Some true.
Proof.
  intros (_ & _ & _ & Hpc & Hbs & _) Hstd. split.
  - unfold mark_initial. simpl.
    repeat first [rewrite length_zip_with | rewrite length_zip]. lia.
  - intros k c Hk Hc.
    assert (k < n)%nat as Hlt by (apply lookup_lt_Some in Hk; lia).
    destruct (lookup_lt_is_Some_2 (bin_status st) k) as [s Hs]; [lia|].
    destruct (lookup_lt_is_Some_2 (sf_stds st) k) as [d Hd]; [lia|].
    rewrite (mark_initial_lookup eps st k c s d Hk Hs Hd). simpl.
    rewrite bool_decide_eq_true_2 by done. by destruct s.
Qed.

Lemma foldM_invariant {RNG A S} (P : S → Prop) (f : A → S → M RNG S) (l : list A)
    (s : S) w s' w' :
  (∀ a s w s' w', P s → f a s w = Ok (s', w') → P s') →
  P s → foldM f l s w = Ok (s', w') → P s'.
Proof.
  intros Hf. revert s w. induction l as [|a l IH]; intros s w Hs; simpl.
  - intros [E _]%mret_Ok. by rewrite E.
  - intros (s1 & w1 & H1 & Hrest)%M_bind_Ok. eapply IH; [|exact Hrest]. eauto.
Qed.

Lemma lift_Ok' {RNG A} (r : res A) (w : world RNG) a w' :
  lift r w = Ok (a, w') → r = Ok a ∧ w' = w.
Proof. unfold lift. destruct r; [|done|done]. by intros [= -> ->]. Qed.

Lemma ready_after_sampling eps n initial st :
  bin_bootstraps st = replicate n initial → shaped n st →
  ready n initial (mark_initial eps (recalculate st)).
Proof.
  intros Hbb Hsh.
  destruct (recalculate_fields st) as (E1 & E2 & E3 & E4 & E5 & E6 & Hcur).
  assert (shaped n (recalculate st)) as Hsh'.
  { destruct Hsh as (?&?&?&?&?&?). unfold shaped. by rewrite E1, E2, E3, E4, E5, E6. }
  assert (length (sf_stds (recalculate st)) = n) as Hstd.
  { destruct Hcur as [_ ->]. by apply calculate_bin_statistics_length. }
  destruct (mark_initial_fields eps (recalculate st)) as (F1 & F2 & F3 & F4 & F5 & F6 & F7).
  destruct (mark_initial_status eps n (recalculate st) Hsh' Hstd) as [Hlen Hflag].
  split; [by rewrite F5, E6|]. split; [|split].
  - destruct Hsh' as (?&?&?&?&?&?). unfold shaped. by rewrite F1, F2, F3, F4, F5.
  - destruct Hcur as [Hm Hs]. unfold stats_current, calculate_bin_statistics in *.
    by rewrite F1, F2, F3, F6, F7.
  - intros k c Hk Hc. apply (Hflag k c); [|done]. by rewrite <- F4.
Qed.

Lemma sampled_shaped add n st st' : sampled add st st' → shaped n st → shaped n st'.
Proof.
  intros (E1 & E2 & L1 & L2 & L3 & L4 & _) (?&?&?&?&?&?). unfold shaped.
  by rewrite E1, E2, L1, L2, L3, L4.
Qed.

Section GridEngine.

Context {RNG : Type}.
Variable sampler : Z → nat → M RNG Batches.
Variables bins_x bins_y : list R.
Variable spacing_values : list Z.
Variables initial_nbootstrap max_nbootstrap step_nbootstrap : Z.
Variable convergence_eps : R.

Lemma grid_initial_phase_ready w st0 w0 :
  Grid.initial_phase sampler bins_x bins_y spacing_values initial_nbootstrap
                     convergence_eps w = Ok (st0, w0) →
  ready (Grid.n_bins bins_x bins_y) initial_nbootstrap st0.
Proof.
  unfold Grid.initial_phase.
  intros (init & w1 & _ & (st & w2 & Hf & [-> _]%mret_Ok)%M_bind_Ok)%M_bind_Ok.
  apply (foldM_invariant
           (λ st, bin_bootstraps st = replicate (Grid.n_bins bins_x bins_y) initial_nbootstrap
                  ∧ shaped (Grid.n_bins bins_x bins_y) st)) in Hf as [Hbb Hsh].
  - by apply ready_after_sampling.
  - intros sp st1 w3 st2 w4 [Hbb Hsh] Hp. apply grid_process_sampled in Hp.
    split; [|by eapply sampled_shaped]. destruct Hp as [-> _]. done.
  - split; [done|]. unfold shaped, Grid.initial_state. simpl.
    by rewrite !length_replicate.
Qed.

End GridEngine.

Section IsoEngine.

Context {RNG : Type}.
Variable sampler : Z → nat → M RNG Batches.
Variable arctan2 : R → R → R.
Variable r_bins : list R.
Variable n_bins_theta : nat.
Variable spacing_values : list Z.
Variables initial_nbootstrap max_nbootstrap step_nbootstrap : Z.
Variable convergence_eps : R.

Lemma iso_initial_phase_ready w st0 w0 :
  Iso.initial_phase sampler arctan2 r_bins n_bins_theta spacing_values initial_nbootstrap
                    convergence_eps w = Ok (st0, w0) →
  ready (Iso.n_bins_r r_bins) initial_nbootstrap st0.
Proof.
  unfold Iso.initial_phase.
  intros (init & w1 & _ & (st & w2 & Hf & [-> _]%mret_Ok)%M_bind_Ok)%M_bind_Ok.
  apply (foldM_invariant
           (λ st, bin_bootstraps st = replicate (Iso.n_bins_r r_bins) initial_nbootstrap
                  ∧ shaped (Iso.n_bins_r r_bins) st)) in Hf as [Hbb Hsh].
  - by apply ready_after_sampling.
  - intros sp st1 w3 st2 w4 [Hbb Hsh] Hp. apply iso_process_sampled in Hp.
    split; [|by eapply sampled_shaped]. destruct Hp as [-> _]. done.
  - split; [done|]. unfold shaped, Iso.initial_state. simpl.
    by rewrite !length_replicate.
Qed.

End IsoEngine.

(** ** Budget and flags across the whole run *)

Lemma bootstrap_steps_nonneg (step_nbootstrap : Z) (bin_density : list R) :
  (0 <= step_nbootstrap)%Z →
  Forall (λ s, 0 <= s)%Z (calculate_bootstrap_steps step_nbootstrap bin_density).
Proof.
  intros Hs. unfold calculate_bootstrap_steps. apply Forall_fmap, Forall_forall.
  intros d _. simpl. lia.
Qed.

Lemma ready_within n initial max_n steps st :
  ready n initial st → within_budget max_n steps initial st.
Proof.
  intros (Hbb & _) k b Hb. rewrite Hbb in Hb. apply lookup_replicate in Hb as [-> _]. lia.
Qed.

Lemma flagged_not_unconverged max_n st k :
  bin_status st !! k = Some true → is_unconverged max_n st k = false.
Proof.
  intros H. unfold is_unconverged. rewrite H.
  by destruct (point_counts st !! k), (bin_bootstraps st !! k).
Qed.

Lemma stats_current_mean st k total weight :
  stats_current st → sf_totals st !! k = Some total → weight_totals st !! k = Some weight →
  sf_means st !! k = Some (bin_mean total weight).
Proof.
  intros [-> _] Ht Hw. unfold calculate_bin_statistics. simpl.
  by rewrite lookup_zip_with, Ht, Hw.
Qed.

Section Engines.

Context {RNG : Type}.
Variable sampler : Z → nat → M RNG Batches.
Variables bins_x bins_y : list R.
Variable arctan2 : R → R → R.
Variable z_score : R.
Variable r_bins : list R.
Variable n_bins_theta : nat.
Variable spacing_values : list Z.
Variables initial_nbootstrap max_nbootstrap step_nbootstrap : Z.
Variable convergence_eps : R.

#[local] Abbreviation grid_process := (Grid.process_spacing_data sampler bins_x bins_y).
#[local] Abbreviation iso_process :=
  (Iso.process_spacing_data sampler arctan2 r_bins n_bins_theta).
#[local] Abbreviation grid_initial :=
  (Grid.initial_phase sampler bins_x bins_y spacing_values initial_nbootstrap convergence_eps).
#[local] Abbreviation iso_initial :=
  (Iso.initial_phase sampler arctan2 r_bins n_bins_theta spacing_values initial_nbootstrap
                     convergence_eps).
#[local] Abbreviation grid_adaptive :=
  (Grid.adaptive sampler bins_x bins_y spacing_values initial_nbootstrap max_nbootstrap
                 step_nbootstrap convergence_eps).
#[local] Abbreviation iso_adaptive :=
  (Iso.adaptive sampler arctan2 z_score r_bins n_bins_theta spacing_values
                initial_nbootstrap max_nbootstrap step_nbootstrap convergence_eps).
#[local] Abbreviation steps_of density := (calculate_bootstrap_steps step_nbootstrap density).
#[local] Abbreviation grid_round density :=
  (round grid_process spacing_values max_nbootstrap convergence_eps density (steps_of density)).
#[local] Abbreviation iso_round density :=
  (round iso_process spacing_values max_nbootstrap convergence_eps density (steps_of density)).
#[local] Abbreviation grid_loop density :=
  (refinement_loop grid_process spacing_values max_nbootstrap convergence_eps density
                   (steps_of density)).
#[local] Abbreviation iso_loop density :=
  (refinement_loop iso_process spacing_values max_nbootstrap convergence_eps density
                   (steps_of density)).

Lemma grid_process_false sp n st w st' w' :
  grid_process sp n false st w = Ok (st', w') → sampled false st st'.
Proof. apply grid_process_sampled. Qed.

Lemma iso_process_false sp n st w st' w' :
  iso_process sp n false st w = Ok (st', w') → sampled false st st'.
Proof. apply iso_process_sampled. Qed.

Lemma grid_adaptive_inv fuel w out w' :
  grid_adaptive fuel w = Ok (out, w') →
  ∃ st0 w0 st,
    grid_initial w = Ok (st0, w0) ∧
    grid_loop (Grid.bin_density_of bins_x bins_y st0) fuel st0 w0 = Ok (st, w') ∧
    out = Binned (sf_means st) (sf_stds st) (bin_bootstraps st)
                 (Grid.bin_density_of bins_x bins_y st0) (point_counts st) (bin_status st).
Proof.
  unfold Grid.adaptive.
  intros (st0 & w0 & Hi & (st & w1 & Hl & [-> <-]%mret_Ok)%M_bind_Ok)%M_bind_Ok.
  eauto 10.
Qed.

Lemma iso_adaptive_inv fuel w out w' :
  iso_adaptive fuel w = Ok (out, w') →
  ∃ st0 w0 st,
    iso_initial w = Ok (st0, w0) ∧
    iso_loop (Iso.bin_density_of r_bins st0) fuel st0 w0 = Ok (st, w') ∧
    iso_sf out = sf_means st ∧ iso_std out = sf_stds st ∧
    iso_n_bootstrap out = Some (bin_bootstraps st) ∧
    iso_bin_density out = Some (Iso.bin_density_of r_bins st0) ∧
    iso_point_counts out = point_counts st ∧ iso_converged out = Some (bin_status st) ∧
    iso_ci_upper out = (Iso.confidence_intervals z_score st).*1 ∧
    iso_ci_lower out = (Iso.confidence_intervals z_score st).*2.
Proof.
  unfold Iso.adaptive.
  intros (st0 & w0 & Hi & (st & w1 & Hl & [-> <-]%mret_Ok)%M_bind_Ok)%M_bind_Ok.
  exists st0, w0, st. simpl. eauto 12.
Qed.


#[local] Abbreviation low_count := (low_count_bin max_nbootstrap initial_nbootstrap).

Lemma low_count_spec n st0 st k c :
  ready n initial_nbootstrap st0 → flags_kept st0 st → stats_current st →
  point_counts st0 !! k = Some c → (c <= 10)%Z → low_count st0 st k c.
Proof.
  intros (Hbb & Hsh & _ & Hflag) [Hpc Hkept] Hcur Hk Hc.
  pose proof (Hflag k c Hk Hc) as Hs. destruct (Hkept k Hs) as [Eb Hs'].
  split; [done|]. split; [by apply flagged_not_unconverged|]. split; [done|].
  split; [|split; [by rewrite Hpc|]].
  - rewrite Eb, Hbb. apply lookup_replicate. split; [done|].
    apply lookup_lt_Some in Hk. destruct Hsh as (_&_&_&Hl&_). lia.
  - intros total weight. by apply stats_current_mean.
Qed.

(** C7, as amended: in both engines a bin that ends the initial phase
    with at most 10 points is flagged as converged, is not among the
    unconverged bins, and at the end of the loop is still flagged, has the
    budget [initial_nbootstrap] and the same point count; its mean is
    [sf_totals / weight_totals] where [weight_totals > 0], like that of
    every other bin, and NaN only where no batch contributed.  A flagged
    bin is not in the bin list of a round and keeps flag and budget. *)
Theorem low_count_bins_converged :
  (∀ fuel w st0 w0 st w' k c,
     grid_initial w = Ok (st0, w0) →
     grid_loop (Grid.bin_density_of bins_x bins_y st0) fuel st0 w0 = Ok (st, w') →
     point_counts st0 !! k = Some c → (c <= 10)%Z → low_count st0 st k c) ∧
  (∀ fuel w st0 w0 st w' k c,
     iso_initial w = Ok (st0, w0) →
     iso_loop (Iso.bin_density_of r_bins st0) fuel st0 w0 = Ok (st, w') →
     point_counts st0 !! k = Some c → (c <= 10)%Z → low_count st0 st k c) ∧
  (∀ density st w st' w' k,
     bin_status st !! k = Some true →
     ((grid_round density st w = Ok (st', w')) ∨ (iso_round density st w = Ok (st', w'))) →
     (k ∉ bin_list max_nbootstrap density st) ∧
     bin_status st' !! k = Some true ∧ bin_bootstraps st' !! k = bin_bootstraps st !! k).
Proof.
  split; [|split].
  - intros fuel w st0 w0 st w' k c Hi Hl Hk Hc.
    apply grid_initial_phase_ready in Hi.
    pose proof (loop_stats _ _ _ _ _ _ _ _ _ _ _ Hl (proj1 (proj2 (proj2 Hi)))) as Hcur.
    apply (loop_flags _ grid_process_false) in Hl as [Hf _].
    by eapply low_count_spec.
  - intros fuel w st0 w0 st w' k c Hi Hl Hk Hc.
    apply iso_initial_phase_ready in Hi.
    pose proof (loop_stats _ _ _ _ _ _ _ _ _ _ _ Hl (proj1 (proj2 (proj2 Hi)))) as Hcur.
    apply (loop_flags _ iso_process_false) in Hl as [Hf _].
    by eapply low_count_spec.
  - intros density st w st' w' k Hs Hr. split.
    + rewrite elem_of_bin_list, (flagged_not_unconverged _ _ _ Hs). done.
    + destruct Hr as [Hr|Hr].
      * apply (round_flags _ grid_process_false) in Hr as [_ Hk].
        destruct (Hk k Hs). done.
      * apply (round_flags _ iso_process_false) in Hr as [_ Hk].
        destruct (Hk k Hs). done.
Qed.

End Engines.

(* ------------------------------------------------------------------ *)
(** * A single-bin run of the grid engine *)

Lemma filter_le_one_bin (v : R) :
  (0 <= v < 10)%R → filter (λ e, e <= v)%R one_bin = [0%R].
Proof.
  intros Hv. unfold one_bin.
  rewrite filter_cons_True by lra. rewrite filter_cons_False by lra. done.
Qed.

Lemma bin_index_one_bin (v : R) : (0 <= v < 10)%R → bin_index v one_bin = 0%Z.
Proof.
  intros Hv. unfold bin_index, digitize. rewrite one_bin_increasing.
  rewrite filter_le_one_bin by done. done.
Qed.

Lemma bin_id_of_one_bin (s : R) : Grid.bin_id_of one_bin one_bin (s, 1%R, 1%R) = 0%Z.
Proof. unfold Grid.bin_id_of. rewrite bin_index_one_bin by lra. done. Qed.

Lemma valid_points_uniform (m : nat) (s : R) :
  valid_points (replicate m (Some s)) (replicate m (Some 1%R)) (replicate m (Some 1%R))
  = replicate m (s, 1%R, 1%R).
Proof.
  unfold valid_points. induction m as [|m IH]; [done|].
  simpl in *. by f_equal.
Qed.

Lemma remove_dups_replicate (m : nat) (z : Z) : remove_dups (replicate (S m) z) = [z].
Proof.
  induction m as [|m IH]; [done|].
  change (replicate (S (S m)) z) with (z :: replicate (S m) z).
  cbn [remove_dups].
  destruct (decide_rel elem_of z (replicate (S m) z)) as [_|Hn]; [exact IH|].
  exfalso. apply Hn. simpl. left.
Qed.

Lemma unique_replicate (m : nat) (z : Z) : unique (replicate (S m) z) = [z].
Proof. unfold unique. by rewrite remove_dups_replicate. Qed.

Lemma filter_replicate_all {A} (P : A → Prop) `{∀ x, Decision (P x)} (m : nat) (x : A) :
  P x → filter P (replicate m x) = replicate m x.
Proof.
  intros Hx. induction m as [|m IH]; [done|]. simpl.
  rewrite filter_cons_True by done. by rewrite IH.
Qed.

Lemma Rsum_replicate (m : nat) (x : R) : Rsum (replicate m x) = (INR m * x)%R.
Proof.
  induction m as [|m IH]; [simpl; unfold Rsum; simpl; ring|].
  change (Rsum (replicate (S m) x)) with (x + Rsum (replicate m x))%R.
  rewrite IH, S_INR. ring.
Qed.

Lemma Rsum_scaled' (m : nat) (s w : R) :
  Rsum (zip_with Rmult (replicate m s) (replicate m w)) = (INR m * (s * w))%R.
Proof.
  assert (zip_with Rmult (replicate m s) (replicate m w) = replicate m (s * w)%R) as ->.
  { induction m as [|m IH]; [done|]. simpl. by rewrite IH. }
  apply Rsum_replicate.
Qed.

Lemma accumulate_uniform (k m : nat) (s w : R) (st : BinState) :
  (0 < w)%R →
  accumulate k (replicate (S m) s) (replicate (S m) w) st = absorb_batch k s st.
Proof.
  intros Hw. unfold accumulate, absorb_batch.
  assert (0 < INR (S m))%R as Hm by (apply lt_0_INR; lia).
  rewrite Rsum_replicate. rewrite decide_True by nra.
  rewrite !fmap_replicate. rewrite !Rsum_scaled'.
  replace (INR (S m) * (s * (w / (INR (S m) * w))))%R with s by (field; lra).
  replace (INR (S m) * (s ^ 2 * (w / (INR (S m) * w))))%R with (s ^ 2)%R by (field; lra).
  done.
Qed.

Lemma grid_process_batch_uniform (add : bool) (sp : Z) (acc : BinState * list Z) (m : nat) (s : R) :
  grid_batch one_bin one_bin add sp acc (uniform_batch (S m) s)
  = (let '(st, added) := count_points add sp 0 (Z.of_nat (S m)) acc in
     (absorb_batch 0 s st, added)).
Proof.
  unfold grid_batch, uniform_batch. rewrite valid_points_uniform.
  cbn [replicate]. change ((s, 1%R, 1%R) :: replicate m (s, 1%R, 1%R))
    with (replicate (S m) (s, 1%R, 1%R)).
  rewrite fmap_replicate, bin_id_of_one_bin, unique_replicate.
  cbn [foldl]. unfold Grid.process_bin.
  change (Grid.n_bins_x one_bin) with 1%Z. change (Grid.n_bins_y one_bin) with 1%Z.
  change (0 `div` 1)%Z with 0%Z. change (0 `mod` 1)%Z with 0%Z.
  rewrite bool_decide_eq_false_2 by lia.
  change (Z.to_nat (0 * 1 + 0)) with 0%nat.
  rewrite filter_replicate_all by apply bin_id_of_one_bin.
  rewrite length_replicate, !fmap_replicate.
  destruct (count_points add sp 0 (Z.of_nat (S m)) acc) as [st added].
  cbn [fst snd]. rewrite accumulate_uniform; [done|].
  rewrite Rmult_1_l, Rabs_R1. lra.
Qed.

Lemma zip_unzip3 {A B C} (l : list (A * B * C)) : zip (zip (l.*1.*1) (l.*1.*2)) (l.*2) = l.
Proof. induction l as [|[[a b] c] l IH]; [done|]. simpl in *. by f_equal. Qed.

Lemma fold_uniform (add : bool) (sp : Z) (m : nat) (ss : list R) :
  ∀ st a t q wt c b s,
    single st t q wt c b s →
    ∃ st',
      foldl (grid_batch one_bin one_bin add sp) (st, [a]) (uniform_batch (S m) <$> ss)
      = (st', [if add then a + Z.of_nat (S m) * Z.of_nat (length ss) else a]%Z)
      ∧ single st' (t + Rsum ss) (q + Rsum ((λ v, v ^ 2)%R <$> ss))
               (wt + Z.of_nat (length ss))
               (if add then c + Z.of_nat (S m) * Z.of_nat (length ss) else c) b s
      ∧ bin_spacing_effectiveness st' = bin_spacing_effectiveness st.
Proof.
  induction ss as [|v ss IH]; intros st a t q wt c b s (Ht & Hq & Hw & Hc & Hb & Hs).
  - exists st. split; [|split; [|done]].
    + cbn [fmap list_fmap foldl length]. do 2 f_equal. destruct add; lia.
    + unfold single. rewrite Ht, Hq, Hw, Hc, Hb, Hs. cbn [fmap list_fmap length].
      unfold Rsum. cbn [foldr]. repeat split; f_equal; try lra; try lia.
      destruct add; lia.
  - rewrite fmap_cons. cbn [foldl]. rewrite grid_process_batch_uniform.
    destruct (count_points add sp 0 (Z.of_nat (S m)) (st, [a])) as [st1 a1] eqn:Ecp.
    assert (single (absorb_batch 0 v st1) (t + v) (q + v ^ 2) (wt + 1)
                   (if add then c + Z.of_nat (S m) else c) b s
            ∧ a1 = [if add then a + Z.of_nat (S m) else a]%Z
            ∧ bin_spacing_effectiveness (absorb_batch 0 v st1) = bin_spacing_effectiveness st)
      as (Hsingle & -> & Heff).
    { unfold count_points in Ecp. unfold single, absorb_batch.
      destruct add; injection Ecp as <- <-; cbn; rewrite ?Ht, ?Hq, ?Hw, ?Hc, ?Hb, ?Hs; done. }
    destruct (IH _ (if add then a + Z.of_nat (S m) else a)%Z _ _ _ _ _ _ Hsingle)
      as (st' & Hfold & Hst' & Heff').
    exists st'. split; [|split].
    + rewrite Hfold. do 2 f_equal. cbn [length]. destruct add; lia.
    + destruct Hst' as (Ht' & Hq' & Hw' & Hc' & Hb' & Hs').
      unfold single. rewrite Ht', Hq', Hw', Hc', Hb', Hs'. cbn [length].
      rewrite fmap_cons. unfold Rsum. cbn [foldr].
      repeat split; f_equal; try lra; try lia. destruct add; lia.
    + by rewrite Heff'.
Qed.
Lemma grid_process_alternating (m : nat) (sp n : Z) (add : bool) (st : BinState) (w : world unit)
    t q wt c b s :
  (0 < n)%Z →
  single st t q wt c b s →
  let ss := alternating <$> seq 0 (Z.to_nat n) in
  ∃ st',
    Grid.process_spacing_data (alternating_sampler (S m)) one_bin one_bin sp n add st w
    = Ok (st', w)
    ∧ single st' (t + Rsum ss) (q + Rsum ((λ v, v ^ 2)%R <$> ss)) (wt + n)
             (if add then c + Z.of_nat (S m) * n else c) b s
    ∧ bin_spacing_effectiveness st'
      = (if add
         then alter (λ eff, zip_with (λ e a, if decide (0 < a)%Z
                                             then (IZR a / IZR n)%R else e)
                                     eff [Z.of_nat (S m) * n]%Z)
                    sp (bin_spacing_effectiveness st)
         else bin_spacing_effectiveness st).
Proof.
  intros Hn Hst ss. rewrite grid_process_run by apply one_bin_monotone.
  rewrite decide_False by lia. unfold alternating_sampler.
  change (Grid.n_bins one_bin one_bin) with 1%nat. cbn [replicate].
  destruct (fold_uniform add sp m ss st 0%Z _ _ _ _ _ _ Hst) as (st' & Hfold & Hst' & Heff).
  unfold mbind, M_bind, mret, M_ret, unzip3. rewrite zip_unzip3.
  assert ((λ j, uniform_batch (S m) (alternating j)) <$> seq 0 (Z.to_nat n)
          = uniform_batch (S m) <$> ss) as ->
    by (unfold ss; by rewrite <- list_fmap_compose).
  rewrite Hfold.
  assert (length ss = Z.to_nat n) as Hlen by (unfold ss; by rewrite length_fmap, length_seq).
  rewrite Hlen, Z2Nat.id in * by lia.
  eexists. split; [reflexivity|].
  destruct Hst' as (Ht' & Hq' & Hw' & Hc' & Hb' & Hs').
  unfold update_effectiveness, single.
  rewrite (bool_decide_eq_true_2 (0 < n)%Z) by done.
  destruct add; cbn; rewrite ?Ht', ?Hq', ?Hw', ?Hc', ?Hb', ?Hs', ?Heff; done.
Qed.

Lemma trunc_between (x : R) (z : Z) :
  (0 <= z)%Z → (IZR z <= x < IZR (z + 1))%R → trunc x = z.
Proof.
  intros Hz [Hlo Hhi]. unfold trunc.
  assert (0 <= IZR z)%R by (apply IZR_le; lia).
  rewrite decide_True by lra. unfold Int_part.
  rewrite <- (up_tech x z); [lia|done|done].
Qed.

Lemma grid_bin_areas_one_bin : Grid.bin_areas one_bin one_bin = [((10 - 0) * (10 - 0))%R].
Proof. reflexivity. Qed.

Lemma density_one_bin (c : Z) :
  (0 < c)%Z → calculate_bin_density [c] (Grid.bin_areas one_bin one_bin) = [1%R].
Proof.
  intros Hc. rewrite grid_bin_areas_one_bin. unfold calculate_bin_density.
  cbn [foldr]. rewrite (decide_True (P := (0 < c + 0)%Z)) by lia.
  cbn [zip_with]. rewrite (decide_True (P := (0 < (10 - 0) * (10 - 0))%R)) by lra.
  assert (0 < IZR c)%R as Hc' by (by apply IZR_lt).
  replace (c + 0)%Z with c by lia.
  set (d := (IZR c / ((10 - 0) * (10 - 0) * IZR c))%R).
  assert (d = (1 / 100)%R) as Hd by (unfold d; field; lra).
  cbn [existsb foldr]. rewrite (bool_decide_eq_true_2 (0 < d)%R) by lra.
  cbn [orb]. rewrite Rmax_left by lra. rewrite decide_True by lra.
  cbn [fmap list_fmap]. f_equal. field. lra.
Qed.

Lemma bootstrap_steps_one_bin : calculate_bootstrap_steps 1 [1%R] = [3%Z].
Proof.
  unfold calculate_bootstrap_steps. cbn [fmap list_fmap].
  rewrite (trunc_between _ 3); [done|lia|]. change (3 + 1)%Z with 4%Z. lra.
Qed.

(** The statistics and markings that end the initial phase, on one bin. *)
Lemma mark_initial_single (eps : R) (st : BinState) t q wt c b :
  single st t q wt c b false →
  let st' := mark_initial eps (recalculate st) in
  single st' t q wt c b
         (bool_decide (c <= 10)%Z
          || isnan (bin_std t q wt) && negb (bool_decide (c <= 10)%Z)
          || fle (bin_std t q wt) (Some eps)
             && negb (bool_decide (c <= 10)%Z
                      || isnan (bin_std t q wt) && negb (bool_decide (c <= 10)%Z))
             && bool_decide (10 < c)%Z)
  ∧ sf_means st' = [bin_mean t wt] ∧ sf_stds st' = [bin_std t q wt]
  ∧ bin_spacing_effectiveness st' = bin_spacing_effectiveness st.
Proof.
  intros (Ht & Hq & Hw & Hc & Hb & Hs). unfold single, mark_initial, recalculate,
    calculate_bin_statistics.
  cbn. rewrite ?Ht, ?Hq, ?Hw, ?Hc, ?Hb, ?Hs. cbn. rewrite ?Ht, ?Hq, ?Hw, ?Hc, ?Hb, ?Hs. cbn.
  repeat split; try done. by rewrite !andb_true_r.
Qed.

Lemma std_above (eps v : R) :
  (0 <= eps)%R → (eps * eps < v)%R → fle (Some (sqrt (Rmax 0 v))) (Some eps) = false.
Proof.
  intros Heps Hv. unfold fle. apply bool_decide_eq_false_2. intros Hle.
  assert (sqrt (eps * eps) < sqrt (Rmax 0 v))%R as Hlt.
  { apply sqrt_lt_1_alt. split; [nra|]. rewrite Rmax_right by nra. done. }
  rewrite sqrt_square in Hlt by done. lra.
Qed.

Lemma Rsum_alternating_5 : Rsum (alternating <$> seq 0 (Z.to_nat 5)) = 2%R.
Proof. unfold Rsum, alternating. simpl. lra. Qed.

Lemma Rsum_sq_alternating_5 :
  Rsum ((λ v, v ^ 2)%R <$> (alternating <$> seq 0 (Z.to_nat 5))) = 2%R.
Proof. unfold Rsum, alternating. simpl. lra. Qed.

Lemma Rsum_alternating_3 : Rsum (alternating <$> seq 0 (Z.to_nat 3)) = 1%R.
Proof. unfold Rsum, alternating. simpl. lra. Qed.

Lemma Rsum_sq_alternating_3 :
  Rsum ((λ v, v ^ 2)%R <$> (alternating <$> seq 0 (Z.to_nat 3))) = 1%R.
Proof. unfold Rsum, alternating. simpl. lra. Qed.

Lemma grid_initial_state_single (spacing_values : list Z) (initial : Z) :
  single (Grid.initial_state one_bin one_bin spacing_values initial) 0 0 0 0 initial false.
Proof. by repeat split. Qed.

(** The initial phase of the one-bin run with one spacing: five batches. *)
Lemma initial_phase_one_spacing (m : nat) (eps : R) (w : world unit) :
  ∃ st,
    Grid.initial_phase (alternating_sampler (S m)) one_bin one_bin [1%Z] 5 eps w = Ok (st, w)
    ∧ single st 2 2 5 (Z.of_nat (S m) * 5)%Z 5
             (bool_decide (Z.of_nat (S m) * 5 <= 10)%Z
              || fle (bin_std 2 2 5) (Some eps) && bool_decide (10 < Z.of_nat (S m) * 5)%Z)
    ∧ sf_means st = [bin_mean 2 5] ∧ sf_stds st = [bin_std 2 2 5]
    ∧ bin_spacing_effectiveness st !! 1%Z = Some [(IZR (Z.of_nat (S m) * 5) / IZR 5)%R].
Proof.
  unfold Grid.initial_phase.
  rewrite (M_bind_run _ _ w 5%Z w) by reflexivity.
  cbn [foldM].
  destruct (grid_process_alternating m 1 5 true _ w _ _ _ _ _ _ ltac:(lia)
              (grid_initial_state_single [1%Z] 5)) as (st1 & Hrun & Hst1 & Heff1).
  cbv zeta in Hst1. rewrite Rsum_alternating_5, Rsum_sq_alternating_5 in Hst1.
  rewrite (M_bind_run _ _ w st1 w) by (by rewrite (M_bind_run _ _ w st1 w Hrun)).
  replace (0 + 2)%R with 2%R in Hst1 by lra.
  change (0 + 5)%Z with 5%Z in Hst1.
  replace (0 + Z.of_nat (S m) * 5)%Z with (Z.of_nat (S m) * 5)%Z in Hst1 by lia.
  destruct (mark_initial_single eps st1 _ _ _ _ _ Hst1) as (Hm & Hmeans & Hstds & Heff).
  eexists. split; [reflexivity|]. split; [|split; [done|split; [done|]]].
  - assert (isnan (bin_std 2 2 5) = false) as Hnan by done.
    rewrite Hnan in Hm. cbn [andb orb] in Hm. rewrite orb_false_r in Hm.
    destruct (bool_decide (Z.of_nat (S m) * 5 <= 10)%Z) eqn:E; cbn [negb andb orb] in *.
    + exact Hm.
    + by rewrite andb_true_r in Hm.
  - rewrite Heff, Heff1. rewrite lookup_alter. 
    change (bin_spacing_effectiveness (Grid.initial_state one_bin one_bin [1%Z] 5) !! 1%Z)
      with (Some [0%R]).
    cbn [fmap option_fmap option_map zip_with]. rewrite decide_True by lia. done.
Qed.

Lemma unconverged_single (max_n : Z) (st : BinState) t q wt c b s :
  single st t q wt c b s →
  unconverged max_n st
  = if negb s && bool_decide (10 < c)%Z && bool_decide (b < max_n)%Z then [0%nat] else [].
Proof.
  intros (_ & _ & _ & Hc & Hb & Hs). unfold unconverged. rewrite Hs. cbn [length seq].
  assert (is_unconverged max_n st 0
          = negb s && bool_decide (10 < c)%Z && bool_decide (b < max_n)%Z) as E
    by (unfold is_unconverged; by rewrite Hs, Hc, Hb).
  destruct (negb s && bool_decide (10 < c)%Z && bool_decide (b < max_n)%Z).
  - by rewrite filter_cons_True.
  - rewrite filter_cons_False; [done|]. by rewrite E.
Qed.

Lemma recalculate_single (st : BinState) t q wt c b s :
  single st t q wt c b s →
  single (recalculate st) t q wt c b s
  ∧ sf_means (recalculate st) = [bin_mean t wt]
  ∧ sf_stds (recalculate st) = [bin_std t q wt]
  ∧ bin_spacing_effectiveness (recalculate st) = bin_spacing_effectiveness st.
Proof.
  intros (Ht & Hq & Hw & Hc & Hb & Hs).
  unfold single, recalculate, calculate_bin_statistics. cbn.
  rewrite ?Ht, ?Hq, ?Hw, ?Hc, ?Hb, ?Hs. cbn. done.
Qed.

Lemma std_5_batches : fle (bin_std 2 2 5) (Some (1 / 10)%R) = false.
Proof.
  unfold bin_std. rewrite decide_True by lia. cbv zeta. apply std_above; lra.
Qed.

Lemma std_8_batches : fle (bin_std (2 + 1) (2 + 1) (5 + 3)) (Some (1 / 10)%R) = false.
Proof.
  unfold bin_std. rewrite decide_True by lia. cbv zeta. change (5 + 3)%Z with 8%Z.
  apply std_above; lra.
Qed.

(** One visit of the bin with the single spacing 1: the whole step of 3
    goes to that spacing, and the budget goes from 5 to 8. *)
Lemma visit_one_spacing (st : BinState) (w : world unit) (e : R) :
  single st 2 2 5 15 5 false →
  bin_spacing_effectiveness st !! 1%Z = Some [e] → (0 < e)%R →
  ∃ st',
    visit (Grid.process_spacing_data (alternating_sampler 3) one_bin one_bin)
          [1%Z] 6 (1 / 10) [3%Z] 0 st w = Ok (st', w)
    ∧ single st' (2 + 1) (2 + 1) (5 + 3) 15 8 true
    ∧ sf_means st' = [bin_mean (2 + 1) (5 + 3)]
    ∧ sf_stds st' = [bin_std (2 + 1) (2 + 1) (5 + 3)].
Proof.
  intros Hst Heff He. unfold visit.
  destruct Hst as (Ht & Hq & Hw & Hc & Hb & Hs). rewrite Hs. cbn [lookup list_lookup from_option Datatypes.id].
  assert (single st 2 2 5 15 5 false) as Hst by done.
  unfold sorted_spacings_of. cbn [fmap list_fmap]. rewrite Heff.
  cbn [mbind option_bind lookup list_lookup from_option Datatypes.id sort_desc foldl insert_desc snd fmap list_fmap].
  rewrite filter_cons_True by done. rewrite filter_nil.
  cbn [distribute]. rewrite decide_False by (cbn; lra).
  unfold Rsum. cbn [foldr]. rewrite (decide_True (P := (0 < e + 0)%R)) by lra.
  rewrite (trunc_between _ 3); [|lia|].
  2:{ replace (e / (e + 0))%R with 1%R by (field; lra). change (3 + 1)%Z with 4%Z. lra. }
  change (Z.min 3 3) with 3%Z.
  destruct (grid_process_alternating 2 1 3 false st w _ _ _ _ _ _ ltac:(lia) Hst)
    as (st1 & Hrun & Hst1 & Heff1).
  cbv zeta in Hst1. rewrite Rsum_alternating_3, Rsum_sq_alternating_3 in Hst1.
  rewrite (M_bind_run _ _ w (3%Z, st1) w).
  2:{ rewrite (M_bind_run _ _ w st1 w Hrun). reflexivity. }
  cbv zeta.
  set (st2 := set_bin_bootstraps (add_at 0 3 (bin_bootstraps st1)) st1).
  assert (single st2 (2 + 1) (2 + 1) (5 + 3) 15 8 false) as Hst2.
  { destruct Hst1 as (Ht1 & Hq1 & Hw1 & Hc1 & Hb1 & Hs1). unfold single, st2. cbn.
    rewrite ?Ht1, ?Hq1, ?Hw1, ?Hc1, ?Hb1, ?Hs1. repeat split; reflexivity. }
  destruct (recalculate_single st2 _ _ _ _ _ _ Hst2) as (Hst3 & Hmeans & Hstds & _).
  rewrite Hstds. cbn [lookup list_lookup from_option Datatypes.id]. rewrite std_8_batches.
  destruct Hst3 as (Ht3 & Hq3 & Hw3 & Hc3 & Hb3 & Hs3).
  rewrite Hb3. cbn [lookup list_lookup from_option Datatypes.id].
  rewrite bool_decide_eq_true_2 by lia.
  eexists. split; [reflexivity|]. unfold single, set_bin_status.
  cbn [sf_totals sf_sq_totals weight_totals point_counts bin_bootstraps bin_status
       sf_means sf_stds].
  rewrite ?Ht3, ?Hq3, ?Hw3, ?Hc3, ?Hb3, ?Hs3. rewrite ?Hmeans, ?Hstds.
  repeat split; reflexivity.
Qed.

(** The run with [initial_nbootstrap = 5], [max_nbootstrap = 6] and
    [step_nbootstrap = 1] on one bin of density 1: the bin enters the loop
    with budget 5, its step is [int(1 * (1 + 2 * 1)) = 3], and the one
    visit leaves the budget at 8. *)
Lemma one_spacing_run :
  Grid.adaptive (alternating_sampler 3) one_bin one_bin [1%Z] 5 6 1 (1 / 10) 1 (World () [])
  = Ok (Binned [bin_mean (2 + 1) (5 + 3)] [bin_std (2 + 1) (2 + 1) (5 + 3)]
               [8%Z] [1%R] [15%Z] [true], World () []).
Proof.
  unfold Grid.adaptive.
  destruct (initial_phase_one_spacing 2 (1 / 10) (World () []))
    as (st0 & Hrun & Hst0 & _ & _ & Heff).
  change (Z.of_nat 3 * 5)%Z with 15%Z in *.
  rewrite std_5_batches in Hst0.
  rewrite (bool_decide_eq_false_2 (15 <= 10)%Z) in Hst0 by lia. cbn [orb andb] in Hst0.
  rewrite (M_bind_run _ _ _ _ _ Hrun). cbv zeta. unfold Grid.bin_density_of.
  assert (point_counts st0 = [15%Z]) as Hc by apply Hst0.
  rewrite Hc, density_one_bin by lia. rewrite bootstrap_steps_one_bin.
  cbn [refinement_loop]. rewrite (unconverged_single 6 st0 _ _ _ _ _ _ Hst0).
  rewrite (bool_decide_eq_true_2 (10 < 15)%Z), (bool_decide_eq_true_2 (5 < 6)%Z) by lia.
  cbn [negb andb]. rewrite decide_False by done.
  unfold round, bin_list. rewrite (unconverged_single 6 st0 _ _ _ _ _ _ Hst0).
  rewrite (bool_decide_eq_true_2 (10 < 15)%Z), (bool_decide_eq_true_2 (5 < 6)%Z) by lia.
  cbn [negb andb sort_desc foldl insert_desc foldM].
  destruct (visit_one_spacing st0 (World () []) _ Hst0 Heff)
    as (st1 & Hvisit & Hst1 & Hmeans & Hstds).
  { apply Rdiv_lt_0_compat; lra. }
  unfold mbind, M_bind. rewrite Hvisit. unfold mret, M_ret. cbv beta iota.
  rewrite (unconverged_single 6 st1 _ _ _ _ _ _ Hst1). cbn [negb andb].
  rewrite decide_True by done.
  destruct Hst1 as (_ & _ & _ & Hc1 & Hb1 & Hs1).
  by rewrite Hmeans, Hstds, Hb1, Hc1, Hs1.
Qed.

(* ------------------------------------------------------------------ *)
(** * A visit that allocates nothing *)

(** When [int(step * proportion)] is 0 for every effective spacing, the
    [for sp_value, effectiveness in sorted_spacings] loop calls
    [process_spacing_data(sp_value, 0, False)] only, which returns at
    once, and leaves [total_additional] and [remaining_step] as they were. *)
Lemma distribute_starved {RNG} (process : Z → Z → bool → BinState → M RNG BinState)
    (step : Z) (total : R) (l : list (Z * R)) :
  (∀ sp st w, process sp 0%Z false st w = Ok (st, w)) →
  (0 < total)%R →
  Forall (λ p, (0 < p.2)%R → trunc (IZR step * (p.2 / total)) = 0%Z) l →
  ∀ total_additional remaining_step st w,
    (0 < remaining_step)%Z →
    distribute process l step total total_additional remaining_step st w
    = Ok ((total_additional, st), w).
Proof.
  intros Hp Htotal Hl. induction Hl as [|[sp e] l He _ IH]; intros ta rem st w Hrem.
  - reflexivity.
  - cbn [distribute]. destruct (decide (e <= 0)%R) as [|Hpos]; [by apply IH|].
    rewrite decide_True by done. cbn [snd] in He. rewrite He by lra.
    rewrite Z.min_l by lia.
    rewrite (M_bind_run _ _ w st w) by apply Hp.
    rewrite Z.add_0_r, Z.sub_0_r. rewrite decide_False by lia. by apply IH.
Qed.

Lemma grid_process_nothing {RNG} (sampler : Z → nat → M RNG Batches) bins_x bins_y sp add st w :
  Grid.process_spacing_data sampler bins_x bins_y sp 0 add st w = Ok (st, w).
Proof. unfold Grid.process_spacing_data. by rewrite decide_True by lia. Qed.

Lemma Rsum_perm (l1 l2 : list R) : l1 ≡ₚ l2 → Rsum l1 = Rsum l2.
Proof.
  unfold Rsum. induction 1 as [|x l1 l2 _ IH|x y l|l1 l2 l3 _ IH1 _ IH2]; cbn [foldr].
  - done.
  - by rewrite IH.
  - lra.
  - by rewrite IH1.
Qed.

Lemma std_20_batches : fle (bin_std 8 8 20) (Some (1 / 10)%R) = false.
Proof.
  unfold bin_std. rewrite decide_True by lia. cbv zeta. apply std_above; lra.
Qed.

(** The sampling of the initial phase on one bin: five batches per spacing,
    after which every spacing has the same effectiveness. *)
Lemma initial_sampling (m : nat) (w : world unit) (l : list Z) :
  ∀ st t q wt c b,
    single st t q wt c b false →
    (∀ sp, sp ∈ l → ∃ e, bin_spacing_effectiveness st !! sp = Some [e]) →
    ∃ st',
      foldM (λ sp st, Grid.process_spacing_data (alternating_sampler (S m)) one_bin one_bin
                        sp 5 true st) l st w = Ok (st', w)
      ∧ single st' (t + 2 * INR (length l)) (q + 2 * INR (length l))
               (wt + 5 * Z.of_nat (length l))
               (c + Z.of_nat (S m) * 5 * Z.of_nat (length l)) b false
      ∧ (∀ sp, sp ∈ l →
           bin_spacing_effectiveness st' !! sp
           = Some [(IZR (Z.of_nat (S m) * 5) / IZR 5)%R])
      ∧ (∀ sp, sp ∉ l →
           bin_spacing_effectiveness st' !! sp = bin_spacing_effectiveness st !! sp).
Proof.
  induction l as [|sp l IH]; intros st t q wt c b Hst Heff.
  - exists st. split; [done|]. split; [|split; [by intros sp ?%elem_of_nil|done]].
    destruct Hst as (Ht & Hq & Hw & Hc & Hb & Hs). unfold single.
    rewrite Ht, Hq, Hw, Hc, Hb, Hs. cbn [length INR].
    repeat split; f_equal; try lra; lia.
  - cbn [foldM].
    destruct (grid_process_alternating m sp 5 true st w _ _ _ _ _ _ ltac:(lia) Hst)
      as (st1 & Hrun & Hst1 & Heff1).
    cbv zeta in Hst1. rewrite Rsum_alternating_5, Rsum_sq_alternating_5 in Hst1.
    rewrite (M_bind_run _ _ w st1 w Hrun).
    destruct (IH st1 _ _ _ _ _ Hst1) as (st' & Hfold & Hst' & Hin & Hout).
    { intros sp' Hsp'. destruct (Heff sp' ltac:(by right)) as [e He].
      rewrite Heff1. destruct (decide (sp = sp')) as [->|Hne].
      - rewrite lookup_alter_eq, He. cbn [fmap option_fmap option_map zip_with].
        eexists; reflexivity.
      - rewrite lookup_alter_ne by done. eauto. }
    exists st'. split; [done|]. split; [|split].
    + destruct Hst' as (Ht & Hq & Hw & Hc & Hb & Hs). unfold single.
      rewrite Ht, Hq, Hw, Hc, Hb, Hs. change (length (sp :: l)) with (S (length l)).
      rewrite S_INR. repeat split; f_equal; try lra; lia.
    + intros sp' Hsp'. destruct (decide (sp' ∈ l)) as [|Hnotin]; [by apply Hin|].
      apply elem_of_cons in Hsp' as [->|]; [|done].
      rewrite (Hout _ Hnotin), Heff1, lookup_alter_eq.
      destruct (Heff sp ltac:(by left)) as [e ->].
      cbn [fmap option_fmap option_map zip_with]. by rewrite decide_True by lia.
    + intros sp' Hsp'. apply not_elem_of_cons in Hsp' as [Hne Hnotin].
      rewrite (Hout _ Hnotin), Heff1. by rewrite lookup_alter_ne.
Qed.

Lemma grid_initial_effectiveness (spacing_values : list Z) (initial : Z) (sp : Z) :
  sp ∈ spacing_values →
  bin_spacing_effectiveness (Grid.initial_state one_bin one_bin spacing_values initial) !! sp
  = Some [0%R].
Proof.
  intros Hsp. cbn [Grid.initial_state bin_spacing_effectiveness].
  induction spacing_values as [|sp' l IH]; [by apply elem_of_nil in Hsp|].
  cbn [fmap list_fmap list_to_map foldr fst snd curry].
  destruct (decide (sp' = sp)) as [->|Hne].
  - by rewrite lookup_insert_eq.
  - rewrite lookup_insert_ne by done. apply IH.
    apply elem_of_cons in Hsp as [->|]; done.
Qed.

(** A visit of a starved bin: the step of 3 is split among four equally
    effective spacings, [int(3 * 0.25) = 0] for each of them, so nothing is
    sampled and budget, statistics and flag stay as they are. *)
Lemma visit_starved (st : BinState) (w : world unit) :
  starved st →
  ∃ st',
    visit (Grid.process_spacing_data (alternating_sampler 3) one_bin one_bin)
          [1; 2; 3; 4]%Z 100 (1 / 10) [3%Z] 0 st w = Ok (st', w)
    ∧ starved st'.
Proof.
  intros [Hst Heff]. unfold visit.
  destruct Hst as (Ht & Hq & Hw & Hc & Hb & Hs). rewrite Hs.
  cbn [lookup list_lookup from_option Datatypes.id].
  unfold sorted_spacings_of. cbn [fmap list_fmap].
  rewrite !Heff by (repeat first [by left | right]).
  cbn [mbind option_bind lookup list_lookup from_option Datatypes.id sort_desc foldl
       insert_desc snd].
  repeat (rewrite (decide_False (P := (3 < 3)%R)) by lra; cbn [insert_desc snd]).
  cbn [fmap list_fmap snd]. rewrite !filter_cons_True by lra. rewrite filter_nil.
  unfold Rsum. cbn [foldr].
  rewrite (M_bind_run _ _ w (0%Z, st) w).
  2:{ apply distribute_starved; [intros; apply grid_process_nothing|lra| |lia].
      repeat (apply Forall_cons_2;
              [intros _; cbn [snd]; apply trunc_between;
               [lia|change (0 + 1)%Z with 1%Z; lra]|]).
      apply Forall_nil_2. }
  cbv zeta.
  set (st2 := set_bin_bootstraps (add_at 0 0 (bin_bootstraps st)) st).
  assert (single st2 8 8 20 60 20 false) as Hst2.
  { unfold single, st2. cbn. rewrite ?Ht, ?Hq, ?Hw, ?Hc, ?Hb, ?Hs. repeat split; reflexivity. }
  destruct (recalculate_single st2 _ _ _ _ _ _ Hst2) as (Hst3 & Hmeans & Hstds & Heff3).
  rewrite Hstds. cbn [lookup list_lookup from_option Datatypes.id]. rewrite std_20_batches.
  assert (bin_bootstraps (recalculate st2) = [20%Z]) as Hb3 by apply Hst3.
  rewrite Hb3. cbn [lookup list_lookup from_option Datatypes.id].
  rewrite bool_decide_eq_false_2 by lia.
  eexists. split; [reflexivity|]. split; [done|].
  intros sp Hsp. rewrite Heff3. by apply Heff.
Qed.

(** The convergence loop never leaves a starved state. *)
Lemma loop_starved (density : list R) (w : world unit) (fuel : nat) :
  ∀ st, starved st →
    refinement_loop (Grid.process_spacing_data (alternating_sampler 3) one_bin one_bin)
                    [1; 2; 3; 4]%Z 100 (1 / 10) density [3%Z] fuel st w = Fuel.
Proof.
  induction fuel as [|fuel IH]; intros st Hst.
  - cbn [refinement_loop]. rewrite (unconverged_single 100 st _ _ _ _ _ _ (proj1 Hst)).
    rewrite !bool_decide_eq_true_2 by lia. cbn [negb andb]. by rewrite decide_False.
  - cbn [refinement_loop]. rewrite (unconverged_single 100 st _ _ _ _ _ _ (proj1 Hst)).
    rewrite !bool_decide_eq_true_2 by lia. cbn [negb andb]. rewrite decide_False by done.
    unfold round, bin_list. rewrite (unconverged_single 100 st _ _ _ _ _ _ (proj1 Hst)).
    rewrite !bool_decide_eq_true_2 by lia.
    cbn [negb andb sort_desc foldl insert_desc foldM].
    destruct (visit_starved st w Hst) as (st' & Hvisit & Hst').
    unfold mbind, M_bind. rewrite Hvisit. unfold mret, M_ret. cbv beta iota.
    by apply IH.
Qed.

Lemma initial_phase_four_spacings (w : world unit) :
  ∃ st0,
    Grid.initial_phase (alternating_sampler 3) one_bin one_bin [1; 2; 3; 4]%Z 20 (1 / 10) w
    = Ok (st0, w)
    ∧ starved st0.
Proof.
  unfold Grid.initial_phase.
  rewrite (M_bind_run _ _ w 5%Z w) by reflexivity.
  destruct (initial_sampling 2 w [1; 2; 3; 4]%Z _ _ _ _ _ _
              (grid_initial_state_single [1; 2; 3; 4]%Z 20))
    as (st1 & Hrun & Hst1 & Hin & _).
  { intros sp Hsp. exists 0%R. by apply grid_initial_effectiveness. }
  rewrite (M_bind_run _ _ w st1 w Hrun).
  assert ((0 + 2 * INR (length [1; 2; 3; 4]%Z))%R = 8%R) as E by (simpl; lra).
  rewrite E in Hst1.
  change (0 + 5 * Z.of_nat (length [1; 2; 3; 4]%Z))%Z with 20%Z in Hst1.
  change (0 + Z.of_nat 3 * 5 * Z.of_nat (length [1; 2; 3; 4]%Z))%Z with 60%Z in Hst1.
  destruct (mark_initial_single (1 / 10) st1 _ _ _ _ _ Hst1) as (Hm & _ & _ & Heff).
  rewrite std_20_batches in Hm.
  rewrite (bool_decide_eq_false_2 (60 <= 10)%Z) in Hm by lia.
  assert (isnan (bin_std 8 8 20) = false) as Hnan by done.
  rewrite Hnan in Hm. cbn [negb andb orb] in Hm.
  eexists. split; [reflexivity|]. split; [exact Hm|].
  intros sp Hsp. rewrite Heff, (Hin _ Hsp). do 2 f_equal.
  change (Z.of_nat 3 * 5)%Z with 15%Z. lra.
Qed.

(** C2: on one bin with four equally effective spacings and
    [step_nbootstrap = 1], the bin's step is 3 and [int(3 * 0.25) = 0]
    bootstraps go to each spacing.  A round visits the unconverged bin and
    leaves its budget at 20, below [max_nbootstrap = 100], and the bin
    unconverged; the [while True] loop therefore never ends: the run
    exhausts every fuel. *)
Theorem refinement_loop_starves :
  (∃ st0 st1,
     Grid.initial_phase (alternating_sampler 3) one_bin one_bin [1; 2; 3; 4]%Z 20 (1 / 10)
                        (World () []) = Ok (st0, World () [])
     ∧ bin_bootstraps st0 = [20%Z] ∧ unconverged 100 st0 = [0%nat]
     ∧ round (Grid.process_spacing_data (alternating_sampler 3) one_bin one_bin)
             [1; 2; 3; 4]%Z 100 (1 / 10) (Grid.bin_density_of one_bin one_bin st0)
             (calculate_bootstrap_steps 1 (Grid.bin_density_of one_bin one_bin st0))
             st0 (World () []) = Ok (st1, World () [])
     ∧ bin_bootstraps st1 = [20%Z] ∧ unconverged 100 st1 = [0%nat])
  ∧ ∀ fuel,
      Grid.adaptive (alternating_sampler 3) one_bin one_bin [1; 2; 3; 4]%Z 20 100 1 (1 / 10)
                    fuel (World () []) = Fuel.
Proof.
  destruct (initial_phase_four_spacings (World () [])) as (st0 & Hrun & Hst0).
  assert (Grid.bin_density_of one_bin one_bin st0 = [1%R]) as Hd.
  { unfold Grid.bin_density_of. destruct Hst0 as [(_ & _ & _ & -> & _) _].
    by apply density_one_bin. }
  assert (∀ st, starved st → bin_bootstraps st = [20%Z] ∧ unconverged 100 st = [0%nat]) as Hu.
  { intros st Hst. split; [apply Hst|].
    rewrite (unconverged_single 100 st _ _ _ _ _ _ (proj1 Hst)).
    by rewrite !bool_decide_eq_true_2 by lia. }
  split.
  - destruct (visit_starved st0 (World () []) Hst0) as (st1 & Hvisit & Hst1).
    exists st0, st1. split; [done|]. destruct (Hu _ Hst0) as [Hb0 Hu0].
    split; [done|]. split; [done|]. split; [|by apply Hu].
    rewrite Hd, bootstrap_steps_one_bin. unfold round, bin_list. rewrite Hu0.
    cbn [sort_desc foldl insert_desc foldM].
    unfold mbind, M_bind. by rewrite Hvisit.
  - intros fuel. unfold Grid.adaptive. rewrite (M_bind_run _ _ _ _ _ Hrun). cbv zeta.
    rewrite Hd, bootstrap_steps_one_bin.
    unfold mbind, M_bind. by rewrite loop_starved.
Qed.

(** The run with one point per batch: the bin ends the initial phase with
    5 points, is flagged, and the loop has nothing to do. *)
Lemma low_count_initial (w : world unit) :
  ∃ st0,
    Grid.initial_phase (alternating_sampler 1) one_bin one_bin [1%Z] 5 (1 / 10) w = Ok (st0, w)
    ∧ single st0 2 2 5 5 5 true
    ∧ sf_means st0 = [bin_mean 2 5] ∧ sf_stds st0 = [bin_std 2 2 5].
Proof.
  destruct (initial_phase_one_spacing 0 (1 / 10) w) as (st0 & Hrun & Hst0 & Hm & Hs & _).
  change (Z.of_nat 1 * 5)%Z with 5%Z in *.
  rewrite (bool_decide_eq_true_2 (5 <= 10)%Z) in Hst0 by lia. cbn [orb] in Hst0.
  by exists st0.
Qed.

Lemma low_count_loop (st0 : BinState) (w : world unit) density steps fuel :
  single st0 2 2 5 5 5 true →
  refinement_loop (Grid.process_spacing_data (alternating_sampler 1) one_bin one_bin)
                  [1%Z] 6 (1 / 10) density steps fuel st0 w = Ok (st0, w).
Proof.
  intros Hst0. destruct fuel; cbn [refinement_loop];
    rewrite (unconverged_single 6 st0 _ _ _ _ _ _ Hst0); cbn [negb andb];
    by rewrite decide_True by done.
Qed.

Lemma low_count_run :
  Grid.adaptive (alternating_sampler 1) one_bin one_bin [1%Z] 5 6 1 (1 / 10) 0 (World () [])
  = Ok (Binned [Some (2 / 5)%R] [bin_std 2 2 5] [5%Z] [1%R] [5%Z] [true], World () []).
Proof.
  unfold Grid.adaptive.
  destruct (low_count_initial (World () [])) as (st0 & Hrun & Hst0 & Hm & Hs).
  rewrite (M_bind_run _ _ _ _ _ Hrun). cbv zeta.
  unfold mbind, M_bind. rewrite low_count_loop by done. unfold mret, M_ret.
  unfold Grid.bin_density_of.
  destruct Hst0 as (_ & _ & _ & Hc & Hb & Hst). rewrite Hm, Hs, Hc, Hb, Hst.
  rewrite density_one_bin by lia. unfold bin_mean. by rewrite decide_True by lia.
Qed.


(** C7, counterexample: a bin that ends the initial phase with 5 points is
    flagged as converged, and the mean in the output is the number 2/5, not
    NaN. *)
Lemma low_count_mean_is_reported :
  Grid.adaptive (alternating_sampler 1) one_bin one_bin [1%Z] 5 6 1 (1 / 10) 0 (World () [])
  = Ok (Binned [Some (2 / 5)%R] [bin_std 2 2 5] [5%Z] [1%R] [5%Z] [true], World () [])
  ∧ (5 <= 10)%Z ∧ Some (2 / 5)%R ≠ NaN.
Proof. split; [apply low_count_run|]. split; [lia|done]. Qed.

(* ------------------------------------------------------------------ *)
(** * Confidence intervals of the isotropic engine *)

(** What the bootstrapping branch of [get_isotropic_sf_2d] reports is read
    off the final state of the loop, whose statistics are current. *)
Lemma iso_adaptive_reports {RNG} (sampler : Z → nat → M RNG Batches) arctan2 z_score r_bins
    n_bins_theta spacing_values initial_nbootstrap max_nbootstrap step_nbootstrap
    convergence_eps fuel w out w' :
  Iso.adaptive sampler arctan2 z_score r_bins n_bins_theta spacing_values initial_nbootstrap
               max_nbootstrap step_nbootstrap convergence_eps fuel w = Ok (out, w') →
  ∃ st, stats_current st ∧
        iso_sf out = sf_means st ∧ iso_std out = sf_stds st ∧
        iso_ci_upper out = (Iso.confidence_intervals z_score st).*1 ∧
        iso_ci_lower out = (Iso.confidence_intervals z_score st).*2.
Proof.
  intros Hrun.
  apply iso_adaptive_inv in Hrun
    as (st0 & w0 & st & Hi & Hl & Hsf & Hstd & _ & _ & _ & _ & Hu & Hlo).
  apply iso_initial_phase_ready in Hi as (_ & _ & Hcur & _).
  exists st. split; [|done].
  eapply loop_stats; [exact Hl|exact Hcur].
Qed.

(** C8: in the bootstrapping branch a bin with [weight_totals = 1] has the
    mean [sf_totals / 1], the standard deviation NaN and, since the bounds
    are [sf_means ± z_score * sf_stds / sqrt(weight_totals)] wherever
    [weight_totals > 0], both confidence bounds NaN: the interval is not
    collapsed to the mean.  The branch without bootstrapping does collapse
    the interval of a bin with one point to its mean. *)
Theorem single_batch_interval (z_score : R) (st : BinState) (k : nat) (total sq_total : R) :
  stats_current st →
  sf_totals st !! k = Some total →
  sf_sq_totals st !! k = Some sq_total →
  weight_totals st !! k = Some 1%Z →
  sf_means st !! k = Some (Some (total / 1)%R)
  ∧ sf_stds st !! k = Some NaN
  ∧ Iso.confidence_intervals z_score st !! k = Some (NaN, NaN)
  ∧ ∀ mean std, Iso.once_confidence z_score (Some mean, std, 1%Z) = (Some mean, Some mean).
Proof.
  intros [Hm Hs] Ht Hq Hw.
  assert (sf_means st !! k = Some (Some (total / 1)%R)) as Hmean.
  { rewrite Hm. unfold calculate_bin_statistics. cbn [fst].
    by rewrite lookup_zip_with, Ht, Hw. }
  assert (sf_stds st !! k = Some NaN) as Hstd.
  { rewrite Hs. unfold calculate_bin_statistics. cbn [snd].
    rewrite lookup_zip_with, lookup_zip_with, Ht. cbn [mbind option_bind].
    by rewrite Hq, Hw. }
  split; [done|]. split; [done|]. split.
  - unfold Iso.confidence_intervals.
    rewrite lookup_zip_with, lookup_zip_with, Hmean. cbn [mbind option_bind].
    rewrite Hstd, Hw. done.
  - intros mean std. unfold Iso.once_confidence. cbn [isnan].
    rewrite decide_False by lia. by rewrite decide_True.
Qed.

Section IsotropicOnce.

Variable arctan2 : R → R → R.
Variable z_score : R.
Variable r_bins : list R.
Variable n_bins_theta : nat.

#[local] Abbreviation half_width := (Iso.half_width z_score).

(** The local [ci_upper] and [ci_lower] of a bin are
    [mean ± z_score * std / sqrt(count)] also where the code does not use
    that formula: with one point the standard deviation is 0, and without a
    mean both sides are NaN. *)
Lemma once_confidence_formula (members : list (R * R * R)) :
  Iso.once_confidence z_score (Iso.once_bin members)
  = (fadd (Iso.once_bin members).1.1
          (half_width (Iso.once_bin members).1.2 (Iso.once_bin members).2),
     fsub (Iso.once_bin members).1.1
          (half_width (Iso.once_bin members).1.2 (Iso.once_bin members).2)).
Proof.
  unfold Iso.once_confidence, Iso.once_bin. cbn [fst snd].
  unfold weighted_mean, weighted_variance.
  destruct (decide (0 < Rsum (members.*1.*2))%R) as [Hpos|Hneg]; [|done].
  cbn [isnan]. case_decide as Hc; [done|].
  destruct members as [|[[s r] t] [|q members]].
  - unfold Rsum in Hpos. cbn in Hpos. lra.
  - rewrite decide_True by done.
    unfold Rsum in *. cbn in Hpos. cbn [fmap list_fmap fst snd zip_with foldr length].
    unfold fsqrt.
    set (v := (r / (r + 0) * (s - (s * (r / (r + 0)) + 0)) ^ 2 + 0)%R).
    assert (v = 0%R) as -> by (unfold v; field; lra).
    rewrite decide_True by lra. rewrite sqrt_0.
    unfold Iso.half_width, fmul, fdiv, fadd, fsub, lift2. change (Z.of_nat 1) with 1%Z.
    rewrite sqrt_1. rewrite decide_False by lra.
    f_equal; f_equal; field; lra.
  - cbn [length] in Hc. lia.
Qed.


End IsotropicOnce.

(* ------------------------------------------------------------------ *)
(** * Bin assignment *)

Lemma digitize_range (v : R) (bins : list R) :
  (0 <= digitize v bins <= Z.of_nat (length bins))%Z.
Proof.
  unfold digitize.
  pose proof (length_filter (λ e, e <= v)%R bins).
  pose proof (length_filter (λ e, e <= v)%R (reverse bins)) as Hr.
  rewrite length_reverse in Hr. destruct (monotonicity bins); lia.
Qed.

Lemma bin_index_range (v : R) (bins : list R) :
  (2 <= length bins)%nat →
  (0 <= bin_index v bins <= Z.of_nat (length bins) - 2)%Z.
Proof. intros Hlen. unfold bin_index, clip. pose proof (digitize_range v bins). lia. Qed.

Lemma filter_none (v : R) (l : list R) :
  (∀ e, e ∈ l → (v < e)%R) → filter (λ e, e <= v)%R l = [].
Proof.
  intros Hv. induction l as [|e l IH]; [done|].
  rewrite filter_cons_False by (specialize (Hv e ltac:(left)); lra).
  apply IH. intros x Hx. apply Hv. by right.
Qed.

Lemma filter_all (v : R) (l : list R) :
  (∀ e, e ∈ l → (e <= v)%R) → filter (λ e, e <= v)%R l = l.
Proof.
  intros Hv. induction l as [|e l IH]; [done|].
  rewrite filter_cons_True by (apply Hv; left).
  f_equal. apply IH. intros x Hx. apply Hv. by right.
Qed.

(** Out of range on increasing edges: below every edge is the first
    bin, at or above every edge the last. *)
Lemma bin_index_increasing (v : R) (bins : list R) :
  (2 <= length bins)%nat → monotonicity bins = Increasing →
  ((∀ e, e ∈ bins → (v < e)%R) → bin_index v bins = 0%Z)
  ∧ ((∀ e, e ∈ bins → (e <= v)%R) → bin_index v bins = (Z.of_nat (length bins) - 2)%Z).
Proof.
  intros Hlen Hm. unfold bin_index, clip, digitize. rewrite Hm. split; intros Hv.
  - rewrite filter_none by done. cbn [length]. lia.
  - rewrite filter_all by done. lia.
Qed.

(** Out of range on decreasing edges: at or above every edge is the
    first bin, below every edge the last. *)
Lemma bin_index_decreasing (v : R) (bins : list R) :
  (2 <= length bins)%nat → monotonicity bins = Decreasing →
  ((∀ e, e ∈ bins → (e <= v)%R) → bin_index v bins = 0%Z)
  ∧ ((∀ e, e ∈ bins → (v < e)%R) → bin_index v bins = (Z.of_nat (length bins) - 2)%Z).
Proof.
  intros Hlen Hm. unfold bin_index, clip, digitize. rewrite Hm. split; intros Hv.
  - rewrite filter_all by (intros e He; apply Hv; by apply elem_of_reverse).
    rewrite length_reverse. lia.
  - rewrite filter_none by (intros e He; apply Hv; by apply elem_of_reverse).
    cbn [length]. lia.
Qed.

Lemma unique_NoDup (l : list Z) : NoDup (unique l).
Proof. unfold unique. rewrite merge_sort_Permutation. apply NoDup_remove_dups. Qed.

Lemma elem_of_unique (l : list Z) (z : Z) : z ∈ unique l ↔ z ∈ l.
Proof. unfold unique. rewrite merge_sort_Permutation. apply elem_of_remove_dups. Qed.

Lemma accumulate_point_counts k sf ws st :
  point_counts (accumulate k sf ws st) = point_counts st.
Proof. unfold accumulate. by case_decide. Qed.

(** A loop over distinct bin ids each of whose steps adds the number of
    members of its bin to [point_counts]. *)
Lemma fold_counts (step : Z → BinState * list Z → BinState * list Z) (cnt : Z → Z)
    (ids : list Z) :
  NoDup ids →
  (∀ id, id ∈ ids →
     (0 <= id)%Z ∧
     ∀ acc, point_counts (step id acc).1 = add_at (Z.to_nat id) (cnt id) (point_counts acc.1)) →
  ∀ acc k c,
    point_counts acc.1 !! k = Some c →
    point_counts (foldl (λ acc id, step id acc) acc ids).1 !! k
    = Some (c + if decide (Z.of_nat k ∈ ids) then cnt (Z.of_nat k) else 0)%Z.
Proof.
  induction 1 as [|id ids Hnotin Hnd IH]; intros Hstep acc k c Hk.
  - cbn [foldl]. rewrite Hk. rewrite decide_False by apply not_elem_of_nil.
    f_equal. lia.
  - cbn [foldl]. destruct (Hstep id ltac:(by left)) as [Hid Hpc].
    assert (∀ id', id' ∈ ids →
              (0 <= id')%Z ∧
              ∀ acc, point_counts (step id' acc).1
                     = add_at (Z.to_nat id') (cnt id') (point_counts acc.1)) as Hstep'.
    { intros id' Hid'. apply Hstep. by right. }
    destruct (decide (Z.to_nat id = k)) as [E|Hne].
    + assert (Z.of_nat k = id) as Ek by lia.
      rewrite (IH Hstep' (step id acc) k (c + cnt id)%Z).
      2:{ rewrite Hpc, add_at_lookup, decide_True by done. rewrite E, Hk. done. }
      rewrite Ek. rewrite decide_False by done. rewrite decide_True by (by left).
      f_equal. lia.
    + assert (Z.of_nat k ≠ id) as Hk' by lia.
      rewrite (IH Hstep' (step id acc) k c).
      2:{ rewrite Hpc, add_at_lookup, decide_False by done. done. }
      f_equal. f_equal.
      destruct (decide (Z.of_nat k ∈ ids)) as [Hin|Hout].
      * rewrite decide_True by (by right). done.
      * rewrite decide_False; [done|]. intros [?|?]%elem_of_cons; done.
Qed.

Lemma count_absent {A} (f : A → Z) (pts : list A) (z : Z) :
  z ∉ f <$> pts → length (filter (λ p, f p = z) pts) = 0%nat.
Proof.
  intros Hz. induction pts as [|p pts IH]; [done|].
  rewrite fmap_cons in Hz. apply not_elem_of_cons in Hz as [Hne Hz].
  rewrite filter_cons_False by done. by apply IH.
Qed.

Section GridBinning.

Variables bins_x bins_y : list R.
Hypothesis edges_x : (2 <= length bins_x)%nat.
Hypothesis edges_y : (2 <= length bins_y)%nat.

#[local] Abbreviation n_x := (Grid.n_bins_x bins_x).
#[local] Abbreviation n_y := (Grid.n_bins_y bins_y).
#[local] Abbreviation bin_id_of := (Grid.bin_id_of bins_x bins_y).

Lemma grid_bin_id_range (p : R * R * R) :
  (0 <= bin_id_of p < n_y * n_x)%Z
  ∧ (bin_id_of p `div` n_x = bin_index p.2 bins_y)%Z
  ∧ (bin_id_of p `mod` n_x = bin_index p.1.2 bins_x)%Z.
Proof.
  destruct p as [[s dx] dy]. unfold Grid.bin_id_of. cbn [fst snd].
  pose proof (bin_index_range dx bins_x edges_x) as Hx.
  pose proof (bin_index_range dy bins_y edges_y) as Hy.
  unfold Grid.n_bins_x, Grid.n_bins_y in *.
  split; [nia|]. split.
  - rewrite Z.div_add_l by lia. rewrite Z.div_small by lia. lia.
  - rewrite Z.add_comm, Z.mod_add by lia. apply Z.mod_small. lia.
Qed.

Lemma grid_process_bin_counts sp pts id acc :
  (0 <= id < n_y * n_x)%Z →
  point_counts (Grid.process_bin bins_x bins_y true sp pts id acc).1
  = add_at (Z.to_nat id)
           (Z.of_nat (length (filter (λ p, bin_id_of p = id) pts)))
           (point_counts acc.1).
Proof.
  intros Hid. unfold Grid.process_bin.
  assert (0 < n_x)%Z as Hx by (unfold Grid.n_bins_x; lia).
  pose proof (Z.mod_pos_bound id n_x Hx) as Hm.
  pose proof (Z.div_mod id n_x ltac:(lia)) as Hdm.
  assert (0 <= id `div` n_x < n_y)%Z as Hd.
  { split; [apply Z.div_pos; lia|]. apply Z.div_lt_upper_bound; lia. }
  rewrite bool_decide_eq_false_2 by lia.
  replace (id `div` n_x * n_x + id `mod` n_x)%Z with id by lia.
  destruct acc as [st added]. unfold count_points. cbn [fst snd].
  by rewrite accumulate_point_counts.
Qed.

Lemma grid_process_batch_counts sp st added sf dx dy k c :
  point_counts st !! k = Some c →
  point_counts (grid_batch bins_x bins_y true sp (st, added) (sf, dx, dy)).1 !! k
  = Some (c + Z.of_nat (length (filter (λ p, bin_id_of p = Z.of_nat k)
                                       (valid_points sf dx dy))))%Z.
Proof.
  intros Hk. unfold grid_batch.
  destruct (valid_points sf dx dy) as [|p pts] eqn:E.
  - cbn [fst]. rewrite Hk. rewrite filter_nil. cbn [length]. f_equal. lia.
  - set (l := p :: pts).
    assert (∀ id, id ∈ unique (bin_id_of <$> l) →
              (0 <= id)%Z ∧
              ∀ acc, point_counts (Grid.process_bin bins_x bins_y true sp l id acc).1
                     = add_at (Z.to_nat id)
                              (Z.of_nat (length (filter (λ p, bin_id_of p = id) l)))
                              (point_counts acc.1)) as Hstep.
    { intros id [q [-> _]]%elem_of_unique%list_elem_of_fmap_1.
      destruct (grid_bin_id_range q) as [Hr _].
      split; [lia|]. intros acc. by apply grid_process_bin_counts. }
    rewrite (fold_counts _ (λ id, Z.of_nat (length (filter (λ p, bin_id_of p = id) l)))
               _ (unique_NoDup _) Hstep (st, added) k c Hk).
    f_equal. f_equal. case_decide as Hin; [done|].
    rewrite elem_of_unique in Hin. by rewrite (count_absent _ _ _ Hin).
Qed.

End GridBinning.

Section IsoBinning.

Variable arctan2 : R → R → R.
Variable r_bins : list R.
Variable n_bins_theta : nat.
Hypothesis edges_r : (2 <= length r_bins)%nat.

#[local] Abbreviation r_index_of := (Iso.r_index_of r_bins).

Lemma update_polar_point_counts t r v st :
  point_counts (Iso.update_polar t r v st) = point_counts st.
Proof. done. Qed.

Lemma process_theta_bin_point_counts r members id st :
  point_counts (Iso.process_theta_bin n_bins_theta r members id st) = point_counts st.
Proof.
  unfold Iso.process_theta_bin.
  destruct (weighted_mean _ _); [apply update_polar_point_counts|done].
Qed.

Lemma iso_process_bin_counts sp pts id acc :
  point_counts (Iso.process_bin r_bins n_bins_theta true sp pts id acc).1
  = add_at (Z.to_nat id)
           (Z.of_nat (length (filter (λ q, r_index_of q = id) pts)))
           (point_counts acc.1).
Proof.
  unfold Iso.process_bin. destruct acc as [st added]. unfold count_points. cbn [fst snd].
  match goal with
  | |- point_counts (foldl ?f ?a ?l0) = _ =>
      generalize l0; intros l;
      assert (∀ s, point_counts (foldl f s l) = point_counts s) as ->
  end.
  { intros s. revert s. induction l as [|id' l IH]; intros s; [done|].
    cbn [foldl]. rewrite IH. apply process_theta_bin_point_counts. }
  by rewrite accumulate_point_counts.
Qed.

Lemma iso_process_batch_counts sp st added sf dx dy k c :
  point_counts st !! k = Some c →
  point_counts (iso_batch arctan2 r_bins n_bins_theta true sp (st, added)
                          (sf, dx, dy)).1 !! k
  = Some (c + Z.of_nat (length (filter (λ q, r_index_of q = Z.of_nat k)
                                       (Iso.polar arctan2 <$> valid_points sf dx dy))))%Z.
Proof.
  intros Hk. unfold iso_batch.
  destruct (Iso.polar arctan2 <$> valid_points sf dx dy) as [|p pts] eqn:E.
  - cbn [fst]. rewrite Hk. rewrite filter_nil. cbn [length]. f_equal. lia.
  - set (l := p :: pts).
    assert (∀ id, id ∈ unique (r_index_of <$> l) →
              (0 <= id)%Z ∧
              ∀ acc, point_counts (Iso.process_bin r_bins n_bins_theta true sp l id acc).1
                     = add_at (Z.to_nat id)
                              (Z.of_nat (length (filter (λ q, r_index_of q = id) l)))
                              (point_counts acc.1)) as Hstep.
    { intros id [q [-> _]]%elem_of_unique%list_elem_of_fmap_1.
      pose proof (bin_index_range q.1.2 r_bins edges_r) as Hr.
      split; [unfold Iso.r_index_of; lia|]. intros acc. apply iso_process_bin_counts. }
    rewrite (fold_counts _ (λ id, Z.of_nat (length (filter (λ q, r_index_of q = id) l)))
               _ (unique_NoDup _) Hstep (st, added) k c Hk).
    f_equal. f_equal. case_decide as Hin; [done|].
    rewrite elem_of_unique in Hin. by rewrite (count_absent _ _ _ Hin).
Qed.

End IsoBinning.

Lemma three_edges_not_monotonic : monotonicity [0%R; 10%R; 5%R] = NotMonotonic.
Proof.
  unfold monotonicity. cbn [pairwise].
  rewrite (bool_decide_eq_true_2 (0 <= 10)%R) by lra.
  rewrite (bool_decide_eq_false_2 (10 <= 5)%R) by lra.
  rewrite (bool_decide_eq_false_2 (10 <= 0)%R) by lra. done.
Qed.


(** C9, counterexample: with the edges [0, 10, 5], which neither
    increase nor decrease, a batch with a valid sample is not binned:
    [np.digitize] raises [ValueError], in both engines and in the branch
    without bootstrapping. *)
Lemma unordered_edges_raise :
  ¬ monotone [0%R; 10%R; 5%R]
  ∧ valid_points [Some 3%R] [Some 1%R] [Some 1%R] = [(3%R, 1%R, 1%R)]
  ∧ (∀ add sp acc,
       Grid.process_batch [0%R; 10%R; 5%R] one_bin add sp acc
                          ([Some 3%R], [Some 1%R], [Some 1%R])
       = Raise (ValueError "bins must be monotonically increasing or decreasing"))
  ∧ (∀ arctan2 n_bins_theta add sp acc,
       Iso.process_batch arctan2 [0%R; 10%R; 5%R] n_bins_theta add sp acc
                         ([Some 3%R], [Some 1%R], [Some 1%R])
       = Raise (ValueError "bins must be monotonically increasing or decreasing"))
  ∧ Grid.bin_once [0%R; 10%R; 5%R] one_bin [Some 3%R] [Some 1%R] [Some 1%R]
    = Raise (ValueError "bins must be monotonically increasing or decreasing").
Proof.
  assert (¬ monotone [0%R; 10%R; 5%R]) as Hn.
  { unfold monotone. rewrite three_edges_not_monotonic. intros H. by apply H. }
  split; [done|]. split; [done|]. split; [|split].
  - intros add sp acc. unfold Grid.process_batch.
    change (valid_points [Some 3%R] [Some 1%R] [Some 1%R]) with [(3%R, 1%R, 1%R)].
    cbv beta iota. by rewrite (check_monotonic_raise _ Hn).
  - intros arctan2 n_bins_theta add sp acc. unfold Iso.process_batch.
    change (valid_points [Some 3%R] [Some 1%R] [Some 1%R]) with [(3%R, 1%R, 1%R)].
    cbn [fmap list_fmap]. by rewrite (check_monotonic_raise _ Hn).
  - unfold Grid.bin_once. cbv zeta. by rewrite (check_monotonic_raise _ Hn).
Qed.

(* ------------------------------------------------------------------ *)
(** * The theorems at concrete runs *)

Lemma unit_dataset_dispatch (n : nat) :
  calculate_structure_function_2d no_reorder no_isel unit_dataset ("y", "x") ["s"]
    (OrderInt n) "scalar" 0 0 SpNone 0 None None
  = Ok ([nanmean (apow (Kernels.diff [[Some 1%R]] 0 0) n)],
        [nanmean (Kernels.diff [[Some 0%R]] 0 0)],
        [nanmean (Kernels.diff [[Some 0%R]] 0 0)]).
Proof.
  unfold calculate_structure_function_2d, bootstrap_subset. simpl.
  unfold unit_dataset at 1. simpl. rewrite lookup_singleton_eq. simpl.
  unfold getvar at 1, unit_dataset at 1. simpl. rewrite lookup_singleton_eq. simpl.
  apply unit_dataset_scalar.
Qed.

Lemma monte_carlo_batches_witness :
  ∃ g, monte_carlo_simulation_2d no_reorder no_isel unit_seed zero_choice no_boot_indexes
         unit_dataset ("y", "x") ["s"] (OrderInt 2) 7 ∅ 0 [1%Z] ∅ [] "scalar" (SpInt 1)
         (World () [])
       = Ok (([[nanmean (apow (Kernels.diff [[Some 1%R]] 0 0) 2)]],
              [[nanmean (Kernels.diff [[Some 0%R]] 0 0)]],
              [[nanmean (Kernels.diff [[Some 0%R]] 0 0)]]),
             World g [NoBootstrappableDims]).
Proof.
  refine (proj1 (monte_carlo_batches no_reorder no_isel unit_seed zero_choice no_boot_indexes
                   _ unit_dataset ("y", "x") ["s"] (OrderInt 2) 7 ∅ [1%Z] ∅ [] "scalar"
                   (SpInt 1) 0 (World () []))
                NoBootstrappableDims _ _ _ eq_refl (unit_dataset_dispatch 2)).
  intros g n k. apply length_replicate.
Defined.


Lemma low_count_bins_converged_witness :
  ∃ st0, (5 <= 10)%Z ∧ low_count_bin 6 5 st0 st0 0 5.
Proof.
  destruct (low_count_initial (World () [])) as (st0 & Hrun & Hst0 & _).
  exists st0. split; [lia|].
  refine (proj1 (low_count_bins_converged (alternating_sampler 1) one_bin one_bin
                   (λ _ _, 0%R) one_bin 1 [1%Z] 5 6 1 (1 / 10))
                0%nat _ st0 _ st0 _ 0%nat 5%Z Hrun (low_count_loop _ _ _ _ _ Hst0) _ _).
  - destruct Hst0 as (_ & _ & _ & Hc & _). by rewrite Hc.
  - lia.
Defined.

Lemma single_batch_interval_witness :
  sf_means single_batch_state !! 0%nat = Some (Some (3 / 1)%R)
  ∧ sf_stds single_batch_state !! 0%nat = Some NaN
  ∧ Iso.confidence_intervals 2 single_batch_state !! 0%nat = Some (NaN, NaN)
  ∧ ∀ mean std, Iso.once_confidence 2 (Some mean, std, 1%Z) = (Some mean, Some mean).
Proof.
  apply (single_batch_interval 2 single_batch_state 0 3 9); [split|..]; reflexivity.
Defined.

(** The branch without bootstrapping on one sample and the single bin
    [one_bin]. *)
Lemma isotropic_once_sample (z s dx dy : R) :
  ∃ out,
    Iso.isotropic_once (λ _ _, 0%R) z one_bin 1 [Some s] [Some dx] [Some dy] = Ok out
    ∧ iso_sf out !! 0%nat
      = Some (Iso.once_bin
                (filter (λ q, Iso.r_index_of one_bin q = Z.of_nat 0)
                        [Iso.polar (λ _ _, 0%R) (s, dx, dy)])).1.1
    ∧ iso_std out !! 0%nat
      = Some (Iso.once_bin
                (filter (λ q, Iso.r_index_of one_bin q = Z.of_nat 0)
                        [Iso.polar (λ _ _, 0%R) (s, dx, dy)])).1.2
    ∧ iso_point_counts out !! 0%nat
      = Some (Iso.once_bin
                (filter (λ q, Iso.r_index_of one_bin q = Z.of_nat 0)
                        [Iso.polar (λ _ _, 0%R) (s, dx, dy)])).2.
Proof.
  unfold Iso.isotropic_once.
  change (Iso.polar (λ _ _ : R, 0%R) <$> valid_points [Some s] [Some dx] [Some dy])
    with [Iso.polar (λ _ _ : R, 0%R) (s, dx, dy)].
  cbv beta iota.
  rewrite (check_monotonic_Ok _ one_bin_monotone).
  rewrite (check_monotonic_Ok _ (theta_bins_monotone 1)).
  cbn [mbind res_bind]. eexists. split; [reflexivity|]. repeat split.
Qed.


Lemma two_bins_increasing : monotonicity two_bins = Increasing.
Proof.
  unfold monotonicity, two_bins. cbn [pairwise].
  rewrite (bool_decide_eq_true_2 (0 <= 5)%R) by lra.
  by rewrite (bool_decide_eq_true_2 (5 <= 10)%R) by lra.
Qed.


(* ------------------------------------------------------------------ *)
(** * Further properties of the kernels and the dispatcher *)

Section KernelChecks.

Variable reorder : list string → Dims → option string → res (list string).

(** X1: every kernel checks the number of variable names first: called
    with a list of another length than the kernel asks for (1 for
    [scalar], 3 for the two velocity-scalar kernels, 4 for [advective], 2
    for the others) it raises [ValueError], whatever the dataset, the
    order and the dimensions are. *)
Theorem wrong_arity_raises (fn : string) calc (subset : Dataset) (vars : list string)
    (order : Order) (dims : Dims) (ny nx : nat) :
  kernel_table reorder fn = Some calc →
  length vars ≠ kernel_arity fn →
  ∃ msg, calc subset vars order dims ny nx = Raise (ValueError msg).
Proof.
  intros Ht Hlen. unfold kernel_table in Ht.
  repeat (case_decide; [subst fn; injection Ht as <-|]); [..|done];
    change (kernel_arity _) with 1%nat in Hlen || change (kernel_arity _) with 2%nat in Hlen
    || change (kernel_arity _) with 3%nat in Hlen || change (kernel_arity _) with 4%nat in Hlen.
  all: try (unfold Kernels.calc_longitudinal_2d, Kernels.calc_transverse_2d,
              Kernels.calc_default_vel_2d, Kernels.calc_scalar_scalar_2d,
              Kernels.calc_longitudinal_transverse_2d, Kernels.calc_longitudinal_scalar_2d,
              Kernels.calc_transverse_scalar_2d, Kernels.calc_advective_2d;
            match goal with
            | |- context [(length ?l =? ?n)%nat] =>
                destruct (Nat.eqb_spec (length l) n) as [E|_]; [done|]
            end; cbn [negb]; eauto).
  unfold Kernels.calc_scalar_2d. destruct vars as [|v [|v' vars]]; [eauto|done|eauto].
Qed.

(** X2: the four kernels that take an order [(n, k)] raise [ValueError]
    when they are given a single order, right after the check of the
    number of variable names and before the dataset is read. *)
Theorem single_order_rejected (fn : string) calc (subset : Dataset) (vars : list string)
    (n : nat) (dims : Dims) (ny nx : nat) :
  fn ∈ mixed_order →
  kernel_table reorder fn = Some calc →
  length vars = kernel_arity fn →
  calc subset vars (OrderInt n) dims ny nx = Raise (ValueError "Order must be a tuple (n, k)").
Proof.
  intros Hfn Ht Hlen. unfold mixed_order in Hfn.
  repeat (apply elem_of_cons in Hfn as [->|Hfn]; [injection Ht as <-|]);
    [..|by apply elem_of_nil in Hfn].
  all: unfold Kernels.calc_scalar_scalar_2d, Kernels.calc_longitudinal_transverse_2d,
         Kernels.calc_longitudinal_scalar_2d, Kernels.calc_transverse_scalar_2d;
       rewrite Hlen; reflexivity.
Qed.

End KernelChecks.

Lemma length_bind_const {A B} (f : A → list B) (n : nat) (l : list A) :
  (∀ a, length (f a) = n) → length (l ≫= f) = (length l * n)%nat.
Proof.
  intros Hf. induction l as [|a l IH]; [done|].
  rewrite bind_cons, length_app, IH, Hf. cbn [length]. lia.
Qed.

Lemma offsets_length (ny nx : nat) : length (Kernels.offsets ny nx) = (ny * nx)%nat.
Proof.
  unfold Kernels.offsets.
  rewrite (length_bind_const _ nx), length_seq; [done|].
  intros iy. rewrite (length_bind_const _ 1), length_seq; [lia|done].
Qed.

Lemma offset_loop_length ny nx x y stat results dxs dys :
  Kernels.offset_loop ny nx x y stat = (results, dxs, dys) →
  length results = (ny * nx)%nat ∧ length dxs = (ny * nx)%nat ∧ length dys = (ny * nx)%nat.
Proof.
  unfold Kernels.offset_loop. intros [= <- <- <-].
  by rewrite !length_fmap, offsets_length.
Qed.

Ltac same_ok H :=
  match type of H with
  | Ok ?a = Ok ?b =>
      let H' := fresh in assert (a = b) as H' by congruence; clear H; rename H' into H
  end.

Section KernelResults.

Variable reorder : list string → Dims → option string → res (list string).

(** X3: a kernel that returns gives one statistic and one mean separation
    in each direction per offset: the three arrays have [ny * nx] entries. *)
Theorem kernel_output_lengths (fn : string) calc (subset : Dataset) (vars : list string)
    (order : Order) (dims : Dims) (ny nx : nat) (results dxs dys : list fl) :
  kernel_table reorder fn = Some calc →
  calc subset vars order dims ny nx = Ok (results, dxs, dys) →
  length results = (ny * nx)%nat ∧ length dxs = (ny * nx)%nat ∧ length dys = (ny * nx)%nat.
Proof.
  intros Ht H. unfold kernel_table in Ht.
  repeat (case_decide; [subst fn; injection Ht as <-|]); [..|done].
  - unfold Kernels.calc_longitudinal_2d in H. inv_res H. same_ok H.
    by eapply offset_loop_length.
  - unfold Kernels.calc_transverse_2d in H. inv_res H. same_ok H.
    by eapply offset_loop_length.
  - unfold Kernels.calc_default_vel_2d in H. inv_res H. same_ok H.
    by eapply offset_loop_length.
  - unfold Kernels.calc_scalar_2d in H. destruct vars as [|v [|v' vars]]; [done| |done].
    inv_res H. same_ok H. by eapply offset_loop_length.
  - unfold Kernels.calc_scalar_scalar_2d in H. inv_res H. same_ok H.
    by eapply offset_loop_length.
  - unfold Kernels.calc_longitudinal_transverse_2d in H. inv_res H. same_ok H.
    by eapply offset_loop_length.
  - unfold Kernels.calc_longitudinal_scalar_2d in H. inv_res H. same_ok H.
    by eapply offset_loop_length.
  - unfold Kernels.calc_transverse_scalar_2d in H. inv_res H. same_ok H.
    by eapply offset_loop_length.
  - unfold Kernels.calc_advective_2d in H. inv_res H. same_ok H.
    by eapply offset_loop_length.
Qed.

End KernelResults.

Lemma pow_even_nonneg (x : R) (n : nat) : Nat.even n = true → (0 <= x ^ n)%R.
Proof.
  intros [k ->]%Nat.even_spec. rewrite pow_mult. apply pow_le, pow2_ge_0.
Qed.

Lemma Rsum_nonneg (l : list R) : Forall (λ x, 0 <= x)%R l → (0 <= Rsum l)%R.
Proof. unfold Rsum. induction 1 as [|x l Hx _ IH]; cbn [foldr]; lra. Qed.

Lemma finite_values_nonneg (l : list fl) :
  Forall nan_or_nonneg l → Forall (λ x, 0 <= x)%R (finite_values l).
Proof.
  unfold finite_values. induction 1 as [|[x|] l Hx _ IH]; cbn [omap]; [done| |done].
  by constructor.
Qed.

Lemma nanmean_nonneg (a : arr) : Forall (Forall nan_or_nonneg) a → nan_or_nonneg (nanmean a).
Proof.
  intros Ha. unfold nanmean.
  assert (Forall (λ x, 0 <= x)%R (finite_values (concat a))) as Hvs.
  { apply finite_values_nonneg. by apply Forall_concat. }
  destruct (finite_values (concat a)) as [|v vs] eqn:E; [done|].
  cbn [nan_or_nonneg]. apply Rsum_nonneg in Hvs.
  assert (0 < INR (length (v :: vs)))%R by (apply lt_0_INR; cbn [length]; lia).
  apply Rmult_le_pos; [done|]. apply Rlt_le. by apply Rinv_0_lt_compat.
Qed.

Lemma apow_even_nonneg (a : arr) (n : nat) :
  Nat.even n = true → Forall (Forall nan_or_nonneg) (apow a n).
Proof.
  intros Hn. unfold apow, amap. apply Forall_fmap, Forall_true. intros row.
  apply Forall_fmap, Forall_true. intros [x|]; [|done]. cbn. by apply pow_even_nonneg.
Qed.

Lemma aadd_nonneg (a b : arr) :
  Forall (Forall nan_or_nonneg) a → Forall (Forall nan_or_nonneg) b →
  Forall (Forall nan_or_nonneg) (aadd a b).
Proof.
  unfold aadd, amap2. intros Ha. revert b.
  induction Ha as [|ra a Hra _ IH]; intros b Hb; [done|].
  destruct Hb as [|rb b Hrb Hb]; [done|]. cbn [zip_with]. constructor; [|by apply IH].
  clear -Hra Hrb. revert rb Hrb. induction Hra as [|x ra Hx _ IH]; intros rb Hrb; [done|].
  destruct Hrb as [|y rb Hy Hrb]; [done|]. cbn [zip_with]. constructor; [|by apply IH].
  destruct x as [x|], y as [y|]; cbn in *; try done. lra.
Qed.

Lemma offset_loop_results ny nx x y stat results dxs dys (P : fl → Prop) :
  Kernels.offset_loop ny nx x y stat = (results, dxs, dys) →
  (∀ iy ix dx dy, P (stat iy ix dx dy)) → Forall P results.
Proof.
  unfold Kernels.offset_loop. intros [= <- _ _] HP.
  apply Forall_fmap, Forall_true. intros [iy ix]. apply HP.
Qed.

Section EvenOrder.

Variable reorder : list string → Dims → option string → res (list string).

(** X4: with an even order, the kernels whose statistic is the mean of one
    power ([longitudinal], [transverse], [scalar], [advective]) or of a sum
    of two equal powers ([default_vel]) give, at every offset, a number
    that is not negative, or NaN. *)
Theorem even_order_nonnegative (fn : string) calc (subset : Dataset) (vars : list string)
    (n : nat) (dims : Dims) (ny nx : nat) (results dxs dys : list fl) :
  fn ∈ single_power →
  kernel_table reorder fn = Some calc →
  Nat.even n = true →
  calc subset vars (OrderInt n) dims ny nx = Ok (results, dxs, dys) →
  Forall nan_or_nonneg results.
Proof.
  intros Hfn Ht Hn H. unfold single_power in Hfn.
  repeat (apply elem_of_cons in Hfn as [->|Hfn]; [injection Ht as <-|]);
    [..|by apply elem_of_nil in Hfn].
  - unfold Kernels.calc_longitudinal_2d in H. inv_res H. same_ok H.
    match goal with Hi : int_order _ = Ok _ |- _ => injection Hi as <- end.
    eapply offset_loop_results; [exact H|]. intros. by apply nanmean_nonneg, apow_even_nonneg.
  - unfold Kernels.calc_transverse_2d in H. inv_res H. same_ok H.
    match goal with Hi : int_order _ = Ok _ |- _ => injection Hi as <- end.
    eapply offset_loop_results; [exact H|]. intros. by apply nanmean_nonneg, apow_even_nonneg.
  - unfold Kernels.calc_default_vel_2d in H. inv_res H. same_ok H.
    match goal with Hi : int_order _ = Ok _ |- _ => injection Hi as <- end.
    eapply offset_loop_results; [exact H|]. intros.
    apply nanmean_nonneg, aadd_nonneg; by apply apow_even_nonneg.
  - unfold Kernels.calc_scalar_2d in H. destruct vars as [|v [|v' vars]]; [done| |done].
    inv_res H. same_ok H.
    match goal with Hi : int_order _ = Ok _ |- _ => injection Hi as <- end.
    eapply offset_loop_results; [exact H|]. intros. by apply nanmean_nonneg, apow_even_nonneg.
  - unfold Kernels.calc_advective_2d in H. inv_res H. same_ok H.
    match goal with Hi : int_order _ = Ok _ |- _ => injection Hi as <- end.
    eapply offset_loop_results; [exact H|]. intros. by apply nanmean_nonneg, apow_even_nonneg.
Qed.

End EvenOrder.

Section DispatcherChecks.

Variable reorder : list string → Dims → option string → res (list string).
Variable isel : Dataset → gmap string (list nat) → Dataset.

#[local] Abbreviation dispatch := (calculate_structure_function_2d reorder isel).
#[local] Abbreviation subset_of := (bootstrap_subset isel).

(** X5: the dispatcher looks for the variables before it looks at the
    function type: a requested name that is neither a field nor a
    coordinate of the dataset the kernel would run on makes it raise
    [ValueError], for every function type, supported or not. *)
Theorem missing_variable_raises (ds : Dataset) (dims : Dims) (vars : list string)
    (order : Order) (fn : string) (nbx nby : nat) (spacing : Spacing) (nb : nat)
    (bdims : option (list string)) (table : option IndexTable) (v : string) :
  v ∈ vars →
  data_vars (subset_of ds dims nbx nby spacing nb bdims table) !! v = None →
  coords (subset_of ds dims nbx nby spacing nb bdims table) !! v = None →
  dispatch ds dims vars order fn nbx nby spacing nb bdims table
  = Raise (ValueError "Variable not found in dataset").
Proof.
  intros Hv Hd _. unfold calculate_structure_function_2d.
  destruct (find _ vars) as [w|] eqn:E; [done|].
  apply list_elem_of_In in Hv. pose proof (find_none _ _ E v Hv) as Hf. cbv beta in Hf.
  by rewrite Hd, bool_decide_eq_true_2 in Hf.
Qed.

(** X6: a function type outside the nine supported ones is rejected with
    [ValueError] once the variables have been found; no kernel runs. *)
Theorem unsupported_function_raises (ds : Dataset) (dims : Dims) (vars : list string)
    (order : Order) (fn : string) (nbx nby : nat) (spacing : Spacing) (nb : nat)
    (bdims : option (list string)) (table : option IndexTable) :
  fn ∉ supported →
  vars ≠ [] →
  (∀ v, v ∈ vars →
     is_Some (data_vars (subset_of ds dims nbx nby spacing nb bdims table) !! v)) →
  dispatch ds dims vars order fn nbx nby spacing nb bdims table
  = Raise (ValueError "Unsupported function type").
Proof.
  intros Hfn Hne Hvars. unfold calculate_structure_function_2d.
  destruct (find _ vars) as [w|] eqn:E.
  { apply find_some in E as [Hw Hnone]. apply list_elem_of_In, Hvars in Hw as [a Ha].
    rewrite Ha in Hnone. by apply bool_decide_eq_true_1 in Hnone. }
  destruct vars as [|v vars]; [done|]. cbn [head].
  destruct (Hvars v ltac:(left)) as [a Ha]. unfold getvar. rewrite Ha. cbn [res_bind].
  destruct (shape a) as [ny nx].
  assert (kernel_table reorder fn = None) as ->; [|done].
  unfold kernel_table. unfold supported in Hfn.
  repeat (case_decide; [exfalso; apply Hfn; subst fn; repeat first [by left|right]|]).
  done.
Qed.

(** X7: without a usable index table the dispatcher evaluates the kernel
    on the whole dataset, silently: this is so when nothing is
    bootstrappable, when no table or no spacing is given, and when the
    table has no entry for the spacing.  [isel] is not called, and the
    result is that of the call without bootstrapping. *)
Theorem no_index_no_subsetting (ds : Dataset) (dims : Dims) (vars : list string)
    (order : Order) (fn : string) (nbx nby : nat) (spacing : Spacing) (nb : nat)
    (bdims : option (list string)) (table : option IndexTable) :
  (nb = 0%nat ∨ bdims = None ∨ bdims = Some [] ∨ table = None ∨ spacing = SpNone
   ∨ ∃ t sp, table = Some t ∧ spacing = SpInt sp ∧ t !! sp = None) →
  subset_of ds dims nbx nby spacing nb bdims table = ds
  ∧ dispatch ds dims vars order fn nbx nby spacing nb bdims table
    = dispatch ds dims vars order fn 0 0 SpNone 0 None None.
Proof.
  intros H.
  assert (subset_of ds dims nbx nby spacing nb bdims table = ds) as E.
  { unfold bootstrap_subset.
    destruct bdims as [[|d bdims]|]; [done| |done].
    case_decide as Hnb; [|done].
    destruct H as [->|[?|[?|[->|[->|(t & sp & -> & -> & Ht)]]]]]; try done; try lia.
    - unfold select_column. rewrite !lookup_empty. by repeat case_decide.
    - destruct table; unfold select_column; rewrite !lookup_empty; by repeat case_decide.
    - rewrite Ht. cbn [from_option]. unfold select_column. rewrite !lookup_empty.
      by repeat case_decide. }
  split; [done|]. unfold calculate_structure_function_2d. rewrite E. done.
Qed.

End DispatcherChecks.

Lemma omap_all_some {A} (l : list (option A)) :
  Forall is_Some l → length (omap (λ r : option A, r) l) = length l.
Proof.
  induction 1 as [|[r|] l Hr _ IH]; [done| |by destruct Hr].
  cbn [omap list_omap length] in *. by f_equal.
Qed.

(** X8: [map_to_components] returns names of the list it is given, as many
    as that list has; it raises when the list has not the length of the
    expected components. *)
Theorem map_to_components_names (vars_list expected out : list string) :
  Kernels.map_to_components vars_list expected = Ok out →
  length vars_list = length expected
  ∧ length out = length vars_list
  ∧ ∀ v, v ∈ out → v ∈ vars_list.
Proof.
  unfold Kernels.map_to_components.
  destruct (Nat.eqb_spec (length vars_list) (length expected)) as [Hlen|]; [|done].
  cbn [negb]. intros H. split; [done|]. revert H.
  destruct (forallb _ _) eqn:Hall; intros [= <-]; [|done].
  set (result := (λ exp, find (λ var, Kernels.contains exp (Kernels.lower var)) vars_list)
                   <$> expected) in *.
  assert (Forall is_Some result) as Hsome.
  { apply Forall_forall. intros r Hr. 
    rewrite forallb_forall in Hall. apply list_elem_of_In, Hall in Hr.
    by apply bool_decide_eq_true_1 in Hr. }
  split.
  - rewrite Hlen. unfold result at 1 in Hsome. 
    transitivity (length result); [|unfold result; by rewrite length_fmap].
    by apply omap_all_some.
  - intros v Hv. apply list_elem_of_omap in Hv as (r & Hr & ->).
    unfold result in Hr. apply list_elem_of_fmap_1 in Hr as (e & Hfind & _).
    symmetry in Hfind. apply find_some in Hfind as [Hin _]. by apply list_elem_of_In.
Qed.

(* ------------------------------------------------------------------ *)
(** * Further properties of the bin assignment *)

Lemma filter_above (v : R) (bins : list R) :
  (∀ e, e ∈ bins → (v < e)%R) → filter (λ e, e <= v)%R bins = [].
Proof.
  induction bins as [|e bins IH]; intros Hv; [done|].
  rewrite filter_cons_False by (specialize (Hv e ltac:(left)); lra).
  apply IH. intros x Hx. apply Hv. by right.
Qed.

Lemma filter_sorted_prefix (v : R) (bins : list R) :
  StronglySorted Rlt bins →
  ∀ i lo,
    bins !! i = Some lo → (lo <= v)%R →
    (∀ hi, bins !! S i = Some hi → (v < hi)%R) →
    filter (λ e, e <= v)%R bins = take (S i) bins.
Proof.
  induction 1 as [|e bins Hs IH He]; intros i lo Hi Hlo Hhi; [done|].
  rewrite Forall_forall in He. destruct i as [|i].
  - injection Hi as ->. rewrite filter_cons_True by done. cbn [take]. f_equal.
    rewrite take_0. apply filter_above. intros x Hx.
    destruct bins as [|hi bins]; [by apply elem_of_nil in Hx|].
    specialize (Hhi hi eq_refl).
    apply elem_of_cons in Hx as [->|Hx]; [done|].
    apply StronglySorted_inv in Hs as [_ Hall]. rewrite Forall_forall in Hall.
    specialize (Hall x Hx). lra.
  - cbn [lookup list_lookup] in Hi.
    assert (e < lo)%R by (apply He; by eapply list_elem_of_lookup_2).
    rewrite filter_cons_True by lra. cbn [take]. f_equal. by eapply IH.
Qed.

Lemma sorted_increasing (bins : list R) :
  StronglySorted Rlt bins → monotonicity bins = Increasing.
Proof.
  intros Hs. unfold monotonicity.
  assert (pairwise (λ a b, bool_decide (a <= b)%R) bins = true) as ->; [|done].
  induction Hs as [|e bins Hs IH He]; [done|].
  destruct bins as [|e' bins]; [done|]. cbn [pairwise] in *. rewrite IH.
  apply Forall_cons in He as [He _]. rewrite bool_decide_eq_true_2 by lra. done.
Qed.

(** X9: for strictly increasing edges, a value that lies in
    [[bins[i], bins[i+1])] is assigned to bin [i]. *)
Theorem bin_index_contains (v : R) (bins : list R) (i : nat) (lo hi : R) :
  StronglySorted Rlt bins →
  bins !! i = Some lo → bins !! S i = Some hi →
  (lo <= v < hi)%R →
  bin_index v bins = Z.of_nat i.
Proof.
  intros Hs Hi Hi' [Hlo Hhi]. unfold bin_index, digitize, clip.
  rewrite (sorted_increasing _ Hs).
  rewrite (filter_sorted_prefix v bins Hs i lo Hi Hlo).
  2:{ intros hi' E. rewrite Hi' in E. by injection E as <-. }
  apply lookup_lt_Some in Hi'. rewrite length_take. lia.
Qed.

Lemma length_filter_mono {A} (P Q : A → Prop) `{∀ x, Decision (P x)} `{∀ x, Decision (Q x)}
    (l : list A) :
  (∀ x, P x → Q x) → (length (filter P l) <= length (filter Q l))%nat.
Proof.
  intros HPQ. induction l as [|x l IH]; [done|].
  destruct (decide (P x)) as [HP|HP].
  - rewrite (filter_cons_True P) by done. rewrite (filter_cons_True Q) by auto.
    cbn [length]. lia.
  - rewrite (filter_cons_False P) by done. destruct (decide (Q x)).
    + rewrite (filter_cons_True Q) by done. cbn [length]. lia.
    + by rewrite (filter_cons_False Q).
Qed.


Lemma insert_desc_sorted {A} (key : A → R) (x : A) (l : list A) :
  StronglySorted (λ a b, key b <= key a)%R l →
  StronglySorted (λ a b, key b <= key a)%R (insert_desc key x l).
Proof.
  induction 1 as [|y l Hs IH Hy]; cbn [insert_desc].
  - repeat constructor.
  - case_decide as Hlt.
    + constructor; [by constructor|]. constructor; [lra|].
      eapply Forall_impl; [exact Hy|]. intros z Hz. simpl in *. lra.
    + constructor; [done|]. rewrite insert_desc_perm. constructor; [simpl; lra|done].
Qed.

Lemma sort_desc_sorted {A} (key : A → R) (l : list A) :
  StronglySorted (λ a b, key b <= key a)%R (sort_desc key l).
Proof.
  unfold sort_desc.
  assert (∀ acc, StronglySorted (λ a b, key b <= key a)%R acc →
            StronglySorted (λ a b, key b <= key a)%R
                           (foldl (λ acc x, insert_desc key x acc) acc l)) as H.
  { induction l as [|x l IH]; intros acc Hacc; [done|]. cbn [foldl].
    by apply IH, insert_desc_sorted. }
  apply H. constructor.
Qed.

(** X11: the bins of one round are exactly the unconverged bins, each
    once, in order of non-increasing density. *)
Theorem bin_list_sorted (max_nbootstrap : Z) (bin_density : list R) (st : BinState) :
  bin_list max_nbootstrap bin_density st ≡ₚ unconverged max_nbootstrap st
  ∧ NoDup (bin_list max_nbootstrap bin_density st)
  ∧ StronglySorted (λ j k, default 0 (bin_density !! k) <= default 0 (bin_density !! j))%R
                   (bin_list max_nbootstrap bin_density st).
Proof.
  split; [apply sort_desc_perm|]. split; [apply bin_list_NoDup|].
  apply (sort_desc_sorted (λ j, default 0%R (bin_density !! j))).
Qed.

(* ------------------------------------------------------------------ *)
(** * Further properties of densities and steps *)

Lemma foldr_Rmax_upper (l : list R) :
  (0 <= foldr Rmax 0 l)%R ∧ Forall (λ d, d <= foldr Rmax 0 l)%R l.
Proof.
  induction l as [|d l [IH0 IH]]; cbn [foldr]; [split; [lra|done]|].
  split; [pose proof (Rmax_r d (foldr Rmax 0%R l)); lra|].
  constructor; [apply Rmax_l|].
  eapply Forall_impl; [exact IH|]. intros x Hx. simpl in *.
  pose proof (Rmax_r d (foldr Rmax 0%R l)). lra.
Qed.

Lemma existsb_positive_false (l : list R) :
  existsb (λ d, bool_decide (0 < d)%R) l = false → Forall (λ d, d <= 0)%R l.
Proof.
  induction l as [|d l IH]; [done|]. cbn [existsb].
  intros [Hd Hl]%orb_false_elim. constructor; [|by apply IH].
  apply bool_decide_eq_false_1 in Hd. lra.
Qed.

Lemma normalised_density (dens : list R) :
  Forall (λ d, 0 <= d)%R dens →
  let max_density :=
    if existsb (λ d, bool_decide (0 < d)%R) dens then foldr Rmax 0%R dens else 1%R in
  Forall (λ d, 0 <= d <= 1)%R
         (if decide (0 < max_density)%R then (λ d, d / max_density)%R <$> dens else dens).
Proof.
  intros Hpos max_density.
  assert (Forall (λ d, d <= max_density)%R dens ∨ Forall (λ d, d <= 0)%R dens) as Hmax.
  { unfold max_density. destruct (existsb _ dens) eqn:E.
    - left. apply foldr_Rmax_upper.
    - right. by apply existsb_positive_false. }
  case_decide as Hm.
  - apply Forall_fmap. rewrite Forall_forall in Hpos. apply Forall_forall. intros d Hd.
    specialize (Hpos d Hd). cbn.
    assert (d <= max_density)%R as Hle.
    { destruct Hmax as [H|H]; rewrite Forall_forall in H; specialize (H d Hd); simpl in H; lra. }
    split.
    + apply Rmult_le_pos; [done|]. apply Rlt_le. by apply Rinv_0_lt_compat.
    + apply (Rmult_le_reg_r max_density); [done|]. 
      replace (d / max_density * max_density)%R with d by (field; lra). lra.
  - rewrite Forall_forall in Hpos. apply Forall_forall. intros d Hd. specialize (Hpos d Hd).
    assert (d <= 0)%R.
    { destruct Hmax as [H|H]; rewrite Forall_forall in H; specialize (H d Hd); simpl in H; lra. }
    simpl in *. lra.
Qed.

Lemma trunc_upper (x : R) (z : Z) : (0 <= x <= IZR z)%R → (trunc x <= z)%Z.
Proof.
  intros [H0 Hz]. unfold trunc. rewrite decide_True by done.
  destruct (base_Int_part x) as [Hle _]. apply le_IZR. lra.
Qed.

Lemma density_raw_nonneg (counts : list Z) (areas : list R) (total : Z) :
  (0 < total)%Z → Forall (λ c, 0 <= c)%Z counts →
  Forall (λ d, 0 <= d)%R
         (zip_with (λ c area, if decide (0 < area)%R
                              then (IZR c / (area * IZR total))%R else 0%R)
                   counts areas).
Proof.
  intros Htotal Hc. revert areas.
  induction Hc as [|c counts Hc0 _ IH]; intros areas; [done|].
  destruct areas as [|area areas]; [done|]. cbn [zip_with]. constructor; [|apply IH].
  case_decide as Ha; [|lra].
  apply Rmult_le_pos; [by apply IZR_le|]. apply Rlt_le, Rinv_0_lt_compat.
  apply Rmult_lt_0_compat; [done|]. by apply IZR_lt.
Qed.

(** X12: for point counts that are not negative, every normalised bin
    density lies in [[0, 1]]; hence, for a step [step_nbootstrap >= 0],
    the adaptive step of every bin lies between [step_nbootstrap] and
    [3 * step_nbootstrap]. *)
Theorem density_and_step_bounds (counts : list Z) (areas : list R) (step_nbootstrap : Z) :
  Forall (λ c, 0 <= c)%Z counts →
  Forall (λ d, 0 <= d <= 1)%R (calculate_bin_density counts areas)
  ∧ ((0 <= step_nbootstrap)%Z →
     Forall (λ s, step_nbootstrap <= s <= 3 * step_nbootstrap)%Z
            (calculate_bootstrap_steps step_nbootstrap (calculate_bin_density counts areas))).
Proof.
  intros Hc.
  assert (Forall (λ d, 0 <= d <= 1)%R (calculate_bin_density counts areas)) as Hd.
  { unfold calculate_bin_density. cbv zeta. apply normalised_density.
    case_decide as Ht.
    - by apply density_raw_nonneg.
    - apply Forall_fmap, Forall_true. intros c. simpl. lra. }
  split; [done|]. intros Hs. unfold calculate_bootstrap_steps.
  apply Forall_fmap. eapply Forall_impl; [exact Hd|]. intros d [Hd0 Hd1]. cbn.
  assert (0 <= IZR step_nbootstrap)%R by (by apply IZR_le).
  assert (trunc (IZR step_nbootstrap * (1 + 2 * d)) <= 3 * step_nbootstrap)%Z.
  { apply trunc_upper. rewrite mult_IZR. split; nra. }
  lia.
Qed.

(* ------------------------------------------------------------------ *)
(** * Further properties of the engines *)

Lemma Rsum_zero (l : list R) : Forall (λ w, w = 0%R) l → Rsum l = 0%R.
Proof. unfold Rsum. induction 1 as [|w l -> _ IH]; cbn [foldr]; lra. Qed.

Lemma accumulate_zero_weights k sf ws st :
  Forall (λ w, w = 0%R) ws → accumulate k sf ws st = st.
Proof.
  intros Hws. unfold accumulate. rewrite (Rsum_zero ws Hws).
  by rewrite decide_False by lra.
Qed.

Lemma count_points_accumulators add sp k c st added :
  sf_totals (count_points add sp k c (st, added)).1 = sf_totals st
  ∧ sf_sq_totals (count_points add sp k c (st, added)).1 = sf_sq_totals st
  ∧ weight_totals (count_points add sp k c (st, added)).1 = weight_totals st.
Proof. by destruct add. Qed.

Lemma grid_batch_zero_weights (bins_x bins_y : list R) (add : bool) (sp : Z)
    (st : BinState) (added : list Z) (sf dx dy : list fl) :
  (∀ p, p ∈ valid_points sf dx dy → (p.1.2 * p.2)%R = 0%R) →
  let st' := (grid_batch bins_x bins_y add sp (st, added) (sf, dx, dy)).1 in
  sf_totals st' = sf_totals st
  ∧ sf_sq_totals st' = sf_sq_totals st
  ∧ weight_totals st' = weight_totals st.
Proof.
  intros Hz. unfold grid_batch.
  destruct (valid_points sf dx dy) as [|p pts] eqn:E; [done|].
  set (l := p :: pts) in *. cbv zeta.
  apply (foldl_invariant
           (λ acc : BinState * list Z,
              sf_totals acc.1 = sf_totals st ∧ sf_sq_totals acc.1 = sf_sq_totals st
              ∧ weight_totals acc.1 = weight_totals st)); [done|].
  intros [st1 added1] id (H1 & H2 & H3). unfold Grid.process_bin.
  destruct (bool_decide _); [done|].
  match goal with
  | |- context [count_points add sp ?k ?c (st1, added1)] =>
      pose proof (count_points_accumulators add sp k c st1 added1) as (C1 & C2 & C3);
      destruct (count_points add sp k c (st1, added1)) as [st2 added2]
  end.
  cbn [fst snd] in *. rewrite accumulate_zero_weights; [by rewrite C1, C2, C3|].
  apply Forall_fmap, Forall_forall. intros q Hq.
  apply list_elem_of_filter in Hq as [_ Hq]. cbn. rewrite (Hz q Hq). apply Rabs_R0.
Qed.

(** X13: in the grid engine the weight of a sample is [|dx * dy|]; a batch
    all of whose valid samples have [dx * dy = 0] (separations along one
    axis) changes none of the accumulators [sf_totals], [sf_sq_totals] and
    [weight_totals]: such samples are counted but never enter the mean.
    The batch is processed whenever [np.digitize] accepts the edges. *)
Theorem axis_aligned_batch_ignored (bins_x bins_y : list R) (add : bool) (sp : Z)
    (st : BinState) (added : list Z) (sf dx dy : list fl) :
  (∀ p, p ∈ valid_points sf dx dy → (p.1.2 * p.2)%R = 0%R) →
  (monotone bins_x → monotone bins_y →
   ∃ st' added',
     Grid.process_batch bins_x bins_y add sp (st, added) (sf, dx, dy) = Ok (st', added'))
  ∧ ∀ st' added',
      Grid.process_batch bins_x bins_y add sp (st, added) (sf, dx, dy) = Ok (st', added') →
      sf_totals st' = sf_totals st
      ∧ sf_sq_totals st' = sf_sq_totals st
      ∧ weight_totals st' = weight_totals st.
Proof.
  intros Hz. split.
  - intros Hx Hy. rewrite grid_process_batch_run by done.
    destruct (grid_batch _ _ _ _ _ _) as [st' added']. by exists st', added'.
  - intros st' added' Hrun. apply grid_process_batch_Ok in Hrun.
    pose proof (grid_batch_zero_weights bins_x bins_y add sp st added sf dx dy Hz) as H.
    cbv zeta in H. by rewrite <- Hrun in H.
Qed.

Lemma mark_initial_unflagged (eps : R) (st : BinState) (k : nat) (c : Z) (d : fl) :
  point_counts st !! k = Some c → bin_status st !! k = Some false → sf_stds st !! k = Some d →
  bin_status (mark_initial eps st) !! k
  = Some (bool_decide (c <= 10)%Z || isnan d || fle d (Some eps)).
Proof.
  intros Hc Hs Hd. rewrite (mark_initial_lookup eps st k c false d Hc Hs Hd). cbn.
  f_equal. destruct (bool_decide (c <= 10)%Z) eqn:E; cbn; [done|].
  destruct (isnan d); cbn; [done|]. rewrite andb_true_r.
  rewrite bool_decide_eq_true_2; [by rewrite andb_true_r|].
  apply bool_decide_eq_false_1 in E. lia.
Qed.

(** The state in which the markings are made: the sampled accumulators
    with fresh statistics and no flag set. *)
Lemma unmarked_state (n : nat) (st : BinState) :
  shaped n st → bin_status st = replicate n false →
  ∀ k, (k < n)%nat →
    ∃ c d, point_counts (recalculate st) !! k = Some c
           ∧ bin_status (recalculate st) !! k = Some false
           ∧ sf_stds (recalculate st) !! k = Some d.
Proof.
  intros Hsh Hbs k Hk.
  destruct (recalculate_fields st) as (_ & _ & _ & E4 & E5 & _ & Hcur).
  destruct (calculate_bin_statistics_length n st Hsh) as [_ Hlen].
  destruct Hsh as (_ & _ & _ & Hpc & _).
  destruct (lookup_lt_is_Some_2 (point_counts st) k) as [c Hc]; [lia|].
  destruct (lookup_lt_is_Some_2 (calculate_bin_statistics st).2 k) as [d Hd]; [lia|].
  exists c, d. rewrite E4, E5, Hbs. split; [done|]. split; [by apply lookup_replicate|].
  destruct Hcur as [_ ->]. unfold calculate_bin_statistics in *. cbn [snd] in *.
  destruct (recalculate_fields st) as (-> & -> & -> & _). done.
Qed.

Section InitialMarks.

Context {RNG : Type}.
Variable sampler : Z → nat → M RNG Batches.
Variables bins_x bins_y : list R.
Variable arctan2 : R → R → R.
Variable r_bins : list R.
Variable n_bins_theta : nat.
Variable spacing_values : list Z.
Variable initial_nbootstrap : Z.
Variable convergence_eps : R.

Lemma marks_spec (n : nat) (st : BinState) (k : nat) (flag : bool) :
  shaped n st → bin_status st = replicate n false →
  bin_status (mark_initial convergence_eps (recalculate st)) !! k = Some flag →
  ∃ c d,
    point_counts (mark_initial convergence_eps (recalculate st)) !! k = Some c
    ∧ sf_stds (mark_initial convergence_eps (recalculate st)) !! k = Some d
    ∧ flag = bool_decide (c <= 10)%Z || isnan d || fle d (Some convergence_eps).
Proof.
  intros Hsh Hbs Hflag.
  assert (k < n)%nat as Hk.
  { apply lookup_lt_Some in Hflag.
    destruct (recalculate_fields st) as (E1 & E2 & E3 & E4 & E5 & E6 & Hcur).
    assert (shaped n (recalculate st)) as Hsh'.
    { destruct Hsh as (?&?&?&?&?&?). unfold shaped. by rewrite E1, E2, E3, E4, E5, E6. }
    assert (length (sf_stds (recalculate st)) = n) as Hstd.
    { destruct Hcur as [_ ->]. by apply calculate_bin_statistics_length. }
    destruct (mark_initial_status convergence_eps n (recalculate st) Hsh' Hstd) as [Hlen _].
    lia. }
  destruct (unmarked_state n st Hsh Hbs k Hk) as (c & d & Hc & Hs & Hd).
  rewrite (mark_initial_unflagged _ _ _ _ _ Hc Hs Hd) in Hflag. injection Hflag as <-.
  destruct (mark_initial_fields convergence_eps (recalculate st))
    as (_ & _ & _ & -> & _ & _ & ->).
  by exists c, d.
Qed.

(** X14: when the initial phase of either engine is over, a bin is
    flagged as converged exactly when it has at most 10 points, or its
    standard deviation is NaN, or its standard deviation is at most
    [convergence_eps]; so a bin that enters the loop unflagged has more
    than 10 points and a standard deviation above [convergence_eps]. *)
Theorem initial_flags (w : world RNG) (st0 : BinState) (w0 : world RNG) :
  Grid.initial_phase sampler bins_x bins_y spacing_values initial_nbootstrap
                     convergence_eps w = Ok (st0, w0)
  ∨ Iso.initial_phase sampler arctan2 r_bins n_bins_theta spacing_values initial_nbootstrap
                      convergence_eps w = Ok (st0, w0) →
  ∀ k flag,
    bin_status st0 !! k = Some flag →
    ∃ c d,
      point_counts st0 !! k = Some c ∧ sf_stds st0 !! k = Some d
      ∧ flag = bool_decide (c <= 10)%Z || isnan d || fle d (Some convergence_eps).
Proof.
  intros [H|H] k flag.
  - unfold Grid.initial_phase in H.
    apply M_bind_Ok in H as (init & w1 & _ & H).
    apply M_bind_Ok in H as (st & w2 & Hf & [-> _]%mret_Ok).
    apply (foldM_invariant
             (λ st, shaped (Grid.n_bins bins_x bins_y) st
                    ∧ bin_status st = replicate (Grid.n_bins bins_x bins_y) false))
      in Hf as [Hsh Hbs].
    + by apply (marks_spec (Grid.n_bins bins_x bins_y)).
    + intros sp st1 w3 st2 w4 [Hsh Hbs] Hp. apply grid_process_sampled in Hp.
      split; [by eapply sampled_shaped|]. destruct Hp as (_ & -> & _). done.
    + split; [|done]. unfold shaped, Grid.initial_state. simpl.
      by rewrite !length_replicate.
  - unfold Iso.initial_phase in H.
    apply M_bind_Ok in H as (init & w1 & _ & H).
    apply M_bind_Ok in H as (st & w2 & Hf & [-> _]%mret_Ok).
    apply (foldM_invariant
             (λ st, shaped (Iso.n_bins_r r_bins) st
                    ∧ bin_status st = replicate (Iso.n_bins_r r_bins) false))
      in Hf as [Hsh Hbs].
    + by apply (marks_spec (Iso.n_bins_r r_bins)).
    + intros sp st1 w3 st2 w4 [Hsh Hbs] Hp. apply iso_process_sampled in Hp.
      split; [by eapply sampled_shaped|]. destruct Hp as (_ & -> & _). done.
    + split; [|done]. unfold shaped, Iso.initial_state. simpl.
      by rewrite !length_replicate.
Qed.

End InitialMarks.

Section LoopFrame.

Context {RNG : Type}.
Variable process_spacing_data : Z → Z → bool → BinState → M RNG BinState.
Hypothesis process_spacing_data_sampled :
  ∀ sp n st w st' w',
    process_spacing_data sp n false st w = Ok (st', w') → sampled false st st'.

Variables (spacing_values : list Z) (max_nbootstrap : Z) (convergence_eps : R).
Variables (bin_density : list R) (bootstrap_steps : list Z).

Lemma loop_length fuel st w st' w' :
  refinement_loop process_spacing_data spacing_values max_nbootstrap convergence_eps
                  bin_density bootstrap_steps fuel st w = Ok (st', w') →
  length (bin_bootstraps st') = length (bin_bootstraps st).
Proof.
  revert st w. induction fuel as [|fuel IH]; intros st w; cbn [refinement_loop].
  - case_decide; [|done]. by intros [-> _]%mret_Ok.
  - case_decide; [by intros [-> _]%mret_Ok|].
    intros (st1 & w1 & Hr & Hl)%M_bind_Ok.
    eapply round_spec in Hr as (_ & Hlen & _); [|exact process_spacing_data_sampled].
    apply IH in Hl. congruence.
Qed.

Lemma visit_effectiveness j st w st' w' :
  visit process_spacing_data spacing_values max_nbootstrap convergence_eps bootstrap_steps
        j st w = Ok (st', w') →
  bin_spacing_effectiveness st' = bin_spacing_effectiveness st.
Proof.
  unfold visit. destruct (default false _); [by intros [-> _]%mret_Ok|].
  intros ([total st1] & w1 & Hd & H)%M_bind_Ok.
  eapply distribute_sampled in Hd as (_ & _ & _ & _ & _ & _ & Hs);
    [|exact process_spacing_data_sampled].
  destruct (Hs eq_refl) as [_ <-].
  destruct (fle _ _); [|destruct (bool_decide _)]; apply mret_Ok in H as [-> _]; done.
Qed.

Lemma loop_effectiveness fuel st w st' w' :
  refinement_loop process_spacing_data spacing_values max_nbootstrap convergence_eps
                  bin_density bootstrap_steps fuel st w = Ok (st', w') →
  bin_spacing_effectiveness st' = bin_spacing_effectiveness st.
Proof.
  revert st w. induction fuel as [|fuel IH]; intros st w; cbn [refinement_loop].
  - case_decide; [|done]. by intros [-> _]%mret_Ok.
  - case_decide; [by intros [-> _]%mret_Ok|].
    intros (st1 & w1 & Hr & Hl)%M_bind_Ok. apply IH in Hl. rewrite Hl.
    unfold round in Hr.
    eapply (foldM_invariant
              (λ s, bin_spacing_effectiveness s = bin_spacing_effectiveness st));
      [|reflexivity|exact Hr].
    intros j s w2 s' w3 Hs Hv. apply visit_effectiveness in Hv. congruence.
Qed.

(** What the loop leaves when it ends: no bin is unconverged; budgets,
    counts and effectiveness scores are framed. *)
Lemma loop_exit n initial fuel st w st' w' :
  ready n initial st →
  refinement_loop process_spacing_data spacing_values max_nbootstrap convergence_eps
                  bin_density bootstrap_steps fuel st w = Ok (st', w') →
  point_counts st' = point_counts st
  ∧ bin_spacing_effectiveness st' = bin_spacing_effectiveness st
  ∧ ∀ k flag b, bin_status st' !! k = Some flag → bin_bootstraps st' !! k = Some b →
                flag = true ∨ (max_nbootstrap <= b)%Z.
Proof.
  intros (Hbb & Hsh & _ & Hlow) Hl.
  pose proof (loop_length _ _ _ _ _ Hl) as Hlen.
  pose proof (loop_effectiveness _ _ _ _ _ Hl) as Heff.
  eapply loop_flags in Hl as [[Hpc Hkept] Hu]; [|exact process_spacing_data_sampled].
  split; [done|]. split; [done|].
  intros k flag b Hs Hb. destruct flag; [by left|]. right.
  assert (k < n)%nat as Hk.
  { apply lookup_lt_Some in Hb. rewrite Hlen, Hbb, length_replicate in Hb. done. }
  destruct Hsh as (_ & _ & _ & Hpcl & _).
  destruct (lookup_lt_is_Some_2 (point_counts st) k) as [c Hc]; [lia|].
  assert (is_unconverged max_nbootstrap st' k = false) as Hnot.
  { destruct (is_unconverged max_nbootstrap st' k) eqn:E; [|done].
    assert (k ∈ unconverged max_nbootstrap st') as Hin.
    { unfold unconverged. apply list_elem_of_filter. split; [done|].
      apply elem_of_seq. apply lookup_lt_Some in Hs. lia. }
    rewrite Hu in Hin. by apply elem_of_nil in Hin. }
  unfold is_unconverged in Hnot. rewrite Hs, Hpc, Hc, Hb in Hnot. cbn [negb andb] in Hnot.
  destruct (decide (c <= 10)%Z) as [Hle|Hgt].
  - destruct (Hkept k (Hlow k c Hc Hle)) as [_ Hs']. congruence.
  - rewrite bool_decide_eq_true_2 in Hnot by lia. cbn [andb] in Hnot.
    apply bool_decide_eq_false_1 in Hnot. lia.
Qed.

End LoopFrame.

Section Outputs.

Context {RNG : Type}.
Variable sampler : Z → nat → M RNG Batches.
Variables bins_x bins_y : list R.
Variable arctan2 : R → R → R.
Variable z_score : R.
Variable r_bins : list R.
Variable n_bins_theta : nat.
Variable spacing_values : list Z.
Variables initial_nbootstrap max_nbootstrap step_nbootstrap : Z.
Variable convergence_eps : R.

(** X15: when the bootstrapping branch of either engine returns, every
    bin of the output is flagged as converged or has a bootstrap count
    of at least [max_nbootstrap]. *)
Theorem converged_or_exhausted :
  (∀ fuel w sf sf_std nbootstraps density point_counts converged w',
     Grid.adaptive sampler bins_x bins_y spacing_values initial_nbootstrap max_nbootstrap
                   step_nbootstrap convergence_eps fuel w
       = Ok (Binned sf sf_std nbootstraps density point_counts converged, w') →
     ∀ k flag b, converged !! k = Some flag → nbootstraps !! k = Some b →
       flag = true ∨ (max_nbootstrap <= b)%Z)
  ∧ (∀ fuel w out nbootstraps converged w',
       Iso.adaptive sampler arctan2 z_score r_bins n_bins_theta spacing_values
                    initial_nbootstrap max_nbootstrap step_nbootstrap convergence_eps fuel w
         = Ok (out, w') →
       iso_n_bootstrap out = Some nbootstraps → iso_converged out = Some converged →
       ∀ k flag b, converged !! k = Some flag → nbootstraps !! k = Some b →
         flag = true ∨ (max_nbootstrap <= b)%Z).
Proof.
  split.
  - intros fuel w sf sf_std nb density pc conv w' Hrun.
    apply grid_adaptive_inv in Hrun as (st0 & w0 & st & Hi & Hl & [= _ _ -> _ _ ->]).
    apply grid_initial_phase_ready in Hi.
    eapply loop_exit in Hl as (_ & _ & H); [exact H| |exact Hi].
    intros sp n st1 w1 st2 w2. apply grid_process_sampled.
  - intros fuel w out nb conv w' Hrun Hnb Hconv.
    apply iso_adaptive_inv in Hrun
      as (st0 & w0 & st & Hi & Hl & _ & _ & Enb & _ & _ & Ec & _).
    rewrite Enb in Hnb. injection Hnb as <-. rewrite Ec in Hconv. injection Hconv as <-.
    apply iso_initial_phase_ready in Hi.
    eapply loop_exit in Hl as (_ & _ & H); [exact H| |exact Hi].
    intros sp n st1 w1 st2 w2. apply iso_process_sampled.
Qed.

(** X16: the samples drawn by the convergence loop are not counted: the
    point counts in the output of either engine are those at the end of
    the initial phase, the density reported is computed from them, and
    the loop never changes the effectiveness scores of the spacings. *)
Theorem refinement_not_counted :
  (∀ fuel w sf sf_std nbootstraps density point_counts' converged w',
     Grid.adaptive sampler bins_x bins_y spacing_values initial_nbootstrap max_nbootstrap
                   step_nbootstrap convergence_eps fuel w
       = Ok (Binned sf sf_std nbootstraps density point_counts' converged, w') →
     ∃ st0 w0 st,
       Grid.initial_phase sampler bins_x bins_y spacing_values initial_nbootstrap
                          convergence_eps w = Ok (st0, w0)
       ∧ refinement_loop (Grid.process_spacing_data sampler bins_x bins_y) spacing_values
                         max_nbootstrap convergence_eps (Grid.bin_density_of bins_x bins_y st0)
                         (calculate_bootstrap_steps step_nbootstrap
                            (Grid.bin_density_of bins_x bins_y st0))
                         fuel st0 w0 = Ok (st, w')
       ∧ point_counts' = point_counts st0
       ∧ density = Grid.bin_density_of bins_x bins_y st0
       ∧ bin_spacing_effectiveness st = bin_spacing_effectiveness st0)
  ∧ (∀ fuel w out w',
       Iso.adaptive sampler arctan2 z_score r_bins n_bins_theta spacing_values
                    initial_nbootstrap max_nbootstrap step_nbootstrap convergence_eps fuel w
         = Ok (out, w') →
       ∃ st0 w0 st,
         Iso.initial_phase sampler arctan2 r_bins n_bins_theta spacing_values
                           initial_nbootstrap convergence_eps w = Ok (st0, w0)
         ∧ refinement_loop (Iso.process_spacing_data sampler arctan2 r_bins n_bins_theta)
                           spacing_values max_nbootstrap convergence_eps
                           (Iso.bin_density_of r_bins st0)
                           (calculate_bootstrap_steps step_nbootstrap
                              (Iso.bin_density_of r_bins st0))
                           fuel st0 w0 = Ok (st, w')
         ∧ iso_point_counts out = point_counts st0
         ∧ iso_bin_density out = Some (Iso.bin_density_of r_bins st0)
         ∧ bin_spacing_effectiveness st = bin_spacing_effectiveness st0).
Proof.
  split.
  - intros fuel w sf sf_std nb density pc conv w' Hrun.
    apply grid_adaptive_inv in Hrun as (st0 & w0 & st & Hi & Hl & [= _ _ _ -> -> _]).
    exists st0, w0, st. split; [done|]. split; [done|].
    pose proof (grid_initial_phase_ready _ _ _ _ _ _ _ _ _ Hi) as Hready.
    eapply loop_exit in Hl as (Hpc & Heff & _); [by rewrite Hpc| |exact Hready].
    intros sp n st1 w1 st2 w2. apply grid_process_sampled.
  - intros fuel w out w' Hrun.
    apply iso_adaptive_inv in Hrun
      as (st0 & w0 & st & Hi & Hl & _ & _ & _ & Ed & Epc & _).
    exists st0, w0, st. split; [done|]. split; [done|].
    pose proof (iso_initial_phase_ready _ _ _ _ _ _ _ _ _ _ Hi) as Hready.
    eapply loop_exit in Hl as (Hpc & Heff & _); [by rewrite Epc, Hpc| |exact Hready].
    intros sp n st1 w1 st2 w2. apply iso_process_sampled.
Qed.

End Outputs.

(* ------------------------------------------------------------------ *)
(** * Further properties of the branches without bootstrapping *)

Lemma sum_fmap_add {A} (a b : A → Z) (l : list A) :
  foldr Z.add 0%Z ((λ k, a k + b k)%Z <$> l)
  = (foldr Z.add 0%Z (a <$> l) + foldr Z.add 0%Z (b <$> l))%Z.
Proof. induction l as [|x l IH]; [done|]. cbn [fmap list_fmap foldr] in *. lia. Qed.

Lemma sum_indicator (z : Z) (s n : nat) :
  foldr Z.add 0%Z ((λ k, if decide (z = Z.of_nat k) then 1 else 0)%Z <$> seq s n)
  = (if decide (Z.of_nat s <= z < Z.of_nat (s + n))%Z then 1 else 0)%Z.
Proof.
  revert s. induction n as [|n IH]; intros s.
  - cbn. by rewrite decide_False by lia.
  - cbn [seq fmap list_fmap foldr]. 
    change (foldr Z.add 0%Z (list_fmap _ _ ?f (seq (S s) n)))
      with (foldr Z.add 0%Z (f <$> seq (S s) n)).
    rewrite IH. repeat case_decide; lia.
Qed.

Lemma count_partition {A} (f : A → Z) (n : nat) (pts : list A) :
  (∀ p, p ∈ pts → (0 <= f p < Z.of_nat n)%Z) →
  foldr Z.add 0%Z ((λ k, Z.of_nat (length (filter (λ p, f p = Z.of_nat k) pts))) <$> seq 0 n)
  = Z.of_nat (length pts).
Proof.
  induction pts as [|p pts IH]; intros Hr.
  - clear. generalize 0%nat. induction n as [|n IH]; intros s; [done|].
    cbn [seq fmap list_fmap foldr]. rewrite filter_nil.
    change (foldr Z.add 0%Z (list_fmap _ _ ?f (seq (S s) n)))
      with (foldr Z.add 0%Z (f <$> seq (S s) n)).
    by rewrite IH.
  - rewrite <- (list_fmap_ext
                  (λ k, (if decide (f p = Z.of_nat k) then 1 else 0)
                        + Z.of_nat (length (filter (λ p, f p = Z.of_nat k) pts)))%Z).
    2:{ intros i k _. cbv beta. case_decide.
        - rewrite filter_cons_True by done. cbn [length]. lia.
        - rewrite filter_cons_False by done. lia. }
    rewrite (sum_fmap_add (λ k, if decide (f p = Z.of_nat k) then 1 else 0)%Z).
    rewrite sum_indicator, IH by (intros q Hq; apply Hr; by right).
    specialize (Hr p ltac:(left)). rewrite decide_True by lia. cbn [length]. lia.
Qed.

(** X17: when the branch of [bin_sf_2d] without bootstrapping returns,
    every valid sample has landed in exactly one bin: the three output
    arrays have one entry per bin, and the point counts add up to the
    number of valid samples. *)
Theorem bin_once_counts (bins_x bins_y : list R) (results dx_vals dy_vals : list fl)
    (sf sf_std : list fl) (counts : list Z) :
  (2 <= length bins_x)%nat → (2 <= length bins_y)%nat →
  Grid.bin_once bins_x bins_y results dx_vals dy_vals = Ok (BinnedOnce sf sf_std counts) →
  length sf = Grid.n_bins bins_x bins_y
  ∧ length sf_std = Grid.n_bins bins_x bins_y
  ∧ length counts = Grid.n_bins bins_x bins_y
  ∧ foldr Z.add 0%Z counts = Z.of_nat (length (valid_points results dx_vals dy_vals)).
Proof.
  intros Hx Hy. unfold Grid.bin_once. cbv zeta.
  destruct (check_monotonic bins_x); cbn [mbind res_bind]; try done.
  destruct (check_monotonic bins_y); cbn [mbind res_bind]; try done.
  intros [= <- <- <-].
  rewrite !length_fmap, !length_seq. do 3 (split; [done|]).
  apply count_partition. intros p _.
  destruct (grid_bin_id_range bins_x bins_y Hx Hy p) as [Hr _].
  unfold Grid.n_bins. unfold Grid.n_bins_x, Grid.n_bins_y in *. lia.
Qed.

Lemma weighted_sum_scaled (W : R) (l : list (R * R)) :
  W ≠ 0%R →
  (Rsum (zip_with Rmult (l.*1) ((λ w, w / W)%R <$> l.*2)) * W)%R
  = Rsum (zip_with Rmult (l.*1) (l.*2)).
Proof.
  intros HW. unfold Rsum. induction l as [|[s w] l IH].
  - cbn. ring.
  - rewrite !fmap_cons. cbn [zip_with foldr fst snd]. rewrite <- IH. field. done.
Qed.

Lemma weighted_sum_between (lo hi : R) (l : list (R * R)) :
  Forall (λ p, 0 <= p.2 ∧ lo <= p.1 <= hi)%R l →
  (lo * Rsum (l.*2) <= Rsum (zip_with Rmult (l.*1) (l.*2)) <= hi * Rsum (l.*2))%R.
Proof.
  unfold Rsum. induction 1 as [|[s w] l (Hw & Hlo & Hhi) _ IH]; [cbn; lra|].
  rewrite !fmap_cons. cbn [zip_with foldr fst snd] in *.
  assert (lo * w <= s * w)%R by (apply Rmult_le_compat_r; lra).
  assert (s * w <= hi * w)%R by (apply Rmult_le_compat_r; lra).
  lra.
Qed.

(** X18: a weighted mean of samples with non-negative weights lies
    between the smallest and the largest sample: whenever
    [weighted_mean] is a number, it is within every interval that holds
    all the samples. *)
Theorem weighted_mean_between (lo hi : R) (l : list (R * R)) (m : R) :
  Forall (λ p, 0 <= p.2 ∧ lo <= p.1 <= hi)%R l →
  weighted_mean (l.*1) (l.*2) = Some m →
  (lo <= m <= hi)%R.
Proof.
  intros Hl. unfold weighted_mean. case_decide as HW; [|done]. intros [= <-].
  pose proof (weighted_sum_between lo hi l Hl) as Hb.
  assert (Rsum (l.*2) ≠ 0%R) as Hne by (intros E; rewrite E in HW; lra).
  pose proof (weighted_sum_scaled (Rsum (l.*2)) l Hne) as Hs.
  rewrite <- Hs in Hb. destruct Hb as [Hb1 Hb2]. split.
  - apply (Rmult_le_reg_r (Rsum (l.*2))); [done|exact Hb1].
  - apply (Rmult_le_reg_r (Rsum (l.*2))); [done|exact Hb2].
Qed.

Lemma variance_sum_nonneg (W mean : R) (ws sf : list R) :
  (0 < W)%R → Forall (λ w, 0 <= w)%R ws →
  (0 <= Rsum (zip_with Rmult ((λ w, w / W)%R <$> ws) ((λ s, (s - mean) ^ 2)%R <$> sf)))%R.
Proof.
  intros HW Hws. unfold Rsum. revert sf.
  induction Hws as [|w ws Hw _ IH]; intros sf; [cbn; lra|].
  destruct sf as [|s sf]; [cbn; lra|].
  rewrite !fmap_cons. cbn [zip_with foldr]. specialize (IH sf).
  assert (0 <= w / W * (s - mean) ^ 2)%R.
  { apply Rmult_le_pos; [|apply pow2_ge_0].
    apply Rmult_le_pos; [done|]. apply Rlt_le. by apply Rinv_0_lt_compat. }
  lra.
Qed.

Lemma weighted_variance_nonneg (sf ws : list R) (v : R) :
  Forall (λ w, 0 <= w)%R ws →
  weighted_variance sf ws = Some v → (0 <= v)%R.
Proof.
  intros Hws. unfold weighted_variance. case_decide as HW; [|done]. cbv zeta. intros [= <-].
  by apply variance_sum_nonneg.
Qed.

Section OnceBranch.

Variable arctan2 : R → R → R.
Variable z_score : R.
Variable r_bins : list R.
Variable n_bins_theta : nat.

(** X19: in the branch of [get_isotropic_sf_2d] without bootstrapping the
    standard deviation of a radial bin is NaN exactly when its mean is
    NaN, and is never negative: the weights are the radii, which are not
    negative, so the weighted variance has a square root. *)
Theorem once_std_defined (results dx_vals dy_vals : list fl) (out : IsoDataset) :
  Iso.isotropic_once arctan2 z_score r_bins n_bins_theta results dx_vals dy_vals = Ok out →
  ∀ k mean std,
    iso_sf out !! k = Some mean → iso_std out !! k = Some std →
    isnan std = isnan mean ∧ nan_or_nonneg std.
Proof.
  intros Hrun k mean std. unfold Iso.isotropic_once in Hrun.
  destruct (Iso.polar arctan2 <$> valid_points results dx_vals dy_vals) as [|p pts] eqn:E;
    [done|].
  destruct (check_monotonic r_bins); cbn [mbind res_bind] in Hrun; try done.
  destruct (check_monotonic _); cbn [mbind res_bind] in Hrun; try done.
  injection Hrun as <-. cbn [iso_sf iso_std]. rewrite !list_lookup_fmap.
  destruct (seq 0 (Iso.n_bins_r r_bins) !! k) as [r_idx|]; [|done].
  cbn [fmap option_fmap option_map]. unfold Iso.once_bin. cbn [fst snd].
  set (members := filter (λ q, Iso.r_index_of r_bins q = Z.of_nat r_idx) (p :: pts)).
  intros [= <-] [= <-].
  assert (Forall (λ w, 0 <= w)%R (members.*1.*2)) as Hw.
  { apply Forall_fmap, Forall_fmap, Forall_forall. intros q Hq.
    apply list_elem_of_filter in Hq as [_ Hq]. rewrite <- E in Hq.
    apply list_elem_of_fmap_1 in Hq as ([[s dx] dy] & -> & _). cbn. apply sqrt_pos. }
  destruct (weighted_variance (members.*1.*1) (members.*1.*2)) as [v|] eqn:Ev.
  - pose proof (weighted_variance_nonneg _ _ _ Hw Ev) as Hv.
    unfold weighted_variance in Ev. unfold weighted_mean.
    case_decide; [|done]. unfold fsqrt. rewrite decide_True by done.
    split; [done|]. cbn. apply sqrt_pos.
  - unfold weighted_variance in Ev. unfold weighted_mean.
    case_decide; [done|]. done.
Qed.


End OnceBranch.

(* ------------------------------------------------------------------ *)
(** * Further properties of the entry points *)

Lemma check_edges_raise (l : list (list R)) (edges : list R) :
  edges ∈ l → (length edges < 2)%nat →
  mapM check_edges l = Raise (ValueError "Bin edges must have at least 2 values").
Proof.
  intros Hin Hlen. induction l as [|e l IH]; [by apply elem_of_nil in Hin|].
  change (mapM check_edges (e :: l))
    with (y ← check_edges e; k ← mapM check_edges l; mret (y :: k)).
  unfold mbind at 1. unfold res_bind at 1.
  destruct (check_edges e) as [[]| |] eqn:Ee.
  - apply elem_of_cons in Hin as [->|Hin].
    + unfold check_edges in Ee. by rewrite decide_True in Ee.
    + by rewrite (IH Hin).
  - unfold check_edges in Ee. case_decide; [by injection Ee as <-|done].
  - unfold check_edges in Ee. by case_decide.
Qed.

Section Validation.

Context {RNG : Type}.
Variable check_and_reorder_variables_2d :
  list string → Dims → option string → res (list string).
Variable isel : Dataset → gmap string (list nat) → Dataset.
Variable np_random_seed : Z → RNG.
Variable np_random_choice : RNG → nat → nat → list nat * RNG.
Variable get_boot_indexes_2d :
  Dims → gmap string nat → gmap string Z → list Z → IndexTable →
  list string → nat → Z → gmap string index_matrix.
Variable arctan2 : R → R → R.
Variable z_score : R.
Variable validate_dataset_2d : Dataset → res (Dims * gmap string nat * Dataset).
Variable setup_bootsize_2d :
  Dims → gmap string nat → option (gmap string Z) → res (gmap string Z * list string * nat).
Variable SpacingsInfo : Type.
Variable calculate_adaptive_spacings_2d :
  Dims → gmap string nat → gmap string Z → list string → nat → res (SpacingsInfo * list Z).
Variable compute_boot_indexes_2d :
  Dims → gmap string nat → gmap string Z → list Z → list string → res IndexTable.

#[local] Abbreviation grid_entry :=
  (bin_sf_2d check_and_reorder_variables_2d isel np_random_seed np_random_choice
             get_boot_indexes_2d validate_dataset_2d setup_bootsize_2d SpacingsInfo
             calculate_adaptive_spacings_2d compute_boot_indexes_2d).
#[local] Abbreviation iso_entry :=
  (get_isotropic_sf_2d check_and_reorder_variables_2d isel np_random_seed np_random_choice
                       get_boot_indexes_2d arctan2 z_score validate_dataset_2d
                       setup_bootsize_2d SpacingsInfo calculate_adaptive_spacings_2d
                       compute_boot_indexes_2d).

(** X21: once the dataset is validated and the bootstrap set-up is made,
    both entry points check [bins] before any structure function is
    computed.  [bin_sf_2d] raises [ValueError] when [bins] lacks one of the
    two dimensions, and when any of its entries, also one of a dimension
    that is not used, has fewer than 2 edges; [get_isotropic_sf_2d] raises
    [ValueError] when [bins] is [None] or lacks ['r'], and when ['r'] has
    fewer than 2 edges. *)
Theorem bins_are_validated (fuel : nat) (ds valid_ds : Dataset) (variables_names : list string)
    (order : Order) (bootsize : option (gmap string Z)) (fn : string)
    (initial_nbootstrap max_nbootstrap step_nbootstrap : Z) (n_bins_theta : nat)
    (convergence_eps : R) (w : world RNG)
    dims data_shape bootsize_dict bootstrappable_dims num_bootstrappable spacings_info
    all_spacings boot_indexes :
  validate_dataset_2d ds = Ok (dims, data_shape, valid_ds) →
  setup_bootsize_2d dims data_shape bootsize
    = Ok (bootsize_dict, bootstrappable_dims, num_bootstrappable) →
  calculate_adaptive_spacings_2d dims data_shape bootsize_dict bootstrappable_dims
                                 num_bootstrappable = Ok (spacings_info, all_spacings) →
  compute_boot_indexes_2d dims data_shape bootsize_dict all_spacings bootstrappable_dims
    = Ok boot_indexes →
  (∀ bins,
     bins !! dims.1 = None ∨ bins !! dims.2 = None →
     grid_entry fuel ds variables_names order bins bootsize fn initial_nbootstrap
                max_nbootstrap step_nbootstrap convergence_eps w
     = Raise (ValueError "'bins' must be a dictionary with all dimensions as keys"))
  ∧ (∀ bins dim edges,
       is_Some (bins !! dims.1) → is_Some (bins !! dims.2) →
       bins !! dim = Some edges → (length edges < 2)%nat →
       grid_entry fuel ds variables_names order bins bootsize fn initial_nbootstrap
                  max_nbootstrap step_nbootstrap convergence_eps w
       = Raise (ValueError "Bin edges must have at least 2 values"))
  ∧ (∀ bins,
       bins ≫= (.!! "r") = None →
       iso_entry fuel ds variables_names order bins bootsize initial_nbootstrap
                 max_nbootstrap step_nbootstrap fn n_bins_theta convergence_eps w
       = Raise (ValueError "'bins' must be a dictionary with 'r' as key"))
  ∧ (∀ bins edges,
       bins ≫= (.!! "r") = Some edges → (length edges < 2)%nat →
       iso_entry fuel ds variables_names order bins bootsize initial_nbootstrap
                 max_nbootstrap step_nbootstrap fn n_bins_theta convergence_eps w
       = Raise (ValueError "Bin edges must have at least 2 values")).
Proof.
  intros Hv Hs Hc Hi.
  split; [|split; [|split]].
  - intros bins Hb. unfold bin_sf_2d, mbind, M_bind, lift.
    rewrite Hv, Hs, Hc, Hi. cbv beta iota.
    destruct Hb as [->| ->]; [done|]. by destruct (bins !! dims.1).
  - intros bins dim edges [by_ Hy] [bx Hx] Hd Hlen. unfold bin_sf_2d, mbind, M_bind, lift.
    rewrite Hv, Hs, Hc, Hi. cbv beta iota. rewrite Hy, Hx.
    rewrite (check_edges_raise _ edges); [done| |done].
    apply list_elem_of_fmap. exists (dim, edges). split; [done|].
    by apply elem_of_map_to_list.
  - intros bins Hb. unfold get_isotropic_sf_2d, mbind at 1 2 3 4, M_bind, lift.
    rewrite Hv, Hs, Hc, Hi. cbv beta iota. by rewrite Hb.
  - intros bins edges Hb Hlen. unfold get_isotropic_sf_2d, mbind at 1 2 3 4, M_bind, lift.
    rewrite Hv, Hs, Hc, Hi. cbv beta iota. rewrite Hb.
    unfold mbind, M_bind, check_edges. by rewrite decide_True.
Qed.

End Validation.

(* ------------------------------------------------------------------ *)
(** * Further properties of the sampler *)

Section SamplerErrors.

Context {RNG : Type}.
Variable check_and_reorder_variables_2d :
  list string → Dims → option string → res (list string).
Variable isel : Dataset → gmap string (list nat) → Dataset.
Variable np_random_seed : Z → RNG.
Variable np_random_choice : RNG → nat → nat → list nat * RNG.
Variable get_boot_indexes_2d :
  Dims → gmap string nat → gmap string Z → list Z → IndexTable →
  list string → nat → Z → gmap string index_matrix.

Variables (ds : Dataset) (dims : Dims) (variables_names : list string) (order : Order).
Variables (nbootstrap : nat) (bootsize : gmap string Z).
Variables (all_spacings : list Z) (boot_indexes : IndexTable).
Variables (bootstrappable_dims : list string) (fn : string) (spacing : Spacing).

Lemma full_dataset_once_raise (num_bootstrappable : nat) (w : world RNG) (e : exn) :
  calculate_structure_function_2d check_and_reorder_variables_2d isel ds dims variables_names
    order fn 0%nat 0%nat SpNone num_bootstrappable None None = Raise e →
  full_dataset_once check_and_reorder_variables_2d isel ds dims variables_names order fn
                    num_bootstrappable w = Raise e.
Proof. intros H. unfold full_dataset_once, mbind, M_bind, lift. by rewrite H. Qed.

(** X22: the fall-back of [monte_carlo_simulation_2d] to one evaluation of
    the full dataset does not hide a failure of that evaluation: in each
    degenerate case, when the dispatcher raises on the full dataset, the
    sampler raises the same exception. *)
Theorem fallback_propagates_errors (num_bootstrappable : nat) (w : world RNG)
    (d : diag) (e : exn) :
  degenerate get_boot_indexes_2d ds dims bootsize all_spacings boot_indexes
             bootstrappable_dims spacing num_bootstrappable = Some d →
  calculate_structure_function_2d check_and_reorder_variables_2d isel ds dims variables_names
    order fn 0%nat 0%nat SpNone num_bootstrappable None None = Raise e →
  monte_carlo_simulation_2d check_and_reorder_variables_2d isel np_random_seed
    np_random_choice get_boot_indexes_2d ds dims variables_names order nbootstrap bootsize
    num_bootstrappable all_spacings boot_indexes bootstrappable_dims fn spacing w
  = Raise e.
Proof.
  intros Hd Hc. unfold degenerate in Hd. unfold monte_carlo_simulation_2d.
  destruct num_bootstrappable as [|[|n]].
  - simpl. unfold mbind, M_bind, print at 1.
    by rewrite (full_dataset_once_raise _ _ _ Hc).
  - simpl.
    fold (sp_value_of bootstrappable_dims spacing).
    fold (indexes_of get_boot_indexes_2d ds dims bootsize all_spacings boot_indexes
                     bootstrappable_dims spacing 1) in *.
    destruct (head bootstrappable_dims) as [bd|] eqn:Eh; [|done].
    destruct (valid_indices _ bd) eqn:Ev; [done|].
    unfold mbind, M_bind, seed at 1.
    unfold getitem, lift at 1. rewrite <- head_lookup, Eh. simpl. rewrite Ev. simpl.
    by rewrite (full_dataset_once_raise _ _ _ Hc).
  - simpl.
    fold (sp_value_of bootstrappable_dims spacing).
    fold (indexes_of get_boot_indexes_2d ds dims bootsize all_spacings boot_indexes
                     bootstrappable_dims spacing (S (S n))) in *.
    destruct (valid_indices _ dims.1 && valid_indices _ dims.2) eqn:Ev; [done|].
    unfold mbind, M_bind, seed at 1.
    apply andb_false_iff in Ev.
    match goal with
    | |- context [negb ?a || negb ?b] =>
        assert (negb a || negb b = true) as ->
          by (destruct Ev as [-> | ->]; [done|by rewrite orb_true_r])
    end.
    unfold print at 1. by rewrite (full_dataset_once_raise _ _ _ Hc).
Qed.

End SamplerErrors.

(* ------------------------------------------------------------------ *)
(** * Further properties of the angular-radial table *)

Lemma update_polar_shaped nt nr t r v st :
  polar_shaped nt nr st → polar_shaped nt nr (Iso.update_polar t r v st).
Proof.
  intros (L1 & F1 & L2 & F2). unfold polar_shaped, Iso.update_polar.
  cbn [sfr sfr_counts set_sfr set_sfr_counts]. rewrite !length_alter.
  split; [done|]. split; [|split; [done|]].
  - apply Forall_alter; [done|]. intros row _ Hrow. by rewrite length_insert.
  - apply Forall_alter; [done|]. intros row _ Hrow. unfold add_at. by rewrite length_alter.
Qed.

Lemma polar_cell_in_range nt nr st t r :
  polar_shaped nt nr st → (t < nt)%nat → (r < nr)%nat →
  ∃ row crow c, sfr st !! t = Some row ∧ (r < length row)%nat
                ∧ sfr_counts st !! t = Some crow ∧ crow !! r = Some c.
Proof.
  intros (L1 & F1 & L2 & F2) Ht Hr.
  destruct (lookup_lt_is_Some_2 (sfr st) t) as [row Hrow]; [lia|].
  destruct (lookup_lt_is_Some_2 (sfr_counts st) t) as [crow Hcrow]; [lia|].
  pose proof (Forall_lookup_1 _ _ _ _ F1 Hrow) as Hl1.
  pose proof (Forall_lookup_1 _ _ _ _ F2 Hcrow) as Hl2. cbv beta in *.
  destruct (lookup_lt_is_Some_2 crow r) as [c Hc]; [lia|].
  exists row, crow, c. repeat split; [done|lia|done|done].
Qed.

Lemma update_polar_same nt nr st t r v :
  polar_shaped nt nr st → (t < nt)%nat → (r < nr)%nat →
  Iso.sfr_at (Iso.update_polar t r v st) t r
  = Some (match Iso.sfr_at st t r with
          | None => v
          | Some old => (old * IZR (Iso.sfr_count_at st t r) + v)
                        / (IZR (Iso.sfr_count_at st t r) + 1)
          end)%R
  ∧ Iso.sfr_count_at (Iso.update_polar t r v st) t r = (Iso.sfr_count_at st t r + 1)%Z.
Proof.
  intros Hsh Ht Hr.
  destruct (polar_cell_in_range nt nr st t r Hsh Ht Hr) as (row & crow & c & Hrow & Hlen & Hcrow & Hc).
  unfold Iso.sfr_at, Iso.sfr_count_at, Iso.update_polar.
  cbn [sfr sfr_counts set_sfr set_sfr_counts].
  rewrite !list_lookup_alter_eq, Hrow, Hcrow. cbn [fmap option_fmap option_map mbind option_bind].
  rewrite list_lookup_insert_eq by done. rewrite add_at_lookup, decide_True by done.
  rewrite Hc. cbn [fmap option_fmap option_map from_option Datatypes.id].
  unfold Iso.sfr_at, Iso.sfr_count_at. rewrite Hrow, Hcrow.
  cbn [mbind option_bind]. rewrite Hc. cbn [from_option Datatypes.id].
  split; [|done]. by destruct (row !! r) as [[old|]|].
Qed.

Lemma update_polar_other st t r t' r' v :
  (t', r') ≠ (t, r) →
  Iso.sfr_at (Iso.update_polar t' r' v st) t r = Iso.sfr_at st t r
  ∧ Iso.sfr_count_at (Iso.update_polar t' r' v st) t r = Iso.sfr_count_at st t r.
Proof.
  intros Hne. unfold Iso.sfr_at, Iso.sfr_count_at, Iso.update_polar.
  cbn [sfr sfr_counts set_sfr set_sfr_counts].
  destruct (decide (t' = t)) as [->|Ht].
  - assert (r' ≠ r) as Hr by congruence.
    rewrite !list_lookup_alter_eq.
    destruct (sfr st !! t) as [row|], (sfr_counts st !! t) as [crow|];
      cbn [fmap option_fmap option_map mbind option_bind];
      rewrite ?list_lookup_insert_ne by done; rewrite ?add_at_lookup, ?decide_False by done;
      done.
  - by rewrite !list_lookup_alter_ne by done.
Qed.

Lemma polar_fold nt nr t r (updates : list (nat * nat * R)) :
  (t < nt)%nat → (r < nr)%nat →
  ∀ st n total,
    polar_shaped nt nr st →
    Iso.sfr_count_at st t r = Z.of_nat n →
    Iso.sfr_at st t r = (if decide (n = 0)%nat then NaN else Some (total / INR n)%R) →
    (n = 0%nat → total = 0%R) →
    let vs := written_to t r updates in
    Iso.sfr_count_at (update_polar_all updates st) t r = Z.of_nat (n + length vs)
    ∧ Iso.sfr_at (update_polar_all updates st) t r
      = (if decide (n + length vs = 0)%nat then NaN
         else Some ((total + Rsum vs) / INR (n + length vs))%R).
Proof.
  intros Ht Hr. unfold update_polar_all, written_to.
  induction updates as [|[[t' r'] v] updates IH]; intros st n total Hsh Hc Hcell H0.
  - cbn [foldl filter fmap list_fmap length]. rewrite Nat.add_0_r. split; [done|].
    rewrite Hcell. case_decide; [done|]. do 2 f_equal. unfold Rsum. cbn. lra.
  - cbn [foldl fst snd].
    pose proof (update_polar_shaped nt nr t' r' v st Hsh) as Hsh'.
    destruct (decide ((t', r') = (t, r))) as [E|Hne].
    + injection E as -> ->. rewrite filter_cons_True by done.
      destruct (update_polar_same nt nr st t r v Hsh Ht Hr) as [Hcell' Hc'].
      rewrite Hc, Hcell in Hcell'. rewrite Hc in Hc'.
      destruct (IH (Iso.update_polar t r v st) (S n) (total + v)%R Hsh') as [IH1 IH2].
      * rewrite Hc'. lia.
      * rewrite Hcell'. rewrite (decide_False (P := (S n = 0)%nat)) by lia.
        f_equal. case_decide as Hn.
        -- rewrite (H0 Hn). subst n. cbn. field.
        -- rewrite <- INR_IZR_INZ. rewrite S_INR. field.
           split; [|by apply not_0_INR]. 
           pose proof (pos_INR n). lra.
      * intros Hn. lia.
      * rewrite fmap_cons. cbn [length snd]. 
        replace (n + S (length (snd <$> filter (λ u, u.1 = (t, r)) updates)))%nat
          with (S n + length (snd <$> filter (λ u, u.1 = (t, r)) updates))%nat by lia.
        split; [done|]. rewrite IH2. case_decide; [done|]. do 2 f_equal.
        unfold Rsum. cbn [foldr]. lra.
    + rewrite filter_cons_False by done.
      destruct (update_polar_other st t r t' r' v Hne) as [Hcell' Hc'].
      apply IH; [done|by rewrite Hc'|by rewrite Hcell'|done].
Qed.

(** X23: an entry of the angular-radial table [sf_polar] is the plain
    average of the values written to it: starting from an empty cell
    (NaN, count 0), after any sequence of updates of the table the cell
    [(t, r)] holds the arithmetic mean of the values written to that
    cell, its counter holds their number, and a cell nothing was written
    to is still NaN. *)
Theorem polar_running_mean (nt nr t r : nat) (updates : list (nat * nat * R))
    (st : BinState) :
  polar_shaped nt nr st → (t < nt)%nat → (r < nr)%nat →
  Iso.sfr_at st t r = NaN → Iso.sfr_count_at st t r = 0%Z →
  let vs := written_to t r updates in
  Iso.sfr_count_at (update_polar_all updates st) t r = Z.of_nat (length vs)
  ∧ Iso.sfr_at (update_polar_all updates st) t r
    = (if decide (length vs = 0)%nat then NaN else Some (Rsum vs / INR (length vs))%R).
Proof.
  intros Hsh Ht Hr Hcell Hc.
  destruct (polar_fold nt nr t r updates Ht Hr st 0%nat 0%R Hsh Hc Hcell ltac:(done))
    as [H1 H2].
  cbn [Nat.add] in *. split; [done|]. rewrite H2. case_decide; [done|].
  do 2 f_equal. lra.
Qed.

(* ------------------------------------------------------------------ *)
(** * Properties of the bin centres *)

Lemma centers_lookup (log_bins : bool) (bins : list R) (i : nat) (lo hi : R) :
  bins !! i = Some lo → bins !! S i = Some hi →
  Centers.centers log_bins bins !! i
  = Some (if log_bins then fsqrt (Some (lo * hi)%R) else Some (0.5 * (lo + hi))%R).
Proof.
  intros Hlo Hhi. unfold Centers.centers.
  rewrite lookup_zip_with, Hlo. cbn [mbind option_bind].
  rewrite lookup_drop. cbn [Nat.add]. by rewrite Hhi.
Qed.

(** X24: there is one centre per bin, and the centre of a bin lies in the
    bin: for a bin [[lo, hi]] with [lo <= hi] the linear centre is the
    midpoint, and for [0 <= lo <= hi] the logarithmic centre is the
    geometric mean, both between [lo] and [hi]. *)
Theorem centers_within_bins (log_bins : bool) (bins : list R) :
  length (Centers.centers log_bins bins) = (length bins - 1)%nat
  ∧ ∀ i lo hi,
      bins !! i = Some lo → bins !! S i = Some hi → (lo <= hi)%R →
      (log_bins = true → 0 <= lo)%R →
      ∃ c, Centers.centers log_bins bins !! i = Some (Some c) ∧ (lo <= c <= hi)%R.
Proof.
  split.
  - unfold Centers.centers. rewrite length_zip_with, length_drop. lia.
  - intros i lo hi Hlo Hhi Hle Hpos. rewrite (centers_lookup _ _ _ _ _ Hlo Hhi).
    destruct log_bins.
    + specialize (Hpos eq_refl). unfold fsqrt.
      assert (0 <= lo * hi)%R by (apply Rmult_le_pos; lra).
      rewrite decide_True by done. eexists. split; [done|]. split.
      * rewrite <- (sqrt_square lo) at 1 by done. apply sqrt_le_1_alt.
        apply Rmult_le_compat_l; lra.
      * rewrite <- (sqrt_square hi) at 2 by lra. apply sqrt_le_1_alt.
        apply Rmult_le_compat_r; lra.
    + eexists. split; [done|]. lra.
Qed.

Lemma ratios_geometric (a q : R) (n : nat) :
  a ≠ 0%R → q ≠ 0%R →
  Centers.ratios (geometric a q n) = replicate n (Some q).
Proof.
  intros Ha Hq. unfold Centers.ratios, geometric.
  assert (∀ s, zip_with (λ hi lo, fdiv (Some hi) (Some lo))
                        ((λ i, a * q ^ i)%R <$> seq (S s) n)
                        ((λ i, a * q ^ i)%R <$> seq s (S n))
               = replicate n (Some q)) as H.
  { induction n as [|n IH]; intros s; [done|].
    cbn [seq]. rewrite !fmap_cons. cbn [zip_with replicate]. f_equal.
    - unfold fdiv. assert (a * q ^ s ≠ 0)%R as Hne.
      { apply Rmult_integral_contrapositive_currified; [done|by apply pow_nonzero]. }
      rewrite decide_False by done. f_equal. cbn [pow]. field.
      split; [by apply pow_nonzero|done].
    - apply (IH (S s)). }
  cbn [seq]. rewrite fmap_cons. cbn [drop]. apply (H 0%nat).
Qed.

Lemma sum_replicate (n : nat) (x : R) :
  foldr fadd (Some 0%R) (replicate n (Some x)) = Some (INR n * x)%R.
Proof.
  induction n as [|n IH]; [cbn; f_equal; lra|].
  cbn [replicate foldr]. rewrite IH. unfold fadd, lift2. f_equal. rewrite S_INR. lra.
Qed.

Lemma mean_replicate (n : nat) (x : R) :
  (0 < n)%nat → Centers.mean (replicate n (Some x)) = Some x.
Proof.
  intros Hn. unfold Centers.mean. rewrite sum_replicate, length_replicate. unfold fdiv.
  assert (INR n ≠ 0)%R by (apply not_0_INR; lia).
  rewrite decide_False by done. f_equal. by field.
Qed.

Lemma std_replicate (n : nat) (x : R) :
  (0 < n)%nat → Centers.std (replicate n (Some x)) = Some 0%R.
Proof.
  intros Hn. unfold Centers.std. rewrite mean_replicate by done.
  rewrite fmap_replicate. cbn [fsub lift2 fpow fmap option_fmap option_map].
  rewrite mean_replicate by done. unfold fsqrt.
  replace ((x - x) ^ 2)%R with 0%R by ring.
  rewrite decide_True by lra. by rewrite sqrt_0.
Qed.


(* ------------------------------------------------------------------ *)
(** * The isotropy and homogeneity diagnostics *)

Lemma sliding_window_inside (n : nat) (ws : Z) :
  (1 <= ws < Z.of_nat n)%Z →
  Metrics.sliding_window_view n (Z.of_nat n - ws + 1)
  = Ok ((λ i, seq i (n - Z.to_nat ws + 1)) <$> seq 0 (Z.to_nat ws)).
Proof.
  intros H. unfold Metrics.sliding_window_view.
  rewrite decide_False by lia. rewrite decide_False by lia.
  replace (Z.to_nat (Z.of_nat n - ws + 1)) with (n - Z.to_nat ws + 1)%nat by lia.
  by replace (n - (n - Z.to_nat ws + 1) + 1)%nat with (Z.to_nat ws) by lia.
Qed.

Lemma sliding_window_outside (n : nat) (ws : Z) :
  (ws <= 0)%Z →
  Metrics.sliding_window_view n (Z.of_nat n - ws + 1)
  = Raise (ValueError "window shape cannot be larger than input array shape").
Proof.
  intros H. unfold Metrics.sliding_window_view.
  rewrite decide_False by lia. by rewrite decide_True by lia.
Qed.

Lemma mapM_ok {A B} (f : A → res B) (g : A → B) (l : list A) :
  Forall (λ a, f a = Ok (g a)) l → mapM f l = Ok (g <$> l).
Proof.
  induction 1 as [|a l Ha _ IH]; [done|].
  change (mapM f (a :: l)) with (y ← f a; k ← mapM f l; mret (y :: k)).
  by rewrite Ha, IH.
Qed.

Lemma take_items_seq {A} (a : list A) (len i : nat) :
  (i + len <= length a)%nat →
  Metrics.take_items a (seq i len) = Ok (take len (drop i a)).
Proof.
  unfold Metrics.take_items. revert i. induction len as [|len IH]; intros i H; [done|].
  destruct (lookup_lt_is_Some_2 a i ltac:(lia)) as [x Hx].
  cbn [seq].
  change (mapM ?f (i :: ?l)) with (y ← f i; k ← mapM f l; mret (y :: k)).
  cbv beta. rewrite Hx. cbn [mbind res_bind]. rewrite IH by lia. rewrite (drop_S _ _ _ Hx). done.
Qed.

Lemma take_columns_seq (a : arr) (ncols len i : nat) :
  Forall (λ row, length row = ncols) a →
  (i + len <= ncols)%nat →
  Metrics.take_columns a (seq i len) = Ok ((λ row, take len (drop i row)) <$> a).
Proof.
  intros Ha H. unfold Metrics.take_columns. apply mapM_ok.
  eapply Forall_impl; [exact Ha|]. intros row Hrow. cbv beta in Hrow.
  apply take_items_seq. lia.
Qed.

Lemma accumulate_ok {A B} (f : A → B → res A) (g : A → B → A) (indices : list B) (acc : A) :
  (∀ acc idx, idx ∈ indices → f acc idx = Ok (g acc idx)) →
  Metrics.accumulate f acc indices = Ok (foldl g acc indices).
Proof.
  revert acc. induction indices as [|idx rest IH]; intros acc H; [done|].
  cbn [Metrics.accumulate foldl]. rewrite H by left. cbn [mbind res_bind].
  apply IH. intros acc' idx' Hin. apply H. by right.
Qed.

Lemma nanmean_axis0_length (ncols : nat) (a : arr) :
  length (Metrics.nanmean_axis0 ncols a) = ncols.
Proof. unfold Metrics.nanmean_axis0. by rewrite length_fmap, length_seq. Qed.

Lemma nanmean_nan_or_nonneg_abs (x y : fl) : nan_or_nonneg (fabs (fsub x y)).
Proof. destruct x, y; cbn; try done. apply Rabs_pos. Qed.

Lemma fadd_nan_or_nonneg (x y : fl) :
  nan_or_nonneg x → nan_or_nonneg y → nan_or_nonneg (fadd x y).
Proof. destruct x, y; cbn; try done. lra. Qed.

Lemma per_sample_nan_or_nonneg (n : nat) (x : fl) :
  nan_or_nonneg x → nan_or_nonneg (Metrics.per_sample n x).
Proof.
  destruct x as [x|]; [|done]. unfold Metrics.per_sample, fdiv. intros Hx.
  assert (0 < INR (Nat.max 1 n))%R as Hn by (apply lt_0_INR; lia).
  rewrite decide_False by lra. cbn.
  apply Rmult_le_pos; [done|]. left. by apply Rinv_0_lt_compat.
Qed.

(** Sums of absolute deviations, accumulated from zeros, keep the length
    and stay non-negative wherever they are not NaN. *)
Lemma deviations_sum {B} (dev : B → list fl) (mean : list fl) (n : nat) (indices : list B) :
  length mean = n →
  (∀ idx, idx ∈ indices → length (dev idx) = n) →
  ∀ acc, length acc = n → Forall nan_or_nonneg acc →
    let out := foldl (λ acc idx, zip_with fadd acc (fabs <$> zip_with fsub (dev idx) mean))
                     acc indices in
    length out = n ∧ Forall nan_or_nonneg out.
Proof.
  intros Hm. induction indices as [|idx rest IH]; intros Hdev acc Hlen Hacc; [done|].
  cbn [foldl]. apply IH.
  - intros idx' Hin. apply Hdev. by right.
  - rewrite length_zip_with, length_fmap, length_zip_with, Hlen, Hm, Hdev by left. lia.
  - apply Forall_lookup_2. intros k v Hk.
    apply lookup_zip_with_Some in Hk as (x & y & -> & Hx & Hy).
    rewrite list_lookup_fmap in Hy. apply fmap_Some in Hy as (d & Hd & ->).
    apply lookup_zip_with_Some in Hd as (p & q & -> & _ & _).
    apply fadd_nan_or_nonneg; [|apply nanmean_nan_or_nonneg_abs].
    by eapply (Forall_lookup_1 _ _ _ _ Hacc).
Qed.

Lemma zeros_nan_or_nonneg (n : nat) : Forall nan_or_nonneg (replicate n (Some 0%R)).
Proof. apply Forall_replicate. cbn. lra. Qed.

Lemma per_sample_all (n : nat) (l : list fl) :
  Forall nan_or_nonneg l → Forall nan_or_nonneg (Metrics.per_sample n <$> l).
Proof.
  intros H. apply Forall_fmap. eapply Forall_impl; [exact H|].
  intros x Hx. by apply per_sample_nan_or_nonneg.
Qed.

(** X26: the window size of the isotropy diagnostic is the number of
    windows, each window spanning [n_bins_theta - window_size_theta + 1]
    angular bins.  A window size of [n_bins_theta] or more skips the
    diagnostic with a warning and reports zeros; a window size of zero or
    less makes [sliding_window_view] raise [ValueError]; in between the
    error has one entry per radial bin, each NaN or non-negative.  The
    default window size never raises. *)
Theorem isotropy_error_windows (sfr : arr) (sf_means : list fl) (n_bins_theta n_bins_r : nat)
    (window_size_theta : Z) :
  length sfr = n_bins_theta → length sf_means = n_bins_r →
  ((window_size_theta <= 0)%Z → (window_size_theta < Z.of_nat n_bins_theta)%Z →
     ∃ msg, Metrics.error_isotropy sfr sf_means n_bins_theta n_bins_r window_size_theta
            = Raise (ValueError msg))
  ∧ ((Z.of_nat n_bins_theta <= window_size_theta)%Z →
       Metrics.error_isotropy sfr sf_means n_bins_theta n_bins_r window_size_theta
       = Ok (replicate n_bins_r (Some 0%R), [Metrics.ThetaWindowTooLarge]))
  ∧ ((1 <= window_size_theta < Z.of_nat n_bins_theta)%Z →
       Metrics.sliding_window_view n_bins_theta
         (Z.of_nat n_bins_theta - window_size_theta + 1)
       = Ok ((λ i, seq i (n_bins_theta - Z.to_nat window_size_theta + 1))
               <$> seq 0 (Z.to_nat window_size_theta))
       ∧ ∃ eiso,
           Metrics.error_isotropy sfr sf_means n_bins_theta n_bins_r window_size_theta
           = Ok (eiso, [])
           ∧ length eiso = n_bins_r ∧ Forall nan_or_nonneg eiso)
  ∧ ∃ eiso warnings,
      Metrics.error_isotropy sfr sf_means n_bins_theta n_bins_r
        (Metrics.default_window n_bins_theta) = Ok (eiso, warnings)
      ∧ length eiso = n_bins_r.
Proof.
  intros Hsfr Hmeans.
  assert (∀ ws, (1 <= ws < Z.of_nat n_bins_theta)%Z →
            ∃ eiso, Metrics.error_isotropy sfr sf_means n_bins_theta n_bins_r ws = Ok (eiso, [])
                    ∧ length eiso = n_bins_r ∧ Forall nan_or_nonneg eiso) as Hin.
  { intros ws Hws. unfold Metrics.error_isotropy. rewrite decide_True by lia.
    rewrite sliding_window_inside by done. cbn [mbind res_bind].
    set (len := (n_bins_theta - Z.to_nat ws + 1)%nat).
    set (indices := (λ i, seq i len) <$> seq 0 (Z.to_nat ws)).
    rewrite (accumulate_ok _
               (λ acc idx, zip_with fadd acc
                  (fabs <$> zip_with fsub
                     (Metrics.nanmean_axis0 n_bins_r (take len (drop (default 0%nat (head idx)) sfr)))
                     sf_means))).
    2:{ intros acc idx Hidx. apply list_elem_of_fmap in Hidx as (i & -> & Hi).
        apply elem_of_seq in Hi. rewrite take_items_seq by (unfold len; lia).
        cbn [mbind res_bind]. unfold len. by destruct (n_bins_theta - Z.to_nat ws + 1)%nat. }
    cbn [mbind res_bind]. eexists. split; [reflexivity|].
    destruct (deviations_sum
                (λ idx, Metrics.nanmean_axis0 n_bins_r
                          (take len (drop (default 0%nat (head idx)) sfr)))
                sf_means n_bins_r indices Hmeans
                (λ _ _, nanmean_axis0_length _ _)
                (replicate n_bins_r (Some 0%R)) (length_replicate _ _)
                (zeros_nan_or_nonneg _)) as [Hl Hn].
    split; [by rewrite length_fmap|]. by apply per_sample_all. }
  split; [|split; [|split]].
  - intros Hle Hlt. unfold Metrics.error_isotropy. rewrite decide_True by done.
    rewrite sliding_window_outside by done. by eexists.
  - intros Hge. unfold Metrics.error_isotropy. by rewrite decide_False by lia.
  - intros Hws. split; [by apply sliding_window_inside|]. by apply Hin.
  - unfold Metrics.default_window.
    destruct (decide (Z.max (Z.of_nat n_bins_theta / 3) 1 < Z.of_nat n_bins_theta)%Z) as [Hlt|Hge].
    + destruct (Hin (Z.max (Z.of_nat n_bins_theta / 3) 1) ltac:(lia)) as (eiso & He & Hl & _).
      by exists eiso, [].
    + unfold Metrics.error_isotropy. rewrite decide_False by done.
      eexists _, _. split; [reflexivity|]. apply length_replicate.
Qed.

Lemma nanmean_replicate (n : nat) (v : fl) :
  (0 < n)%nat → nanmean [replicate n v] = v.
Proof.
  intros Hn. unfold nanmean. cbn [concat]. rewrite app_nil_r.
  destruct v as [x|].
  - assert (finite_values (replicate n (Some x)) = replicate n x) as ->.
    { unfold finite_values. clear Hn. induction n as [|k IH]; [done|].
      cbn. by f_equal. }
    destruct n as [|k]; [lia|].
    change (replicate (S k) x) with (x :: replicate k x) at 1.
    cbv beta iota. rewrite Rsum_replicate, length_replicate. f_equal.
    assert (0 < INR (S k))%R by (apply lt_0_INR; lia). field. lra.
  - assert (finite_values (replicate n (@None R)) = []) as ->; [|done].
    unfold finite_values. clear Hn. induction n; [done|]. cbn. done.
Qed.

Lemma nanmean_axis0_replicate (len : nat) (row : list fl) :
  (0 < len)%nat → Metrics.nanmean_axis0 (length row) (replicate len row) = row.
Proof.
  intros Hlen. unfold Metrics.nanmean_axis0. apply list_eq. intros j.
  rewrite list_lookup_fmap.
  destruct (decide (j < length row)%nat) as [Hj|Hj].
  - rewrite lookup_seq_lt by done. cbn [fmap option_fmap option_map].
    destruct (lookup_lt_is_Some_2 row j Hj) as [v Hv].
    rewrite fmap_replicate. change (0 + j)%nat with j. rewrite Hv.
    cbn [from_option Datatypes.id]. by rewrite nanmean_replicate.
  - rewrite lookup_seq_ge by lia. symmetry. apply lookup_ge_None. lia.
Qed.

Lemma self_deviations (l : list fl) : fabs <$> zip_with fsub l l = self_deviation <$> l.
Proof.
  induction l as [|[x|] l IH]; [done| |]; cbn [zip_with fmap list_fmap] in *; rewrite IH.
  - f_equal. cbn. f_equal. replace (x - x)%R with 0%R by lra. apply Rabs_R0.
  - done.
Qed.

Lemma add_self_deviations (l : list fl) :
  zip_with fadd (replicate (length l) (Some 0%R)) (self_deviation <$> l) = self_deviation <$> l
  ∧ zip_with fadd (self_deviation <$> l) (self_deviation <$> l) = self_deviation <$> l.
Proof.
  induction l as [|[x|] l [IH1 IH2]]; [done| |];
    cbn [length replicate zip_with fmap list_fmap] in *; rewrite IH1, IH2;
    split; try done; cbn; repeat f_equal; lra.
Qed.

Lemma per_sample_self_deviations (n : nat) (l : list fl) :
  Metrics.per_sample n <$> (self_deviation <$> l) = self_deviation <$> l.
Proof.
  rewrite <- list_fmap_compose. apply list_fmap_ext. intros _ [x|] _; [|done].
  cbn. unfold Metrics.per_sample, fdiv.
  assert (0 < INR (Nat.max 1 n))%R as Hn by (apply lt_0_INR; lia).
  rewrite decide_False by lra. f_equal. unfold Rdiv. apply Rmult_0_l.
Qed.

(** X27: on a perfectly isotropic table, where every angular row of [sfr]
    equals the radial means, the error of isotropy is zero in every
    radial bin that has a mean, and NaN in the others. *)
Theorem isotropic_table_no_error (sf_means : list fl) (n_bins_theta n_bins_r : nat)
    (window_size_theta : Z) :
  length sf_means = n_bins_r →
  (1 <= window_size_theta < Z.of_nat n_bins_theta)%Z →
  Metrics.error_isotropy (replicate n_bins_theta sf_means) sf_means n_bins_theta n_bins_r
                         window_size_theta
  = Ok ((λ m, if isnan m then NaN else Some 0%R) <$> sf_means, []).
Proof.
  intros Hlen Hws. unfold Metrics.error_isotropy. rewrite decide_True by lia.
  rewrite sliding_window_inside by done. cbn [mbind res_bind].
  set (len := (n_bins_theta - Z.to_nat window_size_theta + 1)%nat).
  rewrite (accumulate_ok _ (λ acc _, zip_with fadd acc (self_deviation <$> sf_means))).
  2:{ intros acc idx Hidx. apply list_elem_of_fmap in Hidx as (i & -> & Hi).
      apply elem_of_seq in Hi.
      rewrite take_items_seq by (rewrite length_replicate; unfold len; lia).
      cbn [mbind res_bind]. rewrite drop_replicate, take_replicate.
      rewrite <- Hlen, nanmean_axis0_replicate by (unfold len; lia).
      by rewrite self_deviations. }
  cbn [mbind res_bind]. do 2 f_equal.
  change (λ m : fl, if isnan m then NaN else Some 0%R) with self_deviation.
  destruct (Z.to_nat window_size_theta) as [|k] eqn:Ek; [lia|].
  cbn [seq fmap list_fmap foldl]. rewrite <- Hlen, (proj1 (add_self_deviations sf_means)).
  assert (∀ B (l : list B),
            foldl (λ acc _, zip_with fadd acc (self_deviation <$> sf_means))
                  (self_deviation <$> sf_means) l = self_deviation <$> sf_means) as ->.
  { intros B l. induction l as [|b l IH]; [done|].
    cbn [foldl]. by rewrite (proj2 (add_self_deviations sf_means)). }
  apply per_sample_self_deviations.
Qed.

Lemma accumulate_windows {A} (f : A → list nat → res A) (g : A → nat → A) (len : nat)
    (starts : list nat) (acc : A) :
  (∀ acc i, i ∈ starts → f acc (seq i len) = Ok (g acc i)) →
  Metrics.accumulate f acc ((λ i, seq i len) <$> starts) = Ok (foldl g acc starts).
Proof.
  revert acc. induction starts as [|i rest IH]; intros acc H; [done|].
  cbn [fmap list_fmap Metrics.accumulate foldl]. rewrite H by left. cbn [mbind res_bind].
  apply IH. intros acc' i' Hin. apply H. by right.
Qed.

Lemma radial_window_length (sfr : arr) (len i : nat) : length (radial_window sfr len i) = len.
Proof. apply nanmean_axis0_length. Qed.

Lemma sums_length {B} (d : B → list fl) (n : nat) (l : list B) (acc : list fl) :
  (∀ b, length (d b) = n) → length acc = n →
  length (foldl (λ acc b, zip_with fadd acc (d b)) acc l) = n.
Proof.
  intros Hd. revert acc. induction l as [|b l IH]; intros acc Hacc; [done|].
  cbn [foldl]. apply IH. rewrite length_zip_with, Hacc, Hd. lia.
Qed.

(** The windowed branch of the homogeneity diagnostic, written over the
    first columns of the windows. *)
Lemma homogeneity_inside (sfr : arr) (r_centers : list fl) (n_bins_r : nat) (window_size_r : Z) :
  length r_centers = n_bins_r →
  Forall (λ row, length row = n_bins_r) sfr →
  (1 <= window_size_r < Z.of_nat n_bins_r)%Z →
  let w := Z.to_nat window_size_r in
  let len := (n_bins_r - w + 1)%nat in
  let zeros := replicate len (Some 0%R) in
  let meanh := Metrics.per_sample w
                 <$> foldl (λ acc i, zip_with fadd acc (radial_window sfr len i)) zeros
                           (seq 0 w) in
  Metrics.error_homogeneity sfr r_centers n_bins_r window_size_r
  = Ok (take len r_centers,
        Metrics.per_sample w
          <$> foldl (λ acc i, zip_with fadd acc
                                (fabs <$> zip_with fsub (radial_window sfr len i) meanh))
                    zeros (seq 0 w),
        []).
Proof.
  intros Hr Hsfr Hws w len zeros meanh. unfold Metrics.error_homogeneity.
  rewrite decide_True by lia. rewrite sliding_window_inside by done.
  fold w. fold len. cbn [mbind res_bind].
  assert (0 < w)%nat as Hw by (unfold w; lia).
  rewrite list_lookup_fmap, lookup_seq_lt by done. cbn [fmap option_fmap option_map].
  change (0 + 0)%nat with 0%nat. cbn [mbind res_bind].
  rewrite take_items_seq by (unfold len; lia). cbn [mbind res_bind].
  change (drop 0 r_centers) with r_centers. rewrite length_fmap, length_seq.
  assert (length (take len r_centers) = len) as -> by (rewrite length_take; unfold len; lia).
  fold zeros.
  assert (∀ i, i ∈ seq 0 w →
            Metrics.take_columns sfr (seq i len) = Ok ((λ row, take len (drop i row)) <$> sfr))
    as Hcols.
  { intros i Hi. apply elem_of_seq in Hi.
    apply (take_columns_seq sfr n_bins_r); [done|]. unfold len. lia. }
  rewrite (accumulate_windows _ (λ acc i, zip_with fadd acc (radial_window sfr len i))).
  2:{ intros acc i Hi. rewrite (Hcols i Hi). cbn [mbind res_bind].
      by rewrite length_seq. }
  cbn [mbind res_bind]. fold meanh.
  rewrite (accumulate_windows _
             (λ acc i, zip_with fadd acc
                         (fabs <$> zip_with fsub (radial_window sfr len i) meanh))).
  2:{ intros acc i Hi. rewrite (Hcols i Hi). cbn [mbind res_bind].
      by rewrite length_seq. }
  done.
Qed.

(** X28: the window size of the homogeneity diagnostic is the number of
    windows, each spanning [n_bins_r - window_size_r + 1] radial bins;
    [r_subset] and the error have that many entries, not one per radial
    bin, and the error is NaN or non-negative.  A window size of
    [n_bins_r] or more gives a warning, all radial bins and zeros; a
    window size of zero or less makes [sliding_window_view] raise
    [ValueError].  The default window size never raises. *)
Theorem homogeneity_error_windows (sfr : arr) (r_centers : list fl) (n_bins_r : nat)
    (window_size_r : Z) :
  length r_centers = n_bins_r →
  Forall (λ row, length row = n_bins_r) sfr →
  ((window_size_r <= 0)%Z → (window_size_r < Z.of_nat n_bins_r)%Z →
     ∃ msg, Metrics.error_homogeneity sfr r_centers n_bins_r window_size_r
            = Raise (ValueError msg))
  ∧ ((Z.of_nat n_bins_r <= window_size_r)%Z →
       Metrics.error_homogeneity sfr r_centers n_bins_r window_size_r
       = Ok (r_centers, replicate n_bins_r (Some 0%R), [Metrics.RWindowTooLarge]))
  ∧ ((1 <= window_size_r < Z.of_nat n_bins_r)%Z →
       ∃ ehom,
         Metrics.error_homogeneity sfr r_centers n_bins_r window_size_r
         = Ok (take (n_bins_r - Z.to_nat window_size_r + 1) r_centers, ehom, [])
         ∧ length ehom = (n_bins_r - Z.to_nat window_size_r + 1)%nat
         ∧ Forall nan_or_nonneg ehom)
  ∧ ∃ r_subset ehom warnings,
      Metrics.error_homogeneity sfr r_centers n_bins_r (Metrics.default_window n_bins_r)
      = Ok (r_subset, ehom, warnings)
      ∧ length ehom = length r_subset.
Proof.
  intros Hr Hsfr.
  assert (∀ ws, (1 <= ws < Z.of_nat n_bins_r)%Z →
            ∃ ehom,
              Metrics.error_homogeneity sfr r_centers n_bins_r ws
              = Ok (take (n_bins_r - Z.to_nat ws + 1) r_centers, ehom, [])
              ∧ length ehom = (n_bins_r - Z.to_nat ws + 1)%nat
              ∧ Forall nan_or_nonneg ehom) as Hin.
  { intros ws Hws. rewrite (homogeneity_inside sfr r_centers n_bins_r ws Hr Hsfr Hws).
    cbv zeta. eexists. split; [reflexivity|].
    set (len := (n_bins_r - Z.to_nat ws + 1)%nat).
    set (meanh := Metrics.per_sample (Z.to_nat ws)
                    <$> foldl (λ acc i, zip_with fadd acc (radial_window sfr len i))
                              (replicate len (Some 0%R)) (seq 0 (Z.to_nat ws))).
    assert (length meanh = len) as Hm.
    { unfold meanh. rewrite length_fmap. apply sums_length; [|apply length_replicate].
      intros i. apply radial_window_length. }
    destruct (deviations_sum (radial_window sfr len) meanh len (seq 0 (Z.to_nat ws)) Hm
                (λ i _, radial_window_length sfr len i)
                (replicate len (Some 0%R)) (length_replicate _ _)
                (zeros_nan_or_nonneg _)) as [Hl Hn].
    split; [by rewrite length_fmap|]. by apply per_sample_all. }
  split; [|split; [|split]].
  - intros Hle Hlt. unfold Metrics.error_homogeneity. rewrite decide_True by done.
    rewrite sliding_window_outside by done. by eexists.
  - intros Hge. unfold Metrics.error_homogeneity. rewrite decide_False by lia.
    by rewrite nanmean_axis0_length.
  - apply Hin.
  - unfold Metrics.default_window.
    destruct (decide (Z.max (Z.of_nat n_bins_r / 3) 1 < Z.of_nat n_bins_r)%Z) as [Hlt|Hge].
    + destruct (Hin (Z.max (Z.of_nat n_bins_r / 3) 1) ltac:(lia)) as (ehom & He & Hl & _).
      eexists _, ehom, []. split; [exact He|].
      rewrite Hl, length_take. lia.
    + unfold Metrics.error_homogeneity. rewrite decide_False by done.
      eexists _, _, _. split; [reflexivity|].
      by rewrite length_replicate, nanmean_axis0_length.
Qed.

Lemma constant_sums {B} (len : nat) (mu s : R) (l : list B) :
  foldl (λ acc _, zip_with fadd acc (replicate len (Some mu))) (replicate len (Some s)) l
  = replicate len (Some (s + INR (length l) * mu)%R).
Proof.
  revert s. induction l as [|b l IH]; intros s.
  - cbn. do 2 f_equal. lra.
  - cbn [foldl]. rewrite zip_with_replicate. cbn [fadd lift2]. rewrite IH.
    do 2 f_equal. cbn [length]. rewrite S_INR. lra.
Qed.

Lemma foldl_windows_ext {A} (g h : A → nat → A) (l : list nat) (acc : A) :
  (∀ acc i, i ∈ l → g acc i = h acc i) → foldl g acc l = foldl h acc l.
Proof.
  revert acc. induction l as [|i l IH]; intros acc H; [done|].
  cbn [foldl]. rewrite H by left. apply IH. intros acc' i' Hin. apply H. by right.
Qed.

Lemma radial_window_constant (vs : list fl) (n_bins_r len i : nat) :
  (0 < len)%nat → (i + len <= n_bins_r)%nat →
  radial_window ((λ v, replicate n_bins_r v) <$> vs) len i = replicate len (nanmean [vs]).
Proof.
  intros Hlen Hi. unfold radial_window, Metrics.nanmean_axis0.
  rewrite <- list_fmap_compose.
  assert (∀ j, (j < len)%nat →
            (λ row : list fl, default NaN (row !! j))
              <$> ((λ row, take len (drop i row)) ∘ (λ v, replicate n_bins_r v) <$> vs) = vs)
    as Hcol.
  { intros j Hj. rewrite <- list_fmap_compose. rewrite <- (list_fmap_id vs) at 2.
    apply list_fmap_ext. intros _ v _. cbn.
    rewrite drop_replicate, take_replicate, lookup_replicate_2 by lia. done. }
  apply list_eq. intros j. rewrite list_lookup_fmap.
  destruct (decide (j < len)%nat) as [Hj|Hj].
  - rewrite lookup_seq_lt, lookup_replicate_2 by done. cbn [fmap option_fmap option_map].
    change (0 + j)%nat with j. by rewrite Hcol.
  - rewrite lookup_seq_ge by lia. symmetry. apply lookup_replicate_None. lia.
Qed.

(** X29: on a radially homogeneous table, where [sfr[t, r]] is the same
    for every radial bin [r] and not NaN for at least one angle, the
    error of homogeneity is zero in every entry. *)
Theorem homogeneous_table_no_error (vs r_centers : list fl) (n_bins_r : nat)
    (window_size_r : Z) :
  length r_centers = n_bins_r →
  (1 <= window_size_r < Z.of_nat n_bins_r)%Z →
  nanmean [vs] ≠ NaN →
  Metrics.error_homogeneity ((λ v, replicate n_bins_r v) <$> vs) r_centers n_bins_r
                            window_size_r
  = Ok (take (n_bins_r - Z.to_nat window_size_r + 1) r_centers,
        replicate (n_bins_r - Z.to_nat window_size_r + 1) (Some 0%R), []).
Proof.
  intros Hr Hws Hmu.
  rewrite homogeneity_inside; [|done| |done].
  2:{ apply Forall_fmap, Forall_forall. intros v _. apply length_replicate. }
  cbv zeta. set (w := Z.to_nat window_size_r). set (len := (n_bins_r - w + 1)%nat).
  destruct (nanmean [vs]) as [mu|] eqn:Emu; [|done].
  assert (0 < INR w)%R as Hw by (apply lt_0_INR; unfold w; lia).
  assert (∀ s, Metrics.per_sample w (Some (0 + INR w * s)%R) = Some s) as Hper.
  { intros s. unfold Metrics.per_sample, fdiv.
    rewrite Nat.max_r by (unfold w; lia). rewrite decide_False by lra.
    f_equal. field. lra. }
  assert (∀ i, i ∈ seq 0 w →
            radial_window ((λ v, replicate n_bins_r v) <$> vs) len i
            = replicate len (Some mu)) as Hwin.
  { intros i Hi. apply elem_of_seq in Hi. rewrite <- Emu.
    apply radial_window_constant; unfold len, w in *; lia. }
  rewrite (foldl_windows_ext
             (λ acc i, zip_with fadd acc
                         (radial_window ((λ v, replicate n_bins_r v) <$> vs) len i))
             (λ acc _, zip_with fadd acc (replicate len (Some mu)))
             (seq 0 w) (replicate len (Some 0%R))).
  2:{ intros acc i Hi. by rewrite Hwin. }
  rewrite constant_sums, length_seq, fmap_replicate, Hper.
  rewrite (foldl_windows_ext _ (λ acc _, zip_with fadd acc (replicate len (Some 0%R)))
             (seq 0 w) (replicate len (Some 0%R))).
  2:{ intros acc i Hi. rewrite Hwin by done. rewrite zip_with_replicate, fmap_replicate.
      do 3 f_equal. cbn. f_equal. replace (mu - mu)%R with 0%R by lra. apply Rabs_R0. }
  by rewrite constant_sums, length_seq, fmap_replicate, Hper.
Qed.

(* ------------------------------------------------------------------ *)
(** * The further properties at concrete inputs *)

Lemma unit_dataset_missing (fn : string) :
  calculate_structure_function_2d no_reorder no_isel unit_dataset ("y", "x") ["t"]
    (OrderInt 2) fn 0 0 SpNone 0 None None
  = Raise (ValueError "Variable not found in dataset").
Proof.
  unfold calculate_structure_function_2d, bootstrap_subset. cbn [find].
  unfold unit_dataset at 1. cbn [data_vars].
  by rewrite bool_decide_eq_true_2 by (by apply lookup_singleton_ne).
Qed.

Lemma one_bin_sorted : StronglySorted Rlt one_bin.
Proof.
  unfold one_bin. repeat constructor. lra.
Qed.

Lemma wrong_arity_raises_witness :
  ∃ msg, Kernels.calc_scalar_2d unit_dataset [] (OrderInt 2) ("y", "x") 1 1
         = Raise (ValueError msg).
Proof.
  refine (wrong_arity_raises no_reorder "scalar" Kernels.calc_scalar_2d unit_dataset []
            (OrderInt 2) ("y", "x") 1 1 eq_refl _).
  intros H. discriminate H.
Defined.

Lemma single_order_rejected_witness :
  Kernels.calc_scalar_scalar_2d unit_dataset ["s"; "s"] (OrderInt 2) ("y", "x") 1 1
  = Raise (ValueError "Order must be a tuple (n, k)").
Proof.
  refine (single_order_rejected no_reorder "scalar_scalar" Kernels.calc_scalar_scalar_2d
            unit_dataset ["s"; "s"] 2 ("y", "x") 1 1 _ eq_refl eq_refl).
  unfold mixed_order. left.
Defined.

Lemma kernel_output_lengths_witness :
  length [nanmean (apow (Kernels.diff [[Some 1%R]] 0 0) 2)] = (1 * 1)%nat
  ∧ length [nanmean (Kernels.diff [[Some 0%R]] 0 0)] = (1 * 1)%nat
  ∧ length [nanmean (Kernels.diff [[Some 0%R]] 0 0)] = (1 * 1)%nat.
Proof.
  exact (kernel_output_lengths no_reorder "scalar" Kernels.calc_scalar_2d unit_dataset ["s"]
           (OrderInt 2) ("y", "x") 1 1 _ _ _ eq_refl (unit_dataset_scalar 2)).
Defined.

Lemma even_order_nonnegative_witness :
  Forall nan_or_nonneg [nanmean (apow (Kernels.diff [[Some 1%R]] 0 0) 2)].
Proof.
  refine (even_order_nonnegative no_reorder "scalar" Kernels.calc_scalar_2d unit_dataset ["s"]
            2 ("y", "x") 1 1 _ _ _ _ eq_refl eq_refl (unit_dataset_scalar 2)).
  unfold single_power. do 3 right. left.
Defined.

Lemma missing_variable_raises_witness :
  calculate_structure_function_2d no_reorder no_isel unit_dataset ("y", "x") ["s"; "t"]
    (OrderInt 2) "scalar" 0 0 SpNone 0 None None
  = Raise (ValueError "Variable not found in dataset").
Proof.
  refine (missing_variable_raises no_reorder no_isel unit_dataset ("y", "x") ["s"; "t"]
            (OrderInt 2) "scalar" 0 0 SpNone 0 None None "t" _ _ _).
  - right. left.
  - unfold bootstrap_subset, unit_dataset. cbn [data_vars].
    by apply lookup_singleton_ne.
  - unfold bootstrap_subset, unit_dataset. cbn [coords].
    rewrite lookup_insert_ne by done. by apply lookup_singleton_ne.
Defined.

Lemma unsupported_function_raises_witness :
  calculate_structure_function_2d no_reorder no_isel unit_dataset ("y", "x") ["s"]
    (OrderInt 2) "vorticity" 0 0 SpNone 0 None None
  = Raise (ValueError "Unsupported function type").
Proof.
  refine (unsupported_function_raises no_reorder no_isel unit_dataset ("y", "x") ["s"]
            (OrderInt 2) "vorticity" 0 0 SpNone 0 None None _ _ _).
  - unfold supported. intros H.
    repeat (apply elem_of_cons in H as [H|H]; [discriminate H|]).
    by apply elem_of_nil in H.
  - discriminate.
  - intros v Hv. apply list_elem_of_singleton in Hv as ->.
    unfold bootstrap_subset, unit_dataset. cbn [data_vars].
    rewrite lookup_singleton_eq. by eexists.
Defined.

Lemma no_index_no_subsetting_witness :
  bootstrap_subset no_isel unit_dataset ("y", "x") 3 4 (SpInt 1) 2 (Some ["x"; "y"]) None
  = unit_dataset
  ∧ calculate_structure_function_2d no_reorder no_isel unit_dataset ("y", "x") ["s"]
      (OrderInt 2) "scalar" 3 4 (SpInt 1) 2 (Some ["x"; "y"]) None
    = calculate_structure_function_2d no_reorder no_isel unit_dataset ("y", "x") ["s"]
        (OrderInt 2) "scalar" 0 0 SpNone 0 None None.
Proof.
  apply (no_index_no_subsetting no_reorder no_isel unit_dataset ("y", "x") ["s"]
           (OrderInt 2) "scalar" 3 4 (SpInt 1) 2 (Some ["x"; "y"]) None).
  do 3 right. left. reflexivity.
Defined.

Lemma map_to_components_names_witness :
  ∃ out, Kernels.map_to_components ["v"; "u"] ["u"; "v"] = Ok out
         ∧ length ["v"; "u"] = length ["u"; "v"]
         ∧ length out = length ["v"; "u"]
         ∧ ∀ v, v ∈ out → v ∈ ["v"; "u"].
Proof.
  eexists. split; [reflexivity|].
  exact (map_to_components_names ["v"; "u"] ["u"; "v"] _ eq_refl).
Defined.

Lemma bin_index_contains_witness : bin_index 5 one_bin = Z.of_nat 0.
Proof.
  apply (bin_index_contains 5 one_bin 0 0 10 one_bin_sorted eq_refl eq_refl). lra.
Defined.


Lemma density_and_step_bounds_witness :
  Forall (λ d, 0 <= d <= 1)%R (calculate_bin_density [15%Z] (Grid.bin_areas one_bin one_bin))
  ∧ Forall (λ s, 2 <= s <= 3 * 2)%Z
           (calculate_bootstrap_steps 2
              (calculate_bin_density [15%Z] (Grid.bin_areas one_bin one_bin))).
Proof.
  assert (Forall (λ c, 0 <= c)%Z [15%Z]) as Hc by (repeat constructor; lia).
  pose proof (density_and_step_bounds [15%Z] (Grid.bin_areas one_bin one_bin) 2 Hc) as [Hd Hs].
  split; [exact Hd|]. apply Hs. lia.
Defined.

Lemma axis_aligned_batch_ignored_witness :
  let st := Grid.initial_state one_bin one_bin [1%Z] 5 in
  ∃ st' added',
    Grid.process_batch one_bin one_bin true 1 (st, [0%Z])
                       ([Some 3%R], [Some 0%R], [Some 4%R]) = Ok (st', added')
    ∧ sf_totals st' = sf_totals st
    ∧ sf_sq_totals st' = sf_sq_totals st
    ∧ weight_totals st' = weight_totals st.
Proof.
  intros st.
  assert (∀ p, p ∈ valid_points [Some 3%R] [Some 0%R] [Some 4%R] → (p.1.2 * p.2)%R = 0%R)
    as Hz.
  { intros p Hp. cbn in Hp. apply list_elem_of_singleton in Hp as ->. cbn. lra. }
  destruct (axis_aligned_batch_ignored one_bin one_bin true 1 st [0%Z]
              [Some 3%R] [Some 0%R] [Some 4%R] Hz) as [Hrun Hkeep].
  destruct (Hrun one_bin_monotone one_bin_monotone) as (st' & added' & E).
  exists st', added'. split; [exact E|]. exact (Hkeep st' added' E).
Defined.

Lemma initial_flags_witness :
  ∃ st0 c d,
    Grid.initial_phase (alternating_sampler 1) one_bin one_bin [1%Z] 5 (1 / 10) (World () [])
    = Ok (st0, World () [])
    ∧ bin_status st0 !! 0%nat = Some true
    ∧ point_counts st0 !! 0%nat = Some c ∧ sf_stds st0 !! 0%nat = Some d
    ∧ true = bool_decide (c <= 10)%Z || isnan d || fle d (Some (1 / 10)%R).
Proof.
  destruct (low_count_initial (World () [])) as (st0 & Hrun & Hst0 & _).
  assert (bin_status st0 !! 0%nat = Some true) as Hflag.
  { destruct Hst0 as (_ & _ & _ & _ & _ & Hs). by rewrite Hs. }
  destruct (initial_flags (alternating_sampler 1) one_bin one_bin (λ _ _, 0%R) one_bin 1
              [1%Z] 5 (1 / 10) (World () []) st0 (World () []) (or_introl Hrun)
              0%nat true Hflag) as (c & d & Hc & Hd & Heq).
  exists st0, c, d. done.
Defined.

Lemma converged_or_exhausted_witness : true = true ∨ (6 <= 8)%Z.
Proof.
  exact (proj1 (converged_or_exhausted (alternating_sampler 3) one_bin one_bin (λ _ _, 0%R) 2
                  one_bin 1 [1%Z] 5 6 1 (1 / 10))
               1%nat _ _ _ _ _ _ _ _ one_spacing_run 0%nat true 8%Z eq_refl eq_refl).
Defined.

Lemma refinement_not_counted_witness :
  ∃ st0 w0 st,
    Grid.initial_phase (alternating_sampler 3) one_bin one_bin [1%Z] 5 (1 / 10) (World () [])
    = Ok (st0, w0)
    ∧ refinement_loop (Grid.process_spacing_data (alternating_sampler 3) one_bin one_bin)
        [1%Z] 6 (1 / 10) (Grid.bin_density_of one_bin one_bin st0)
        (calculate_bootstrap_steps 1 (Grid.bin_density_of one_bin one_bin st0))
        1 st0 w0 = Ok (st, World () [])
    ∧ [15%Z] = point_counts st0
    ∧ [1%R] = Grid.bin_density_of one_bin one_bin st0
    ∧ bin_spacing_effectiveness st = bin_spacing_effectiveness st0.
Proof.
  exact (proj1 (refinement_not_counted (alternating_sampler 3) one_bin one_bin (λ _ _, 0%R) 2
                  one_bin 1 [1%Z] 5 6 1 (1 / 10))
               1%nat _ _ _ _ _ _ _ _ one_spacing_run).
Defined.

Lemma bin_once_counts_witness :
  ∃ sf sf_std counts,
    Grid.bin_once one_bin one_bin [Some 3%R; NaN] [Some 1%R; Some 1%R] [Some 1%R; Some 1%R]
    = Ok (BinnedOnce sf sf_std counts)
    ∧ length sf = Grid.n_bins one_bin one_bin
    ∧ length sf_std = Grid.n_bins one_bin one_bin
    ∧ length counts = Grid.n_bins one_bin one_bin
    ∧ foldr Z.add 0%Z counts
      = Z.of_nat (length (valid_points [Some 3%R; NaN] [Some 1%R; Some 1%R]
                            [Some 1%R; Some 1%R])).
Proof.
  assert (∃ sf sf_std counts,
            Grid.bin_once one_bin one_bin [Some 3%R; NaN] [Some 1%R; Some 1%R]
                          [Some 1%R; Some 1%R] = Ok (BinnedOnce sf sf_std counts))
    as (sf & sf_std & counts & Hrun).
  { unfold Grid.bin_once. cbv zeta. rewrite (check_monotonic_Ok _ one_bin_monotone).
    cbn [mbind res_bind]. by eexists _, _, _. }
  exists sf, sf_std, counts. split; [exact Hrun|].
  apply (bin_once_counts one_bin one_bin [Some 3%R; NaN] [Some 1%R; Some 1%R]
           [Some 1%R; Some 1%R]); [simpl; lia|simpl; lia|exact Hrun].
Defined.

Lemma weighted_mean_between_witness :
  ∃ m, weighted_mean [(3%R, 1%R); (5%R, 2%R)].*1 [(3%R, 1%R); (5%R, 2%R)].*2 = Some m
       ∧ (3 <= m <= 5)%R.
Proof.
  assert (∃ m, weighted_mean [(3%R, 1%R); (5%R, 2%R)].*1 [(3%R, 1%R); (5%R, 2%R)].*2 = Some m)
    as [m Hm].
  { unfold weighted_mean. cbn [fmap list_fmap fst snd].
    rewrite decide_True by (unfold Rsum; cbn; lra). by eexists. }
  exists m. split; [exact Hm|].
  apply (weighted_mean_between 3 5 [(3%R, 1%R); (5%R, 2%R)] m); [|exact Hm].
  repeat constructor; cbn; lra.
Defined.

Lemma once_std_defined_witness :
  ∃ out mean std,
    Iso.isotropic_once (λ _ _, 0%R) 2 one_bin 1 [Some 3%R] [Some 1%R] [Some 0%R] = Ok out
    ∧ iso_sf out !! 0%nat = Some mean ∧ iso_std out !! 0%nat = Some std
    ∧ isnan std = isnan mean ∧ nan_or_nonneg std.
Proof.
  destruct (isotropic_once_sample 2 3 1 0) as (out & Hrun & Hsf & Hstd & _).
  eexists out, _, _.
  split; [exact Hrun|]. split; [exact Hsf|]. split; [exact Hstd|].
  exact (once_std_defined (λ _ _, 0%R) 2 one_bin 1 [Some 3%R] [Some 1%R] [Some 0%R] _ Hrun
           0%nat _ _ Hsf Hstd).
Defined.


Lemma bins_are_validated_witness :
  bin_sf_2d no_reorder no_isel unit_seed zero_choice no_boot_indexes plain_validate
    plain_bootsize unit plain_spacings plain_indexes 1 unit_dataset ["s"] (OrderInt 2)
    {[ "x" := one_bin ]} None "scalar" 5 6 1 (1 / 10) (World () [])
  = Raise (ValueError "'bins' must be a dictionary with all dimensions as keys").
Proof.
  refine (proj1 (bins_are_validated no_reorder no_isel unit_seed zero_choice no_boot_indexes
                   (λ _ _, 0%R) 2 plain_validate plain_bootsize unit plain_spacings
                   plain_indexes 1 unit_dataset unit_dataset ["s"] (OrderInt 2) None "scalar"
                   5 6 1 1 (1 / 10) (World () []) ("y", "x") ∅ ∅ [] 0%nat () [1%Z] ∅
                   eq_refl eq_refl eq_refl eq_refl)
                {[ "x" := one_bin ]} _).
  left. cbn [fst]. by apply lookup_singleton_ne.
Defined.

Lemma fallback_propagates_errors_witness :
  monte_carlo_simulation_2d no_reorder no_isel unit_seed zero_choice no_boot_indexes
    unit_dataset ("y", "x") ["t"] (OrderInt 2) 7 ∅ 0 [1%Z] ∅ [] "scalar" (SpInt 1)
    (World () [])
  = Raise (ValueError "Variable not found in dataset").
Proof.
  exact (fallback_propagates_errors no_reorder no_isel unit_seed zero_choice no_boot_indexes
           unit_dataset ("y", "x") ["t"] (OrderInt 2) 7 ∅ [1%Z] ∅ [] "scalar" (SpInt 1)
           0 (World () []) NoBootstrappableDims _ eq_refl (unit_dataset_missing "scalar")).
Defined.

Lemma polar_running_mean_witness :
  let st := Iso.initial_state one_bin 1 [1%Z] 5 in
  let updates := [(0, 0, 3%R); (0, 0, 5%R)]%nat in
  Iso.sfr_count_at (update_polar_all updates st) 0 0
  = Z.of_nat (length (written_to 0 0 updates))
  ∧ Iso.sfr_at (update_polar_all updates st) 0 0
    = (if decide (length (written_to 0 0 updates) = 0)%nat then NaN
       else Some (Rsum (written_to 0 0 updates) / INR (length (written_to 0 0 updates)))%R).
Proof.
  intros st updates.
  apply (polar_running_mean 1 1 0 0 updates st).
  - repeat split; repeat constructor.
  - lia.
  - lia.
  - reflexivity.
  - reflexivity.
Defined.

Lemma centers_within_bins_witness :
  ∃ c, Centers.centers false one_bin !! 0%nat = Some (Some c) ∧ (0 <= c <= 10)%R.
Proof.
  apply (proj2 (centers_within_bins false one_bin) 0%nat 0%R 10%R eq_refl eq_refl).
  - lra.
  - intros H. discriminate H.
Defined.


Lemma isotropy_error_windows_witness :
  Metrics.sliding_window_view 3 (Z.of_nat 3 - 2 + 1)
  = Ok ((λ i, seq i (3 - Z.to_nat 2 + 1)) <$> seq 0 (Z.to_nat 2))
  ∧ ∃ eiso,
      Metrics.error_isotropy [[Some 1%R]; [Some 2%R]; [NaN]] [Some 1%R] 3 1 2 = Ok (eiso, [])
      ∧ length eiso = 1%nat ∧ Forall nan_or_nonneg eiso.
Proof.
  apply (proj1 (proj2 (proj2 (isotropy_error_windows [[Some 1%R]; [Some 2%R]; [NaN]]
                                [Some 1%R] 3 1 2 eq_refl eq_refl)))).
  lia.
Defined.

Lemma isotropic_table_no_error_witness :
  Metrics.error_isotropy (replicate 3 [Some 4%R; NaN]) [Some 4%R; NaN] 3 2 1
  = Ok ((λ m, if isnan m then NaN else Some 0%R) <$> [Some 4%R; NaN], []).
Proof.
  apply (isotropic_table_no_error [Some 4%R; NaN] 3 2 1 eq_refl). lia.
Defined.

Lemma homogeneity_error_windows_witness :
  ∃ ehom,
    Metrics.error_homogeneity [[Some 1%R; Some 2%R; NaN]] [Some 1%R; Some 3%R; Some 5%R] 3 2
    = Ok (take (3 - Z.to_nat 2 + 1) [Some 1%R; Some 3%R; Some 5%R], ehom, [])
    ∧ length ehom = (3 - Z.to_nat 2 + 1)%nat
    ∧ Forall nan_or_nonneg ehom.
Proof.
  apply (proj1 (proj2 (proj2 (homogeneity_error_windows [[Some 1%R; Some 2%R; NaN]]
                                [Some 1%R; Some 3%R; Some 5%R] 3 2 eq_refl
                                ltac:(repeat constructor))))).
  lia.
Defined.

Lemma homogeneous_table_no_error_witness :
  Metrics.error_homogeneity ((λ v, replicate 3 v) <$> [Some 4%R; NaN])
    [Some 1%R; Some 3%R; Some 5%R] 3 2
  = Ok (take (3 - Z.to_nat 2 + 1) [Some 1%R; Some 3%R; Some 5%R],
        replicate (3 - Z.to_nat 2 + 1) (Some 0%R), []).
Proof.
  apply (homogeneous_table_no_error [Some 4%R; NaN] [Some 1%R; Some 3%R; Some 5%R] 3 2 eq_refl).
  - lia.
  - intros H. discriminate H.
Defined.
